(** * Firebot Goal Tracker: the donation engine of [goal-manager.ts]

    A shallow embedding of the [GoalManager] class of
    [src/utility/goal-manager.ts]: currency arithmetic, the local donation
    ledger, change detection and synchronisation of external data, the
    Extra Life and StreamElements normalisers, and the periodic goal reset.

    Conventions of the embedding.
    - A JavaScript [number] is a member of a type [num] carrying the
      operations of the class [JsNumber].  Two instances are given: IEEE-754
      binary64 (Rocq's primitive floats), which is what the program runs on,
      and exact rational arithmetic, an idealisation used for comparison.
      Statements that mention no instance hold for both; the laws of
      [safeAdd] are proved on binary64, from the specification of the
      primitive operations.
    - Donation counts and millisecond instants are integers ([Z]).
    - What the JavaScript host provides (string lowercasing, [Date] parsing
      and printing) is the class [JsHost].
    - The [JsonDB] store is passed explicitly; a thrown [Error] is the [Err]
      result carrying the message's tag. *)

From Stdlib Require Import String Ascii DecimalString.
From Stdlib Require Import ZArith QArith Qcanon Qround Qabs.
From Stdlib Require Import List Bool Lia Floats.
From Stdlib Require Import Sorting.Permutation.
From Stdlib Require Reals Lra.
Import ListNotations.

Set Warnings "-inexact-float,-register-all".
Set Implicit Arguments.

(** ** JavaScript numbers *)

(** The operations the program applies to a [number]. *)
Class JsNumber (num : Type) : Type := {
  (** an integer literal of the source, such as [0], [100], [5000] *)
  num_lit : Z -> num;
  num_add : num -> num -> num;
  num_sub : num -> num -> num;
  num_mul : num -> num -> num;
  num_div : num -> num -> num;
  (** [a === b] *)
  num_eq : num -> num -> bool;
  (** [a <= b] *)
  num_le : num -> num -> bool;
  (** [a > b] *)
  num_gt : num -> num -> bool;
  (** [parseFloat(x.toFixed(2))] *)
  parseFloat_toFixed2 : num -> num
}.

Declare Scope num_scope.
Delimit Scope num_scope with num.
Infix "+" := num_add : num_scope.
Infix "-" := num_sub : num_scope.
Infix "*" := num_mul : num_scope.
Infix "/" := num_div : num_scope.
Infix "===" := num_eq (at level 70, no associativity) : num_scope.

(** *** Instance: IEEE-754 binary64 *)

Module Binary64.

(** [x.toFixed(2)] picks the integer [n] for which [n / 100 - x] is closest
    to zero, the larger one on a tie, working on the magnitude of [x]
    (ECMA-262, Number.prototype.toFixed).  For a finite [x] of magnitude
    [m * 2^e] that integer is computed exactly here. *)
Definition toFixed2_digits (m : positive) (e : Z) : Z :=
  if (0 <=? e)%Z then 100 * Z.pos m * 2 ^ e
  else (200 * Z.pos m + 2 ^ (- e)) / 2 ^ (1 - e).

(** [parseFloat] of the printed digits is the double nearest to [n / 100],
    which is what the correctly rounded division of the (exactly
    represented) integer [n] by [100] returns.  From [2^46] on, doubles lie
    further apart than [0.01] and the nearest double to the printed decimal
    is [x] itself; not-a-number and the infinities print and parse as
    themselves, and both zeros print as ["0.00"]. *)
Definition parseFloat_toFixed2 (x : float) : float :=
  match Prim2SF x with
  | S754_zero _ => 0%float
  | S754_finite s m e =>
      if (PrimFloat.abs x <? 0x1p46)%float then
        let q := (PrimFloat.of_uint63 (Uint63.of_Z (toFixed2_digits m e)) / 100)%float in
        if s then (- q)%float else q
      else x
  | _ => x
  end.

#[global] Instance number : JsNumber float := {
  num_lit z := match z with
           | Z.neg p => (- PrimFloat.of_uint63 (Uint63.of_Z (Z.pos p)))%float
           | _ => PrimFloat.of_uint63 (Uint63.of_Z z)
           end;
  num_add := PrimFloat.add;
  num_sub := PrimFloat.sub;
  num_mul := PrimFloat.mul;
  num_div := PrimFloat.div;
  num_eq := PrimFloat.eqb;
  num_le := PrimFloat.leb;
  num_gt x y := PrimFloat.ltb y x;
  parseFloat_toFixed2 := parseFloat_toFixed2
}.

End Binary64.

(** *** Instance: exact rational arithmetic *)

Module Exact.

(** The same digits for a rational: the magnitude times 100, rounded to the
    nearest integer, halves upwards. *)
Definition toFixed2_digits (x : Qc) : Z :=
  Qfloor (Qabs x * 100 + (1 # 2)).

Definition parseFloat_toFixed2 (x : Qc) : Qc :=
  let q := Q2Qc (inject_Z (toFixed2_digits x) / 100) in
  if Qle_bool 0 x then q else Qcopp q.

#[global] Instance number : JsNumber Qc := {
  num_lit z := Q2Qc (inject_Z z);
  num_add := Qcplus;
  num_sub := Qcminus;
  num_mul := Qcmult;
  num_div := Qcdiv;
  num_eq := Qc_eq_bool;
  num_le x y := Qle_bool x y;
  num_gt x y := negb (Qle_bool x y);
  parseFloat_toFixed2 := parseFloat_toFixed2
}.

(** A rational amount of cents. *)
Definition cents (k : Z) : Qc := Q2Qc (k # 100).

End Exact.

(** ** Currency arithmetic *)

Section Currency.
Context {num : Type} `{JsNumber num}.
Local Open Scope num_scope.

(** [roundToTwoDecimals(value)] *)
Definition roundToTwoDecimals (value : num) : num :=
  parseFloat_toFixed2 value.

(** [safeAdd(a, b)] *)
Definition safeAdd (a b : num) : num :=
  roundToTwoDecimals ((a * num_lit 100 + b * num_lit 100) / num_lit 100).


(** The amount of [k] cents, [k / 100]: on binary64 the double nearest to
    the decimal, as [parseFloat] reads it. *)
Definition amountOfCents (k : Z) : num := num_lit k / num_lit 100.

(** A JavaScript number is falsy when it is zero or not-a-number. *)
Definition truthy (x : num) : bool :=
  (x === x) && negb (x === num_lit 0).

(** [x || d] on numbers *)
Definition or_else (x d : num) : num := if truthy x then x else d.

End Currency.

(** ** The values of binary64 numbers *)

Module Rounding.
Import Reals.
Local Open Scope R_scope.

(** [2^e] for an integer exponent. *)
Definition pow2 (e : Z) : R := powerRZ 2 e.

(** The real number a finite positive float of mantissa [m] and exponent
    [e] stands for. *)
Definition F2R (m : positive) (e : Z) : R := IZR (Zpos m) * pow2 e.

(** [f] is a positive normal double of value [x]. *)
Definition Represents (f : float) (x : R) : Prop :=
  exists m e,
    Prim2SF f = S754_finite false m e
    /\ digits2_pos m = 53%positive
    /\ x = F2R m e.

(** [t] is the value of a positive normal double. *)
Definition Representable (t : R) : Prop :=
  exists m e, digits2_pos m = 53%positive /\ t = F2R m e.

(** What a shift record knows of the number [w] it truncates. *)
Definition Located (mrs : shr_record) (w : R) : Prop :=
  (0 <= shr_m mrs)%Z
  /\ match shr_r mrs, shr_s mrs with
     | false, false => w = IZR (shr_m mrs)
     | false, true => IZR (shr_m mrs) <= w <= IZR (shr_m mrs) + / 2
     | true, false => w = IZR (shr_m mrs) + / 2
     | true, true => IZR (shr_m mrs) + / 2 <= w <= IZR (shr_m mrs) + 1
     end.

End Rounding.

(** The largest number of cents the laws of [safeAdd] are stated for: a
    hundred thousand million currency units. *)
Definition maxCents : Z := 10000000000000.

(** The cents a positive double rounds to. *)
Definition centsOfAmount (x : float) : Z :=
  match Prim2SF x with
  | S754_finite false m e => Binary64.toFixed2_digits m e
  | _ => 0%Z
  end.

(** The sum of amounts given in cents. *)
Definition sumOfCents (cents : list Z) : Z := fold_right Z.add 0%Z cents.

(** ** The JavaScript host *)

(** What the program asks of the runtime's [String] and [Date]. *)
Class JsHost : Type := {
  (** [s.toLowerCase()] *)
  toLowerCase : string -> string;
  (** [new Date(s).getTime()], with [None] for the not-a-number of an
      invalid date *)
  getTime : string -> option Z;
  (** [new Date(t).toISOString()] *)
  toISOString : Z -> string;
  (** what local time is ahead of UTC, in milliseconds (taken as constant) *)
  zoneOffset : Z;
  (** the empty string is no date *)
  getTime_empty : getTime EmptyString = None
}.

(** *** The civil calendar *)

Module Calendar.
Local Open Scope Z_scope.

Definition msPerDay : Z := 86400000.

(** Days since 1970-01-01 of an instant, on a clock [zone] ms ahead of UTC. *)
Definition dayNumber (zone t : Z) : Z := (t + zone) / msPerDay.

(** Year, month (0 to 11) and day of the month (1 to 31) of a day number,
    in the proleptic Gregorian calendar. *)
Definition civil (days : Z) : Z * Z * Z :=
  let z := days + 719468 in
  let era := z / 146097 in
  let doe := z - era * 146097 in
  let yoe := (doe - doe / 1460 + doe / 36524 - doe / 146096) / 365 in
  let doy := doe - (365 * yoe + yoe / 4 - yoe / 100) in
  let mp := (5 * doy + 2) / 153 in
  let d := doy - (153 * mp + 2) / 5 + 1 in
  let m := if mp <? 10 then mp + 3 else mp - 9 in
  let y := yoe + era * 400 + (if m <=? 2 then 1 else 0) in
  (y, m - 1, d).

(** The day number of year [y], month [m] (0 to 11), day [d]. *)
Definition daysFromCivil (y m d : Z) : Z :=
  let m := m + 1 in
  let y := if m <=? 2 then y - 1 else y in
  let era := y / 400 in
  let yoe := y - era * 400 in
  let doy := (153 * (if 2 <? m then m - 3 else m + 9) + 2) / 5 + d - 1 in
  let doe := yoe * 365 + yoe / 4 - yoe / 100 + doy in
  era * 146097 + doe - 719468.

(** [date.getDay()]: 0 is Sunday; 1970-01-01 was a Thursday. *)
Definition getDay (zone t : Z) : Z := (dayNumber zone t + 4) mod 7.

(** [date.getFullYear()] *)
Definition getFullYear (zone t : Z) : Z := fst (fst (civil (dayNumber zone t))).

(** [date.getMonth()] *)
Definition getMonth (zone t : Z) : Z := snd (fst (civil (dayNumber zone t))).

(** [date.getDate()] *)
Definition getDate (zone t : Z) : Z := snd (civil (dayNumber zone t)).

(** The instant of local midnight that starts day [n]. *)
Definition startOfDay (zone n : Z) : Z := n * msPerDay - zone.

End Calendar.

(** *** A host to run the model on

    Dates are printed as [toISOString] prints them for the years 0 to 9999;
    that form is read back, with or without its milliseconds, and nothing
    else is; letters are lowered in the ASCII range; the clock is UTC. *)

Module IsoHost.
Local Open Scope Z_scope.

Definition digit (n : Z) : ascii := ascii_of_nat (48 + Z.to_nat (n mod 10)).

Definition pad2 (n : Z) (rest : string) : string :=
  String (digit (n / 10)) (String (digit n) rest).

Definition pad3 (n : Z) (rest : string) : string :=
  String (digit (n / 100)) (pad2 n rest).

Definition pad4 (n : Z) (rest : string) : string :=
  String (digit (n / 1000)) (pad3 n rest).

Definition toISOString (t : Z) : string :=
  let '(y, m, d) := Calendar.civil (t / Calendar.msPerDay) in
  let ms := t mod Calendar.msPerDay in
  (pad4 y "-" ++ pad2 (m + 1) "-" ++ pad2 d "T"
   ++ pad2 (ms / 3600000) ":" ++ pad2 (ms / 60000 mod 60) ":"
   ++ pad2 (ms / 1000 mod 60) "." ++ pad3 (ms mod 1000) "Z")%string.

Definition digitValue (c : ascii) : Z := Z.of_nat (nat_of_ascii c) - 48.

(** The number written by the [len] characters of [s] from position [from]. *)
Definition field (s : string) (from len : nat) : Z :=
  fold_left (fun acc c => 10 * acc + digitValue c)
            (list_ascii_of_string (substring from len s)) 0.

(** The same without the milliseconds, a form [Date] reads as well. *)
Definition toISOSeconds (t : Z) : string :=
  let '(y, m, d) := Calendar.civil (t / Calendar.msPerDay) in
  let ms := t mod Calendar.msPerDay in
  (pad4 y "-" ++ pad2 (m + 1) "-" ++ pad2 d "T"
   ++ pad2 (ms / 3600000) ":" ++ pad2 (ms / 60000 mod 60) ":"
   ++ pad2 (ms / 1000 mod 60) "Z")%string.

(** Reads the fields of the fixed form and accepts the string when printing
    the instant, with or without milliseconds, gives it back. *)
Definition getTime (s : string) : option Z :=
  let seconds :=
    Calendar.daysFromCivil (field s 0 4) (field s 5 2 - 1) (field s 8 2)
      * Calendar.msPerDay
    + field s 11 2 * 3600000 + field s 14 2 * 60000 + field s 17 2 * 1000 in
  let t := seconds + field s 20 3 in
  if String.eqb (toISOString t) s then Some t
  else if String.eqb (toISOSeconds seconds) s then Some seconds
  else None.

Definition lowerAscii (c : ascii) : ascii :=
  let n := nat_of_ascii c in
  if ((65 <=? n) && (n <=? 90))%nat then ascii_of_nat (n + 32) else c.

Fixpoint toLowerCase (s : string) : string :=
  match s with
  | EmptyString => EmptyString
  | String c rest => String (lowerAscii c) (toLowerCase rest)
  end.

#[global] Instance host : JsHost := {
  toLowerCase := toLowerCase;
  getTime := getTime;
  toISOString := toISOString;
  zoneOffset := 0;
  getTime_empty := eq_refl
}.

End IsoHost.

(** ** JavaScript values and [isEqual] *)

Section Json.
Context {num : Type} `{JsNumber num} `{JsHost}.
Local Open Scope num_scope.

(** The values [isEqual] is applied to: what a JSON document holds, and
    [undefined] for what a missing property reads as.  The fields of an
    object are listed in insertion order. *)
Inductive jsval : Type :=
| JUndefined
| JNull
| JBool (b : bool)
| JNum (n : num)
| JStr (s : string)
| JArr (items : list jsval)
| JObj (fields : list (string * jsval)).

(** [a === b].  An array or object is strictly equal to itself only; the two
    sides compared by [isEqual] are the stored document and a freshly built
    payload, which are distinct objects. *)
Definition strictEquals (a b : jsval) : bool :=
  match a, b with
  | JUndefined, JUndefined => true
  | JNull, JNull => true
  | JBool x, JBool y => Bool.eqb x y
  | JNum x, JNum y => x === y
  | JStr x, JStr y => String.eqb x y
  | _, _ => false
  end.

(** [!v] is false *)
Definition isTruthy (v : jsval) : bool :=
  match v with
  | JUndefined | JNull => false
  | JBool b => b
  | JNum n => truthy n
  | JStr s => negb (String.eqb s EmptyString)
  | JArr _ | JObj _ => true
  end.

(** The property name of an array index. *)
Definition indexKey (i : nat) : string :=
  NilEmpty.string_of_uint (Nat.to_uint i).

Fixpoint indexed (i : nat) (items : list jsval) : list (string * jsval) :=
  match items with
  | [] => []
  | v :: rest => (indexKey i, v) :: indexed (S i) rest
  end.

(** The own enumerable properties of a value: [Object.keys(v)] with the
    value each key reads. *)
Definition entries (v : jsval) : list (string * jsval) :=
  match v with
  | JArr items => indexed 0 items
  | JObj fields => fields
  | _ => []
  end.

Fixpoint lookup (key : string) (fields : list (string * jsval)) : jsval :=
  match fields with
  | [] => JUndefined
  | (k, v) :: rest => if String.eqb k key then v else lookup key rest
  end.

(** [obj[key]] *)
Definition getProperty (obj : jsval) (key : string) : jsval :=
  lookup key (entries obj).

(** [typeof v === 'object'], for a truthy [v] *)
Definition isObjectType (v : jsval) : bool :=
  match v with
  | JArr _ | JObj _ => true
  | _ => false
  end.

(** [isEqual(obj1, obj2)] *)
Fixpoint isEqual (obj1 obj2 : jsval) {struct obj1} : bool :=
  if strictEquals obj1 obj2 then true
  else if negb (isTruthy obj1) || negb (isTruthy obj2) then false
  else
    match obj1, obj2 with
    | JStr s1, JStr s2 =>
        match getTime s1, getTime s2 with
        | Some date1, Some date2 => Z.eqb date1 date2
        | _, _ => false
        end
    | JArr items1, JArr items2 =>
        if Nat.eqb (length items1) (length items2) then
          (fix every (items : list jsval) (index : nat) {struct items} : bool :=
             match items with
             | [] => true
             | item :: rest =>
                 isEqual item (nth index items2 JUndefined) && every rest (S index)
             end) items1 0%nat
        else false
    | JArr items1, JObj _ =>
        if Nat.eqb (length items1) (length (entries obj2)) then
          (fix every (items : list jsval) (index : nat) {struct items} : bool :=
             match items with
             | [] => true
             | item :: rest =>
                 isEqual item (getProperty obj2 (indexKey index))
                 && every rest (S index)
             end) items1 0%nat
        else false
    | JObj fields1, (JArr _ | JObj _) =>
        if Nat.eqb (length fields1) (length (entries obj2)) then
          (fix every (fields : list (string * jsval)) {struct fields} : bool :=
             match fields with
             | [] => true
             | (key, value) :: rest =>
                 isEqual value (getProperty obj2 key) && every rest
             end) fields1
        else false
    | _, _ => false
    end.

(** *** Deep equality, as the specification words it

    Two values are deep-equal when they are the same primitive, or strings
    that both read as dates of one instant, or arrays of pairwise deep-equal
    items, or objects with the same keys and deep-equal values under each
    key. *)
Inductive deepEqual : jsval -> jsval -> Prop :=
| deep_same : forall a b, strictEquals a b = true -> deepEqual a b
| deep_date : forall s1 s2 t,
    getTime s1 = Some t -> getTime s2 = Some t -> deepEqual (JStr s1) (JStr s2)
| deep_array : forall items1 items2,
    length items1 = length items2 ->
    (forall i v1 v2, nth_error items1 i = Some v1 -> nth_error items2 i = Some v2 ->
                     deepEqual v1 v2) ->
    deepEqual (JArr items1) (JArr items2)
| deep_object : forall fields1 fields2,
    NoDup (map fst fields1) -> NoDup (map fst fields2) ->
    (forall k, In k (map fst fields1) <-> In k (map fst fields2)) ->
    (forall k v1 v2, In (k, v1) fields1 -> In (k, v2) fields2 -> deepEqual v1 v2) ->
    deepEqual (JObj fields1) (JObj fields2).

End Json.

Arguments jsval num : clear implicits.

(** ** The data model of [types.ts] *)

Inductive DonationType : Type := Bits | Subscription | Tip | Local.

Inductive SummaryType : Type := Weekly | Monthly.

Inductive Source : Type := StreamElements | ExtraLife.

(** What an operation throws. *)
Inductive Failure : Type :=
| InvalidAmount        (** 'Donation amount must be greater than 0' *)
| NoLocalData          (** 'No local donation data found' *)
| DonorNotFound        (** 'Donor not found' *)
| DonationNotFound     (** 'Donation not found' *)
| ResetFailed.         (** 'Failed to reset goals: ...' *)

Inductive Result (A : Type) : Type :=
| Ok (value : A)
| Err (failure : Failure).

Arguments Ok {A} value.
Arguments Err {A} failure.

Section Model.
Context {num : Type} `{JsNumber num} `{JsHost}.
Local Open Scope num_scope.
Local Open Scope string_scope.

(** [IndividualDonation]; [subTier] holds the tier as the platform names
    it. *)
Record IndividualDonation : Type := {
  amount : num;
  timestamp : string;
  donationType : option DonationType;
  subTier : option string
}.

(** [DonationData], also known as [StreamElementsDonor] *)
Record DonationData : Type := {
  name : string;
  individual_donations : list IndividualDonation;
  total_amount : num;
  total_donations : Z
}.

(** [BaseTotal]: the [amount] and [donation_count] of an [overall_total] *)
Record BaseTotal : Type := {
  overall_amount : num;
  donation_count : Z
}.

(** [ProcessedData], also known as [StreamElementsResult] *)
Record ProcessedData : Type := {
  donations : list DonationData;
  overall_total : BaseTotal
}.

(** [LocalDonationData]: [data.donations], [data.overall_total] and
    [data.metadata.lastUpdated] *)
Record LocalDonationData : Type := {
  data : ProcessedData;
  metadata_lastUpdated : string
}.

(** [ProcessedStreamElementsData], as the manager builds it: [current] and
    the [metadata]; the optional [localDonations] of the type is never set. *)
Record ProcessedStreamElementsData : Type := {
  current : ProcessedData;
  se_month : Z;
  se_year : Z;
  se_lastUpdated : string
}.

(** [ExtraLifeDonation] *)
Record ExtraLifeDonation : Type := {
  el_amount : num;
  displayName : string;
  message : string;
  donationID : string;
  createdDateUTC : string;
  eventID : string
}.

(** [ProcessedExtraLifeData] *)
Record ProcessedExtraLifeData : Type := {
  sumDonations : num;
  fundraisingGoal : num;
  el_donations : list ExtraLifeDonation;
  newDonations : option (list ExtraLifeDonation);
  el_lastUpdated : string;
  el_participantId : string;
  el_eventID : string
}.

(** The data of either source. *)
Inductive Payload : Type :=
| OfStreamElements (d : ProcessedStreamElementsData)
| OfExtraLife (d : ProcessedExtraLifeData).

(** A property of a stored object that holds a string when it is set: the
    key is not there, or it is there and holds [undefined], or it holds a
    string.  Reading the path of a missing key throws; reading the other
    two returns what the key holds. *)
Inductive Property : Type :=
| Missing
| Undefined
| Holds (value : string).

(** What the property reads as, [None] for [undefined]. *)
Definition valueOf (p : Property) : option string :=
  match p with
  | Holds value => Some value
  | Missing | Undefined => None
  end.

(** The property after an object literal wrote the value read from it: the
    key is there, with [undefined] when nothing was read. *)
Definition written (p : Property) : Property :=
  match p with
  | Holds value => Holds value
  | Missing | Undefined => Undefined
  end.

(** [goalState[source]] *)
Record SourceEntry : Type := {
  lastUpdated : option string;
  lastGoalReset : Property;
  sourceData : option Payload
}.

(** The part of [StreamElementsConfig] the manager reads. *)
Record StreamElementsConfig : Type := {
  value_prime : num;
  value_tier1 : num;
  value_tier2 : num;
  value_tier3 : num;
  bitsValue : num;
  summaryType : option SummaryType
}.

(** The part of [GoalTrackerConfig] the manager reads. *)
Record GoalTrackerConfig : Type := {
  donationGoal : num;
  config_streamElements : StreamElementsConfig;
  config_participantId : string
}.

(** The document stored at ['/goal']. *)
Record GoalState : Type := {
  uuid : option string;
  overlayInstance : option string;
  createdAt : option string;
  updatedAt : option string;
  config : option GoalTrackerConfig;
  localDonations : option LocalDonationData;
  streamElements : option SourceEntry;
  extraLife : option SourceEntry
}.

(** The store: the document at ['/goal'], if there is one. *)
Definition Store : Type := option GoalState.

(** *** The documents as JavaScript values *)

Definition donationTypeName (t : DonationType) : string :=
  match t with
  | Bits => "bits"
  | Subscription => "subscription"
  | Tip => "tip"
  | Local => "local"
  end.

(** A property that is present only when it has a value. *)
Definition optionalField {A : Type} (key : string) (encode : A -> jsval num)
    (value : option A) : list (string * jsval num) :=
  match value with
  | Some v => [(key, encode v)]
  | None => []
  end.

Definition donationToJs (d : IndividualDonation) : jsval num :=
  JObj ([("amount", JNum (amount d)); ("timestamp", JStr (timestamp d))]
        ++ optionalField "donationType" (fun t => JStr (donationTypeName t))
                         (donationType d)
        ++ optionalField "subTier" (@JStr num) (subTier d))%list.

Definition donorToJs (d : DonationData) : jsval num :=
  JObj [("name", JStr (name d));
        ("individual_donations", JArr (map donationToJs (individual_donations d)));
        ("total_amount", JNum (total_amount d));
        ("total_donations", JNum (num_lit (total_donations d)))].

Definition totalToJs (t : BaseTotal) : jsval num :=
  JObj [("amount", JNum (overall_amount t));
        ("donation_count", JNum (num_lit (donation_count t)))].

Definition processedToJs (p : ProcessedData) : jsval num :=
  JObj [("donations", JArr (map donorToJs (donations p)));
        ("overall_total", totalToJs (overall_total p))].

Definition streamElementsToJs (d : ProcessedStreamElementsData) : jsval num :=
  JObj [("current", processedToJs (current d));
        ("metadata",
         JObj [("month", JNum (num_lit (se_month d)));
               ("year", JNum (num_lit (se_year d)));
               ("lastUpdated", JStr (se_lastUpdated d))])].

Definition extraLifeDonationToJs (d : ExtraLifeDonation) : jsval num :=
  JObj [("amount", JNum (el_amount d));
        ("displayName", JStr (displayName d));
        ("message", JStr (message d));
        ("donationID", JStr (donationID d));
        ("createdDateUTC", JStr (createdDateUTC d));
        ("eventID", JStr (eventID d))].

Definition extraLifeToJs (d : ProcessedExtraLifeData) : jsval num :=
  JObj ([("sumDonations", JNum (sumDonations d));
         ("fundraisingGoal", JNum (fundraisingGoal d));
         ("donations", JArr (map extraLifeDonationToJs (el_donations d)))]
        ++ [("metadata",
             JObj [("lastUpdated", JStr (el_lastUpdated d));
                   ("participantId", JStr (el_participantId d));
                   ("eventID", JStr (el_eventID d))])]
        ++ optionalField "newDonations"
             (fun l => JArr (map extraLifeDonationToJs l)) (newDonations d))%list.

Definition toJs (p : Payload) : jsval num :=
  match p with
  | OfStreamElements d => streamElementsToJs d
  | OfExtraLife d => extraLifeToJs d
  end.

(** *** Reading and writing the store *)

(** [getGoalData()] *)
Definition getGoalData (db : Store) : option GoalState := db.

(** [getLocalDonations()]: the document at ['/goal/localDonations'] *)
Definition getLocalDonations (db : Store) : option LocalDonationData :=
  match db with
  | Some goalState => localDonations goalState
  | None => None
  end.

(** A document with no property yet. *)
Definition emptyDocument : GoalState :=
  {| uuid := None; overlayInstance := None; createdAt := None;
     updatedAt := None; config := None; localDonations := None;
     streamElements := None; extraLife := None |}.

Definition withLocalDonations (g : GoalState) (l : LocalDonationData) : GoalState :=
  {| uuid := uuid g; overlayInstance := overlayInstance g;
     createdAt := createdAt g; updatedAt := updatedAt g; config := config g;
     localDonations := Some l;
     streamElements := streamElements g; extraLife := extraLife g |}.

(** [_db.push('/goal/localDonations', l)]; the path is created when the
    document is not there. *)
Definition pushLocalDonations (db : Store) (l : LocalDonationData) : Store :=
  match db with
  | Some goalState => Some (withLocalDonations goalState l)
  | None => Some (withLocalDonations emptyDocument l)
  end.

End Model.

Arguments IndividualDonation num : clear implicits.
Arguments DonationData num : clear implicits.
Arguments BaseTotal num : clear implicits.
Arguments ProcessedData num : clear implicits.
Arguments LocalDonationData num : clear implicits.
Arguments ProcessedStreamElementsData num : clear implicits.
Arguments ExtraLifeDonation num : clear implicits.
Arguments ProcessedExtraLifeData num : clear implicits.
Arguments Payload num : clear implicits.
Arguments SourceEntry num : clear implicits.
Arguments StreamElementsConfig num : clear implicits.
Arguments GoalTrackerConfig num : clear implicits.
Arguments GoalState num : clear implicits.
Arguments Store num : clear implicits.

(** ** The local donation ledger *)

(** *** Array helpers *)

Section Arrays.
Context {A : Type}.

(** [array.findIndex(p)], with [None] for [-1] *)
Fixpoint findIndex (p : A -> bool) (l : list A) : option nat :=
  match l with
  | [] => None
  | x :: rest =>
      if p x then Some 0%nat
      else match findIndex p rest with
           | Some i => Some (S i)
           | None => None
           end
  end.

(** [array.splice(i, 1)] *)
Fixpoint removeAt (i : nat) (l : list A) : list A :=
  match l, i with
  | [], _ => []
  | _ :: rest, O => rest
  | x :: rest, S j => x :: removeAt j rest
  end.

(** The array after the object at index [i] was mutated into [y]. *)
Fixpoint replaceAt (i : nat) (y : A) (l : list A) : list A :=
  match l, i with
  | [], _ => []
  | _ :: rest, O => y :: rest
  | x :: rest, S j => x :: replaceAt j y rest
  end.

End Arrays.

Section Ledger.
Context {num : Type} `{JsNumber num} `{JsHost}.
Local Open Scope num_scope.

(** The fresh ledger of [resetLocalData] and of the first donation. *)
Definition emptyLocalData (now : Z) : LocalDonationData num :=
  {| data := {| donations := [];
                overall_total := {| overall_amount := num_lit 0;
                                    donation_count := 0 |} |};
     metadata_lastUpdated := toISOString now |}.

(** [resetLocalData()]; [now] is the clock at [new Date()]. *)
Definition resetLocalData (db : Store num) (now : Z) : Result unit * Store num :=
  (Ok tt, pushLocalDonations db (emptyLocalData now)).

(** [a.toLowerCase() === b.toLowerCase()] *)
Definition sameName (a b : string) : bool :=
  String.eqb (toLowerCase a) (toLowerCase b).

(** [Math.abs(new Date(a).getTime() - new Date(b).getTime()) < 5000]; a
    difference with an invalid date is not a number and below nothing. *)
Definition withinFiveSeconds (a b : string) : bool :=
  match getTime a, getTime b with
  | Some ta, Some tb => (Z.abs (ta - tb) <? 5000)%Z
  | _, _ => false
  end.

(** The duplicate check of [updateLocalDonation]. *)
Definition isDuplicate (donors : list (DonationData num)) (donorName : string)
    (newDonation : IndividualDonation num) : bool :=
  existsb (fun donor =>
             sameName (name donor) donorName
             && existsb (fun d =>
                           (amount d === amount newDonation)
                           && withinFiveSeconds (timestamp d) (timestamp newDonation))
                        (individual_donations donor))
          donors.

(** The donor record after one more donation was pushed onto it. *)
Definition creditDonor (donor : DonationData num)
    (newDonation : IndividualDonation num) : DonationData num :=
  {| name := name donor;
     individual_donations := individual_donations donor ++ [newDonation];
     total_amount := safeAdd (total_amount donor) (amount newDonation);
     total_donations := total_donations donor + 1 |}.

(** [updateLocalDonation({name, amount})].  The clock is read when a missing
    ledger is initialised ([nowInit]), for the donation's timestamp
    ([nowDonation]) and for the metadata ([nowMeta]).  [Ok None] is the
    [null] returned for a duplicate. *)
Definition updateLocalDonation (db : Store num) (donorName : string)
    (donationAmount : num) (nowInit nowDonation nowMeta : Z)
    : Result (option (LocalDonationData num)) * Store num :=
  if num_le donationAmount (num_lit 0) then (Err InvalidAmount, db)
  else
    let currentLocalData :=
      match getLocalDonations db with
      | Some l => l
      | None => emptyLocalData nowInit
      end in
    let newDonation :=
      {| amount := roundToTwoDecimals donationAmount;
         timestamp := toISOString nowDonation;
         donationType := Some Local;
         subTier := None |} in
    let donors := donations (data currentLocalData) in
    if isDuplicate donors donorName newDonation then (Ok None, db)
    else
      let donors' :=
        match findIndex (fun d => sameName (name d) donorName) donors with
        | Some i =>
            match nth_error donors i with
            | Some donor => replaceAt i (creditDonor donor newDonation) donors
            | None => donors
            end
        | None =>
            donors ++ [creditDonor {| name := donorName;
                                      individual_donations := [];
                                      total_amount := num_lit 0;
                                      total_donations := 0 |} newDonation]
        end in
      let overall := overall_total (data currentLocalData) in
      let updated :=
        {| data := {| donations := donors';
                      overall_total :=
                        {| overall_amount :=
                             safeAdd (overall_amount overall) (amount newDonation);
                           donation_count := donation_count overall + 1 |} |};
           metadata_lastUpdated := toISOString nowMeta |} in
      (Ok (Some updated), pushLocalDonations db updated).

(** The search loop of [removeLocalDonation]: every donor is visited, and a
    later donor holding the timestamp overrides an earlier one. *)
Fixpoint locateDonation (timestampToFind : string) (donors : list (DonationData num))
    (dIndex : nat) (found : option (nat * nat)) : option (nat * nat) :=
  match donors with
  | [] => found
  | donor :: rest =>
      locateDonation timestampToFind rest (S dIndex)
        match findIndex (fun d => String.eqb (timestamp d) timestampToFind)
                        (individual_donations donor) with
        | Some donationIdx => Some (dIndex, donationIdx)
        | None => found
        end
  end.

(** [removeLocalDonation(timestamp)] *)
Definition removeLocalDonation (db : Store num) (timestampToRemove : string) (now : Z)
    : Result (LocalDonationData num) * Store num :=
  match getLocalDonations db with
  | None => (Err NoLocalData, db)
  | Some currentLocalData =>
      let donors := donations (data currentLocalData) in
      match locateDonation timestampToRemove donors 0 None with
      | None => (Err DonationNotFound, db)
      | Some (donorIndex, donationIndex) =>
          match nth_error donors donorIndex with
          | None => (Err DonationNotFound, db)
          | Some donor =>
              match nth_error (individual_donations donor) donationIndex with
              | None => (Err DonationNotFound, db)
              | Some removedDonation =>
                  let donor' :=
                    {| name := name donor;
                       individual_donations :=
                         removeAt donationIndex (individual_donations donor);
                       total_amount := total_amount donor - amount removedDonation;
                       total_donations := total_donations donor - 1 |} in
                  let donors' :=
                    match individual_donations donor' with
                    | [] => removeAt donorIndex donors
                    | _ :: _ => replaceAt donorIndex donor' donors
                    end in
                  let overall := overall_total (data currentLocalData) in
                  let updated :=
                    {| data :=
                         {| donations := donors';
                            overall_total :=
                              {| overall_amount :=
                                   overall_amount overall - amount removedDonation;
                                 donation_count := donation_count overall - 1 |} |};
                       metadata_lastUpdated := toISOString now |} in
                  (Ok updated, pushLocalDonations db updated)
              end
          end
      end
  end.

(** [resetUserDonations(userName)] *)
Definition resetUserDonations (db : Store num) (userName : string) (now : Z)
    : Result (LocalDonationData num) * Store num :=
  match getLocalDonations db with
  | None => (Err NoLocalData, db)
  | Some currentLocalData =>
      let donors := donations (data currentLocalData) in
      match findIndex (fun donor => sameName (name donor) userName) donors with
      | None => (Err DonorNotFound, db)
      | Some donorIndex =>
          match nth_error donors donorIndex with
          | None => (Err DonorNotFound, db)
          | Some donor =>
              let overall := overall_total (data currentLocalData) in
              let updated :=
                {| data :=
                     {| donations := removeAt donorIndex donors;
                        overall_total :=
                          {| overall_amount :=
                               roundToTwoDecimals
                                 (overall_amount overall - total_amount donor);
                             donation_count :=
                               donation_count overall - total_donations donor |} |};
                   metadata_lastUpdated := toISOString now |} in
              (Ok updated, pushLocalDonations db updated)
          end
      end
  end.

End Ledger.

(** ** The state store: [updateGoalData] and [syncExternalData] *)

Section Sync.
Context {num : Type} `{JsNumber num} `{JsHost}.

(** [goalState[source]] *)
Definition sourceEntry (goalState : GoalState num) (source : Source)
    : option (SourceEntry num) :=
  match source with
  | StreamElements => streamElements goalState
  | ExtraLife => extraLife goalState
  end.

(** [goalState[source] = entry] *)
Definition withSourceEntry (goalState : GoalState num) (source : Source)
    (entry : SourceEntry num) : GoalState num :=
  {| uuid := uuid goalState; overlayInstance := overlayInstance goalState;
     createdAt := createdAt goalState; updatedAt := updatedAt goalState;
     config := config goalState; localDonations := localDonations goalState;
     streamElements := match source with
                       | StreamElements => Some entry
                       | ExtraLife => streamElements goalState
                       end;
     extraLife := match source with
                  | StreamElements => extraLife goalState
                  | ExtraLife => Some entry
                  end |}.

(** [a || b] on optional documents *)
Definition orElse {A : Type} (a b : option A) : option A :=
  match a with
  | Some _ => a
  | None => b
  end.

(** [{lastUpdated: e.lastUpdated, lastGoalReset: e.lastGoalReset, data:
    e.data}]: the entry [updateGoalData] builds for StreamElements, which
    has the key [lastGoalReset] whether or not [e] had it. *)
Definition rewritten (e : SourceEntry num) : SourceEntry num :=
  {| lastUpdated := lastUpdated e;
     lastGoalReset := written (lastGoalReset e);
     sourceData := sourceData e |}.

(** [updateGoalData(data)]: the parts of [data] that are present replace the
    stored ones, the rest of the stored document is kept, and [updatedAt] is
    stamped.  The StreamElements entry is rebuilt with the three keys
    [lastUpdated], [lastGoalReset] and [data], the Extra Life entry from
    [lastUpdated] and [data] alone.  [nowCreated] is read only when no
    document is stored. *)
Definition updateGoalData (db : Store num) (newState : GoalState num)
    (nowCreated nowUpdated : Z) : Store num :=
  let currentState :=
    match getGoalData db with
    | Some g => g
    | None =>
        {| uuid := uuid newState; overlayInstance := overlayInstance newState;
           createdAt := Some (toISOString nowCreated); updatedAt := None;
           config := config newState; localDonations := None;
           streamElements := None; extraLife := None |}
    end in
  Some {| uuid := uuid currentState;
          overlayInstance := overlayInstance currentState;
          createdAt := createdAt currentState;
          updatedAt := Some (toISOString nowUpdated);
          config := orElse (config newState) (config currentState);
          localDonations :=
            orElse (localDonations newState) (localDonations currentState);
          streamElements :=
            orElse (option_map rewritten (streamElements newState))
                   (streamElements currentState);
          extraLife :=
            match extraLife newState with
            | Some e => Some {| lastUpdated := lastUpdated e;
                                lastGoalReset := Missing;
                                sourceData := sourceData e |}
            | None => extraLife currentState
            end |}.

(** [syncExternalData(source, newData)]: the returned flag tells whether the
    data was stored.  [now] stamps the entry, [nowUpdated] the document.
    The new entry is written with the key [lastGoalReset], holding what
    [goalState[source]?.lastGoalReset] read. *)
Definition syncExternalData (db : Store num) (source : Source)
    (newData : Payload num) (now nowUpdated : Z) : bool * Store num :=
  match getGoalData db with
  | None => (false, db)
  | Some goalState =>
      let entry := sourceEntry goalState source in
      let currentData :=
        match entry with
        | Some e => sourceData e
        | None => None
        end in
      let lastReset :=
        match entry with
        | Some e => written (lastGoalReset e)
        | None => Undefined
        end in
      let unchanged :=
        match currentData with
        | Some c => isEqual (toJs c) (toJs newData)
        | None => false
        end in
      if unchanged then (false, db)
      else
        (true,
         updateGoalData db
           (withSourceEntry goalState source
              {| lastUpdated := Some (toISOString now);
                 lastGoalReset := lastReset;
                 sourceData := Some newData |})
           now nowUpdated)
  end.

(** [getStreamElementsData()] *)
Definition getStreamElementsData (db : Store num)
    : option (ProcessedStreamElementsData num) :=
  match getGoalData db with
  | Some goalState =>
      match streamElements goalState with
      | Some {| sourceData := Some (OfStreamElements d) |} => Some d
      | _ => None
      end
  | None => None
  end.

(** [getExtraLifeData()] *)
Definition getExtraLifeData (db : Store num)
    : option (ProcessedExtraLifeData num) :=
  match getGoalData db with
  | Some goalState =>
      match extraLife goalState with
      | Some {| sourceData := Some (OfExtraLife d) |} => Some d
      | _ => None
      end
  | None => None
  end.

End Sync.

(** ** The Extra Life normaliser: [pollExtraLife] *)

(** What [fetch] comes back with: a thrown network error, a response whose
    [ok] is false, or the parsed body of a successful one. *)
Inductive Response (A : Type) : Type :=
| NetworkError
| HttpError (status : Z)
| HttpOk (body : A).

Arguments NetworkError {A}.
Arguments HttpError {A} status.
Arguments HttpOk {A} body.

Section Sorting.
Context {A : Type}.

(** [Array.prototype.sort] is stable: an element stays before the later ones
    it does not compare greater than.  [keeps a b] says that the comparator
    applied to [a] and [b] is not positive.  This is the order the engine
    gives whenever the comparator orders the elements (its results come
    from comparing keys that are all numbers); when a key is not a number
    (a date that does not read, a total that is not a number) the comparator
    answers not-a-number, the engine's order is then its own, and only the
    elements of the result are the same: statements about the order carry
    the hypothesis that the keys read. *)
Fixpoint insertSorted (keeps : A -> A -> bool) (x : A) (sorted : list A) : list A :=
  match sorted with
  | [] => [x]
  | y :: rest =>
      if keeps x y then x :: y :: rest else y :: insertSorted keeps x rest
  end.

Fixpoint stableSort (keeps : A -> A -> bool) (l : list A) : list A :=
  match l with
  | [] => []
  | x :: rest => insertSorted keeps x (stableSort keeps rest)
  end.

End Sorting.

Section ExtraLifePoll.
Context {num : Type} `{JsNumber num} `{JsHost}.
Local Open Scope num_scope.
Local Open Scope string_scope.

(** The participant record of the API; a number that is missing reads as
    [undefined]. *)
Record ExtraLifeParticipantData : Type := {
  participant_sumDonations : option num;
  participant_fundraisingGoal : option num;
  participant_eventID : string
}.

(** A donation record of the API. *)
Record RawDonation : Type := {
  raw_amount : num;
  raw_displayName : option string;
  raw_message : option string;
  raw_donationID : string;
  raw_createdDateUTC : string;
  raw_eventID : string
}.

(** [s || fallback] on an optional string: the empty string is falsy. *)
Definition stringOr (s : option string) (fallback : string) : string :=
  match s with
  | Some v => if String.eqb v "" then fallback else v
  | None => fallback
  end.

(** [n || fallback] on an optional number *)
Definition numberOr (n : option num) (fallback : num) : num :=
  match n with
  | Some v => or_else v fallback
  | None => fallback
  end.

(** [stored === received], where a missing number equals nothing *)
Definition sameNumber (stored : num) (received : option num) : bool :=
  match received with
  | Some v => stored === v
  | None => false
  end.

Definition normaliseDonation (donation : RawDonation) : ExtraLifeDonation num :=
  {| el_amount := raw_amount donation;
     displayName := stringOr (raw_displayName donation) "Anonymous";
     message := stringOr (raw_message donation) "";
     donationID := raw_donationID donation;
     createdDateUTC := raw_createdDateUTC donation;
     eventID := raw_eventID donation |}.

(** The comparator [new Date(b.createdDateUTC) - new Date(a.createdDateUTC)]
    is not positive; a difference with an invalid date counts as zero. *)
Definition newerFirst (a b : ExtraLifeDonation num) : bool :=
  match getTime (createdDateUTC b), getTime (createdDateUTC a) with
  | Some tb, Some ta => (tb - ta <=? 0)%Z
  | _, _ => true
  end.

(** [!participantId] *)
Definition noParticipant (participantId : option string) : bool :=
  match participantId with
  | Some p => String.eqb p ""
  | None => true
  end.

(** [pollExtraLife(participantId)].  The two responses are what the
    participant and the donations requests come back with; the second is
    looked at only when the poll gets that far.  [now] stamps the processed
    data, [nowSync] and [nowUpdated] are the clock readings of
    [syncExternalData].  The result is the returned data ([None] for
    [null]) and the store afterwards. *)
Definition pollExtraLife (db : Store num) (participantId : option string)
    (participantResponse : Response (ExtraLifeParticipantData))
    (donationsResponse : Response (list RawDonation))
    (now nowSync nowUpdated : Z)
    : option (ProcessedExtraLifeData num) * Store num :=
  match participantId with
  | None => (None, db)
  | Some pid =>
    if noParticipant participantId then (None, db)
    else
      let goalState := getGoalData db in
      let previousData := getExtraLifeData db in
      let hasParticipantChanged :=
        match previousData with
        | Some p => negb (String.eqb (el_participantId p) pid)
        | None => false
        end in
      match participantResponse with
      | NetworkError => (None, db)
      | HttpError _ => (previousData, db)
      | HttpOk participantData =>
        let unchanged :=
          match previousData with
          | Some p =>
              negb hasParticipantChanged
              && sameNumber (sumDonations p) (participant_sumDonations participantData)
              && sameNumber (fundraisingGoal p)
                            (participant_fundraisingGoal participantData)
              && String.eqb (el_eventID p) (participant_eventID participantData)
          | None => false
          end in
        if unchanged then (previousData, db)
        else
          match donationsResponse with
          | NetworkError => (None, db)
          | HttpError _ => (previousData, db)
          | HttpOk rawDonations =>
            (* [participantData.fundraisingGoal || goalState.config.donationGoal]
               throws when the goal is falsy and there is no stored
               configuration; the poll then returns [null]. *)
            let goal :=
              match participant_fundraisingGoal participantData with
              | Some g =>
                  if truthy g then Some g
                  else match goalState with
                       | Some {| config := Some c |} => Some (donationGoal c)
                       | _ => None
                       end
              | None =>
                  match goalState with
                  | Some {| config := Some c |} => Some (donationGoal c)
                  | _ => None
                  end
              end in
            match goal with
            | None => (None, db)
            | Some fundraisingGoalValue =>
              let inEvent (d : ExtraLifeDonation num) :=
                String.eqb (eventID d) (participant_eventID participantData) in
              let validDonations :=
                filter inEvent (map normaliseDonation rawDonations) in
              let merge :=
                match previousData with
                | Some p => negb hasParticipantChanged
                | None => false
                end in
              let previousValidDonations :=
                match previousData with
                | Some p => filter inEvent (el_donations p)
                | None => []
                end in
              let isNew (d : ExtraLifeDonation num) :=
                negb (existsb (fun p => String.eqb (donationID p) (donationID d))
                              previousValidDonations) in
              let fresh := filter isNew validDonations in
              let combined :=
                if merge then (previousValidDonations ++ fresh)%list
                else validDonations in
              let sorted := stableSort newerFirst combined in
              let processedData :=
                {| sumDonations :=
                     numberOr (participant_sumDonations participantData) (num_lit 0);
                   fundraisingGoal := fundraisingGoalValue;
                   el_donations := sorted;
                   newDonations :=
                     if merge then
                       match fresh with
                       | [] => None
                       | _ :: _ => Some fresh
                       end
                     else
                       (* [newDonations] is the very array that is sorted *)
                       match validDonations with
                       | [] => None
                       | _ :: _ => Some sorted
                       end;
                   el_lastUpdated := toISOString now;
                   el_participantId := pid;
                   el_eventID := participant_eventID participantData |} in
              (Some processedData,
               snd (syncExternalData db ExtraLife (OfExtraLife processedData)
                                     nowSync nowUpdated))
            end
          end
      end
  end.

End ExtraLifePoll.

Arguments ExtraLifeParticipantData num : clear implicits.
Arguments RawDonation num : clear implicits.

(** ** The StreamElements normaliser: [processStreamElementsData] *)

Section StreamElementsData.
Context {num : Type} `{JsNumber num} `{JsHost}.
Local Open Scope num_scope.
Local Open Scope string_scope.

(** [isCurrentMonth(dateStr, currentMonth, currentYear)] *)
Definition isCurrentMonth (dateStr : string) (currentMonth currentYear : Z) : bool :=
  match getTime dateStr with
  | Some date =>
      (Calendar.getMonth zoneOffset date =? currentMonth)%Z
      && (Calendar.getFullYear zoneOffset date =? currentYear)%Z
  | None => false
  end.

(** [isCurrentWeek(dateStr)] with the clock at [now]: from local midnight of
    the Sunday on or before [now], for seven days. *)
Definition isCurrentWeek (now : Z) (dateStr : string) : bool :=
  let weekStart :=
    Calendar.startOfDay zoneOffset
      (Calendar.dayNumber zoneOffset now - Calendar.getDay zoneOffset now) in
  let weekEnd := (weekStart + 7 * Calendar.msPerDay)%Z in
  match getTime dateStr with
  | Some date => (weekStart <=? date)%Z && (date <? weekEnd)%Z
  | None => false
  end.

(** The entries of the session object the normaliser reads. *)
Record SubscriberEvent : Type := {
  sub_name : string;
  sub_tier : string;
  sub_createdAt : string
}.

Record GiftedLatest : Type := {
  gifted_name : string;
  gifted_tier : string;
  gifted_sender : string
}.

Record AmountEvent : Type := {
  event_name : string;
  event_amount : num;
  event_createdAt : string
}.

(** [seData.data]; a tip's amount is the number [parseFloat] reads when the
    platform sends it as a string. *)
Record SessionData : Type := {
  subscriber_recent : option (list SubscriberEvent);
  subscriber_gifted_latest : option GiftedLatest;
  cheer_recent : option (list AmountEvent);
  tip_recent : option (list AmountEvent);
  cheer_goal : option num;
  subscriber_goal : option num;
  tip_goal : option num
}.

(** What the normaliser reads of [previousData]: [previousData.donations] and
    [previousData.localDonations.donations], each if present. *)
Record PreviousData : Type := {
  previous_donations : option (list (DonationData num));
  previous_localDonors : option (list (DonationData num))
}.

(** [isInCurrentPeriod(timestamp)]; the clock of [isCurrentWeek] is read at
    [now] throughout one call of the normaliser. *)
Definition isInCurrentPeriod (config : StreamElementsConfig num)
    (currentMonth currentYear now : Z) (timestampToCheck : string) : bool :=
  match summaryType config with
  | Some Weekly => isCurrentWeek now timestampToCheck
  | Some Monthly | None => isCurrentMonth timestampToCheck currentMonth currentYear
  end.

(** [individual_donations.reduce((sum, d) => safeAdd(sum, d.amount), 0)] *)
Definition sumDonationAmounts (l : list (IndividualDonation num)) : num :=
  fold_left (fun sum d => safeAdd sum (amount d)) l (num_lit 0).

(** A previous donor with the donations outside the period taken out. *)
Definition keepInPeriod (inPeriod : string -> bool) (donor : DonationData num)
    : DonationData num :=
  {| name := name donor;
     individual_donations :=
       filter (fun d => inPeriod (timestamp d)) (individual_donations donor);
     total_amount := total_amount donor;
     total_donations := total_donations donor |}.

(** The donor with its totals recomputed from its donations. *)
Definition recomputeDonor (donor : DonationData num) : DonationData num :=
  {| name := name donor;
     individual_donations := individual_donations donor;
     total_amount := roundToTwoDecimals (sumDonationAmounts (individual_donations donor));
     total_donations := Z.of_nat (List.length (individual_donations donor)) |}.

(** [seResult] as it stands before the events are processed: the previous
    donors without their out-of-period donations, without the donors left
    empty, and with all totals recomputed. *)
Definition initialResult (inPeriod : string -> bool) (previousData : option PreviousData)
    : ProcessedData num :=
  let kept :=
    match previousData with
    | Some {| previous_donations := Some donors |} =>
        filter (fun donor =>
                  negb (Nat.eqb (List.length (individual_donations donor)) 0))
               (map (keepInPeriod inPeriod) donors)
    | _ => []
    end in
  let recomputed := map recomputeDonor kept in
  {| donations := recomputed;
     overall_total :=
       fold_left
         (fun total donor =>
            {| overall_amount := safeAdd (overall_amount total) (total_amount donor);
               donation_count := donation_count total + total_donations donor |})
         recomputed
         {| overall_amount := num_lit 0; donation_count := 0 |} |}.

(** The helper [addDonation(name, amount, timestamp, donationType, subTier)]
    acting on [seResult]. *)
Definition addDonation (previousData : option PreviousData)
    (seResult : ProcessedData num) (donorName : string) (donationAmount : num)
    (donationTimestamp : string) (kind : DonationType) (tier : option string)
    : ProcessedData num :=
  let byName (d : DonationData num) := sameName (name d) donorName in
  let fromLocal :=
    match previousData with
    | Some {| previous_localDonors := Some locals |} => find byName locals
    | _ => None
    end in
  let donors :=
    match findIndex byName (donations seResult) with
    | Some _ => donations seResult
    | None =>
        (donations seResult ++
         [match fromLocal with
          | Some localDonor =>
              {| name := donorName;
                 individual_donations := individual_donations localDonor;
                 total_amount :=
                   roundToTwoDecimals (or_else (total_amount localDonor) (num_lit 0));
                 total_donations := total_donations localDonor |}
          | None =>
              {| name := donorName;
                 individual_donations := [];
                 total_amount := roundToTwoDecimals (num_lit 0);
                 total_donations := 0 |}
          end])%list
    end in
  match findIndex byName donors with
  | None => seResult
  | Some i =>
      match nth_error donors i with
      | None => seResult
      | Some donor =>
          let duplicate :=
            existsb (fun d => (amount d === donationAmount)
                              && String.eqb (timestamp d) donationTimestamp)
                    (individual_donations donor) in
          if duplicate then
            {| donations := donors; overall_total := overall_total seResult |}
          else
            let numericAmount := roundToTwoDecimals donationAmount in
            let donor' :=
              {| name := name donor;
                 individual_donations :=
                   (individual_donations donor ++
                    [{| amount := numericAmount;
                        timestamp := donationTimestamp;
                        donationType := Some kind;
                        subTier := match tier with
                                   | Some t => if String.eqb t "" then None else Some t
                                   | None => None
                                   end |}])%list;
                 total_amount := safeAdd (total_amount donor) numericAmount;
                 total_donations := total_donations donor + 1 |} in
            {| donations := replaceAt i donor' donors;
               overall_total :=
                 {| overall_amount :=
                      safeAdd (overall_amount (overall_total seResult)) numericAmount;
                    donation_count := donation_count (overall_total seResult) + 1 |} |}
      end
  end.

(** The value of a subscription of tier [tier]. *)
Definition subscriptionValue (config : StreamElementsConfig num) (tier : string) : num :=
  if String.eqb tier "2000" then value_tier2 config
  else if String.eqb tier "3000" then value_tier3 config
  else if String.eqb tier "prime" then value_prime config
  else value_tier1 config.

(** The donations newest first, and the donors by total, largest first. *)
Definition newestFirst (a b : IndividualDonation num) : bool :=
  match getTime (timestamp b), getTime (timestamp a) with
  | Some tb, Some ta => (tb - ta <=? 0)%Z
  | _, _ => true
  end.

Definition largestFirst (a b : DonationData num) : bool :=
  negb (num_gt (total_amount b - total_amount a) (num_lit 0)).

(** A list that may be missing, as [list?.forEach] walks it. *)
Definition orEmpty {A : Type} (l : option (list A)) : list A :=
  match l with
  | Some items => items
  | None => []
  end.

(** [goal?.amount * value || 0] *)
Definition goalValue (goal : option num) (value : num) : num :=
  match goal with
  | Some g => or_else (g * value) (num_lit 0)
  | None => num_lit 0
  end.

(** [processStreamElementsData(seData, previousData, currentMonth,
    currentYear, config)], with the clock at [now]. *)
Definition processStreamElementsData (seData : SessionData)
    (previousData : option PreviousData) (currentMonth currentYear : Z)
    (config : StreamElementsConfig num) (now : Z) : ProcessedData num :=
  let inPeriod := isInCurrentPeriod config currentMonth currentYear now in
  let start := (initialResult inPeriod previousData, num_lit 0) in
  let '(afterSubs, subscriberTotal) :=
    fold_left
      (fun '(seResult, total) sub =>
         if inPeriod (sub_createdAt sub) then
           let subValue := subscriptionValue config (sub_tier sub) in
           let donorName :=
             match subscriber_gifted_latest seData with
             | Some gifted =>
                 if String.eqb (gifted_name gifted) (sub_name sub)
                    && String.eqb (gifted_tier gifted) (sub_tier sub)
                 then gifted_sender gifted else sub_name sub
             | None => sub_name sub
             end in
           (addDonation previousData seResult donorName subValue
                        (sub_createdAt sub) Subscription (Some (sub_tier sub)),
            total + subValue)
         else (seResult, total))
      (orEmpty (subscriber_recent seData)) start in
  let '(afterCheers, cheerTotal) :=
    fold_left
      (fun '(seResult, total) cheer =>
         if inPeriod (event_createdAt cheer) then
           let cheerValue := event_amount cheer * bitsValue config in
           (addDonation previousData seResult (event_name cheer) cheerValue
                        (event_createdAt cheer) Bits None,
            total + cheerValue)
         else (seResult, total))
      (orEmpty (cheer_recent seData)) (afterSubs, num_lit 0) in
  let '(afterTips, tipTotal) :=
    fold_left
      (fun '(seResult, total) tip =>
         if inPeriod (event_createdAt tip) then
           (addDonation previousData seResult (event_name tip) (event_amount tip)
                        (event_createdAt tip) Tip None,
            total + event_amount tip)
         else (seResult, total))
      (orEmpty (tip_recent seData)) (afterCheers, num_lit 0) in
  let cheerGoal := goalValue (cheer_goal seData) (bitsValue config) in
  let subscriberGoal := goalValue (subscriber_goal seData) (value_tier1 config) in
  let tipGoal :=
    match tip_goal seData with
    | Some g => or_else g (num_lit 0)
    | None => num_lit 0
    end in
  let patch (goal total overall : num) : num :=
    if num_gt goal total then overall + (goal - total) else overall in
  let overall :=
    patch tipGoal tipTotal
      (patch subscriberGoal subscriberTotal
         (patch cheerGoal cheerTotal (overall_amount (overall_total afterTips)))) in
  {| donations :=
       stableSort largestFirst
         (map (fun donor =>
                 {| name := name donor;
                    individual_donations :=
                      stableSort newestFirst (individual_donations donor);
                    total_amount := total_amount donor;
                    total_donations := total_donations donor |})
              (donations afterTips));
     overall_total :=
       {| overall_amount := overall;
          donation_count := donation_count (overall_total afterTips) |} |}.

End StreamElementsData.

Arguments AmountEvent num : clear implicits.
Arguments SessionData num : clear implicits.
Arguments PreviousData num : clear implicits.

(** ** The periodic goal reset and [pollStreamElements] *)

Section GoalReset.
Context {num : Type} `{JsNumber num} `{JsHost}.

(** [_db.getData('/goal/streamElements/lastGoalReset')]: [Missing] when
    the path is not there and the read throws, [Undefined] when the key is
    there and holds [undefined], which the read returns. *)
Definition getLastGoalReset (db : Store num) : Property :=
  match db with
  | Some goalState =>
      match streamElements goalState with
      | Some entry => lastGoalReset entry
      | None => Missing
      end
  | None => Missing
  end.

(** [_db.push('/goal/streamElements/lastGoalReset', stamp)] *)
Definition pushLastGoalReset (db : Store num) (stamp : string) : Store num :=
  let goalState :=
    match db with
    | Some g => g
    | None => emptyDocument
    end in
  let entry :=
    match streamElements goalState with
    | Some e => {| lastUpdated := lastUpdated e;
                   lastGoalReset := Holds stamp;
                   sourceData := sourceData e |}
    | None => {| lastUpdated := None;
                 lastGoalReset := Holds stamp;
                 sourceData := None |}
    end in
  Some (withSourceEntry goalState StreamElements entry).

(** [lastReset.getDate() !== now.getDate()]; the date of an invalid
    [lastReset] is not a number and differs from any. *)
Definition resetOnAnotherDate (lastReset : string) (now : Z) : bool :=
  match getTime lastReset with
  | Some t =>
      negb (Calendar.getDate zoneOffset t =? Calendar.getDate zoneOffset now)%Z
  | None => true
  end.

(** The decision [shouldReset] of [resetGoalValuesIfNeeded].  A read that
    throws is caught and decides for the reset.  A read that returns
    [undefined] gives [new Date(undefined)], an invalid date, whose day of
    the month is not a number and differs from that of [now]. *)
Definition shouldReset (db : Store num) (summary : SummaryType) (now : Z) : bool :=
  match getLastGoalReset db with
  | Holds lastReset =>
      match summary with
      | Weekly =>
          (Calendar.getDay zoneOffset now =? 0)%Z && resetOnAnotherDate lastReset now
      | Monthly =>
          (Calendar.getDate zoneOffset now =? 1)%Z && resetOnAnotherDate lastReset now
      end
  | Undefined =>
      match summary with
      | Weekly => (Calendar.getDay zoneOffset now =? 0)%Z
      | Monthly => (Calendar.getDate zoneOffset now =? 1)%Z
      end
  | Missing => true
  end.

(** [resetGoalValuesIfNeeded(channelId, jwtToken, summaryType)] with the
    clock at [now].  [response] is what the reset request comes back with if
    it is sent, and [nowRecorded] the clock when the reset is recorded.  The
    result tells whether the request was sent, how the call ended, and the
    store afterwards. *)
Definition resetGoalValuesIfNeeded (db : Store num) (summary : SummaryType)
    (now : Z) (response : Response unit) (nowRecorded : Z)
    : bool * Result unit * Store num :=
  if shouldReset db summary now then
    match response with
    | HttpOk _ => (true, Ok tt, pushLastGoalReset db (toISOString nowRecorded))
    | HttpError _ | NetworkError => (true, Err ResetFailed, db)
    end
  else (false, Ok tt, db).

(** What one poll of the tipping platform meets: the clock when the poll
    starts, the answer to a reset request, the clock when a reset is
    recorded, the answer to the session request, and the clock readings
    after it. *)
Record PollInput : Type := {
  poll_start : Z;
  poll_resetResponse : Response unit;
  poll_resetRecorded : Z;
  poll_session : Response (SessionData num);
  poll_now : Z;
  poll_sync : Z;
  poll_updated : Z
}.

(** [goalState?.config?.streamElements?.summaryType || 'monthly'] *)
Definition configuredSummary (goalState : GoalState num) : SummaryType :=
  match config goalState with
  | Some c =>
      match summaryType (config_streamElements c) with
      | Some s => s
      | None => Monthly
      end
  | None => Monthly
  end.

(** [pollStreamElements(channelId, jwtToken)].  The result tells whether a
    reset request was sent, what the poll returns ([None] for [null]), and
    the store afterwards. *)
Definition pollStreamElements (db : Store num) (input : PollInput)
    : bool * option (ProcessedStreamElementsData num) * Store num :=
  match getGoalData db with
  | None => (false, None, db)
  | Some goalState =>
      let '(sent, outcome, db1) :=
        resetGoalValuesIfNeeded db (configuredSummary goalState)
          (poll_start input) (poll_resetResponse input) (poll_resetRecorded input) in
      match outcome with
      | Err _ => (sent, None, db1)
      | Ok _ =>
          let previousData := getStreamElementsData db1 in
          match config goalState with
          | None => (sent, None, db1)
          | Some c =>
              match poll_session input with
              | NetworkError => (sent, None, db1)
              | HttpError _ => (sent, previousData, db1)
              | HttpOk currentData =>
                  let now := poll_now input in
                  let month := Calendar.getMonth zoneOffset now in
                  let year := Calendar.getFullYear zoneOffset now in
                  (* the stored data has no [donations] and no
                     [localDonations] property of its own *)
                  let asPrevious :=
                    match previousData with
                    | Some _ => Some {| previous_donations := None;
                                        previous_localDonors := None |}
                    | None => None
                    end in
                  let processedData :=
                    processStreamElementsData currentData asPrevious month year
                      (config_streamElements c) now in
                  let unchanged :=
                    match previousData with
                    | Some p =>
                        isEqual (processedToJs (current p))
                                (processedToJs processedData)
                    | None => false
                    end in
                  if unchanged then (sent, previousData, db1)
                  else
                    let finalData :=
                      {| current := processedData;
                         se_month := month;
                         se_year := year;
                         se_lastUpdated := toISOString now |} in
                    (sent, Some finalData,
                     snd (syncExternalData db1 StreamElements
                            (OfStreamElements finalData)
                            (poll_sync input) (poll_updated input)))
              end
          end
      end
  end.

(** A run of polls: the flags of the reset requests sent, poll by poll, and
    the store at the end. *)
Fixpoint runPolls (db : Store num) (inputs : list PollInput) : list bool * Store num :=
  match inputs with
  | [] => ([], db)
  | input :: rest =>
      let '(sent, _, db1) := pollStreamElements db input in
      let '(flags, db2) := runPolls db1 rest in
      (sent :: flags, db2)
  end.

End GoalReset.

Arguments PollInput num : clear implicits.

(** ** Notions the statements below are worded in *)

Section Invariants.
Context {num : Type} `{JsNumber num} `{JsHost}.
Local Open Scope num_scope.

(** The donor's totals are the sum and the count of their donations, and
    there is at least one donation. *)
Definition donorConsistent (donor : DonationData num) : bool :=
  (total_amount donor === sumDonationAmounts (individual_donations donor))
  && (total_donations donor =? Z.of_nat (List.length (individual_donations donor)))%Z
  && negb (Nat.eqb (List.length (individual_donations donor)) 0).

(** Every donor is consistent and the overall total is the sum over the
    donors, amounts and counts alike. *)
Definition ledgerConsistent (ledger : LocalDonationData num) : bool :=
  let donors := donations (data ledger) in
  forallb donorConsistent donors
  && (overall_amount (overall_total (data ledger))
      === fold_left (fun sum donor => safeAdd sum (total_amount donor)) donors (num_lit 0))
  && (donation_count (overall_total (data ledger))
      =? fold_left (fun count donor => count + total_donations donor) donors 0)%Z.

(** The number of donations the store holds. *)
Definition donationsStored (db : Store num) : nat :=
  match getLocalDonations db with
  | Some ledger =>
      List.length (flat_map (@individual_donations num) (donations (data ledger)))
  | None => 0
  end.

(** The donor holds a donation stamped [t]. *)
Definition holdsTimestamp (t : string) (donor : DonationData num) : bool :=
  existsb (fun d => String.eqb (timestamp d) t) (individual_donations donor).

(** The ledger after the donation [removed] left the donor [donor], whose
    other donations are [remaining], at instant [now]. *)
Definition ledgerWithout (ledger : LocalDonationData num)
    (before after : list (DonationData num)) (donor : DonationData num)
    (remaining : list (IndividualDonation num)) (removed : IndividualDonation num)
    (now : Z) : LocalDonationData num :=
  {| data :=
       {| donations :=
            match remaining with
            | [] => before ++ after
            | _ :: _ =>
                before ++
                {| name := name donor;
                   individual_donations := remaining;
                   total_amount := total_amount donor - amount removed;
                   total_donations := total_donations donor - 1 |} :: after
            end;
          overall_total :=
            {| overall_amount :=
                 overall_amount (overall_total (data ledger)) - amount removed;
               donation_count :=
                 donation_count (overall_total (data ledger)) - 1 |} |};
     metadata_lastUpdated := toISOString now |}.

(** A previous donor reduced to the donations of the period, with totals
    computed from them. *)
Definition donorOfPeriod (inPeriod : string -> bool) (donor : DonationData num)
    : DonationData num :=
  let kept := filter (fun d => inPeriod (timestamp d)) (individual_donations donor) in
  {| name := name donor;
     individual_donations := kept;
     total_amount := roundToTwoDecimals (sumDonationAmounts kept);
     total_donations := Z.of_nat (List.length kept) |}.

(** The donor with the stored totals blanked. *)
Definition withoutTotals (donor : DonationData num) : DonationData num :=
  {| name := name donor;
     individual_donations := individual_donations donor;
     total_amount := num_lit 0;
     total_donations := 0 |}.

(** A session object with no event list and no goal. *)
Definition quietSession : SessionData num :=
  {| subscriber_recent := None; subscriber_gifted_latest := None;
     cheer_recent := None; tip_recent := None;
     cheer_goal := None; subscriber_goal := None; tip_goal := None |}.



End Invariants.

(** Numbers on which a positive amount passes the guard [amount <= 0], and
    zero is not above zero. *)
Class LawfulNumber (num : Type) `{JsNumber num} : Prop := {
  positive_not_le_zero :
    forall x : num, num_gt x (num_lit 0) = true -> num_le x (num_lit 0) = false;
  zero_not_gt_zero : num_gt (num_lit 0) (num_lit 0) = false
}.

Arguments LawfulNumber num {_}.

(** *** Amounts in exact arithmetic *)

(** An amount with at most two decimal places. *)
Definition twoDecimals (x : Qc) : Prop := exists k : Z, x = Exact.cents k.

(** The exact sum of a list of amounts. *)
Definition exactSum (amounts : list Qc) : Qc := fold_right Qcplus (Q2Qc 0) amounts.

(** *** The ledger's invariant in exact arithmetic

    Every donor has at least one donation, every amount has at most two
    decimal places, the donor's total is the sum of the amounts and the
    donor's count their number; the overall total and count are the sums
    over the donors. *)
Definition donorSound (donor : DonationData Qc) : Prop :=
  individual_donations donor <> []
  /\ Forall (fun d => twoDecimals (amount d)) (individual_donations donor)
  /\ total_amount donor = exactSum (map (@amount Qc) (individual_donations donor))
  /\ total_donations donor = Z.of_nat (List.length (individual_donations donor)).

Definition ledgerSound (ledger : LocalDonationData Qc) : Prop :=
  Forall donorSound (donations (data ledger))
  /\ overall_amount (overall_total (data ledger))
     = exactSum (map (@total_amount Qc) (donations (data ledger)))
  /\ donation_count (overall_total (data ledger))
     = fold_right Z.add 0%Z (map (@total_donations Qc) (donations (data ledger))).

(** The store holds no ledger or a sound one. *)
Definition storeSound (db : Store Qc) : Prop :=
  forall ledger, getLocalDonations db = Some ledger -> ledgerSound ledger.

(** ** Sample documents, on binary64 numbers and the sample host *)

Module Samples.
Local Open Scope string_scope.
Local Open Scope float_scope.

Definition trackerConfig : GoalTrackerConfig float :=
  {| donationGoal := 1000;
     config_streamElements :=
       {| value_prime := 2.5; value_tier1 := 2.5; value_tier2 := 5;
          value_tier3 := 12.5; bitsValue := 0.01; summaryType := Some Weekly |};
     config_participantId := "P1" |}.

(** A stored Extra Life record of participant ["P1"]. *)
Definition storedExtraLife : ProcessedExtraLifeData float :=
  {| sumDonations := 25;
     fundraisingGoal := 100;
     el_donations :=
       [{| el_amount := 25; displayName := "Ada"; message := "";
           donationID := "D1"; createdDateUTC := "2026-11-01T10:00:00.000Z";
           eventID := "E1" |}];
     newDonations := None;
     el_lastUpdated := "2026-11-01T12:00:00.000Z";
     el_participantId := "P1";
     el_eventID := "E1" |}.

(** The same record with its dates written without milliseconds. *)
Definition sameExtraLife : ProcessedExtraLifeData float :=
  {| sumDonations := 25;
     fundraisingGoal := 100;
     el_donations :=
       [{| el_amount := 25; displayName := "Ada"; message := "";
           donationID := "D1"; createdDateUTC := "2026-11-01T10:00:00Z";
           eventID := "E1" |}];
     newDonations := None;
     el_lastUpdated := "2026-11-01T12:00:00Z";
     el_participantId := "P1";
     el_eventID := "E1" |}.

Definition storeWithExtraLife : Store float :=
  Some {| uuid := Some "goal-1"; overlayInstance := None;
          createdAt := Some "2026-11-01T09:00:00.000Z";
          updatedAt := Some "2026-11-01T12:00:00.000Z";
          config := Some trackerConfig;
          localDonations := None;
          streamElements := None;
          extraLife :=
            Some {| lastUpdated := Some "2026-11-01T12:00:00.000Z";
                    lastGoalReset := Missing;
                    sourceData := Some (OfExtraLife storedExtraLife) |} |}.

(** A ledger filled through [updateLocalDonation]: Ada gives 0.10 and, ten
    seconds later, 0.20; Grace gives 12.50. *)
Definition afterAda1 : Store float :=
  snd (updateLocalDonation None "Ada" 0.1 1793527200000 1793527200000 1793527200001).

Definition afterAda2 : Store float :=
  snd (updateLocalDonation afterAda1 "ada" 0.2 0 1793527210000 1793527210001).

Definition ledgerStore : Store float :=
  snd (updateLocalDonation afterAda2 "Grace" 12.5 0 1793527220000 1793527220001).

(** What the Extra Life API answers for participant ["P2"]. *)
Definition newParticipant : ExtraLifeParticipantData float :=
  {| participant_sumDonations := Some 40;
     participant_fundraisingGoal := Some 500;
     participant_eventID := "E2" |}.

Definition fetchedDonations : list (RawDonation float) :=
  [{| raw_amount := 15; raw_displayName := Some "Bob"; raw_message := None;
      raw_donationID := "N1"; raw_createdDateUTC := "2026-11-01T08:00:00.000Z";
      raw_eventID := "E2" |};
   {| raw_amount := 25; raw_displayName := None; raw_message := Some "go";
      raw_donationID := "N2"; raw_createdDateUTC := "2026-11-01T09:00:00.000Z";
      raw_eventID := "E2" |};
   {| raw_amount := 5; raw_displayName := Some "Eve"; raw_message := None;
      raw_donationID := "O1"; raw_createdDateUTC := "2025-11-01T09:00:00.000Z";
      raw_eventID := "E1" |}].

(** A tracking session with weekly accounting and no reset on record. *)
Definition freshSession : GoalState float :=
  {| uuid := Some "goal-1"; overlayInstance := None;
     createdAt := Some "2026-11-04T11:00:00.000Z";
     updatedAt := Some "2026-11-04T11:00:00.000Z";
     config := Some trackerConfig;
     localDonations := None; streamElements := None; extraLife := None |}.

(** A poll starting at [start] whose reset request is answered by
    [resetResponse]; the session request fails with status 502. *)
Definition pollAt (start : Z) (resetResponse : Response unit) : PollInput float :=
  {| poll_start := start;
     poll_resetResponse := resetResponse;
     poll_resetRecorded := start + 350;
     poll_session := HttpError 502;
     poll_now := start + 700;
     poll_sync := start + 701;
     poll_updated := start + 702 |}.

(** Wednesday 2026-11-04 at 12:00:00, 12:01:00 and 12:02:00 UTC. *)
Definition wednesdayNoon : Z := 1793793600000.

(** Donors known from an earlier poll: Ada gave in October and this week,
    Bob only in October. *)
Definition earlierDonors : list (DonationData float) :=
  [{| name := "Ada";
      individual_donations :=
        [{| amount := 5; timestamp := "2026-10-20T09:00:00.000Z";
            donationType := Some Tip; subTier := None |};
         {| amount := 7.5; timestamp := "2026-11-02T09:00:00.000Z";
            donationType := Some Bits; subTier := None |}];
      total_amount := 12.5; total_donations := 2 |};
   {| name := "Bob";
      individual_donations :=
        [{| amount := 2.5; timestamp := "2026-10-21T09:00:00.000Z";
            donationType := Some Subscription; subTier := Some "1000" |}];
      total_amount := 2.5; total_donations := 1 |}].

End Samples.

(** ** Reading the ledger: the [goalDonation] variable of [goal-variables.ts] *)

Section LedgerQueries.
Context {num : Type} `{JsNumber num} `{JsHost}.
Local Open Scope num_scope.

(** The evaluator of [goalDonation[username, amount]]; [donationAmount] is
    the number [parseFloat] reads from the [amount] argument. *)
Definition goalDonation (db : Store num) (username : string) (donationAmount : num)
    : bool :=
  match getLocalDonations db with
  | None => false
  | Some localDonations =>
      match find (fun d => sameName (name d) username)
                 (donations (data localDonations)) with
      | None => false
      | Some donor =>
          existsb (fun donation => amount donation === donationAmount)
                  (individual_donations donor)
      end
  end.

(** No two donors share a name when case is ignored. *)
Definition distinctNames (donors : list (DonationData num)) : Prop :=
  NoDup (map (fun d => toLowerCase (name d)) donors).

End LedgerQueries.

(** ** A sample ledger in exact arithmetic *)

Module ExactSamples.
Local Open Scope string_scope.

(** Ada gives 0.10 and Grace 12.50, ten seconds apart. *)
Definition afterAda : Store Qc :=
  snd (updateLocalDonation None "Ada" (Exact.cents 10)
         1793527200000 1793527200000 1793527200001).

Definition ledgerStore : Store Qc :=
  snd (updateLocalDonation afterAda "Grace" (Exact.cents 1250)
         0 1793527210000 1793527210001).

End ExactSamples.

(** ** More sample documents on binary64 numbers *)

Module MoreSamples.
Local Open Scope string_scope.
Local Open Scope float_scope.

(** A tracking session with monthly accounting whose goal reset was
    recorded ten seconds into 2026-11-01. *)
Definition monthlySession : GoalState float :=
  {| uuid := Some "goal-2"; overlayInstance := None;
     createdAt := Some "2026-10-20T11:00:00.000Z";
     updatedAt := Some "2026-11-01T00:00:10.000Z";
     config :=
       Some {| donationGoal := 1000;
               config_streamElements :=
                 {| value_prime := 2.5; value_tier1 := 2.5; value_tier2 := 5;
                    value_tier3 := 12.5; bitsValue := 0.01;
                    summaryType := Some Monthly |};
               config_participantId := "" |};
     localDonations := None;
     streamElements :=
       Some {| lastUpdated := None;
               lastGoalReset := Holds "2026-11-01T00:00:10.000Z";
               sourceData := None |};
     extraLife := None |}.

(** Polls on 2026-11-15, on 2026-12-01 and on 2027-01-01, each at ten
    seconds past midnight. *)
Definition laterPolls : list (PollInput float) :=
  [Samples.pollAt 1794700810000 (HttpOk tt);
   Samples.pollAt 1796083210000 (HttpOk tt);
   Samples.pollAt 1798761610000 (HttpOk tt)].

(** What the tipping platform reports in the week of Monday 2026-11-02:
    Ada subscribed at tier 2 and tipped twice, a subscription was gifted to
    Bob by Cy, Dee cheered 250 bits, and Eve tipped in October. *)
Definition weekSession : SessionData float :=
  {| subscriber_recent :=
       Some [{| sub_name := "Ada"; sub_tier := "2000";
                sub_createdAt := "2026-11-02T09:00:00.000Z" |};
             {| sub_name := "Bob"; sub_tier := "1000";
                sub_createdAt := "2026-11-02T10:00:00.000Z" |}];
     subscriber_gifted_latest :=
       Some {| gifted_name := "Bob"; gifted_tier := "1000"; gifted_sender := "Cy" |};
     cheer_recent :=
       Some [{| event_name := "Dee"; event_amount := 250;
                event_createdAt := "2026-11-02T11:00:00.000Z" |}];
     tip_recent :=
       Some [{| event_name := "ada"; event_amount := 3;
                event_createdAt := "2026-11-02T12:00:00.000Z" |};
             {| event_name := "ADA"; event_amount := 4.5;
                event_createdAt := "2026-11-02T13:00:00.000Z" |};
             {| event_name := "Eve"; event_amount := 20;
                event_createdAt := "2026-10-20T13:00:00.000Z" |}];
     cheer_goal := None; subscriber_goal := None; tip_goal := Some 7.5 |}.

(** Monday 2026-11-02 at 15:00:00 UTC. *)
Definition mondayAfternoon : Z := 1793631600000.

(** Monday 2026-11-02 at 10:00:00 UTC. *)
Definition mondayMorning : Z := 1793613600000.

(** What the tipping platform reports on Monday morning: one tip, of 7.50 by
    Ada. *)
Definition morningSession : SessionData float :=
  {| subscriber_recent := None; subscriber_gifted_latest := None;
     cheer_recent := None;
     tip_recent :=
       Some [{| event_name := "Ada"; event_amount := 7.5;
                event_createdAt := "2026-11-02T09:00:00.000Z" |}];
     cheer_goal := None; subscriber_goal := None; tip_goal := Some 7.5 |}.

(** What it reports in the afternoon: the list of recent tips holds one tip
    only, of 3.00 by Bob. *)
Definition afternoonSession : SessionData float :=
  {| subscriber_recent := None; subscriber_gifted_latest := None;
     cheer_recent := None;
     tip_recent :=
       Some [{| event_name := "Bob"; event_amount := 3;
                event_createdAt := "2026-11-02T14:00:00.000Z" |}];
     cheer_goal := None; subscriber_goal := None; tip_goal := Some 10.5 |}.

(** A poll starting at [start] whose requests are both answered, the
    session request with [session]. *)
Definition sessionPoll (start : Z) (session : SessionData float) : PollInput float :=
  {| poll_start := start;
     poll_resetResponse := HttpOk tt;
     poll_resetRecorded := start + 350;
     poll_session := HttpOk session;
     poll_now := start + 700;
     poll_sync := start + 701;
     poll_updated := start + 702 |}.

(** The store after the poll of Monday morning on a fresh session. *)
Definition afterMorning : Store float :=
  snd (pollStreamElements (Some Samples.freshSession)
         (sessionPoll mondayMorning morningSession)).

(** A donor as the overlay lists it: the name, the instants of the
    donations, the total and the count. *)
Definition donorLine (d : DonationData float) : string * list string * float * Z :=
  (name d, map (@timestamp float) (individual_donations d),
   total_amount d, total_donations d).

(** The weekly session with a goal reset recorded on Sunday 2026-11-01. *)
Definition weeklySession : Store float :=
  pushLastGoalReset (Some Samples.freshSession) "2026-11-01T00:00:10.000Z".

(** Sunday 2026-11-08 at 23:59:30 UTC. *)
Definition sundayNight : Z := 1794182370000.

End MoreSamples.

(** ** Resetting the data of a source *)

(** How a call ends. *)
Inductive Completion : Type := Returned | Thrown.

Section SourceResets.
Context {num : Type} `{JsNumber num} `{JsHost}.

(** The data [resetStreamElementsData] starts a source from; the clock is
    read for the month, the year and the stamp of the metadata. *)
Definition emptyStreamElementsData (nowMonth nowYear nowMeta : Z)
    : ProcessedStreamElementsData num :=
  {| current := {| donations := [];
                   overall_total := {| overall_amount := num_lit 0;
                                       donation_count := 0 |} |};
     se_month := Calendar.getMonth zoneOffset nowMonth;
     se_year := Calendar.getFullYear zoneOffset nowYear;
     se_lastUpdated := toISOString nowMeta |}.

(** [resetStreamElementsData()]: nothing happens without a stored document;
    otherwise the entry of the source is replaced by a fresh one and the
    document is saved through [updateGoalData].  [nowEntry] stamps the
    entry, [nowUpdated] the document. *)
Definition resetStreamElementsData (db : Store num)
    (nowEntry nowMonth nowYear nowMeta nowUpdated : Z) : Completion * Store num :=
  match getGoalData db with
  | None => (Returned, db)
  | Some goalState =>
      (Returned,
       updateGoalData db
         (withSourceEntry goalState StreamElements
            {| lastUpdated := Some (toISOString nowEntry);
               lastGoalReset := Missing;
               sourceData :=
                 Some (OfStreamElements
                         (emptyStreamElementsData nowMonth nowYear nowMeta)) |})
         nowUpdated nowUpdated)
  end.

(** The data [resetExtraLifeData] starts from, under the configuration
    [c]. *)
Definition emptyExtraLifeData (c : GoalTrackerConfig num) (nowMeta : Z)
    : ProcessedExtraLifeData num :=
  {| sumDonations := num_lit 0;
     fundraisingGoal := donationGoal c;
     el_donations := [];
     newDonations := None;
     el_lastUpdated := toISOString nowMeta;
     el_participantId := config_participantId c;
     el_eventID := EmptyString |}.

(** [resetExtraLifeData()]; reading [goalState.config.donationGoal] throws
    when the document has no configuration, before anything is written. *)
Definition resetExtraLifeData (db : Store num) (nowEntry nowMeta nowUpdated : Z)
    : Completion * Store num :=
  match getGoalData db with
  | None => (Returned, db)
  | Some goalState =>
      match config goalState with
      | None => (Thrown, db)
      | Some c =>
          (Returned,
           updateGoalData db
             (withSourceEntry goalState ExtraLife
                {| lastUpdated := Some (toISOString nowEntry);
                   lastGoalReset := Missing;
                   sourceData := Some (OfExtraLife (emptyExtraLifeData c nowMeta)) |})
             nowUpdated nowUpdated)
      end
  end.

(** [isCurrentDay(dateStr)] with the clock at [now] *)
Definition isCurrentDay (now : Z) (dateStr : string) : bool :=
  match getTime dateStr with
  | Some date =>
      (Calendar.getDate zoneOffset date =? Calendar.getDate zoneOffset now)%Z
      && (Calendar.getMonth zoneOffset date =? Calendar.getMonth zoneOffset now)%Z
      && (Calendar.getFullYear zoneOffset date =? Calendar.getFullYear zoneOffset now)%Z
  | None => false
  end.

(** The data stored for a source, whichever it is. *)
Definition storedData (db : Store num) (source : Source) : option (Payload num) :=
  match source with
  | StreamElements => option_map (@OfStreamElements num) (getStreamElementsData db)
  | ExtraLife => option_map (@OfExtraLife num) (getExtraLifeData db)
  end.

(** The other source. *)
Definition otherSource (source : Source) : Source :=
  match source with
  | StreamElements => ExtraLife
  | ExtraLife => StreamElements
  end.

(** The payload is of the kind the source stores. *)
Definition payloadOf (source : Source) (p : Payload num) : bool :=
  match source, p with
  | StreamElements, OfStreamElements _ => true
  | ExtraLife, OfExtraLife _ => true
  | _, _ => false
  end.

End SourceResets.

(** ** Notions about the Extra Life data *)

Section ExtraLifeNotions.
Context {num : Type} `{JsNumber num} `{JsHost}.

(** Every donation of the record belongs to the record's event. *)
Definition oneEvent (p : ProcessedExtraLifeData num) : Prop :=
  Forall (fun d => eventID d = el_eventID p) (el_donations p).

(** No two donations of the record share an ID. *)
Definition distinctIds (p : ProcessedExtraLifeData num) : Prop :=
  NoDup (map (@donationID num) (el_donations p)).

(** Instants that never increase along the list. *)
Fixpoint descending (instants : list Z) : Prop :=
  match instants with
  | [] => True
  | t :: rest => Forall (fun later => (later <= t)%Z) rest /\ descending rest
  end.

(** The comparator that keeps [x] before [y] when the key of [y] is not
    above that of [x]. *)
Definition byKey {A : Type} (key : A -> Z) (x y : A) : bool :=
  (key y <=? key x)%Z.

(** The creation dates all read as dates. *)
Definition datesRead (l : list (ExtraLifeDonation num)) : Prop :=
  Forall (fun d => getTime (createdDateUTC d) <> None) l.

(** The instants of the creation dates, an unreadable one counting as 0. *)
Definition createdInstants (l : list (ExtraLifeDonation num)) : list Z :=
  map (fun d => match getTime (createdDateUTC d) with
                | Some t => t
                | None => 0%Z
                end) l.

(** The fetched donations of the participant's event, normalised. *)
Definition fetchedOfEvent (participantData : ExtraLifeParticipantData num)
    (rawDonations : list (RawDonation num)) : list (ExtraLifeDonation num) :=
  filter (fun d => String.eqb (eventID d) (participant_eventID participantData))
         (map normaliseDonation rawDonations).

(** The stored donations a poll for [participantId] carries over: those of
    the participant's event, when the stored record is of the same
    participant. *)
Definition carriedOver (db : Store num) (participantId : string)
    (participantData : ExtraLifeParticipantData num)
    : option (list (ExtraLifeDonation num)) :=
  match getExtraLifeData db with
  | Some previousData =>
      if String.eqb (el_participantId previousData) participantId
      then Some (filter (fun d => String.eqb (eventID d)
                                             (participant_eventID participantData))
                        (el_donations previousData))
      else None
  | None => None
  end.

(** The donations a poll puts together before sorting them. *)
Definition combinedDonations (db : Store num) (participantId : string)
    (participantData : ExtraLifeParticipantData num)
    (rawDonations : list (RawDonation num)) : list (ExtraLifeDonation num) :=
  match carriedOver db participantId participantData with
  | Some kept =>
      kept ++ filter (fun d => negb (existsb (fun p => String.eqb (donationID p)
                                                                  (donationID d))
                                             kept))
                     (fetchedOfEvent participantData rawDonations)
  | None => fetchedOfEvent participantData rawDonations
  end.

End ExtraLifeNotions.

(** ** Notions about the processed session *)

Section SessionNotions.
Context {num : Type} `{JsNumber num} `{JsHost}.

(** The previous data bring no local donors along. *)
Definition noLocalDonors (previousData : option (PreviousData num)) : Prop :=
  match previousData with
  | Some p => previous_localDonors p = None
  | None => True
  end.

(** The donor has donations and counts them rightly. *)
Definition donorCounted (donor : DonationData num) : Prop :=
  individual_donations donor <> []
  /\ total_donations donor = Z.of_nat (List.length (individual_donations donor)).

(** Every donor is counted and the overall count adds the donors up. *)
Definition countsConsistent (result : ProcessedData num) : Prop :=
  Forall donorCounted (donations result)
  /\ donation_count (overall_total result)
     = fold_right Z.add 0%Z (map (@total_donations num) (donations result)).

(** The session with the events outside the period taken out. *)
Definition inPeriodOnly (inPeriod : string -> bool) (seData : SessionData num)
    : SessionData num :=
  {| subscriber_recent :=
       option_map (filter (fun sub => inPeriod (sub_createdAt sub)))
                  (subscriber_recent seData);
     subscriber_gifted_latest := subscriber_gifted_latest seData;
     cheer_recent :=
       option_map (filter (fun cheer => inPeriod (event_createdAt cheer)))
                  (cheer_recent seData);
     tip_recent :=
       option_map (filter (fun tip => inPeriod (event_createdAt tip)))
                  (tip_recent seData);
     cheer_goal := cheer_goal seData;
     subscriber_goal := subscriber_goal seData;
     tip_goal := tip_goal seData |}.

End SessionNotions.

Section PreviousDonors.
Context {num : Type} `{JsNumber num} `{JsHost}.

(** The donors the previous data bring along have distinct names. *)
Definition previousDistinct (previousData : option (PreviousData num)) : Prop :=
  match previousData with
  | Some p =>
      match previous_donations p with
      | Some donors => distinctNames donors
      | None => True
      end
  | None => True
  end.

End PreviousDonors.

(** ** The Advanced Goal Manager effect of [effects/goalManager.ts] *)

(** What the effect asks of numbers besides the currency arithmetic. *)
Class JsMath (num : Type) `{JsNumber num} : Type := {
  (** [Math.abs(x)] *)
  num_abs : num -> num;
  (** [a < b] *)
  num_lt : num -> num -> bool;
  (** the literal [0.01] *)
  num_cent : num
}.

Arguments JsMath num {_}.

#[global] Instance binary64_math : JsMath float := {
  num_abs := PrimFloat.abs;
  num_lt := PrimFloat.ltb;
  num_cent := 0.01%float
}.

#[global] Instance exact_math : JsMath Qc := {
  num_abs x := Q2Qc (Qabs x);
  num_lt x y := negb (Qle_bool y x);
  num_cent := Exact.cents 1
}.

(** The [operation] of the effect; any other string is an unknown one. *)
Inductive Operation : Type :=
| Add
| Remove
| ResetUser
| ResetStreamElements
| ResetExtraLife
| ResetLocalData
| UnknownOperation.

(** The readings of the clock one run of the effect may take. *)
Record EffectClock : Type := {
  at_init : Z;
  at_donation : Z;
  at_meta : Z;
  at_entry : Z;
  at_month : Z;
  at_year : Z;
  at_updated : Z
}.

Section ManagerEffect.
Context {num : Type} `{JsMath num} `{JsHost}.
Local Open Scope num_scope.

(** [Math.abs(d.amount - donationAmount) < 0.01] *)
Definition withinACent (donationAmount : num) (d : IndividualDonation num) : bool :=
  num_lt (num_abs (amount d - donationAmount)) num_cent.

(** [onTriggerEvent] of the effect, for an initialised manager.
    [donationAmount] is [None] when the effect's amount is empty or zero and
    otherwise the number it reads as.  The result is the [success] flag and
    the store afterwards. *)
Definition goalManagerEffect (db : Store num) (operation : Operation)
    (donorName : string) (donationAmount : option num) (clock : EffectClock)
    : bool * Store num :=
  let given :=
    match donationAmount with
    | Some a => if truthy a then Some a else None
    | None => None
    end in
  match operation with
  | Add =>
      match given with
      | None => (false, db)
      | Some a =>
          match updateLocalDonation db donorName a (at_init clock)
                                    (at_donation clock) (at_meta clock) with
          | (Ok _, db1) => (true, db1)
          | (Err _, db1) => (false, db1)
          end
      end
  | Remove =>
      match given with
      | None => (false, db)
      | Some a =>
          match getLocalDonations db with
          | None => (false, db)
          | Some localDonations =>
              match find (fun d => sameName (name d) donorName)
                         (donations (data localDonations)) with
              | None => (false, db)
              | Some donor =>
                  match find (withinACent a) (individual_donations donor) with
                  | None => (false, db)
                  | Some donationToRemove =>
                      match removeLocalDonation db (timestamp donationToRemove)
                                                (at_meta clock) with
                      | (Ok _, db1) => (true, db1)
                      | (Err _, db1) => (false, db1)
                      end
                  end
              end
          end
      end
  | ResetUser =>
      match resetUserDonations db donorName (at_meta clock) with
      | (Ok _, db1) => (true, db1)
      | (Err _, db1) => (false, db1)
      end
  | ResetStreamElements =>
      match resetStreamElementsData db (at_entry clock) (at_month clock)
                                    (at_year clock) (at_meta clock)
                                    (at_updated clock) with
      | (Returned, db1) => (true, db1)
      | (Thrown, db1) => (false, db1)
      end
  | ResetExtraLife =>
      match resetExtraLifeData db (at_entry clock) (at_meta clock)
                               (at_updated clock) with
      | (Returned, db1) => (true, db1)
      | (Thrown, db1) => (false, db1)
      end
  | ResetLocalData =>
      match resetLocalData db (at_meta clock) with
      | (Ok _, db1) => (true, db1)
      | (Err _, db1) => (false, db1)
      end
  | UnknownOperation => (false, db)
  end.

(** No two donations of the ledger bear the same timestamp. *)
Definition uniqueTimestamps (ledger : LocalDonationData num) : Prop :=
  NoDup (map (@timestamp num)
             (flat_map (@individual_donations num) (donations (data ledger)))).

End ManagerEffect.

(** ** The polling of [effects/goal.ts] *)

(** The three polling modes. *)
Inductive PollMode : Type := ExtraLifeMode | StreamElementsMode | LocalMode.

(** [config.streamElements.localDonationsPeriod] *)
Inductive LocalPeriod : Type := AllTime | Daily | WeeklyPeriod | MonthlyPeriod.

(** The two switches of the effect that select the data source. *)
Record SourceSwitches : Type := {
  useExtraLife : bool;
  useStreamElements : bool
}.

(** [dataSourceMode], as [onTriggerEvent] derives it from the effect. *)
Definition dataSourceMode (effect : SourceSwitches) : PollMode :=
  if useExtraLife effect then ExtraLifeMode
  else if useStreamElements effect then StreamElementsMode
  else LocalMode.

(** The switches as [onTriggerEvent] stores them in the configuration: with
    Extra Life on, StreamElements is switched off. *)
Definition storedSwitches (effect : SourceSwitches) : SourceSwitches :=
  {| useExtraLife := useExtraLife effect;
     useStreamElements :=
       if useExtraLife effect then false else useStreamElements effect |}.

Definition sameMode (a b : PollMode) : bool :=
  match a, b with
  | ExtraLifeMode, ExtraLifeMode
  | StreamElementsMode, StreamElementsMode
  | LocalMode, LocalMode => true
  | _, _ => false
  end.

(** Whether [pollFunction] gets past its three guards, given the switches
    of the stored configuration ([None] when no document is stored). *)
Definition pollProceeds (stored : option SourceSwitches) (mode : PollMode) : bool :=
  match stored with
  | None => true
  | Some switches =>
      if useExtraLife switches && negb (sameMode mode ExtraLifeMode) then false
      else if useStreamElements switches && negb (sameMode mode StreamElementsMode)
      then false
      else if (useExtraLife switches || useStreamElements switches)
              && sameMode mode LocalMode
      then false
      else true
  end.

Section LocalPayload.
Context {num : Type} `{JsNumber num} `{JsHost}.
Local Open Scope num_scope.

(** [isInPeriod(dateStr, period)] of the local mode, with the clock read
    once at [now]. *)
Definition isInPeriod (now : Z) (period : LocalPeriod) (dateStr : string) : bool :=
  match period with
  | AllTime => true
  | Daily => isCurrentDay now dateStr
  | WeeklyPeriod => isCurrentWeek now dateStr
  | MonthlyPeriod =>
      isCurrentMonth dateStr (Calendar.getMonth zoneOffset now)
                     (Calendar.getFullYear zoneOffset now)
  end.

(** The period test of the StreamElements mode: monthly when [summaryType]
    is ['monthly'], weekly for anything else. *)
Definition isInSummaryPeriod (now : Z) (summary : option SummaryType)
    (dateStr : string) : bool :=
  match summary with
  | Some Monthly => isInPeriod now MonthlyPeriod dateStr
  | Some Weekly | None => isInPeriod now WeeklyPeriod dateStr
  end.

(** [filteredDonations]: each donor with the donations of the period, the
    donors left without donation dropped; the donor's stored totals are
    copied as they are. *)
Definition filteredDonations (inPeriod : string -> bool)
    (donors : list (DonationData num)) : list (DonationData num) :=
  filter (fun donor => negb (Nat.eqb (List.length (individual_donations donor)) 0))
         (map (keepInPeriod inPeriod) donors).

(** [individual_donations.reduce((sum, d) => sum + d.amount, 0)] *)
Definition plainSum (l : list (IndividualDonation num)) : num :=
  fold_left (fun sum d => sum + amount d) l (num_lit 0).

(** [filteredTotal] *)
Definition filteredTotal (donors : list (DonationData num)) : BaseTotal num :=
  fold_left
    (fun acc donor =>
       {| overall_amount := overall_amount acc + plainSum (individual_donations donor);
          donation_count :=
            donation_count acc
            + Z.of_nat (List.length (individual_donations donor)) |})
    donors
    {| overall_amount := num_lit 0; donation_count := 0 |}.

(** [filteredData], what the local mode sends to the overlay; [period] is
    [config.streamElements.localDonationsPeriod || 'monthly'], and the clock
    is read at [now] for the period and at [nowMeta] for the stamp. *)
Definition localPayload (ledger : LocalDonationData num) (period : option LocalPeriod)
    (now nowMeta : Z) : LocalDonationData num :=
  let chosen := match period with
                | Some p => p
                | None => MonthlyPeriod
                end in
  let kept := filteredDonations (isInPeriod now chosen) (donations (data ledger)) in
  {| data :=
       {| donations := kept;
          overall_total :=
            {| overall_amount := roundToTwoDecimals (overall_amount (filteredTotal kept));
               donation_count := donation_count (filteredTotal kept) |} |};
     metadata_lastUpdated := toISOString nowMeta |}.

(** What the StreamElements mode sends when local donations are used: the
    polled data with the local donors of the period appended and the totals
    raised.  This is the payload only: [pollFunction] writes these values
    into the object [pollStreamElements] returned, which the store in memory
    still holds, and that effect on the store is not part of this
    definition. *)
Definition withLocalDonors (polled : ProcessedStreamElementsData num)
    (ledger : LocalDonationData num) (summary : option SummaryType) (now : Z)
    : ProcessedStreamElementsData num :=
  let kept := filteredDonations (isInSummaryPeriod now summary)
                                (donations (data ledger)) in
  {| current :=
       {| donations := donations (current polled) ++ kept;
          overall_total :=
            {| overall_amount :=
                 roundToTwoDecimals
                   (overall_amount (overall_total (current polled))
                    + overall_amount (filteredTotal kept));
               donation_count :=
                 donation_count (overall_total (current polled))
                 + donation_count (filteredTotal kept) |} |};
     se_month := se_month polled;
     se_year := se_year polled;
     se_lastUpdated := se_lastUpdated polled |}.

(** The donations of a list of donors, in order. *)
Definition allDonations (donors : list (DonationData num))
    : list (IndividualDonation num) :=
  flat_map (@individual_donations num) donors.

End LocalPayload.

(** ** A sample run of the manager effect *)

Module EffectSamples.

(** The readings of the clock of one run of the manager effect, half a
    minute after the last donation of the sample ledger. *)
Definition effectClock : EffectClock :=
  {| at_init := 1793527250000; at_donation := 1793527250000;
     at_meta := 1793527250001; at_entry := 1793527250002;
     at_month := 1793527250003; at_year := 1793527250003;
     at_updated := 1793527250004 |}.

(** A poll on Monday 2026-11-02 at 15:00 UTC that the platform answers with
    the session of that week. *)
Definition weekPoll : PollInput float :=
  {| poll_start := MoreSamples.mondayAfternoon;
     poll_resetResponse := HttpOk tt;
     poll_resetRecorded := MoreSamples.mondayAfternoon + 350;
     poll_session := HttpOk MoreSamples.weekSession;
     poll_now := MoreSamples.mondayAfternoon + 700;
     poll_sync := MoreSamples.mondayAfternoon + 701;
     poll_updated := MoreSamples.mondayAfternoon + 702 |}.

End EffectSamples.

(** ** A session whose StreamElements data was reset *)

Module ResetSamples.
Local Open Scope string_scope.

(** The fresh session after [resetStreamElementsData], an hour before
    Wednesday noon. *)
Definition clearedSession : Store float :=
  snd (resetStreamElementsData (Some Samples.freshSession)
         1793790000000 1793790000000 1793790000000 1793790000000 1793790000001).

End ResetSamples.

(** ** A sample session in exact arithmetic *)

Module ExactSessionSamples.
Local Open Scope string_scope.

Definition config : StreamElementsConfig Qc :=
  {| value_prime := Exact.cents 250; value_tier1 := Exact.cents 250;
     value_tier2 := Exact.cents 500; value_tier3 := Exact.cents 1250;
     bitsValue := Exact.cents 1; summaryType := Some Weekly |}.

(** In the week of Monday 2026-11-02 Ada subscribed at tier 2 and tipped
    3.333, and Dee cheered 250 bits and tipped 1.50. *)
Definition session : SessionData Qc :=
  {| subscriber_recent :=
       Some [{| sub_name := "Ada"; sub_tier := "2000";
                sub_createdAt := "2026-11-02T09:00:00.000Z" |}];
     subscriber_gifted_latest := None;
     cheer_recent :=
       Some [{| event_name := "Dee"; event_amount := Q2Qc 250;
                event_createdAt := "2026-11-02T11:00:00.000Z" |}];
     tip_recent :=
       Some [{| event_name := "ada"; event_amount := Q2Qc (3333 # 1000);
                event_createdAt := "2026-11-02T12:00:00.000Z" |};
             {| event_name := "Dee"; event_amount := Exact.cents 150;
                event_createdAt := "2026-11-02T13:00:00.000Z" |}];
     cheer_goal := None; subscriber_goal := None; tip_goal := None |}.

End ExactSessionSamples.

(** ** Data that agree field by field *)

Section Alike.
Context {num : Type} `{JsNumber num} `{JsHost}.
Local Open Scope num_scope.

(** [x === y] *)
Definition alikeNumber (x y : num) : Prop := (x === y) = true.

(** The same string, or two strings that read as dates of one instant. *)
Definition alikeText (a b : string) : Prop :=
  a = b \/ exists t, getTime a = Some t /\ getTime b = Some t.

(** A property that both have, with values that agree, or that both lack. *)
Definition alikeOptional {A : Type} (same : A -> A -> Prop) (a b : option A) : Prop :=
  match a, b with
  | Some x, Some y => same x y
  | None, None => True
  | _, _ => False
  end.

Definition alikeDonation (a b : IndividualDonation num) : Prop :=
  alikeNumber (amount a) (amount b)
  /\ alikeText (timestamp a) (timestamp b)
  /\ alikeOptional (fun s t => alikeText (donationTypeName s) (donationTypeName t))
                  (donationType a) (donationType b)
  /\ alikeOptional alikeText (subTier a) (subTier b).

Definition alikeDonor (a b : DonationData num) : Prop :=
  alikeText (name a) (name b)
  /\ Forall2 alikeDonation (individual_donations a) (individual_donations b)
  /\ alikeNumber (total_amount a) (total_amount b)
  /\ alikeNumber (num_lit (total_donations a)) (num_lit (total_donations b)).

(** As many donors, pairwise the same in order, and the same totals. *)
Definition alikeProcessed (a b : ProcessedData num) : Prop :=
  Forall2 alikeDonor (donations a) (donations b)
  /\ alikeNumber (overall_amount (overall_total a)) (overall_amount (overall_total b))
  /\ alikeNumber (num_lit (donation_count (overall_total a)))
                (num_lit (donation_count (overall_total b))).

Definition alikeStreamElements (a b : ProcessedStreamElementsData num) : Prop :=
  alikeProcessed (current a) (current b)
  /\ alikeNumber (num_lit (se_month a)) (num_lit (se_month b))
  /\ alikeNumber (num_lit (se_year a)) (num_lit (se_year b))
  /\ alikeText (se_lastUpdated a) (se_lastUpdated b).

Definition alikeExtraLifeDonation (a b : ExtraLifeDonation num) : Prop :=
  alikeNumber (el_amount a) (el_amount b)
  /\ alikeText (displayName a) (displayName b)
  /\ alikeText (message a) (message b)
  /\ alikeText (donationID a) (donationID b)
  /\ alikeText (createdDateUTC a) (createdDateUTC b)
  /\ alikeText (eventID a) (eventID b).

Definition alikeExtraLife (a b : ProcessedExtraLifeData num) : Prop :=
  alikeNumber (sumDonations a) (sumDonations b)
  /\ alikeNumber (fundraisingGoal a) (fundraisingGoal b)
  /\ Forall2 alikeExtraLifeDonation (el_donations a) (el_donations b)
  /\ alikeText (el_lastUpdated a) (el_lastUpdated b)
  /\ alikeText (el_participantId a) (el_participantId b)
  /\ alikeText (el_eventID a) (el_eventID b)
  /\ alikeOptional (Forall2 alikeExtraLifeDonation) (newDonations a) (newDonations b).

(** The data of one source, alike field by field. *)
Definition alikePayload (a b : Payload num) : Prop :=
  match a, b with
  | OfStreamElements x, OfStreamElements y => alikeStreamElements x y
  | OfExtraLife x, OfExtraLife y => alikeExtraLife x y
  | _, _ => False
  end.

End Alike.

(** ** The replace variables of [variables/goal-variables.ts] *)

From Stdlib Require DecimalPos.

(** What the variables ask of numbers to display them. *)
Class JsDisplay (num : Type) `{JsNumber num} : Type := {
  (** [Math.round(x)] *)
  num_round : num -> num;
  (** [Math.min(a, b)] *)
  num_min : num -> num -> num;
  (** the number inside a template string *)
  num_toString : num -> string
}.

Arguments JsDisplay num {_}.

(** What an evaluator returns: a text or, from the unit conversions of the
    time display, a whole number, with [None] for the not-a-number. *)
Inductive Output : Type :=
| Text (s : string)
| Count (n : option Z).

Section DisplayOptions.
Local Open Scope string_scope.

(** [set.has(x)] and [set.add(x)] on a [Set] of strings, kept in insertion
    order. *)
Definition has (x : string) (set : list string) : bool :=
  existsb (String.eqb x) set.

Definition setAdd (x : string) (set : list string) : list string :=
  if has x set then set else set ++ [x].

(** [new Set(items)] *)
Definition setOf (items : list string) : list string :=
  fold_left (fun set x => setAdd x set) items [].

(** [array.join(separator)] *)
Definition join (separator : string) (parts : list string) : string :=
  String.concat separator parts.

(** A whole number inside a template string, and [value.toString()]. *)
Definition showInteger (value : Z) : string :=
  NilEmpty.string_of_int (Z.to_int value).

(** [text.padStart(2, '0')] *)
Definition padStart2 (text : string) : string :=
  match String.length text with
  | 0%nat => "00"
  | 1%nat => "0" ++ text
  | _ => text
  end.

(** [currencySymbol || '$'] *)
Definition orDollar (currencySymbol : option string) : string :=
  match currencySymbol with
  | Some s => if String.eqb s "" then "$" else s
  | None => "$"
  end.

Definition timeUnitFlags : list string :=
  ["months"; "days"; "hours"; "minutes"; "seconds"].

Definition zeroPadFlags : list string :=
  ["zeroYears"; "zeroMonths"; "zeroDays"; "zeroHours"; "zeroMinutes"; "zeroSeconds"].

Definition validTimeFlags : list string := timeUnitFlags ++ zeroPadFlags.

(** *** The time of the stream

    Instants are whole milliseconds; the quotients below are those the
    program computes as long as the difference stays below 2^53. *)

(** [timeDiff]: until the start, then until the end, then since the end.
    A date that does not parse compares false with everything. *)
Definition timeDiff (now : Z) (startTime endTime : option Z) : option Z :=
  let sinceEnd := option_map (fun e => now - e)%Z endTime in
  match startTime with
  | Some s =>
      if (now <? s)%Z then Some (s - now)%Z
      else
        match endTime with
        | Some e => if (now <? e)%Z then Some (e - now)%Z else sinceEnd
        | None => sinceEnd
        end
  | None => sinceEnd
  end.

(** [Math.floor(timeDiff / unit)] *)
Definition wholeUnits (difference : option Z) (unit : Z) : option Z :=
  option_map (fun t => t / unit)%Z difference.

(** [Math.floor((timeDiff / unit) % modulus)]; the remainder has the sign of
    the difference. *)
Definition unitsWithin (t unit modulus : Z) : Z :=
  (Z.rem t (unit * modulus) / unit)%Z.

Definition msPerSecond : Z := 1000.
Definition msPerMinute : Z := 1000 * 60.
Definition msPerHour : Z := 1000 * 60 * 60.
Definition msPerMonth : Z := 1000 * 60 * 60 * 24 * 30.
Definition msPerYear : Z := 1000 * 60 * 60 * 24 * 365.

(** [formatUnit(value, unit)], with the flag of the unit spelled out. *)
Definition formatUnit (displayOpts : list string) (value : Z) (unitFlag : string)
    : string :=
  if has unitFlag displayOpts then padStart2 (showInteger value)
  else showInteger value.

(** The part of a unit, pushed when its value is above zero. *)
Definition unitPart (value : Z) (text : string) : list string :=
  if (0 <? value)%Z then [text] else [].

(** The standard time display, ["1y 2m 8d 7h 2m 6s"]. *)
Definition standardTime (displayOpts : list string) (difference : option Z) : string :=
  match difference with
  | None => "0s"
  | Some t =>
      let seconds := unitsWithin t msPerSecond 60 in
      let minutes := unitsWithin t msPerMinute 60 in
      let hours := unitsWithin t msPerHour 24 in
      let days := unitsWithin t Calendar.msPerDay 30 in
      let months := unitsWithin t msPerMonth 12 in
      let years := (t / msPerYear)%Z in
      let parts :=
        (unitPart years (formatUnit displayOpts years "zeroYears" ++ "y")
         ++ unitPart months (formatUnit displayOpts months "zeroMonths" ++ "m")
         ++ unitPart days (formatUnit displayOpts days "zeroDays" ++ "d")
         ++ unitPart hours (formatUnit displayOpts hours "zeroHours" ++ "h")
         ++ unitPart minutes (formatUnit displayOpts minutes "zeroMinutes" ++ "m")
         ++ unitPart seconds (formatUnit displayOpts seconds "zeroSeconds" ++ "s"))%list in
      match parts with
      | [] => "0s"
      | _ => join " " parts
      end
  end.

(** The timecode display, ["YY:MM:DD:HH:MM:SS"]. *)
Definition timeCode (difference : option Z) : string :=
  match difference with
  | None => "NaN:NaN:NaN:NaN:NaN:NaN"
  | Some t =>
      let two (value : Z) := padStart2 (showInteger value) in
      two (t / msPerYear)%Z ++ ":" ++ two (unitsWithin t msPerMonth 12)
      ++ ":" ++ two (unitsWithin t Calendar.msPerDay 30)
      ++ ":" ++ two (unitsWithin t msPerHour 24)
      ++ ":" ++ two (unitsWithin t msPerMinute 60)
      ++ ":" ++ two (unitsWithin t msPerSecond 60)
  end.

(** One unit of the formatted display: ["1 hour"], ["2 hours"]. *)
Definition countedUnit (value : Z) (singular plural : string) : list string :=
  unitPart value
    (showInteger value ++ " " ++ (if (value =? 1)%Z then singular else plural)).

(** The formatted time display, ["36 hours, 12 minutes, 30 seconds"]. *)
Definition timeFormatted (difference : option Z) : string :=
  match difference with
  | None => "0 seconds"
  | Some t =>
      let parts :=
        (countedUnit (t / msPerYear)%Z "year" "years"
         ++ countedUnit (unitsWithin t msPerMonth 12) "month" "months"
         ++ countedUnit (unitsWithin t Calendar.msPerDay 30) "day" "days"
         ++ countedUnit (unitsWithin t msPerHour 24) "hour" "hours"
         ++ countedUnit (unitsWithin t msPerMinute 60) "minute" "minutes"
         ++ countedUnit (unitsWithin t msPerSecond 60) "second" "seconds")%list in
      match parts with
      | [] => "0 seconds"
      | _ => join ", " parts
      end
  end.

(** *** Ranges of milestones *)

Definition isDigit (c : ascii) : bool :=
  let n := nat_of_ascii c in ((48 <=? n) && (n <=? 57))%nat.

(** The digits a string starts with, and what follows them. *)
Fixpoint leadingDigits (s : string) : list ascii * string :=
  match s with
  | String c rest =>
      if isDigit c then
        let '(digits, tail) := leadingDigits rest in (c :: digits, tail)
      else ([], s)
  | EmptyString => ([], s)
  end.

(** [parseInt(digits)] *)
Definition parseInt (digits : list ascii) : Z :=
  fold_left (fun value c => 10 * value + (Z.of_nat (nat_of_ascii c) - 48))%Z digits 0%Z.

(** [param.match(/^(\d+)-(\d+)$/)], with both numbers read. *)
Definition matchRange (param : string) : option (Z * Z) :=
  match leadingDigits param with
  | (c :: first, String "-" rest) =>
      match leadingDigits rest with
      | (d :: second, EmptyString) => Some (parseInt (c :: first), parseInt (d :: second))
      | _ => None
      end
  | _ => None
  end.

(** [array.slice(from, to)] for [0 <= from]. *)
Definition slice {A : Type} (items : list A) (from to : Z) : list A :=
  firstn (Z.to_nat (to - from)) (skipn (Z.to_nat from) items).

End DisplayOptions.

Section Variables.
Context {num : Type} `{JsDisplay num} `{JsHost}.
Local Open Scope num_scope.
Local Open Scope string_scope.

(** A milestone of [config.content.milestones]. *)
Record Milestone : Type := {
  title : string;
  milestone_amount : num
}.

(** What the variables read of the configuration besides what the manager
    reads: the stream's dates, the source switches, the milestones (when the
    property is set) and the currency symbols, [info_currencySymbol] at
    [content.templates.donations] and [milestone_currencySymbol] at
    [content.templates.default.donations]. *)
Record VariableConfig : Type := {
  startDate : string;
  startTime : string;
  endDate : string;
  endTime : string;
  sources : SourceSwitches;
  useMilestonesAsGoals : bool;
  milestones : option (list Milestone);
  info_currencySymbol : option string;
  milestone_currencySymbol : option string
}.

(** The difference the time displays show, with the clock at [now]. *)
Definition streamTimeDiff (display : VariableConfig) (now : Z) : option Z :=
  timeDiff now (getTime (startDate display ++ " " ++ startTime display))
           (getTime (endDate display ++ " " ++ endTime display)).

(** The amount collected so far, from the source that is switched on. *)
Definition currentAmountOf (db : Store num) (display : VariableConfig) : num :=
  if useExtraLife (sources display) then
    match getExtraLifeData db with
    | Some d => or_else (sumDonations d) (num_lit 0)
    | None => num_lit 0
    end
  else if useStreamElements (sources display) then
    match getStreamElementsData db with
    | Some d => or_else (overall_amount (overall_total (current d))) (num_lit 0)
    | None => num_lit 0
    end
  else
    match getLocalDonations db with
    | Some l => or_else (overall_amount (overall_total (data l))) (num_lit 0)
    | None => num_lit 0
    end.

(** The goal the progress is measured against. *)
Definition goalAmountOf (db : Store num) (c : GoalTrackerConfig num)
    (display : VariableConfig) (currentAmount : num) : num :=
  if useExtraLife (sources display) then
    match getExtraLifeData db with
    | Some d => or_else (fundraisingGoal d) (donationGoal c)
    | None => donationGoal c
    end
  else
    match milestones display with
    | Some (first :: rest) =>
        if useMilestonesAsGoals display then
          match find (fun m => num_gt (milestone_amount m) currentAmount)
                     (first :: rest) with
          | Some nextMilestone => or_else (milestone_amount nextMilestone) (donationGoal c)
          | None => donationGoal c
          end
        else donationGoal c
    | _ => donationGoal c
    end.

(** The evaluator of [goalInfo], with the clock at [now]; [display] is read
    when the stored document has a configuration. *)
Definition goalInfo (db : Store num) (display : VariableConfig)
    (params : list string) (now : Z) : Output :=
  match getGoalData db with
  | None => Text "0"
  | Some goalState =>
      let currencySymbol :=
        match config goalState with
        | Some _ => orDollar (info_currencySymbol display)
        | None => "$"
        end in
      let displayOpts :=
        setOf (filter (fun opt => negb (String.eqb opt ""))
                      (map toLowerCase params)) in
      if has "timeCode" displayOpts && (1 <? List.length displayOpts)%nat then
        Text "Timecode display cannot be combined with other options"
      else if has "time" displayOpts then
        let invalidFlags :=
          filter (fun opt => negb (String.eqb opt "time")
                             && negb (existsb (String.eqb opt) validTimeFlags))
                 displayOpts in
        if (0 <? List.length invalidFlags)%nat then
          Text "Time display can only be combined with unit conversion or zero-padding options"
        else
          let hasUnitFlag := existsb (fun flag => has flag displayOpts) timeUnitFlags in
          let hasZeroFlag := existsb (fun flag => has flag displayOpts) zeroPadFlags in
          if hasUnitFlag && hasZeroFlag then
            Text "Cannot combine unit conversion with zero-padding options"
          else
            match config goalState with
            | None => Text "0"
            | Some _ =>
                let difference := streamTimeDiff display now in
                if hasUnitFlag && has "months" displayOpts then
                  Count (wholeUnits difference msPerMonth)
                else if hasUnitFlag && has "days" displayOpts then
                  Count (wholeUnits difference Calendar.msPerDay)
                else if hasUnitFlag && has "hours" displayOpts then
                  Count (wholeUnits difference msPerHour)
                else if hasUnitFlag && has "minutes" displayOpts then
                  Count (wholeUnits difference msPerMinute)
                else if hasUnitFlag && has "seconds" displayOpts then
                  Count (wholeUnits difference msPerSecond)
                else Text (standardTime displayOpts difference)
            end
      else
        match config goalState with
        | None => Text "0"
        | Some c =>
            if has "timeCode" displayOpts then
              Text (timeCode (streamTimeDiff display now))
            else if has "timeFormatted" displayOpts then
              Text (timeFormatted (streamTimeDiff display now))
            else
              let shown :=
                if negb (has "time" displayOpts)
                   && (List.length displayOpts =? 0)%nat
                then setAdd "percent" (setAdd "goal" (setAdd "amount" displayOpts))
                else displayOpts in
              let currentAmount := currentAmountOf db display in
              let goal := goalAmountOf db c display currentAmount in
              let percentage :=
                if num_gt goal (num_lit 0)
                then num_round (currentAmount / goal * num_lit 100)
                else num_lit 0 in
              let amountText := currencySymbol ++ num_toString currentAmount in
              let goalText := currencySymbol ++ num_toString goal in
              let percentText := "(" ++ num_toString percentage ++ "%)" in
              if (List.length shown =? 1)%nat && has "amount" shown then Text amountText
              else if (List.length shown =? 1)%nat && has "goal" shown then Text goalText
              else if (List.length shown =? 1)%nat && has "percent" shown then
                Text (num_toString percentage ++ "%")
              else
                Text (join "/"
                        ((if has "amount" shown then [amountText] else [])
                         ++ (if has "goal" shown then [goalText] else [])
                         ++ (if has "percent" shown then [percentText] else []))%list)
        end
  end.

(** [formatMilestoneDisplay(milestone, currentAmt)] *)
Definition formatMilestoneDisplay (currencySymbol : string)
    (displayOpts : list string) (milestone : Milestone) (currentAmt : num) : string :=
  let percent :=
    num_min (num_round (currentAmt / milestone_amount milestone * num_lit 100))
            (num_lit 100) in
  let amountText := currencySymbol ++ num_toString currentAmt in
  let goalText := currencySymbol ++ num_toString (milestone_amount milestone) in
  let percentText := "(" ++ num_toString percent ++ "%)" in
  let amountParts :=
    ((if has "amount" displayOpts then [amountText] else [])
     ++ (if has "goal" displayOpts then [goalText] else []))%list in
  join ": "
    ((if has "name" displayOpts then [title milestone] else [])
     ++ match amountParts with
        | [] => []
        | _ => [join "/" amountParts]
        end
     ++ (if has "percent" displayOpts then [percentText] else []))%list.

(** The display options and the range the parameters give: a parameter of
    the form [a-b] sets the range to the indices [a - 1] and [b - 1], any
    other is a display option. *)
Definition readParameters (params : list string)
    : list string * option (Z * Z) :=
  fold_left
    (fun '(displayOpts, range) param =>
       match matchRange param with
       | Some (a, b) => (displayOpts, Some (a - 1, b - 1)%Z)
       | None => (setAdd (toLowerCase param) displayOpts, range)
       end)
    params ([], None).

(** The display options in force: everything is shown when none is given
    or the only one given is [all], [next] or [previous]. *)
Definition milestoneOptions (given : list string) : list string :=
  if (List.length given =? 0)%nat
     || ((List.length given =? 1)%nat
         && (has "all" given || has "next" given || has "previous" given))
  then setAdd "percent" (setAdd "goal" (setAdd "amount" (setAdd "name" given)))
  else given.

(** The evaluator of [goalMilestones]. *)
Definition goalMilestones (db : Store num) (display : VariableConfig)
    (params : list string) : string :=
  match getGoalData db with
  | None => "No milestones configured"
  | Some goalState =>
      match config goalState, milestones display with
      | Some _, Some allMilestones =>
          let currencySymbol := orDollar (milestone_currencySymbol display) in
          let '(given, range) := readParameters params in
          let displayOpts := milestoneOptions given in
          let currentAmount := currentAmountOf db display in
          let shown (m : Milestone) :=
            formatMilestoneDisplay currencySymbol displayOpts m currentAmount in
          match range with
          | Some (rangeStart, rangeEnd) =>
              if (rangeStart <? 0)%Z
                 || (Z.of_nat (List.length allMilestones) <=? rangeEnd)%Z
                 || (rangeEnd <? rangeStart)%Z
              then "Invalid milestone range"
              else join " | " (map shown (slice allMilestones rangeStart (rangeEnd + 1)))
          | None =>
              let exclusiveOpts :=
                filter (fun opt => has opt displayOpts) ["all"; "next"; "previous"] in
              if (1 <? List.length exclusiveOpts)%nat then
                "Cannot combine all, next, or previous options"
              else if has "all" displayOpts then
                join " | " (map shown allMilestones)
              else
                let currentIndex :=
                  findIndex (fun m => num_le currentAmount (milestone_amount m))
                            allMilestones in
                if has "next" displayOpts then
                  match currentIndex with
                  | Some i =>
                      match nth_error allMilestones (S i) with
                      | Some nextMilestone => shown nextMilestone
                      | None => "No more milestones"
                      end
                  | None => "No more milestones"
                  end
                else if has "previous" displayOpts then
                  match currentIndex with
                  | Some (S i) =>
                      match nth_error allMilestones i with
                      | Some prevMilestone => shown prevMilestone
                      | None => "No previous milestones"
                      end
                  | _ => "No previous milestones"
                  end
                else
                  match currentIndex with
                  | Some i =>
                      match nth_error allMilestones i with
                      | Some currentMilestone => shown currentMilestone
                      | None => "No active milestone"
                      end
                  | None =>
                      match last (map Some allMilestones) None with
                      | Some currentMilestone => shown currentMilestone
                      | None => "No active milestone"
                      end
                  end
          end
      | _, _ => "No milestones configured"
      end
  end.

End Variables.

Arguments Milestone num : clear implicits.
Arguments VariableConfig num : clear implicits.

(** A host whose [toLowerCase] leaves no capital letter of the ASCII range
    behind. *)
Definition isCapital (c : ascii) : bool :=
  let n := nat_of_ascii c in ((65 <=? n) && (n <=? 90))%nat.

Fixpoint noCapitals (s : string) : bool :=
  match s with
  | EmptyString => true
  | String c rest => negb (isCapital c) && noCapitals rest
  end.

Definition lowersCapitals `{JsHost} : Prop :=
  forall s, noCapitals (toLowerCase s) = true.

(** ** Displaying exact amounts, and a sample document for the variables *)

Module ExactDisplay.
Local Open Scope string_scope.

(** The decimal places of [r / d], at most [places] of them. *)
Fixpoint decimals (places : nat) (r d : Z) : string :=
  match places with
  | O => ""
  | S rest =>
      if (r =? 0)%Z then ""
      else String (IsoHost.digit (r * 10 / d)) (decimals rest (r * 10 mod d) d)
  end.

(** An amount in decimal notation, cut after twenty places. *)
Definition toString (x : Qc) : string :=
  let n := Qnum x in
  let d := Zpos (Qden x) in
  let places := decimals 20 (Z.abs n mod d) d in
  (if (n <? 0)%Z then "-" else "")
  ++ showInteger (Z.abs n / d)
  ++ (if String.eqb places "" then "" else "." ++ places).

#[global] Instance display : JsDisplay Qc := {
  num_round x := Q2Qc (inject_Z (Qfloor (x + (1 # 2))));
  num_min a b := if Qle_bool a b then a else b;
  num_toString := toString
}.

End ExactDisplay.

Module VariableSamples.
Local Open Scope string_scope.

(** A goal of 100 tracked on the local ledger, with three milestones. *)
Definition settings : VariableConfig Qc :=
  {| startDate := "2026-11-01"; startTime := "10:00";
     endDate := "2026-11-08"; endTime := "22:00";
     sources := {| useExtraLife := false; useStreamElements := false |};
     useMilestonesAsGoals := true;
     milestones :=
       Some [{| title := "Warm-up"; milestone_amount := Exact.cents 500 |};
             {| title := "Halfway"; milestone_amount := Exact.cents 1000 |};
             {| title := "Finale"; milestone_amount := Exact.cents 1200 |}];
     info_currencySymbol := None;
     milestone_currencySymbol := None |}.

(** The sample ledger of 12.60 in a document with a configuration. *)
Definition document : GoalState Qc :=
  {| uuid := Some "goal-3"; overlayInstance := None;
     createdAt := Some "2026-11-01T09:00:00.000Z";
     updatedAt := Some "2026-11-01T10:00:10.001Z";
     config :=
       Some {| donationGoal := Q2Qc 100;
               config_streamElements := ExactSessionSamples.config;
               config_participantId := "" |};
     localDonations := getLocalDonations ExactSamples.ledgerStore;
     streamElements := None;
     extraLife := None |}.

End VariableSamples.

(** ** The ledger in whole cents, on binary64 *)

(** The donor's donations are the amounts of [cents], none of them
    negative, and the donor's totals are their sum and their number. *)
Definition donorInCents (donor : DonationData float) (cents : list Z) : Prop :=
  cents <> []
  /\ Forall (fun k => (0 <= k)%Z) cents
  /\ map (@amount float) (individual_donations donor) = map amountOfCents cents
  /\ total_amount donor = amountOfCents (sumOfCents cents)
  /\ total_donations donor = Z.of_nat (List.length cents).

(** The number of donations a book of cents lists. *)
Definition entriesOf (book : list (list Z)) : Z :=
  sumOfCents (map (fun cents => Z.of_nat (List.length cents)) book).

(** The cents a book lists, added up. *)
Definition totalOf (book : list (list Z)) : Z := sumOfCents (map sumOfCents book).

(** The ledger's donors are those of [book], donor by donor; the overall
    total is the amount of all the cents, [maxCents] at most, and the
    overall count their number. *)
Definition ledgerInCents (ledger : LocalDonationData float) (book : list (list Z))
    : Prop :=
  Forall2 donorInCents (donations (data ledger)) book
  /\ overall_amount (overall_total (data ledger)) = amountOfCents (totalOf book)
  /\ donation_count (overall_total (data ledger)) = entriesOf book
  /\ (totalOf book <= maxCents)%Z.

(** The store holds no ledger, or one in whole cents. *)
Definition storeInCents (db : Store float) (book : list (list Z)) : Prop :=
  match getLocalDonations db with
  | Some ledger => ledgerInCents ledger book
  | None => book = []
  end.

(** ** The processed session in whole cents, on binary64 *)

(** An amount that rounding brings to whole cents: a positive number below
    [2^46]. *)
Definition payable (x : float) : Prop :=
  num_gt x (num_lit 0) = true /\ (x <? 0x1p46)%float = true.

Section SessionInCents.
Context `{JsHost}.
Local Open Scope num_scope.

(** The previous data bring no donors along, stored or local: what every
    poll hands to the normaliser. *)
Definition noPreviousDonors (previousData : option (PreviousData float)) : Prop :=
  match previousData with
  | Some p => previous_donations p = None /\ previous_localDonors p = None
  | None => True
  end.

(** The events the normaliser walks, each with its instant and the value
    [addDonation] is handed: the value of the tier for a subscription, the
    bits times [bitsValue] for a cheer, the amount for a tip. *)
Definition sessionEvents (config : StreamElementsConfig float)
    (seData : SessionData float) : list (string * float) :=
  map (fun sub => (sub_createdAt sub, subscriptionValue config (sub_tier sub)))
      (orEmpty (subscriber_recent seData))
  ++ map (fun cheer => (event_createdAt cheer, event_amount cheer * bitsValue config))
         (orEmpty (cheer_recent seData))
  ++ map (fun tip => (event_createdAt tip, event_amount tip))
         (orEmpty (tip_recent seData)).

(** What an event is worth in cents: nothing outside the period. *)
Definition worth (inPeriod : string -> bool) (event : string * float) : Z :=
  if inPeriod (fst event) then centsOfAmount (snd event) else 0%Z.

(** Every event of the period is payable, and the events of the period are
    worth [maxCents] at most in all. *)
Definition sessionInCents (inPeriod : string -> bool)
    (config : StreamElementsConfig float) (seData : SessionData float) : Prop :=
  Forall (fun event => inPeriod (fst event) = true -> payable (snd event))
         (sessionEvents config seData)
  /\ (sumOfCents (map (worth inPeriod) (sessionEvents config seData)) <= maxCents)%Z.

End SessionInCents.

(** ** Rounding in binary64

    The primitive operations are specified by [SpecFloat]; what follows
    derives from that specification how far the result of an operation on
    positive normal doubles lies from the exact result. *)

Module RoundingFacts.
Import Reals Lra Rounding.
Local Open Scope R_scope.
Local Unset Implicit Arguments.

Lemma pow2_pos (e : Z) : 0 < pow2 e.
Proof. apply powerRZ_lt. lra. Qed.

Lemma pow2_add (a b : Z) : pow2 (a + b) = pow2 a * pow2 b.
Proof. apply powerRZ_add. lra. Qed.

Lemma pow2_IZR (n : Z) : (0 <= n)%Z -> pow2 n = IZR (2 ^ n).
Proof.
  intros N. unfold pow2.
  rewrite <- (Z2Nat.id n N) at 1. rewrite <- pow_powerRZ.
  rewrite pow_IZR. rewrite Z2Nat.id by exact N. reflexivity.
Qed.

Lemma pow2_le (a b : Z) : (a <= b)%Z -> pow2 a <= pow2 b.
Proof.
  intros L. pose (k := (b - a)%Z).
  assert (E : b = (a + k)%Z) by (unfold k; lia).
  rewrite E, pow2_add, (pow2_IZR k) by (unfold k; lia).
  assert (1 <= IZR (2 ^ k)).
  { apply IZR_le. apply (Z.pow_le_mono_r 2 0 k); unfold k; lia. }
  pose proof (pow2_pos a). nra.
Qed.

Lemma pow2_lt (a b : Z) : (a < b)%Z -> pow2 a < pow2 b.
Proof.
  intros L. pose (k := (b - a)%Z).
  assert (E : b = (a + k)%Z) by (unfold k; lia).
  rewrite E, pow2_add, (pow2_IZR k) by (unfold k; lia).
  assert (2 <= IZR (2 ^ k)).
  { apply IZR_le. apply (Z.pow_le_mono_r 2 1 k); unfold k; lia. }
  pose proof (pow2_pos a). nra.
Qed.

Lemma pow2_le_inv (a b : Z) : pow2 a <= pow2 b -> (a <= b)%Z.
Proof.
  intros L. destruct (Z_le_gt_dec a b) as [ | G ]; [ assumption | ].
  pose proof (pow2_lt b a ltac:(lia)). lra.
Qed.

Lemma pow2_lt_inv (a b : Z) : pow2 a < pow2 b -> (a < b)%Z.
Proof.
  intros L. destruct (Z_lt_ge_dec a b) as [ | G ]; [ assumption | ].
  pose proof (pow2_le b a ltac:(lia)). lra.
Qed.

(** The mantissa of [d] digits lies between [2^(d-1)] and [2^d]. *)
Lemma digits2_bounds (m : positive) :
  (2 ^ (Zpos (digits2_pos m) - 1) <= Zpos m < 2 ^ Zpos (digits2_pos m))%Z.
Proof.
  induction m as [ p IH | p IH | ]; cbn [digits2_pos].
  - rewrite Pos2Z.inj_succ. replace (Z.succ (Zpos (digits2_pos p)) - 1)%Z
      with (Z.succ (Zpos (digits2_pos p) - 1)) by lia.
    rewrite !Z.pow_succ_r by lia. lia.
  - rewrite Pos2Z.inj_succ. replace (Z.succ (Zpos (digits2_pos p)) - 1)%Z
      with (Z.succ (Zpos (digits2_pos p) - 1)) by lia.
    rewrite !Z.pow_succ_r by lia. lia.
  - cbn. lia.
Qed.

Lemma digits2_unique (m : positive) (k : Z) :
  (2 ^ (k - 1) <= Zpos m < 2 ^ k)%Z -> Zpos (digits2_pos m) = k.
Proof.
  intros [ L U ]. pose proof (digits2_bounds m) as [ L' U' ].
  set (d := Zpos (digits2_pos m)) in *.
  assert (0 < k)%Z.
  { destruct (Z_lt_ge_dec 0 k); [ assumption | ].
    destruct k as [ | q | q ]; cbn in U; lia. }
  assert (0 < d)%Z by (unfold d; lia).
  destruct (Z.lt_trichotomy d k) as [ Lt | [ E | Gt ] ]; [ | exact E | ].
  - assert (2 ^ d <= 2 ^ (k - 1))%Z by (apply Z.pow_le_mono_r; lia). lia.
  - assert (2 ^ k <= 2 ^ (d - 1))%Z by (apply Z.pow_le_mono_r; lia). lia.
Qed.

Lemma IZR_xO (p : positive) : IZR (Zpos p~0) = 2 * IZR (Zpos p).
Proof. rewrite Pos2Z.inj_xO, mult_IZR. reflexivity. Qed.

Lemma IZR_xI (p : positive) : IZR (Zpos p~1) = 2 * IZR (Zpos p) + 1.
Proof. rewrite Pos2Z.inj_xI, plus_IZR, mult_IZR. reflexivity. Qed.

(** One shift halves the number the record truncates. *)
Lemma shr_1_located (mrs : shr_record) (w : R) :
  Located mrs w ->
  Located (shr_1 mrs) (w / 2) /\ shr_m (shr_1 mrs) = (shr_m mrs / 2)%Z.
Proof.
  destruct mrs as [ m r s ]. unfold Located. cbn [shr_m shr_r shr_s].
  intros [ M W ].
  destruct m as [ | p | p ]; [ | | lia ].
  - cbn [shr_1 shr_m shr_r shr_s]. split; [ | reflexivity ].
    split; [ lia | ].
    destruct r, s; cbn [orb]; lra.
  - destruct p as [ p | p | ]; cbn [shr_1 shr_m shr_r shr_s].
    + split; [ | rewrite Pos2Z.inj_xI; apply Z.div_unique with 1%Z; lia ].
      split; [ lia | ]. rewrite IZR_xI in W.
      destruct r, s; cbn [orb]; lra.
    + split; [ | rewrite Pos2Z.inj_xO; apply Z.div_unique with 0%Z; lia ].
      split; [ lia | ]. rewrite IZR_xO in W.
      destruct r, s; cbn [orb]; lra.
    + split; [ | reflexivity ].
      split; [ lia | ].
      destruct r, s; cbn [orb]; lra.
Qed.

Lemma iter_shr_1_located (p : positive) :
  forall (mrs : shr_record) (w : R),
    Located mrs w ->
    Located (SpecFloat.iter_pos shr_1 p mrs) (w / IZR (2 ^ Zpos p))
    /\ shr_m (SpecFloat.iter_pos shr_1 p mrs) = (shr_m mrs / 2 ^ Zpos p)%Z.
Proof.
  induction p as [ p IH | p IH | ]; intros mrs w L; cbn [SpecFloat.iter_pos].
  - destruct (shr_1_located _ _ L) as [ L1 M1 ].
    destruct (IH _ _ L1) as [ L2 M2 ].
    destruct (IH _ _ L2) as [ L3 M3 ].
    assert (P : (0 < 2 ^ Zpos p)%Z) by (apply Z.pow_pos_nonneg; lia).
    assert (E : (2 ^ Zpos p~1 = 2 * 2 ^ Zpos p * 2 ^ Zpos p)%Z).
    { assert (Zpos p~1 = 1 + Zpos p + Zpos p)%Z as -> by lia.
      rewrite !Z.pow_add_r by lia. lia. }
    split.
    + rewrite E, !mult_IZR.
      replace (w / (2 * IZR (2 ^ Zpos p) * IZR (2 ^ Zpos p)))
        with (w / 2 / IZR (2 ^ Zpos p) / IZR (2 ^ Zpos p)); [ exact L3 | ].
      assert (0 < IZR (2 ^ Zpos p)) by (apply IZR_lt; exact P).
      field. lra.
    + rewrite M3, M2, M1, E. rewrite !Z.div_div by lia.
      f_equal. lia.
  - destruct (IH _ _ L) as [ L2 M2 ].
    destruct (IH _ _ L2) as [ L3 M3 ].
    assert (P : (0 < 2 ^ Zpos p)%Z) by (apply Z.pow_pos_nonneg; lia).
    assert (E : (2 ^ Zpos p~0 = 2 ^ Zpos p * 2 ^ Zpos p)%Z).
    { assert (Zpos p~0 = Zpos p + Zpos p)%Z as -> by lia.
      rewrite !Z.pow_add_r by lia. lia. }
    split.
    + rewrite E, !mult_IZR.
      replace (w / (IZR (2 ^ Zpos p) * IZR (2 ^ Zpos p)))
        with (w / IZR (2 ^ Zpos p) / IZR (2 ^ Zpos p)); [ exact L3 | ].
      assert (0 < IZR (2 ^ Zpos p)) by (apply IZR_lt; exact P).
      field. lra.
    + rewrite M3, M2, E. rewrite !Z.div_div by lia. reflexivity.
  - destruct (shr_1_located _ _ L) as [ L1 M1 ]. split.
    + replace (IZR (2 ^ 1)) with 2 by (cbn; lra). exact L1.
    + rewrite M1. reflexivity.
Qed.

(** [shr] by [n] places. *)
Lemma shr_located (mrs : shr_record) (e n : Z) (w : R) :
  (0 <= n)%Z -> Located mrs w ->
  snd (shr mrs e n) = (e + n)%Z
  /\ Located (fst (shr mrs e n)) (w / IZR (2 ^ n))
  /\ shr_m (fst (shr mrs e n)) = (shr_m mrs / 2 ^ n)%Z.
Proof.
  intros N L. destruct n as [ | p | p ]; [ | | lia ].
  - cbn [shr fst snd]. split; [ lia | ]. split.
    + replace (w / IZR (2 ^ 0)) with w by (cbn; lra). exact L.
    + cbn. rewrite Z.div_1_r. reflexivity.
  - cbn [shr fst snd]. split; [ reflexivity | ].
    apply iter_shr_1_located. exact L.
Qed.

(** Rounding to nearest moves by a half at most. *)
Lemma round_nearest_even_located (mrs : shr_record) (w : R) :
  Located mrs w ->
  let mr := round_nearest_even (shr_m mrs) (loc_of_shr_record mrs) in
  (shr_m mrs <= mr <= shr_m mrs + 1)%Z
  /\ - / 2 <= IZR mr - w <= / 2
  /\ IZR (shr_m mrs) <= w.
Proof.
  destruct mrs as [ m r s ]. unfold Located. cbn [shr_m shr_r shr_s].
  intros [ M W ]. cbv zeta.
  destruct r, s; cbn [loc_of_shr_record round_nearest_even shr_m].
  - split; [ lia | ]. rewrite plus_IZR. lra.
  - destruct (Z.even m).
    + split; [ lia | ]. lra.
    + split; [ lia | ]. rewrite plus_IZR. lra.
  - split; [ lia | ]. lra.
  - split; [ lia | ]. lra.
Qed.

Lemma pow2_opp (n : Z) : pow2 (- n) = / pow2 n.
Proof. unfold pow2. apply powerRZ_neg'. Qed.

Lemma pow2_53 : pow2 53 = 9007199254740992.
Proof. rewrite pow2_IZR by lia. reflexivity. Qed.

Lemma pow2_52 : pow2 52 = 4503599627370496.
Proof. rewrite pow2_IZR by lia. reflexivity. Qed.

Lemma pow2_1 : pow2 1 = 2.
Proof. rewrite pow2_IZR by lia. reflexivity. Qed.

Lemma fexp_normal (k : Z) : (-1021 <= k)%Z -> fexp prec emax k = (k - 53)%Z.
Proof. intros K. unfold fexp, emin, prec, emax. lia. Qed.

Lemma F2R_bounds (m : positive) (e : Z) :
  digits2_pos m = 53%positive -> pow2 (e + 52) <= F2R m e < pow2 (e + 53).
Proof.
  intros D. pose proof (digits2_bounds m) as [ Lo Hi ]. rewrite D in Lo, Hi.
  change (2 ^ (53 - 1))%Z with 4503599627370496%Z in Lo.
  change (2 ^ 53)%Z with 9007199254740992%Z in Hi.
  apply IZR_le in Lo. apply IZR_lt in Hi.
  unfold F2R. rewrite !pow2_add, pow2_52, pow2_53.
  pose proof (pow2_pos e). nra.
Qed.

(** The rounding step shared by the operations: a mantissa of 53 digits or
    more, standing with its location for the number [w], is rounded to a
    double within half a unit in the last place of [w * 2^ex], and to
    [w * 2^ex] itself when that is a double. *)
Lemma round_aux_correct (s : bool) (mx : positive) (ex : Z) (lx : location) (w : R) :
  (53 <= Zpos (digits2_pos mx))%Z ->
  Located (shr_record_of_loc (Zpos mx) lx) w ->
  pow2 (-1000) <= w * pow2 ex <= pow2 1000 ->
  exists m e,
    binary_round_aux prec emax s (Zpos mx) ex lx = S754_finite s m e
    /\ digits2_pos m = 53%positive
    /\ - (pow2 (-53) * (w * pow2 ex)) <= F2R m e - w * pow2 ex
       <= pow2 (-53) * (w * pow2 ex)
    /\ (Representable (w * pow2 ex) -> F2R m e = w * pow2 ex).
Proof.
  intros D L Range.
  pose proof (digits2_bounds mx) as [ Lo Hi ].
  set (d := Zpos (digits2_pos mx)) in *.
  assert (Wb : IZR (Zpos mx) <= w <= IZR (Zpos mx) + 1).
  { destruct L as [ _ L ]. destruct lx as [ | [ | | ] ]; cbn in L; lra. }
  pose proof (pow2_pos ex) as Pex.
  assert (Ed : (-1000 <= d + ex)%Z /\ (d - 1 + ex <= 1000)%Z).
  { split.
    - apply pow2_le_inv. rewrite pow2_add, (pow2_IZR d) by (unfold d; lia).
      assert (IZR (Zpos mx) + 1 <= IZR (2 ^ d)).
      { rewrite <- plus_IZR. apply IZR_le. lia. }
      assert (w * pow2 ex <= IZR (2 ^ d) * pow2 ex) by nra. lra.
    - apply pow2_le_inv.
      replace (d - 1 + ex)%Z with ((d - 1) + ex)%Z by lia.
      rewrite pow2_add, (pow2_IZR (d - 1)) by (unfold d; lia).
      assert (IZR (2 ^ (d - 1)) <= IZR (Zpos mx)) by (apply IZR_le; lia).
      assert (IZR (2 ^ (d - 1)) * pow2 ex <= w * pow2 ex) by nra. lra. }
  destruct Ed as [ Ed1 Ed2 ].
  set (n := (d - 53)%Z).
  assert (N : (0 <= n)%Z) by (unfold n; lia).
  unfold binary_round_aux, shr_fexp.
  assert (F1 : (fexp prec emax (Zdigits2 (Zpos mx) + ex) - ex = n)%Z).
  { cbn [Zdigits2]. fold d. rewrite fexp_normal by lia. unfold n. lia. }
  rewrite F1.
  destruct (shr_located (shr_record_of_loc (Zpos mx) lx) ex n w N L)
    as (E1 & L1 & M1).
  destruct (shr (shr_record_of_loc (Zpos mx) lx) ex n) as [ mrs1 e1 ].
  cbn [fst snd] in E1, L1, M1. subst e1.
  assert (Sm : shr_m (shr_record_of_loc (Zpos mx) lx) = Zpos mx)
    by (destruct lx as [ | [ | | ] ]; reflexivity).
  rewrite Sm in M1.
  pose proof (round_nearest_even_located mrs1 _ L1) as (Rb & Re & Rw).
  cbv zeta in Rb, Re.
  set (mr := round_nearest_even (shr_m mrs1) (loc_of_shr_record mrs1)) in *.
  assert (Pn : (0 < 2 ^ n)%Z) by (apply Z.pow_pos_nonneg; lia).
  assert (M52 : (2 ^ 52 <= shr_m mrs1 < 2 ^ 53)%Z).
  { rewrite M1. split.
    - apply Z.div_le_lower_bound; [ exact Pn | ].
      rewrite Z.mul_comm, <- Z.pow_add_r by lia.
      replace (52 + n)%Z with (d - 1)%Z by (unfold n; lia). exact Lo.
    - apply Z.div_lt_upper_bound; [ exact Pn | ].
      rewrite Z.mul_comm, <- Z.pow_add_r by lia.
      replace (53 + n)%Z with d by (unfold n; lia). exact Hi. }
  set (P := pow2 (ex + n)).
  assert (PP : 0 < P) by apply pow2_pos.
  assert (Pe : P = pow2 ex * IZR (2 ^ n)).
  { unfold P. rewrite pow2_add, (pow2_IZR n) by exact N. reflexivity. }
  assert (In : 0 < IZR (2 ^ n)) by (apply IZR_lt; exact Pn).
  assert (T : w * pow2 ex = (w / IZR (2 ^ n)) * P).
  { rewrite Pe. field. lra. }
  set (w1 := w / IZR (2 ^ n)) in *.
  assert (T52 : IZR (2 ^ 52) <= w1).
  { apply Rle_trans with (IZR (shr_m mrs1)); [ apply IZR_le; lia | exact Rw ]. }
  change (2 ^ 52)%Z with 4503599627370496%Z in T52.
  assert (U : pow2 (-53) = / 9007199254740992).
  { exact (eq_trans (pow2_opp 53) (f_equal Rinv pow2_53)). }
  assert (Err : - (pow2 (-53) * (w * pow2 ex)) <= IZR mr * P - w * pow2 ex
                <= pow2 (-53) * (w * pow2 ex)).
  { rewrite T, U. nra. }
  assert (Exact : Representable (w * pow2 ex) -> IZR mr * P = w * pow2 ex).
  { intros (m' & e' & D' & K).
    pose proof (F2R_bounds m' e' D') as [ _ Up ]. rewrite <- K in Up.
    assert (Ee : (ex + n <= e')%Z).
    { assert (Lw : pow2 (d - 1 + ex) <= w * pow2 ex).
      { rewrite pow2_add, (pow2_IZR (d - 1)) by (unfold d; lia).
        assert (IZR (2 ^ (d - 1)) <= IZR (Zpos mx)) by (apply IZR_le; lia).
        nra. }
      assert (d - 1 + ex < e' + 53)%Z by (apply pow2_lt_inv; lra).
      unfold n. lia. }
    set (k := (Zpos m' * 2 ^ (e' - (ex + n)))%Z).
    assert (K' : w * pow2 ex = IZR k * P).
    { rewrite K. unfold F2R, k, P. rewrite mult_IZR.
      rewrite <- (pow2_IZR (e' - (ex + n))) by lia.
      rewrite Rmult_assoc, <- pow2_add. f_equal. f_equal. lia. }
    clear K. rename K' into K. rewrite T in K.
    assert (W1 : w1 = IZR k) by nra.
    rewrite W1 in Re. rewrite <- minus_IZR in Re.
    assert (mr - k = 0)%Z.
    { assert (-1 < mr - k < 1)%Z; [ | lia ].
      split; apply lt_IZR; lra. }
    rewrite T, W1. f_equal. f_equal. lia. }
  destruct (Z_lt_ge_dec mr (2 ^ 53)) as [ Small | Carry ].
  - destruct mr as [ | pm | pm ] eqn:Emr; [ lia | | lia ].
    assert (Dm : Zpos (digits2_pos pm) = 53%Z).
    { apply digits2_unique. change (53 - 1)%Z with 52%Z. lia. }
    assert (F2 : (fexp prec emax (Zdigits2 (Zpos pm) + (ex + n)) - (ex + n) = 0)%Z).
    { cbn [Zdigits2]. rewrite Dm, fexp_normal by (unfold n; lia). lia. }
    rewrite F2. cbn [shr shr_record_of_loc shr_m].
    assert (Le : (ex + n <=? emax - prec)%Z = true).
    { apply Z.leb_le. unfold emax, prec, n. lia. }
    rewrite Le. exists pm, (ex + n)%Z.
    split; [ reflexivity | ]. split; [ congruence | ].
    unfold F2R. fold P. split; [ exact Err | exact Exact ].
  - assert (Emr : mr = 9007199254740992%Z).
    { change (2 ^ 53)%Z with 9007199254740992%Z in *. lia. }
    rewrite Emr in *.
    assert (F2 : (fexp prec emax (Zdigits2 9007199254740992 + (ex + n)) - (ex + n) = 1)%Z).
    { change (Zdigits2 9007199254740992) with 54%Z.
      rewrite fexp_normal by (unfold n; lia). lia. }
    rewrite F2.
    change (shr (shr_record_of_loc 9007199254740992 loc_Exact) (ex + n) 1)
      with ({| shr_m := 4503599627370496; shr_r := false; shr_s := false |},
            (ex + n + 1)%Z).
    cbn [shr_m].
    assert (Le : (ex + n + 1 <=? emax - prec)%Z = true).
    { apply Z.leb_le. unfold emax, prec, n. lia. }
    rewrite Le. exists 4503599627370496%positive, (ex + n + 1)%Z.
    split; [ reflexivity | ]. split; [ reflexivity | ].
    assert (V : F2R 4503599627370496 (ex + n + 1) = 9007199254740992 * P).
    { unfold F2R. rewrite pow2_add, pow2_1. fold P. lra. }
    rewrite V. split; [ exact Err | exact Exact ].
Qed.

Lemma digits2_large (m : positive) :
  (2 ^ 52 <= Zpos m)%Z -> (53 <= Zpos (digits2_pos m))%Z.
Proof.
  intros L. pose proof (digits2_bounds m) as [ _ Hi ].
  assert (52 < Zpos (digits2_pos m))%Z; [ | lia ].
  apply (Z.pow_lt_mono_r_iff 2); lia.
Qed.

Lemma digits2_53 (m : positive) :
  digits2_pos m = 53%positive -> (2 ^ 52 <= Zpos m < 2 ^ 53)%Z.
Proof.
  intros D. pose proof (digits2_bounds m) as B. rewrite D in B. exact B.
Qed.



Lemma Located_exact (m : Z) : (0 <= m)%Z -> Located (shr_record_of_loc m loc_Exact) (IZR m).
Proof. intros M. split; [ exact M | reflexivity ]. Qed.

(** The product of two doubles, as [*] computes it. *)
Lemma mul_correct (f g : float) (x y : R) :
  Represents f x -> Represents g y ->
  pow2 (-1000) <= x * y <= pow2 1000 ->
  exists z,
    Represents (f * g)%float z
    /\ - (pow2 (-53) * (x * y)) <= z - x * y <= pow2 (-53) * (x * y)
    /\ (Representable (x * y) -> z = x * y).
Proof.
  intros (mx & ex & Pf & Df & Xf) (my & ey & Pg & Dg & Xg) Range.
  pose proof (digits2_53 mx Df) as Bx. pose proof (digits2_53 my Dg) as By.
  assert (T : IZR (Zpos (mx * my)) * pow2 (ex + ey) = x * y).
  { rewrite Xf, Xg. unfold F2R. rewrite Pos2Z.inj_mul, mult_IZR, pow2_add. ring. }
  rewrite <- T in Range.
  destruct (round_aux_correct false (mx * my) (ex + ey) loc_Exact
              (IZR (Zpos (mx * my))))
    as (m & e & Round & D & Err & Exact).
  - apply digits2_large. rewrite Pos2Z.inj_mul.
    change (2 ^ 52)%Z with (1 * 2 ^ 52)%Z. apply Z.mul_le_mono_nonneg; lia.
  - apply Located_exact. lia.
  - exact Range.
  - exists (F2R m e). rewrite T in Err, Exact. split; [ | split; assumption ].
    exists m, e. split; [ | split; [ exact D | reflexivity ] ].
    rewrite mul_spec, Pf, Pg. exact Round.
Qed.

Lemma shl_align_fst (mx : positive) (ex ez : Z) :
  (ez <= ex)%Z ->
  Zpos (fst (shl_align mx ex ez)) = (Zpos mx * 2 ^ (ex - ez))%Z.
Proof.
  intros L. unfold shl_align.
  destruct (ez - ex)%Z as [ | p | p ] eqn:E; [ | lia | ].
  - cbn [fst]. replace (ex - ez)%Z with 0%Z by lia. lia.
  - cbn [fst]. replace (ex - ez)%Z with (Zpos p) by lia.
    change (Pos.iter xO mx p) with (shift_pos p mx).
    rewrite shift_pos_correct. rewrite Zpower_pos_nat, Zpower_nat_Z.
    rewrite positive_nat_Z. lia.
Qed.

(** The sum of two doubles, as [+] computes it. *)
Lemma add_correct (f g : float) (x y : R) :
  Represents f x -> Represents g y ->
  pow2 (-1000) <= x + y <= pow2 1000 ->
  exists z,
    Represents (f + g)%float z
    /\ - (pow2 (-53) * (x + y)) <= z - (x + y) <= pow2 (-53) * (x + y)
    /\ (Representable (x + y) -> z = x + y).
Proof.
  intros (mx & ex & Pf & Df & Xf) (my & ey & Pg & Dg & Xg) Range.
  pose proof (digits2_53 mx Df) as Bx. pose proof (digits2_53 my Dg) as By.
  set (ez := Z.min ex ey).
  assert (Ax := shl_align_fst mx ex ez ltac:(unfold ez; lia)).
  assert (Ay := shl_align_fst my ey ez ltac:(unfold ez; lia)).
  set (ax := fst (shl_align mx ex ez)) in *.
  set (ay := fst (shl_align my ey ez)) in *.
  assert (Px : (1 <= 2 ^ (ex - ez))%Z)
    by (apply (Z.pow_le_mono_r 2 0); unfold ez; lia).
  assert (Py : (1 <= 2 ^ (ey - ez))%Z)
    by (apply (Z.pow_le_mono_r 2 0); unfold ez; lia).
  assert (T : IZR (Zpos (ax + ay)) * pow2 ez = x + y).
  { rewrite Pos2Z.inj_add, plus_IZR, Ax, Ay, !mult_IZR.
    rewrite <- !pow2_IZR by (unfold ez; lia).
    rewrite Xf, Xg. unfold F2R.
    replace (pow2 ex) with (pow2 (ex - ez) * pow2 ez)
      by (rewrite <- pow2_add; f_equal; lia).
    replace (pow2 ey) with (pow2 (ey - ez) * pow2 ez)
      by (rewrite <- pow2_add; f_equal; lia).
    ring. }
  rewrite <- T in Range.
  assert (Dz : (53 <= Zpos (digits2_pos (ax + ay)))%Z).
  { apply digits2_large. rewrite Pos2Z.inj_add, Ax. nia. }
  destruct (round_aux_correct false (ax + ay) ez loc_Exact (IZR (Zpos (ax + ay))))
    as (m & e & Round & D & Err & Exact).
  - exact Dz.
  - apply Located_exact. lia.
  - exact Range.
  - exists (F2R m e). rewrite T in Err, Exact. split; [ | split; assumption ].
    exists m, e. split; [ | split; [ exact D | reflexivity ] ].
    rewrite add_spec, Pf, Pg. unfold SF64add, SFadd. fold ez. fold ax. fold ay.
    cbn [cond_Zopp Z.add binary_normalize]. unfold binary_round.
    unfold shl_align at 1.
    destruct (fexp prec emax (Zpos (digits2_pos (ax + ay)) + ez) - ez)%Z
      as [ | p | p ] eqn:E; [ exact Round | exact Round | ].
    exfalso. unfold fexp, prec in E. lia.
Qed.

(** Where the remainder of a division puts the quotient. *)
Lemma new_location_located (n q r : Z) :
  (0 < n)%Z -> (0 <= r < n)%Z -> (0 <= q)%Z ->
  Located (shr_record_of_loc q (new_location n r)) (IZR q + IZR r / IZR n).
Proof.
  intros N Rr Q.
  assert (In : 0 < IZR n) by (apply IZR_lt; exact N).
  set (t := IZR r / IZR n).
  assert (Tn : t * IZR n = IZR r) by (unfold t; field; lra).
  assert (R0 : 0 <= IZR r) by (apply IZR_le; lia).
  assert (Rn : IZR r < IZR n) by (apply IZR_lt; lia).
  unfold new_location, new_location_even, new_location_odd.
  destruct (Z.even n).
  - destruct (Z.eqb_spec r 0) as [ -> | NZ ].
    + split; [ exact Q | ]. cbn. unfold t. rewrite Rdiv_0_l. lra.
    + destruct (Z.compare_spec (2 * r) n) as [ E | L | G ].
      * split; [ exact Q | ]. cbn.
        assert (2 * IZR r = IZR n) by (rewrite <- E, mult_IZR; reflexivity). nra.
      * split; [ exact Q | ]. cbn.
        assert (2 * IZR r < IZR n) by (rewrite <- mult_IZR; apply IZR_lt; exact L).
        nra.
      * split; [ exact Q | ]. cbn.
        assert (IZR n < 2 * IZR r) by (rewrite <- mult_IZR; apply IZR_lt; exact G).
        nra.
  - destruct (Z.eqb_spec r 0) as [ -> | NZ ].
    + split; [ exact Q | ]. cbn. unfold t. rewrite Rdiv_0_l. lra.
    + assert (C : 2 * IZR r + 1 = IZR (2 * r + 1))
        by (rewrite plus_IZR, mult_IZR; reflexivity).
      destruct (Z.compare_spec (2 * r + 1) n) as [ E | L | G ].
      * split; [ exact Q | ]. cbn.
        assert (2 * IZR r + 1 = IZR n) by (rewrite C, E; reflexivity). nra.
      * split; [ exact Q | ]. cbn.
        assert (2 * IZR r + 1 < IZR n) by (rewrite C; apply IZR_lt; exact L).
        nra.
      * split; [ exact Q | ]. cbn.
        assert (IZR n <= 2 * IZR r) by (rewrite <- mult_IZR; apply IZR_le; lia).
        nra.
Qed.

(** The quotient of two doubles, as [/] computes it. *)
Lemma div_correct (f g : float) (x y : R) :
  Represents f x -> Represents g y ->
  pow2 (-1000) <= x / y <= pow2 1000 ->
  exists z,
    Represents (f / g)%float z
    /\ - (pow2 (-53) * (x / y)) <= z - x / y <= pow2 (-53) * (x / y)
    /\ (Representable (x / y) -> z = x / y).
Proof.
  intros (mx & ex & Pf & Df & Xf) (my & ey & Pg & Dg & Xg) Range.
  pose proof (digits2_53 mx Df) as Bx. pose proof (digits2_53 my Dg) as By.
  pose proof (F2R_bounds mx ex Df) as [ Lx Ux ].
  pose proof (F2R_bounds my ey Dg) as [ Ly Uy ].
  rewrite <- Xf in Lx, Ux. rewrite <- Xg in Ly, Uy.
  pose proof (pow2_pos (ey + 52)) as Py.
  assert (Ypos : 0 < y) by lra.
  assert (Ee : (-1000 < ex - ey + 1)%Z).
  { apply pow2_lt_inv. apply Rle_lt_trans with (x / y); [ apply Range | ].
    replace (ex - ey + 1)%Z with ((ex + 53) + - (ey + 52))%Z by lia.
    rewrite pow2_add, pow2_opp.
    apply Rlt_le_trans with (pow2 (ex + 53) / y).
    - unfold Rdiv. apply Rmult_lt_compat_r; [ apply Rinv_0_lt_compat; lra | lra ].
    - unfold Rdiv. apply Rmult_le_compat_l; [ pose proof (pow2_pos (ex + 53)); lra | ].
      apply Rinv_le_contravar; lra. }
  set (e' := (ex - ey - 53)%Z).
  set (m' := (Zpos mx * 2 ^ 53)%Z).
  assert (Core : SFdiv_core_binary prec emax (Zpos mx) ex (Zpos my) ey
                 = (m' / Zpos my, e', new_location (Zpos my) (m' mod Zpos my))%Z).
  { unfold SFdiv_core_binary. cbn [Zdigits2]. rewrite Df, Dg.
    replace (53 + ex - (53 + ey))%Z with (ex - ey)%Z by lia.
    rewrite fexp_normal by lia.
    replace (Z.min (ex - ey - 53) (ex - ey)) with e' by (unfold e'; lia).
    replace (ex - ey - e')%Z with 53%Z by (unfold e'; lia).
    rewrite Z.shiftl_mul_pow2 by lia. fold m'.
    unfold Z.div, Z.modulo. destruct (Z.div_eucl m' (Zpos my)). reflexivity. }
  pose proof (Z.div_mod m' (Zpos my) ltac:(lia)) as DM.
  pose proof (Z.mod_pos_bound m' (Zpos my) ltac:(lia)) as MB.
  set (q := (m' / Zpos my)%Z) in *. set (r := (m' mod Zpos my)%Z) in *.
  assert (Q52 : (2 ^ 52 <= q)%Z).
  { unfold q. apply Z.div_le_lower_bound; [ lia | ]. unfold m'. nia. }
  destruct q as [ | mq | mq ] eqn:Eq; [ lia | | lia ].
  assert (W : IZR (Zpos mq) + IZR r / IZR (Zpos my) = IZR m' / IZR (Zpos my)).
  { rewrite DM, plus_IZR, mult_IZR. field.
    apply Rgt_not_eq. apply IZR_lt. lia. }
  assert (T : (IZR (Zpos mq) + IZR r / IZR (Zpos my)) * pow2 e' = x / y).
  { rewrite W, Xf, Xg. unfold F2R, m', e'. rewrite mult_IZR.
    change (2 ^ 53)%Z with 9007199254740992%Z. rewrite <- pow2_53.
    replace (ex - ey - 53)%Z with (ex + (- ey + - (53)))%Z by lia.
    rewrite !pow2_add, !pow2_opp.
    pose proof (pow2_pos ey). pose proof (pow2_pos 53).
    assert (0 < IZR (Zpos my)) by (apply IZR_lt; lia).
    field. repeat split; lra. }
  rewrite <- T in Range.
  destruct (round_aux_correct false mq e' (new_location (Zpos my) r)
              (IZR (Zpos mq) + IZR r / IZR (Zpos my)))
    as (m & e & Round & D & Err & Exact).
  - apply digits2_large. exact Q52.
  - apply new_location_located; lia.
  - exact Range.
  - exists (F2R m e). rewrite T in Err, Exact. split; [ | split; assumption ].
    exists m, e. split; [ | split; [ exact D | reflexivity ] ].
    rewrite div_spec, Pf, Pg. unfold SF64div, SFdiv. rewrite Core. exact Round.
Qed.

(** A whole number below [2^53] converts exactly. *)
Lemma of_uint63_correct (n : Z) :
  (1 <= n < 2 ^ 53)%Z ->
  Represents (PrimFloat.of_uint63 (Uint63.of_Z n)) (IZR n).
Proof.
  intros [ Lo Hi ].
  assert (To : Uint63.to_Z (Uint63.of_Z n) = n).
  { rewrite Uint63.of_Z_spec. apply Z.mod_small.
    change Uint63.wB with (2 ^ 63)%Z.
    assert (2 ^ 53 < 2 ^ 63)%Z by (apply Z.pow_lt_mono_r; lia). lia. }
  destruct n as [ | p | p ]; [ lia | | lia ].
  pose proof (digits2_bounds p) as [ Dl Dh ].
  set (d := Zpos (digits2_pos p)) in *.
  assert (D53 : (d <= 53)%Z).
  { assert (d - 1 < 53)%Z; [ | lia ].
    apply (Z.pow_lt_mono_r_iff 2); lia. }
  assert (D1 : (1 <= d)%Z) by (unfold d; lia).
  set (mz := fst (shl_align p 0 (d - 53))).
  assert (Mz : Zpos mz = (Zpos p * 2 ^ (53 - d))%Z).
  { unfold mz. rewrite shl_align_fst by lia. f_equal. f_equal. lia. }
  assert (Sz : shl_align p 0 (d - 53) = (mz, (d - 53)%Z)).
  { unfold mz, shl_align.
    destruct (d - 53 - 0)%Z as [ | k | k ] eqn:E; cbn [fst].
    - f_equal. lia.
    - lia.
    - reflexivity. }
  assert (Bz : (2 ^ 52 <= Zpos mz < 2 ^ 53)%Z).
  { rewrite Mz. split.
    - replace 52%Z with ((d - 1) + (53 - d))%Z at 1 by lia.
      rewrite Z.pow_add_r by lia.
      apply Z.mul_le_mono_nonneg_r; [ apply Z.pow_nonneg; lia | exact Dl ].
    - replace 53%Z with (d + (53 - d))%Z at 2 by lia.
      rewrite Z.pow_add_r by lia.
      apply Z.mul_lt_mono_pos_r; [ apply Z.pow_pos_nonneg; lia | exact Dh ]. }
  assert (Dz : Zpos (digits2_pos mz) = 53%Z).
  { apply digits2_unique. change (53 - 1)%Z with 52%Z. exact Bz. }
  assert (T : IZR (Zpos mz) * pow2 (d - 53) = IZR (Zpos p)).
  { rewrite Mz, mult_IZR, <- pow2_IZR by lia.
    rewrite Rmult_assoc, <- pow2_add.
    replace (53 - d + (d - 53))%Z with 0%Z by lia.
    unfold pow2. cbn. ring. }
  assert (Range : pow2 (-1000) <= IZR (Zpos mz) * pow2 (d - 53) <= pow2 1000).
  { rewrite T. split.
    - apply Rle_trans with (pow2 0); [ apply pow2_le; lia | ].
      unfold pow2. cbn. apply IZR_le. lia.
    - apply Rle_trans with (pow2 53); [ | apply pow2_le; lia ].
      rewrite pow2_IZR by lia. apply IZR_le. lia. }
  destruct (round_aux_correct false mz (d - 53) loc_Exact (IZR (Zpos mz)))
    as (m & e & Round & D & Err & Exact).
  - lia.
  - apply Located_exact. lia.
  - exact Range.
  - exists m, e. split; [ | split; [ exact D | ] ].
    + rewrite of_uint63_spec, To. cbn [binary_normalize]. unfold binary_round.
      fold d. rewrite Z.add_0_r, fexp_normal by lia. rewrite Sz. exact Round.
    + rewrite <- T. symmetry. apply Exact.
      exists mz, (d - 53)%Z. split; [ | reflexivity ].
      apply Pos2Z.inj. exact Dz.
Qed.

Lemma shl_align_snd (mx : positive) (ex ez : Z) :
  (ez <= ex)%Z -> snd (shl_align mx ex ez) = ez.
Proof.
  intros L. unfold shl_align.
  destruct (ez - ex)%Z as [ | p | p ] eqn:E; cbn [snd]; lia.
Qed.

(** Rounding a whole multiple of a power of two. *)
Lemma binary_round_correct (mx : positive) (ex : Z) :
  pow2 (-1000) <= IZR (Zpos mx) * pow2 ex <= pow2 1000 ->
  exists m e,
    binary_round prec emax false mx ex = S754_finite false m e
    /\ digits2_pos m = 53%positive
    /\ - (pow2 (-53) * (IZR (Zpos mx) * pow2 ex))
       <= F2R m e - IZR (Zpos mx) * pow2 ex
       <= pow2 (-53) * (IZR (Zpos mx) * pow2 ex)
    /\ (Representable (IZR (Zpos mx) * pow2 ex) ->
        F2R m e = IZR (Zpos mx) * pow2 ex).
Proof.
  intros Range. unfold binary_round.
  pose proof (digits2_bounds mx) as [ Dl Dh ].
  set (d := Zpos (digits2_pos mx)) in *.
  assert (D1 : (1 <= d)%Z) by (unfold d; lia).
  destruct (Z_le_gt_dec d 53) as [ Few | Many ].
  - assert (Ed : (-1000 <= d + ex)%Z).
    { apply pow2_le_inv. rewrite pow2_add, (pow2_IZR d) by lia.
      assert (IZR (Zpos mx) <= IZR (2 ^ d)) by (apply IZR_le; lia).
      pose proof (pow2_pos ex). nra. }
    rewrite fexp_normal by lia.
    set (target := (d + ex - 53)%Z).
    assert (Tl : (target <= ex)%Z) by (unfold target; lia).
    pose proof (shl_align_fst mx ex target Tl) as Mz.
    pose proof (shl_align_snd mx ex target Tl) as Ez.
    destruct (shl_align mx ex target) as [ mz ez ]. cbn [fst snd] in Mz, Ez. subst ez.
    replace (ex - target)%Z with (53 - d)%Z in Mz by (unfold target; lia).
    assert (Bz : (2 ^ 52 <= Zpos mz < 2 ^ 53)%Z).
    { rewrite Mz. split.
      - replace 52%Z with ((d - 1) + (53 - d))%Z at 1 by lia.
        rewrite Z.pow_add_r by lia.
        apply Z.mul_le_mono_nonneg_r; [ apply Z.pow_nonneg; lia | exact Dl ].
      - replace 53%Z with (d + (53 - d))%Z at 2 by lia.
        rewrite Z.pow_add_r by lia.
        apply Z.mul_lt_mono_pos_r; [ apply Z.pow_pos_nonneg; lia | exact Dh ]. }
    assert (Dz : Zpos (digits2_pos mz) = 53%Z).
    { apply digits2_unique. change (53 - 1)%Z with 52%Z. exact Bz. }
    assert (T : IZR (Zpos mz) * pow2 target = IZR (Zpos mx) * pow2 ex).
    { rewrite Mz, mult_IZR, <- pow2_IZR by lia.
      rewrite Rmult_assoc, <- pow2_add. f_equal. f_equal. unfold target. lia. }
    rewrite <- T in Range.
    destruct (round_aux_correct false mz target loc_Exact (IZR (Zpos mz)))
      as (m & e & Round & D & Err & Exact).
    + lia.
    + apply Located_exact. lia.
    + exact Range.
    + rewrite T in Err, Exact. exists m, e. repeat split; try assumption; apply Err.
  - assert (Sz : shl_align mx ex (fexp prec emax (d + ex)) = (mx, ex)).
    { unfold shl_align.
      destruct (fexp prec emax (d + ex) - ex)%Z as [ | p | p ] eqn:E;
        [ reflexivity | reflexivity | ].
      exfalso. unfold fexp, prec in E. lia. }
    rewrite Sz.
    destruct (round_aux_correct false mx ex loc_Exact (IZR (Zpos mx)))
      as (m & e & Round & D & Err & Exact).
    + fold d. lia.
    + apply Located_exact. lia.
    + exact Range.
    + exists m, e. repeat split; try assumption; apply Err.
Qed.

(** The difference of two doubles, the larger first, as [-] computes it. *)
Lemma sub_correct (f g : float) (x y : R) :
  Represents f x -> Represents g y -> y < x ->
  pow2 (-1000) <= x - y <= pow2 1000 ->
  exists z,
    Represents (f - g)%float z
    /\ - (pow2 (-53) * (x - y)) <= z - (x - y) <= pow2 (-53) * (x - y)
    /\ (Representable (x - y) -> z = x - y).
Proof.
  intros (mx & ex & Pf & Df & Xf) (my & ey & Pg & Dg & Xg) Less Range.
  set (ez := Z.min ex ey).
  assert (Ax := shl_align_fst mx ex ez ltac:(unfold ez; lia)).
  assert (Ay := shl_align_fst my ey ez ltac:(unfold ez; lia)).
  set (ax := fst (shl_align mx ex ez)) in *.
  set (ay := fst (shl_align my ey ez)) in *.
  assert (Vx : IZR (Zpos ax) * pow2 ez = x).
  { rewrite Ax, mult_IZR, <- pow2_IZR by (unfold ez; lia).
    rewrite Xf. unfold F2R. rewrite Rmult_assoc, <- pow2_add.
    f_equal. f_equal. lia. }
  assert (Vy : IZR (Zpos ay) * pow2 ez = y).
  { rewrite Ay, mult_IZR, <- pow2_IZR by (unfold ez; lia).
    rewrite Xg. unfold F2R. rewrite Rmult_assoc, <- pow2_add.
    f_equal. f_equal. lia. }
  assert (Lt : (Zpos ay < Zpos ax)%Z).
  { apply lt_IZR. pose proof (pow2_pos ez). nra. }
  destruct (Zpos ax - Zpos ay)%Z as [ | mz | mz ] eqn:E; [ lia | | lia ].
  assert (T : IZR (Zpos mz) * pow2 ez = x - y).
  { rewrite <- E, minus_IZR, <- Vx, <- Vy. ring. }
  rewrite <- T in Range.
  destruct (binary_round_correct mz ez Range) as (m & e & Round & D & Err & Exact).
  rewrite T in Err, Exact.
  exists (F2R m e). split; [ | split; assumption ].
  exists m, e. split; [ | split; [ exact D | reflexivity ] ].
  rewrite sub_spec, Pf, Pg. unfold SF64sub, SFsub. fold ez. fold ax. fold ay.
  cbn [cond_Zopp]. rewrite E. exact Round.
Qed.

(** A double less itself is zero. *)
Lemma sub_same (f : float) (x : R) : Represents f x -> (f - f)%float = 0%float.
Proof.
  intros (m & e & P & _). apply Prim2SF_inj.
  rewrite sub_spec, P. unfold SF64sub, SFsub. rewrite Z.min_id.
  cbn [cond_Zopp]. rewrite Z.sub_diag. reflexivity.
Qed.

End RoundingFacts.

(** ** Amounts of whole cents in binary64 *)

Module CentsFacts.
Import Reals Lra Rounding RoundingFacts.
Local Open Scope R_scope.
Local Unset Implicit Arguments.

Lemma range_of_amounts (t : R) :
  / 128 <= t <= 1152921504606846976 -> pow2 (-1000) <= t <= pow2 1000.
Proof.
  intros [ L U ]. split.
  - apply Rle_trans with (pow2 (-7)); [ apply pow2_le; lia | ].
    assert (pow2 (-7) = / 128).
    { refine (eq_trans (pow2_opp 7) (f_equal Rinv _)).
      rewrite pow2_IZR by lia. reflexivity. }
    lra.
  - apply Rle_trans with (pow2 60); [ | apply pow2_le; lia ].
    rewrite pow2_IZR by lia. exact U.
Qed.

Lemma unit_roundoff : pow2 (-53) = / 9007199254740992.
Proof. exact (eq_trans (pow2_opp 53) (f_equal Rinv pow2_53)). Qed.

Lemma hundred_correct : Represents (num_lit 100) 100.
Proof. exact (of_uint63_correct 100 ltac:(lia)). Qed.

(** The amount of [k] cents is the double nearest to [k / 100]. *)
Lemma amountOfCents_correct (k : Z) :
  (1 <= k <= maxCents)%Z ->
  exists x,
    Represents (amountOfCents k) x
    /\ - (IZR k / 100 / 9007199254740992) <= x - IZR k / 100
       <= IZR k / 100 / 9007199254740992.
Proof.
  intros [ Lo Hi ]. unfold maxCents in Hi.
  assert (K1 : 1 <= IZR k) by (apply IZR_le; exact Lo).
  assert (K2 : IZR k <= 10000000000000) by (apply IZR_le; exact Hi).
  assert (Rk : Represents (num_lit k) (IZR k)).
  { destruct k as [ | p | p ]; [ lia | | lia ].
    apply of_uint63_correct. lia. }
  destruct (div_correct (num_lit k) (num_lit 100) (IZR k) 100 Rk hundred_correct)
    as (x & Rx & Err & _).
  - apply range_of_amounts. lra.
  - exists x. split; [ exact Rx | ]. rewrite unit_roundoff in Err. lra.
Qed.

(** A double close enough to [n] cents rounds to the amount of [n] cents. *)
Lemma roundToTwoDecimals_near (q : float) (v : R) (n : Z) :
  Represents q v -> (0 <= n)%Z ->
  - / 2 < 100 * v - IZR n < / 2 -> v < pow2 46 ->
  roundToTwoDecimals q = amountOfCents n.
Proof.
  intros (m & e & P & D & V) N Near Small.
  pose proof (F2R_bounds m e D) as [ Lv Uv ]. rewrite <- V in Lv, Uv.
  assert (E : (e < -6)%Z).
  { assert (e + 52 < 46)%Z by (apply pow2_lt_inv; lra). lia. }
  assert (A : (PrimFloat.abs q <? 0x1p46)%float = true).
  { rewrite ltb_spec, abs_spec, P. cbn [SFabs].
    change (Prim2SF 0x1p46%float) with (S754_finite false 4503599627370496 (-6)).
    unfold SFltb, SFcompare. rewrite (proj2 (Z.compare_lt_iff e (-6)) E).
    reflexivity. }
  assert (Dg : Binary64.toFixed2_digits m e = n).
  { unfold Binary64.toFixed2_digits.
    destruct (Z.leb_spec 0 e) as [ | _ ]; [ lia | ].
    set (Q := (2 ^ (- e))%Z).
    assert (Qp : (0 < Q)%Z) by (apply Z.pow_pos_nonneg; lia).
    assert (Q2 : (2 ^ (1 - e) = 2 * Q)%Z).
    { replace (1 - e)%Z with (1 + - e)%Z by lia. rewrite Z.pow_add_r by lia.
      reflexivity. }
    rewrite Q2.
    assert (IQ : 0 < IZR Q) by (apply IZR_lt; exact Qp).
    assert (VQ : v * IZR Q = IZR (Zpos m)).
    { rewrite V. unfold F2R, Q. rewrite <- pow2_IZR by lia.
      rewrite Rmult_assoc, <- pow2_add. replace (e + - e)%Z with 0%Z by lia.
      unfold pow2. cbn. ring. }
    assert (H1 : (2 * n * Q - Q < 200 * Zpos m)%Z).
    { apply lt_IZR. rewrite minus_IZR, !mult_IZR, <- VQ.
      assert (0 < (200 * v - 2 * IZR n + 1) * IZR Q)
        by (apply Rmult_lt_0_compat; lra).
      lra. }
    assert (H2 : (200 * Zpos m < 2 * n * Q + Q)%Z).
    { apply lt_IZR. rewrite plus_IZR, !mult_IZR, <- VQ.
      assert (0 < (2 * IZR n + 1 - 200 * v) * IZR Q)
        by (apply Rmult_lt_0_compat; lra).
      lra. }
    symmetry.
    apply Z.div_unique with (200 * Zpos m + Q - 2 * n * Q)%Z; lia. }
  unfold roundToTwoDecimals. cbn [parseFloat_toFixed2 Binary64.number].
  unfold Binary64.parseFloat_toFixed2. rewrite P, A, Dg.
  unfold amountOfCents. destruct n as [ | p | p ]; [ reflexivity | reflexivity | lia ].
Qed.

Lemma add_zero_l (g : float) (y : R) : Represents g y -> (0 + g)%float = g.
Proof.
  intros (m & e & P & _). apply Prim2SF_inj. rewrite add_spec, P. reflexivity.
Qed.

Lemma add_zero_r (g : float) (y : R) : Represents g y -> (g + 0)%float = g.
Proof.
  intros (m & e & P & _). apply Prim2SF_inj. rewrite add_spec, P. reflexivity.
Qed.

(** An amount times 100 is the number of its cents, nearly. *)
Lemma scaled_correct (k : Z) :
  (1 <= k <= maxCents)%Z ->
  exists p,
    Represents (amountOfCents k * num_lit 100)%num p
    /\ - (IZR k / 4000000000000000) <= p - IZR k <= IZR k / 4000000000000000.
Proof.
  intros K. destruct (amountOfCents_correct k K) as (x & Rx & Ex).
  destruct K as [ Lo Hi ]. unfold maxCents in Hi.
  assert (K1 : 1 <= IZR k) by (apply IZR_le; exact Lo).
  assert (K2 : IZR k <= 10000000000000) by (apply IZR_le; exact Hi).
  destruct (mul_correct (amountOfCents k) (num_lit 100) x 100 Rx hundred_correct)
    as (p & Rp & Ep & _).
  - apply range_of_amounts. lra.
  - exists p. split; [ exact Rp | ]. rewrite unit_roundoff in Ep. lra.
Qed.

(** The sum of the scaled amounts. *)
Lemma scaled_sum_correct (a b : Z) :
  (0 <= a)%Z -> (0 <= b)%Z -> (1 <= a + b <= maxCents)%Z ->
  exists t,
    Represents (amountOfCents a * num_lit 100 + amountOfCents b * num_lit 100)%num t
    /\ - (IZR (a + b) / 2500000000000000) <= t - IZR (a + b)
       <= IZR (a + b) / 2500000000000000.
Proof.
  intros A B [ Lo Hi ].
  destruct (Z.eq_dec a 0) as [ -> | Na ]; [ | destruct (Z.eq_dec b 0) as [ -> | Nb ] ].
  - destruct (scaled_correct b ltac:(lia)) as (p & Rp & Ep).
    exists p. split.
    + change (amountOfCents 0 * num_lit 100)%num with 0%float.
      cbn [num_add Binary64.number]. rewrite (add_zero_l _ _ Rp). exact Rp.
    + cbn [Z.add].
      assert (1 <= IZR b) by (apply IZR_le; lia). lra.
  - destruct (scaled_correct a ltac:(lia)) as (p & Rp & Ep).
    exists p. split.
    + change (amountOfCents 0 * num_lit 100)%num with 0%float.
      cbn [num_add Binary64.number]. rewrite (add_zero_r _ _ Rp). exact Rp.
    + rewrite Z.add_0_r.
      assert (1 <= IZR a) by (apply IZR_le; lia). lra.
  - destruct (scaled_correct a ltac:(lia)) as (p & Rp & Ep).
    destruct (scaled_correct b ltac:(lia)) as (r & Rr & Er).
    unfold maxCents in Hi.
    assert (1 <= IZR a) by (apply IZR_le; lia).
    assert (1 <= IZR b) by (apply IZR_le; lia).
    assert (IZR a + IZR b <= 10000000000000)
      by (rewrite <- plus_IZR; apply IZR_le; exact Hi).
    destruct (add_correct _ _ p r Rp Rr) as (t & Rt & Et & _).
    + apply range_of_amounts. lra.
    + exists t. split; [ exact Rt | ].
      rewrite unit_roundoff in Et. rewrite plus_IZR. lra.
Qed.

(** On amounts of whole cents, [safeAdd] adds the cents. *)
Lemma safeAdd_whole_cents (a b : Z) :
  (0 <= a)%Z -> (0 <= b)%Z -> (a + b <= maxCents)%Z ->
  safeAdd (amountOfCents a) (amountOfCents b) = amountOfCents (a + b) :> float.
Proof.
  intros A B Hi.
  destruct (Z.eq_dec (a + b) 0) as [ Z0 | NZ ].
  - assert (a = 0%Z) by lia. assert (b = 0%Z) by lia. subst a b. reflexivity.
  - destruct (scaled_sum_correct a b A B ltac:(lia)) as (t & Rt & Et).
    unfold maxCents in Hi.
    assert (N1 : 1 <= IZR (a + b)) by (apply IZR_le; lia).
    assert (N2 : IZR (a + b) <= 10000000000000) by (apply IZR_le; exact Hi).
    destruct (div_correct _ (num_lit 100) t 100 Rt hundred_correct)
      as (q & Rq & Eq & _).
    + apply range_of_amounts. lra.
    + unfold safeAdd. rewrite unit_roundoff in Eq.
      refine (roundToTwoDecimals_near _ q (a + b) Rq _ _ _); [ lia | lra | ].
      rewrite pow2_IZR by lia. change (2 ^ 46)%Z with 70368744177664%Z. lra.
Qed.



(** Rounding leaves an amount of whole cents as it is. *)
Lemma roundToTwoDecimals_whole_cents (k : Z) :
  (0 <= k <= maxCents)%Z ->
  roundToTwoDecimals (amountOfCents k) = amountOfCents k :> float.
Proof.
  intros [ Lo Hi ].
  destruct (Z.eq_dec k 0) as [ -> | N ]; [ reflexivity | ].
  destruct (amountOfCents_correct k ltac:(lia)) as (x & Rx & Ex).
  unfold maxCents in Hi.
  assert (1 <= IZR k) by (apply IZR_le; lia).
  assert (IZR k <= 10000000000000) by (apply IZR_le; exact Hi).
  refine (roundToTwoDecimals_near _ x k Rx Lo _ _).
  - lra.
  - rewrite pow2_IZR by lia. change (2 ^ 46)%Z with 70368744177664%Z. lra.
Qed.

Lemma sub_zero_r (g : float) (y : R) : Represents g y -> (g - 0)%float = g.
Proof.
  intros (m & e & P & _). apply Prim2SF_inj. rewrite sub_spec, P. reflexivity.
Qed.

(** The rounded difference of two amounts of whole cents is the amount of
    the difference of the cents. *)
Lemma rounded_difference_of_cents (t d : Z) :
  (0 <= d <= t)%Z -> (t <= maxCents)%Z ->
  roundToTwoDecimals (amountOfCents t - amountOfCents d)%num
  = amountOfCents (t - d) :> float.
Proof.
  intros [ D0 Dt ] Hi.
  destruct (Z.eq_dec d 0) as [ -> | Nd ].
  - rewrite Z.sub_0_r.
    destruct (Z.eq_dec t 0) as [ -> | Nt ]; [ reflexivity | ].
    destruct (amountOfCents_correct t ltac:(lia)) as (x & Rx & _).
    change (amountOfCents 0 : float) with 0%float.
    cbn [num_sub Binary64.number]. rewrite (sub_zero_r _ _ Rx).
    apply roundToTwoDecimals_whole_cents. lia.
  - destruct (amountOfCents_correct t ltac:(lia)) as (x & Rx & Ex).
    destruct (Z.eq_dec d t) as [ -> | Ne ].
    + cbn [num_sub Binary64.number]. rewrite (sub_same _ _ Rx), Z.sub_diag.
      reflexivity.
    + destruct (amountOfCents_correct d ltac:(lia)) as (y & Ry & Ey).
      unfold maxCents in Hi.
      assert (1 <= IZR d) by (apply IZR_le; lia).
      assert (IZR d + 1 <= IZR t) by (rewrite <- plus_IZR; apply IZR_le; lia).
      assert (IZR t <= 10000000000000) by (apply IZR_le; exact Hi).
      destruct (sub_correct _ _ x y Rx Ry) as (z & Rz & Ez & _).
      * lra.
      * apply range_of_amounts. lra.
      * rewrite unit_roundoff in Ez.
        refine (roundToTwoDecimals_near _ z (t - d) Rz _ _ _).
        -- lia.
        -- rewrite minus_IZR. lra.
        -- rewrite pow2_IZR by lia. change (2 ^ 46)%Z with 70368744177664%Z. lra.
Qed.

(** A positive amount below [2^46] rounds to an amount of whole cents. *)
Lemma rounded_amount_in_cents (x : float) :
  num_gt x (num_lit 0) = true -> (x <? 0x1p46)%float = true ->
  roundToTwoDecimals x = amountOfCents (centsOfAmount x)
  /\ (0 <= centsOfAmount x)%Z.
Proof.
  cbn [num_gt num_lit Binary64.number]. intros Pos Small.
  rewrite ltb_spec in Pos, Small.
  change (Prim2SF (PrimFloat.of_uint63 (Uint63.of_Z 0))) with (S754_zero false) in Pos.
  change (Prim2SF 0x1p46%float) with (S754_finite false 4503599627370496 (-6))
    in Small.
  unfold roundToTwoDecimals. cbn [parseFloat_toFixed2 Binary64.number].
  unfold Binary64.parseFloat_toFixed2, centsOfAmount.
  assert (A : (PrimFloat.abs x <? 0x1p46)%float
              = SFltb (SFabs (Prim2SF x)) (S754_finite false 4503599627370496 (-6))).
  { rewrite ltb_spec, abs_spec. reflexivity. }
  rewrite A.
  destruct (Prim2SF x) as [ s | s | | s m e ]; try discriminate.
  - destruct s; discriminate.
  - destruct s; [ discriminate | ].
    cbn [SFabs]. rewrite Small.
    assert (D : (0 <= Binary64.toFixed2_digits m e)%Z).
    { unfold Binary64.toFixed2_digits.
      destruct (0 <=? e)%Z eqn:E.
      - apply Z.leb_le in E.
        assert (0 < 2 ^ e)%Z by (apply Z.pow_pos_nonneg; lia). nia.
      - apply Z.leb_gt in E. apply Z.div_pos.
        + assert (0 < 2 ^ (- e))%Z by (apply Z.pow_pos_nonneg; lia). lia.
        + apply Z.pow_pos_nonneg; lia. }
    split; [ | exact D ].
    unfold amountOfCents.
    destruct (Binary64.toFixed2_digits m e) as [ | p | p ];
      [ reflexivity | reflexivity | lia ].
Qed.

End CentsFacts.

(** ** Sums of cents *)

Section SumsOfCents.
Local Open Scope Z_scope.
Local Unset Implicit Arguments.

Lemma sumOfCents_app (l l' : list Z) :
  sumOfCents (l ++ l') = sumOfCents l + sumOfCents l'.
Proof.
  unfold sumOfCents. induction l as [ | k rest IH ]; cbn [app fold_right]; lia.
Qed.

Lemma sumOfCents_snoc (cents : list Z) (k : Z) :
  sumOfCents (cents ++ [k]) = sumOfCents cents + k.
Proof. rewrite sumOfCents_app. unfold sumOfCents at 2. cbn [fold_right]. lia. Qed.

Lemma sumOfCents_cons (k : Z) (cents : list Z) :
  sumOfCents (k :: cents) = k + sumOfCents cents.
Proof. reflexivity. Qed.

Lemma sumOfCents_nonnegative (cents : list Z) :
  Forall (fun k => 0 <= k) cents -> 0 <= sumOfCents cents.
Proof.
  unfold sumOfCents. induction 1 as [ | k rest K _ IH ]; cbn [fold_right]; lia.
Qed.

Lemma sumOfCents_permutation (cents cents' : list Z) :
  Permutation cents cents' -> sumOfCents cents = sumOfCents cents'.
Proof.
  unfold sumOfCents. induction 1; cbn [fold_right]; lia.
Qed.

End SumsOfCents.

Unset Implicit Arguments.

(** ** Exact arithmetic: rounding and addition of cents *)

Module ExactFacts.
Import Exact.
Local Open Scope Q_scope.

(** Equations between explicit fractions, cross-multiplied. *)
Ltac cross_multiply :=
  unfold Qeq, Qle, Qdiv, Qmult, Qplus, Qinv, Qopp, Qabs, inject_Z;
  cbn -[Z.mul Z.add Z.abs Z.opp]; lia.

Lemma Qfloor_half_up (n : Z) : Qfloor (inject_Z n + (1 # 2)) = n.
Proof.
  assert (E : inject_Z n + (1 # 2) == (2 * n + 1 # 2)).
  { cross_multiply. }
  rewrite E. unfold Qfloor.
  symmetry. apply (Z.div_unique_pos (2 * n + 1) 2 n 1); lia.
Qed.

Lemma this_cents (k : Z) : this (cents k) == k # 100.
Proof. unfold cents, Q2Qc, this. apply Qred_correct. Qed.

Lemma cents_digits (k : Z) : toFixed2_digits (cents k) = Z.abs k.
Proof.
  unfold toFixed2_digits.
  assert (E : Qabs (cents k) * 100 + (1 # 2) == inject_Z (Z.abs k) + (1 # 2)).
  { rewrite this_cents. cross_multiply. }
  rewrite E. apply Qfloor_half_up.
Qed.

Lemma cents_sign (k : Z) : Qle_bool 0 (cents k) = (0 <=? k)%Z.
Proof.
  apply eq_true_iff_eq. rewrite Qle_bool_iff, Z.leb_le, this_cents.
  cross_multiply.
Qed.

(** Rounding leaves an amount of whole cents as it is. *)
Lemma round_cents (k : Z) : roundToTwoDecimals (cents k) = cents k.
Proof.
  unfold roundToTwoDecimals; simpl. unfold parseFloat_toFixed2.
  rewrite cents_digits, cents_sign.
  destruct (Z.leb_spec 0 k).
  - apply Qc_is_canon. unfold cents, Q2Qc, this. rewrite !Qred_correct.
    rewrite Z.abs_eq by assumption. cross_multiply.
  - apply Qc_is_canon. unfold cents, Qcopp, Q2Qc, this. rewrite !Qred_correct.
    rewrite Z.abs_neq by lia. cross_multiply.
Qed.

Lemma cents_plus (a b : Z) : Qcplus (cents a) (cents b) = cents (a + b).
Proof.
  apply Qc_is_canon. unfold cents, Qcplus, Q2Qc, this. rewrite !Qred_correct.
  cross_multiply.
Qed.

Lemma cents_inj (a b : Z) : cents a = cents b -> a = b.
Proof.
  intros E. assert (E' : this (cents a) == this (cents b)) by (rewrite E; reflexivity).
  rewrite !this_cents in E'. revert E'. cross_multiply.
Qed.

(** In exact arithmetic the scaling by 100 cancels. *)
Lemma scaled_sum (a b : Qc) :
  ((a * num_lit 100 + b * num_lit 100) / num_lit 100)%num = Qcplus a b.
Proof.
  simpl.
  assert (N : Q2Qc (inject_Z 100) <> Q2Qc 0).
  { intros E. apply (f_equal this) in E. vm_compute in E. discriminate. }
  set (h := Q2Qc (inject_Z 100)) in *.
  change (Q2Qc 0) with 0%Qc in N.
  field. exact N.
Qed.

Lemma safeAdd_exact_sum (a b : Qc) : safeAdd a b = roundToTwoDecimals (Qcplus a b).
Proof. unfold safeAdd. rewrite scaled_sum. reflexivity. Qed.

Lemma safeAdd_cents (a b : Z) : safeAdd (cents a) (cents b) = cents (a + b).
Proof. rewrite safeAdd_exact_sum, cents_plus. apply round_cents. Qed.

End ExactFacts.

(** ** Currency arithmetic on sample values *)

Example safeAdd_tenth_fifth :
  safeAdd 0.1%float 0.2%float = 0.3%float.
Proof. vm_compute. reflexivity. Qed.

Example plain_add_tenth_fifth :
  (0.1 + 0.2)%float = 0.30000000000000004%float.
Proof. vm_compute. reflexivity. Qed.

Example round_1005 : roundToTwoDecimals 1.005%float = 1%float.
Proof. vm_compute. reflexivity. Qed.

Example safeAdd_exact :
  safeAdd (Exact.cents 10) (Exact.cents 20) = Exact.cents 30.
Proof. apply Qc_is_canon. vm_compute. reflexivity. Qed.

(** ** The sample host on sample dates *)

Example iso_epoch : toISOString 0 = "1970-01-01T00:00:00.000Z"%string.
Proof. vm_compute. reflexivity. Qed.

Example iso_2026 : toISOString 1793588645123 = "2026-11-02T03:04:05.123Z"%string.
Proof. vm_compute. reflexivity. Qed.

Example iso_read_back : getTime "2026-11-02T03:04:05.123Z" = Some 1793588645123%Z.
Proof. vm_compute. reflexivity. Qed.

Example iso_rejects : getTime "yesterday" = None.
Proof. vm_compute. reflexivity. Qed.

Example weekday_2026_11_01 : Calendar.getDay 0 1793491200000 = 0%Z.
Proof. vm_compute. reflexivity. Qed.

Example lower_name : toLowerCase "Ada L." = "ada l."%string.
Proof. vm_compute. reflexivity. Qed.

Example iso_without_milliseconds :
  getTime "2026-11-02T03:04:05Z" = getTime "2026-11-02T03:04:05.000Z"
  /\ getTime "2026-11-02T03:04:05Z" = Some 1793588645000%Z.
Proof. vm_compute. split; reflexivity. Qed.

(** ** [isEqual] accepts deep-equal values *)

Section JsonFacts.
Context {num : Type} `{JsNumber num} `{JsHost}.

Lemma isEqual_strictEquals (a b : jsval num) :
  strictEquals a b = true -> isEqual a b = true.
Proof.
  intros E. destruct a, b; simpl in *; try discriminate; try reflexivity;
    rewrite E; reflexivity.
Qed.

Lemma date_string_truthy (s : string) (t : Z) :
  getTime s = Some t -> String.eqb s EmptyString = false.
Proof.
  intros E. destruct (String.eqb_spec s EmptyString) as [-> | _]; [ | reflexivity ].
  rewrite getTime_empty in E. discriminate.
Qed.

Lemma lookup_unique (fields : list (string * jsval num)) (k : string) (v : jsval num) :
  NoDup (map fst fields) -> In (k, v) fields -> lookup k fields = v.
Proof.
  induction fields as [ | [k' v'] rest IH ]; simpl; intros D I; [ contradiction | ].
  inversion D as [ | ? ? N D' ]; subst.
  destruct I as [ I | I ].
  - inversion I; subst. rewrite String.eqb_refl. reflexivity.
  - destruct (String.eqb_spec k' k) as [ -> | _ ].
    + exfalso. apply N. apply (in_map fst) in I. exact I.
    + apply IH; assumption.
Qed.

Lemma key_has_value (fields : list (string * jsval num)) (k : string) :
  In k (map fst fields) -> exists v, In (k, v) fields.
Proof.
  intros I. apply in_map_iff in I. destruct I as [ [k' v] [E I] ].
  simpl in E. subst. exists v. exact I.
Qed.

Lemma same_keys_same_length (f1 f2 : list (string * jsval num)) :
  NoDup (map fst f1) -> NoDup (map fst f2) ->
  (forall k, In k (map fst f1) <-> In k (map fst f2)) ->
  List.length f1 = List.length f2.
Proof.
  intros D1 D2 K.
  rewrite <- (length_map fst f1), <- (length_map fst f2).
  apply Permutation_length. apply NoDup_Permutation; assumption.
Qed.

(** Whatever is deep-equal in the specification's sense, [isEqual] finds
    equal. *)
Lemma deepEqual_isEqual (a b : jsval num) : deepEqual a b -> isEqual a b = true.
Proof.
  induction 1 as [ a b E | s1 s2 t E1 E2 | items1 items2 L _ IH
                 | fields1 fields2 D1 D2 K _ IH ].
  - apply isEqual_strictEquals. exact E.
  - simpl. destruct (String.eqb s1 s2); [ reflexivity | ].
    rewrite (date_string_truthy _ _ E1), (date_string_truthy _ _ E2). simpl.
    rewrite E1, E2. apply Z.eqb_refl.
  - simpl. rewrite L, Nat.eqb_refl.
    remember 0%nat as index eqn:E0.
    assert (G : forall i v1, nth_error items1 i = Some v1 ->
                  isEqual v1 (nth (index + i) items2 JUndefined) = true).
    { subst index. simpl. intros i v1 E1.
      assert (B : (i < List.length items2)%nat).
      { rewrite <- L. apply nth_error_Some. rewrite E1. discriminate. }
      apply (IH i); [ exact E1 | ].
      apply nth_error_nth'. exact B. }
    clear E0 L IH. revert index G.
    induction items1 as [ | item rest IHrest ]; intros index G; [ reflexivity | ].
    rewrite <- (Nat.add_0_r index) at 1.
    rewrite (G 0%nat item eq_refl). simpl.
    apply IHrest. intros i v1 E1.
    replace (S index + i)%nat with (index + S i)%nat by lia.
    apply G. exact E1.
  - simpl. rewrite (same_keys_same_length _ _ D1 D2 K), Nat.eqb_refl.
    assert (G : forall k v1, In (k, v1) fields1 ->
                  isEqual v1 (getProperty (JObj fields2) k) = true).
    { intros k v1 I1.
      assert (I2 : In k (map fst fields2)).
      { apply K. apply (in_map fst) in I1. exact I1. }
      destruct (key_has_value _ _ I2) as [v2 I2'].
      unfold getProperty. simpl. rewrite (lookup_unique _ _ _ D2 I2').
      apply (IH k); assumption. }
    clear D1 K IH.
    induction fields1 as [ | [k v] rest IHrest ]; [ reflexivity | ].
    rewrite (G k v (or_introl eq_refl)). simpl.
    apply IHrest. intros k' v' I. apply G. right. exact I.
Qed.

End JsonFacts.

(** ** Synchronising unchanged data *)

Section SyncFacts.
Context {num : Type} `{JsNumber num} `{JsHost}.

(** C1.  Whatever the stored goal state and the source: when the new payload
    is deep-equal to the data stored for that source (strings that read as
    dates of one instant counting as equal), [syncExternalData] writes
    nothing, leaves the stored document as it is, [updatedAt] included, and
    returns [false]. *)
Theorem sync_unchanged_is_noop
    (goalState : GoalState num) (source : Source) (entry : SourceEntry num)
    (currentData newData : Payload num) (now nowUpdated : Z) :
  sourceEntry goalState source = Some entry ->
  sourceData entry = Some currentData ->
  deepEqual (toJs currentData) (toJs newData) ->
  syncExternalData (Some goalState) source newData now nowUpdated
  = (false, Some goalState).
Proof.
  intros E D Q. unfold syncExternalData. simpl.
  rewrite E, D, (deepEqual_isEqual _ _ Q). reflexivity.
Qed.

End SyncFacts.

(** Goals about the deep equality of explicit documents. *)
Ltac distinct_keys :=
  simpl; repeat (constructor; [ simpl; intuition discriminate | ]); constructor.

Ltac deep_equal :=
  lazymatch goal with
  | |- deepEqual (JObj _) (JObj _) =>
      apply deep_object;
      [ distinct_keys | distinct_keys | intros ?; simpl; tauto
      | let k := fresh "k" in
        let I1 := fresh "I" in
        let I2 := fresh "I" in
        intros k ? ? I1 I2; simpl in I1, I2;
        repeat match goal with
               | I : _ \/ _ |- _ => destruct I
               | I : False |- _ => contradiction I
               end;
        repeat match goal with
               | I : (_, _) = (_, _) |- _ => inversion I; clear I; subst
               end;
        try discriminate; deep_equal ]
  | |- deepEqual (JArr _) (JArr _) =>
      apply deep_array;
      [ reflexivity
      | let i := fresh "i" in
        let E1 := fresh "E" in
        let E2 := fresh "E" in
        intros i ? ? E1 E2;
        repeat (destruct i as [ | i ]; simpl in E1, E2;
                [ inversion E1; inversion E2; subst; deep_equal | ]);
        destruct i; discriminate ]
  | |- deepEqual (JStr _) (JStr _) =>
      first [ apply deep_same; reflexivity
            | eapply deep_date; vm_compute; reflexivity ]
  | |- deepEqual _ _ => apply deep_same; reflexivity
  end.

(** The stored Extra Life record and its copy with the dates written
    differently are deep-equal, and synchronising the copy changes
    nothing. *)
Lemma sync_unchanged_sample :
  syncExternalData Samples.storeWithExtraLife ExtraLife
    (OfExtraLife Samples.sameExtraLife) 1793534400000 1793534400001
  = (false, Samples.storeWithExtraLife).
Proof.
  eapply (@sync_unchanged_is_noop float _ _ _ ExtraLife).
  - reflexivity.
  - reflexivity.
  - cbv [toJs extraLifeToJs extraLifeDonationToJs optionalField map app
         Samples.storedExtraLife Samples.sameExtraLife
         sumDonations fundraisingGoal el_donations newDonations el_lastUpdated
         el_participantId el_eventID el_amount displayName message donationID
         createdDateUTC eventID].
    deep_equal.
Defined.

(** ** The local ledger *)

#[global] Instance exact_lawful : LawfulNumber Qc.
Proof.
  constructor.
  - intros x. cbn [num_gt num_le Exact.number].
    destruct (Qle_bool x (@num_lit Qc _ 0)); [ discriminate | reflexivity ].
  - reflexivity.
Qed.

#[global] Instance binary64_lawful : LawfulNumber float.
Proof.
  constructor.
  - intros x. simpl.
    change (PrimFloat.of_uint63 (Uint63.of_Z 0)) with 0%float.
    rewrite ltb_spec, leb_spec. unfold SFltb, SFleb.
    change (Prim2SF 0) with (S754_zero false).
    destruct (Prim2SF x) as [ s | s | | s m e ]; simpl; try discriminate;
      destruct s; simpl; intros; try discriminate; reflexivity.
  - reflexivity.
Qed.

Section ArrayFacts.
Context {A : Type}.

Lemma findIndex_Some (p : A -> bool) (l : list A) (i : nat) :
  findIndex p l = Some i ->
  exists earlier x later,
    l = earlier ++ x :: later /\ List.length earlier = i /\ p x = true
    /\ forallb (fun y => negb (p y)) earlier = true.
Proof.
  revert i. induction l as [ | y rest IH ]; simpl; intros i E; [ discriminate | ].
  destruct (p y) eqn:P.
  - inversion E; subst. exists [], y, rest. repeat split; assumption.
  - destruct (findIndex p rest) as [ j | ]; [ | discriminate ].
    inversion E; subst.
    destruct (IH j eq_refl) as (earlier & x & later & -> & L & Px & N).
    exists (y :: earlier), x, later. simpl. rewrite P, L. repeat split; assumption.
Qed.

Lemma findIndex_None (p : A -> bool) (l : list A) :
  findIndex p l = None <-> existsb p l = false.
Proof.
  induction l as [ | y rest IH ]; simpl; [ tauto | ].
  destruct (p y); simpl.
  - split; discriminate.
  - destruct (findIndex p rest); split; intros E; try discriminate;
      try reflexivity; apply IH in E; try discriminate; exact E.
Qed.

Lemma findIndex_first (p : A -> bool) (earlier later : list A) (x : A) :
  forallb (fun y => negb (p y)) earlier = true -> p x = true ->
  findIndex p (earlier ++ x :: later) = Some (List.length earlier).
Proof.
  induction earlier as [ | y rest IH ]; simpl; intros N P.
  - rewrite P. reflexivity.
  - apply andb_prop in N. destruct N as [Ny N].
    apply negb_true_iff in Ny. rewrite Ny, (IH N P). reflexivity.
Qed.

Lemma nth_error_middle (before after : list A) (x : A) :
  nth_error (before ++ x :: after) (List.length before) = Some x.
Proof. induction before; simpl; auto. Qed.

Lemma removeAt_middle (before after : list A) (x : A) :
  removeAt (List.length before) (before ++ x :: after) = before ++ after.
Proof. induction before; simpl; congruence. Qed.

Lemma replaceAt_middle (before after : list A) (x y : A) :
  replaceAt (List.length before) y (before ++ x :: after) = before ++ y :: after.
Proof. induction before; simpl; congruence. Qed.

(** The last element on which [p] holds. *)
Lemma last_match (p : A -> bool) (l : list A) :
  existsb p l = true ->
  exists before x after,
    l = before ++ x :: after /\ p x = true /\ existsb p after = false.
Proof.
  induction l as [ | y rest IH ]; simpl; intros E; [ discriminate | ].
  destruct (existsb p rest) eqn:R.
  - destruct (IH eq_refl) as (before & x & after & -> & P & N).
    exists (y :: before), x, after. repeat split; assumption.
  - rewrite orb_false_r in E. exists [], y, rest. repeat split; assumption.
Qed.

End ArrayFacts.

Section LedgerFacts.
Context {num : Type} `{JsNumber num} `{JsHost}.
Local Open Scope num_scope.

Lemma holdsTimestamp_findIndex (t : string) (donor : DonationData num) :
  holdsTimestamp t donor = false ->
  findIndex (fun d => String.eqb (timestamp d) t) (individual_donations donor) = None.
Proof. intros E. apply findIndex_None. exact E. Qed.

Lemma locateDonation_none (t : string) (donors : list (DonationData num))
    (dIndex : nat) (found : option (nat * nat)) :
  existsb (holdsTimestamp t) donors = false ->
  locateDonation t donors dIndex found = found.
Proof.
  revert dIndex found.
  induction donors as [ | donor rest IH ]; simpl; intros dIndex found E;
    [ reflexivity | ].
  apply orb_false_elim in E. destruct E as [E1 E2].
  rewrite (holdsTimestamp_findIndex _ _ E1). apply IH. exact E2.
Qed.

Lemma locateDonation_last (t : string) (before after : list (DonationData num))
    (donor : DonationData num) (j dIndex : nat) (found : option (nat * nat)) :
  findIndex (fun d => String.eqb (timestamp d) t) (individual_donations donor) = Some j ->
  existsb (holdsTimestamp t) after = false ->
  locateDonation t (before ++ donor :: after) dIndex found
  = Some ((dIndex + List.length before)%nat, j).
Proof.
  intros F N. revert dIndex found.
  induction before as [ | d rest IH ]; simpl; intros dIndex found.
  - rewrite F, Nat.add_0_r. apply locateDonation_none. exact N.
  - rewrite IH. f_equal. f_equal. lia.
Qed.

(** What [removeLocalDonation] does when some donor holds the timestamp. *)
Lemma removeLocalDonation_found
    (db : Store num) (ledger : LocalDonationData num) (t : string) (now : Z) :
  getLocalDonations db = Some ledger ->
  existsb (holdsTimestamp t) (donations (data ledger)) = true ->
  exists before donor after earlier removed later,
    donations (data ledger) = before ++ donor :: after
    /\ individual_donations donor = earlier ++ removed :: later
    /\ timestamp removed = t
    /\ removeLocalDonation db t now
       = (Ok (ledgerWithout ledger before after donor (earlier ++ later) removed now),
          pushLocalDonations db
            (ledgerWithout ledger before after donor (earlier ++ later) removed now)).
Proof.
  intros L E.
  destruct (last_match _ _ E) as (before & donor & after & D & P & N).
  unfold holdsTimestamp in P.
  destruct (findIndex (fun d => String.eqb (timestamp d) t)
                      (individual_donations donor)) as [ j | ] eqn:F.
  2:{ apply findIndex_None in F. rewrite F in P. discriminate. }
  destruct (findIndex_Some _ _ _ F) as (earlier & removed & later & I & Lj & T & _).
  exists before, donor, after, earlier, removed, later.
  apply String.eqb_eq in T.
  repeat split; try assumption.
  unfold removeLocalDonation. rewrite L. cbv beta iota zeta. rewrite D.
  rewrite (locateDonation_last t before after donor j 0 None F N). simpl.
  rewrite nth_error_middle, I, <- Lj, nth_error_middle, removeAt_middle.
  unfold ledgerWithout.
  destruct (earlier ++ later) eqn:R.
  + rewrite removeAt_middle. reflexivity.
  + rewrite replaceAt_middle. reflexivity.
Qed.

Lemma removeLocalDonation_missing
    (db : Store num) (ledger : LocalDonationData num) (t : string) (now : Z) :
  getLocalDonations db = Some ledger ->
  existsb (holdsTimestamp t) (donations (data ledger)) = false ->
  removeLocalDonation db t now = (Err DonationNotFound, db).
Proof.
  intros L E. unfold removeLocalDonation. rewrite L.
  rewrite (locateDonation_none _ _ _ _ E). reflexivity.
Qed.

(** C4.  Whatever the stored ledger and the timestamp [t]: when no donation
    is stamped [t], [removeLocalDonation] fails with 'Donation not found'
    and leaves the store as it is; otherwise it takes one donation stamped
    [t] out of its donor's list (the donor's first such, in the last donor
    holding one), subtracts its amount from the donor's total and from the
    overall total, lowers both counts by one, and drops the donor when no
    donation of theirs is left. *)
Theorem removeLocalDonation_spec
    (db : Store num) (ledger : LocalDonationData num) (t : string) (now : Z) :
  getLocalDonations db = Some ledger ->
  (existsb (holdsTimestamp t) (donations (data ledger)) = false ->
   removeLocalDonation db t now = (Err DonationNotFound, db))
  /\
  (existsb (holdsTimestamp t) (donations (data ledger)) = true ->
   exists before donor after earlier removed later,
     donations (data ledger) = before ++ donor :: after
     /\ individual_donations donor = earlier ++ removed :: later
     /\ timestamp removed = t
     /\ removeLocalDonation db t now
        = (Ok (ledgerWithout ledger before after donor (earlier ++ later) removed now),
           pushLocalDonations db
             (ledgerWithout ledger before after donor (earlier ++ later) removed now))).
Proof.
  intros L. split; intros E.
  - apply (removeLocalDonation_missing db ledger t now L E).
  - apply (removeLocalDonation_found db ledger t now L E).
Qed.

(** C10.  With no ledger in the store, [updateLocalDonation] of a positive
    amount starts from a fresh empty ledger and stores the donation as its
    only entry, while [removeLocalDonation] and [resetUserDonations] fail
    with 'No local donation data found' and write nothing. *)
Theorem operations_without_ledger `{!LawfulNumber num}
    (db : Store num) (donorName : string) (donationAmount : num)
    (nowInit nowDonation nowMeta : Z) (t userName : string) (now : Z) :
  getLocalDonations db = None ->
  num_gt donationAmount (num_lit 0) = true ->
  let stored := roundToTwoDecimals donationAmount in
  let ledger :=
    {| data :=
         {| donations :=
              [{| name := donorName;
                  individual_donations :=
                    [{| amount := stored;
                        timestamp := toISOString nowDonation;
                        donationType := Some Local;
                        subTier := None |}];
                  total_amount := safeAdd (num_lit 0) stored;
                  total_donations := 1 |}];
            overall_total :=
              {| overall_amount := safeAdd (num_lit 0) stored;
                 donation_count := 1 |} |};
       metadata_lastUpdated := toISOString nowMeta |} in
  updateLocalDonation db donorName donationAmount nowInit nowDonation nowMeta
  = (Ok (Some ledger), pushLocalDonations db ledger)
  /\ getLocalDonations (pushLocalDonations db ledger) = Some ledger
  /\ removeLocalDonation db t now = (Err NoLocalData, db)
  /\ resetUserDonations db userName now = (Err NoLocalData, db).
Proof.
  intros L P stored ledger. repeat split.
  - unfold updateLocalDonation.
    rewrite (positive_not_le_zero _ P), L. reflexivity.
  - destruct db; reflexivity.
  - unfold removeLocalDonation. rewrite L. reflexivity.
  - unfold resetUserDonations. rewrite L. reflexivity.
Qed.

End LedgerFacts.

(** ** Duplicate submissions *)

Section DuplicateFacts.
Context {num : Type} `{JsNumber num} `{JsHost}.
Local Open Scope num_scope.

Lemma sameName_refl (a : string) : sameName a a = true.
Proof. unfold sameName. apply String.eqb_refl. Qed.

(** A donor of that name holding a donation of that amount, stamped within
    five seconds of the new one, makes the new one a duplicate. *)
Lemma isDuplicate_found (donors : list (DonationData num)) (donorName : string)
    (newDonation : IndividualDonation num) (donor : DonationData num)
    (d : IndividualDonation num) :
  In donor donors -> sameName (name donor) donorName = true ->
  In d (individual_donations donor) ->
  (amount d === amount newDonation) = true ->
  withinFiveSeconds (timestamp d) (timestamp newDonation) = true ->
  isDuplicate donors donorName newDonation = true.
Proof.
  intros ID S Id A W. unfold isDuplicate.
  apply existsb_exists. exists donor. split; [ exact ID | ].
  rewrite S. simpl. apply existsb_exists. exists d. split; [ exact Id | ].
  rewrite A, W. reflexivity.
Qed.

Lemma withinFiveSeconds_of (a b : string) (ta tb : Z) :
  getTime a = Some ta -> getTime b = Some tb -> (Z.abs (ta - tb) < 5000)%Z ->
  withinFiveSeconds a b = true.
Proof.
  intros A B L. unfold withinFiveSeconds. rewrite A, B. apply Z.ltb_lt. exact L.
Qed.

Lemma flat_map_replaceAt {A B : Type} (f : A -> list B) (earlier later : list A)
    (x y : A) :
  List.length (flat_map f (earlier ++ y :: later))
  = (List.length (flat_map f (earlier ++ x :: later))
     + List.length (f y) - List.length (f x))%nat.
Proof.
  rewrite !flat_map_app. simpl. rewrite !length_app. lia.
Qed.

(** What a call of [updateLocalDonation] that stores a donation leaves
    behind: a donor of the given name holding the new donation, and one
    donation more in the store. *)
Lemma update_stores (db db1 : Store num) (donorName : string) (donationAmount : num)
    (nowInit nowDonation nowMeta : Z) (ledger1 : LocalDonationData num) :
  updateLocalDonation db donorName donationAmount nowInit nowDonation nowMeta
  = (Ok (Some ledger1), db1) ->
  getLocalDonations db1 = Some ledger1
  /\ (exists donor,
        In donor (donations (data ledger1))
        /\ sameName (name donor) donorName = true
        /\ In {| amount := roundToTwoDecimals donationAmount;
                 timestamp := toISOString nowDonation;
                 donationType := Some Local;
                 subTier := None |} (individual_donations donor))
  /\ donationsStored db1 = S (donationsStored db).
Proof.
  unfold updateLocalDonation.
  destruct (num_le donationAmount (num_lit 0)); [ discriminate | ].
  set (current := match getLocalDonations db with
                  | Some l => l
                  | None => emptyLocalData nowInit
                  end).
  set (newDonation := {| amount := roundToTwoDecimals donationAmount;
                         timestamp := toISOString nowDonation;
                         donationType := Some Local;
                         subTier := None |}).
  destruct (isDuplicate (donations (data current)) donorName newDonation);
    [ discriminate | ].
  assert (C : donationsStored db
              = List.length (flat_map (@individual_donations num)
                                      (donations (data current)))).
  { unfold donationsStored, current. destruct (getLocalDonations db); reflexivity. }
  intros E. injection E as E1 E2. subst ledger1 db1.
  match goal with
  | |- context [pushLocalDonations db ?u] => set (updated := u)
  end.
  assert (G : getLocalDonations (pushLocalDonations db updated) = Some updated)
    by (destruct db; reflexivity).
  split; [ exact G | ].
  rewrite C. unfold donationsStored. rewrite G. unfold updated. simpl.
  clear G updated.
  destruct (findIndex (fun d => sameName (name d) donorName)
                      (donations (data current))) as [ i | ] eqn:F.
  - destruct (findIndex_Some _ _ _ F) as (earlier & x & later & D & L & S & _).
    rewrite D, <- L, nth_error_middle, replaceAt_middle. split.
    + exists (creditDonor x newDonation). repeat split.
      * apply in_or_app. right. left. reflexivity.
      * exact S.
      * simpl. apply in_or_app. right. left. reflexivity.
    + rewrite (flat_map_replaceAt _ earlier later x). simpl.
      rewrite length_app. simpl.
      rewrite !flat_map_app. simpl. rewrite !length_app. lia.
  - split.
    + eexists. repeat split.
      * apply in_or_app. right. left. reflexivity.
      * apply sameName_refl.
      * simpl. left. reflexivity.
    + rewrite flat_map_app, length_app. simpl. lia.
Qed.

(** C3.  For an amount the operation accepts (one above zero; anything else
    is refused before the ledger is looked at): when some donor of the same
    case-insensitive name already holds a donation of the identical rounded
    amount stamped within five seconds of the clock, [updateLocalDonation]
    returns [null] and leaves the store as it is.  Hence when such an amount
    is submitted under one name twice within five seconds and the first call
    stored it, the second call returns [null] and stores nothing: exactly
    one donation was added. *)
Theorem duplicate_donation_is_skipped `{!LawfulNumber num}
    (db : Store num) (donorName : string) (donationAmount : num) :
  num_gt donationAmount (num_lit 0) = true ->
  (forall ledger donor d (stamped nowInit nowDonation nowMeta : Z),
      getLocalDonations db = Some ledger ->
      In donor (donations (data ledger)) ->
      sameName (name donor) donorName = true ->
      In d (individual_donations donor) ->
      (amount d === roundToTwoDecimals donationAmount) = true ->
      getTime (timestamp d) = Some stamped ->
      getTime (toISOString nowDonation) = Some nowDonation ->
      (Z.abs (stamped - nowDonation) < 5000)%Z ->
      updateLocalDonation db donorName donationAmount nowInit nowDonation nowMeta
      = (Ok None, db))
  /\
  (forall ledger1 db1 (init1 first meta1 init2 second meta2 : Z),
      updateLocalDonation db donorName donationAmount init1 first meta1
      = (Ok (Some ledger1), db1) ->
      (roundToTwoDecimals donationAmount === roundToTwoDecimals donationAmount) = true ->
      getTime (toISOString first) = Some first ->
      getTime (toISOString second) = Some second ->
      (Z.abs (first - second) < 5000)%Z ->
      updateLocalDonation db1 donorName donationAmount init2 second meta2
      = (Ok None, db1)
      /\ donationsStored db1 = S (donationsStored db)).
Proof.
  intros P.
  assert (K : forall db' ledger donor d (stamped nowInit nowDonation nowMeta : Z),
             getLocalDonations db' = Some ledger ->
             In donor (donations (data ledger)) ->
             sameName (name donor) donorName = true ->
             In d (individual_donations donor) ->
             (amount d === roundToTwoDecimals donationAmount) = true ->
             getTime (timestamp d) = Some stamped ->
             getTime (toISOString nowDonation) = Some nowDonation ->
             (Z.abs (stamped - nowDonation) < 5000)%Z ->
             updateLocalDonation db' donorName donationAmount nowInit nowDonation nowMeta
             = (Ok None, db')).
  { intros db' ledger donor d stamped nowInit nowDonation nowMeta L ID S Id A T1 T2 W.
    unfold updateLocalDonation.
    rewrite (positive_not_le_zero _ P), L.
    rewrite (isDuplicate_found (donations (data ledger)) donorName
               {| amount := roundToTwoDecimals donationAmount;
                  timestamp := toISOString nowDonation;
                  donationType := Some Local;
                  subTier := None |}
               donor d ID S Id A (withinFiveSeconds_of _ _ _ _ T1 T2 W)).
    reflexivity. }
  split.
  - intros. eapply K; eassumption.
  - intros ledger1 db1 init1 first meta1 init2 second meta2 E A T1 T2 W.
    destruct (update_stores _ _ _ _ _ _ _ _ E) as (G & (donor & ID & S & Id) & C).
    split; [ | exact C ].
    eapply (K db1 ledger1 donor _ first); eassumption.
Qed.

End DuplicateFacts.

(** ** The ledger on sample inputs *)

Section LedgerSamples.
Local Open Scope string_scope.
Local Open Scope float_scope.

(** Ada's 0.10 submitted again one second after the first: the second call
    returns [null] and the store holds one donation. *)
Lemma duplicate_donation_sample :
  updateLocalDonation Samples.afterAda1 "Ada" 0.1 0 1793527201000 1793527201001
  = (Ok None, Samples.afterAda1)
  /\ donationsStored Samples.afterAda1 = S (donationsStored (None : Store float)).
Proof.
  assert (P : num_gt 0.1 (num_lit 0) = true) by (vm_compute; reflexivity).
  destruct (@duplicate_donation_is_skipped float _ _ _ None "Ada" 0.1 P)
    as [_ twice].
  eapply (twice _ _ 1793527200000%Z 1793527200000%Z 1793527200001%Z).
  - vm_compute. reflexivity.
  - vm_compute. reflexivity.
  - vm_compute. reflexivity.
  - vm_compute. reflexivity.
  - vm_compute. reflexivity.
Defined.

(** Removing a timestamp nobody holds fails and changes nothing; removing
    Grace's only donation removes Grace and lowers the overall total by her
    12.50. *)
Lemma removeLocalDonation_sample :
  removeLocalDonation Samples.ledgerStore "2026-11-01T11:11:11.111Z" 1793527230000
  = (Err DonationNotFound, Samples.ledgerStore)
  /\ exists ledger before donor after earlier removed later,
       getLocalDonations Samples.ledgerStore = Some ledger
       /\ donations (data ledger) = (before ++ donor :: after)%list
       /\ individual_donations donor = (earlier ++ removed :: later)%list
       /\ timestamp removed = "2026-11-01T10:00:20.000Z"
       /\ removeLocalDonation Samples.ledgerStore "2026-11-01T10:00:20.000Z"
            1793527230000
          = (Ok (ledgerWithout ledger before after donor (earlier ++ later)%list
                   removed 1793527230000),
             pushLocalDonations Samples.ledgerStore
               (ledgerWithout ledger before after donor (earlier ++ later)%list
                  removed 1793527230000)).
Proof.
  assert (L : exists ledger, getLocalDonations Samples.ledgerStore = Some ledger).
  { eexists. vm_compute. reflexivity. }
  destruct L as [ledger L]. split.
  - apply (proj1 (removeLocalDonation_spec Samples.ledgerStore ledger
                    "2026-11-01T11:11:11.111Z" 1793527230000 L)).
    vm_compute in L. inversion L. vm_compute. reflexivity.
  - destruct (proj2 (removeLocalDonation_spec Samples.ledgerStore ledger
                       "2026-11-01T10:00:20.000Z" 1793527230000 L))
      as (before & donor & after & earlier & removed & later & D & I & T & R).
    + vm_compute in L. inversion L. vm_compute. reflexivity.
    + exists ledger, before, donor, after, earlier, removed, later.
      repeat split; assumption.
Defined.

Example remove_grace :
  option_map (fun l => (map (@name float) (donations (data l)),
                        overall_total (data l)))
    (getLocalDonations
       (snd (removeLocalDonation Samples.ledgerStore "2026-11-01T10:00:20.000Z"
               1793527230000)))
  = Some (["Ada"], {| overall_amount := 12.8 - 12.5; donation_count := 2 |}).
Proof. vm_compute. reflexivity. Qed.

(** With an empty store, a donation of 25 creates the ledger with Ada's
    single donation, and removing or resetting fails. *)
Lemma operations_without_ledger_sample :
  (exists ledger,
      updateLocalDonation None "Ada" 25 1793527200000 1793527200000 1793527200001
      = (Ok (Some ledger), Some (withLocalDonations emptyDocument ledger))
      /\ map (fun d => (name d, map (@amount float) (individual_donations d),
                        total_amount d, total_donations d))
             (donations (data ledger))
         = [("Ada", [25], 25, 1%Z)]
      /\ overall_total (data ledger)
         = {| overall_amount := 25; donation_count := 1 |})
  /\ removeLocalDonation (None : Store float) "2026-11-01T10:00:00.000Z" 0
     = (Err NoLocalData, None)
  /\ resetUserDonations (None : Store float) "Ada" 0 = (Err NoLocalData, None).
Proof.
  assert (P : num_gt 25 (num_lit 0) = true) by (vm_compute; reflexivity).
  destruct (@operations_without_ledger float _ _ _ None "Ada" 25
              1793527200000 1793527200000 1793527200001
              "2026-11-01T10:00:00.000Z" "Ada" 0 eq_refl P)
    as (U & _ & R & S).
  split; [ | split; assumption ].
  eexists. split; [ exact U | ]. split; vm_compute; reflexivity.
Defined.

(** C2 on the program's numbers.  Ada gives 0.10 and 0.20 and Grace 12.50,
    through [updateLocalDonation]; every total is then the sum of its
    donations.  Removing the donation of 0.10 leaves Ada with her donation of
    0.20 and a total of 0.19999999999999998, and an overall total of
    12.700000000000001 over donor totals that add up to 12.7: the ledger is
    no longer consistent. *)
Theorem removal_breaks_the_totals :
  option_map ledgerConsistent (getLocalDonations Samples.ledgerStore) = Some true
  /\ exists ledger,
       removeLocalDonation Samples.ledgerStore "2026-11-01T10:00:00.000Z"
         1793527230000
       = (Ok ledger, pushLocalDonations Samples.ledgerStore ledger)
       /\ map (fun d => (name d, map (@amount float) (individual_donations d),
                         total_amount d))
              (donations (data ledger))
          = [("Ada", [0.2], 0.19999999999999998); ("Grace", [12.5], 12.5)]
       /\ overall_amount (overall_total (data ledger)) = 12.700000000000001
       /\ safeAdd (safeAdd 0 0.2) 12.5 = 12.7
       /\ num_eq 0.19999999999999998 0.2 = false
       /\ num_eq 12.700000000000001 12.7 = false
       /\ ledgerConsistent ledger = false.
Proof.
  split; [ vm_compute; reflexivity | ].
  eexists. split; [ vm_compute; reflexivity | ].
  repeat split; vm_compute; reflexivity.
Qed.

End LedgerSamples.

(** ** Switching the Extra Life participant *)

Section SortingFacts.
Context {A : Type}.

Lemma insertSorted_perm (keeps : A -> A -> bool) (x : A) (l : list A) :
  Permutation (x :: l) (insertSorted keeps x l).
Proof.
  induction l as [ | y rest IH ]; simpl; [ apply Permutation_refl | ].
  destruct (keeps x y); [ apply Permutation_refl | ].
  apply (perm_trans (perm_swap y x rest)). apply perm_skip. exact IH.
Qed.

(** Sorting rearranges and neither adds nor loses an element. *)
Lemma stableSort_perm (keeps : A -> A -> bool) (l : list A) :
  Permutation l (stableSort keeps l).
Proof.
  induction l as [ | x rest IH ]; simpl; [ apply perm_nil | ].
  apply (perm_trans (perm_skip x IH)). apply insertSorted_perm.
Qed.

Lemma stableSort_In (keeps : A -> A -> bool) (l : list A) (x : A) :
  In x (stableSort keeps l) <-> In x l.
Proof.
  split; apply Permutation_in;
    [ apply Permutation_sym | ]; apply stableSort_perm.
Qed.

End SortingFacts.

Section ExtraLifeFacts.
Context {num : Type} `{JsNumber num} `{JsHost}.
Local Open Scope num_scope.

Lemma getExtraLifeData_goalState (db : Store num) (prev : ProcessedExtraLifeData num) :
  getExtraLifeData db = Some prev -> exists goalState, db = Some goalState.
Proof.
  destruct db as [ g | ]; [ intros _; exists g; reflexivity | discriminate ].
Qed.

(** C5, as the code has it.  When the configured participant ID is not empty
    and differs from the one recorded with the stored data, and both
    requests succeed, [pollExtraLife] returns data built from the fetched
    records alone: its donations are exactly the fetched donations of the
    participant's current [eventID], its sum and goal are the participant's
    (the goal falling back on the configured one), and it names the new
    participant.  That data replaces the stored one, unless [isEqual] finds
    the two equal. *)
Theorem participant_switch_discards_history
    (goalState : GoalState num) (trackerConfig : GoalTrackerConfig num)
    (previousData : ProcessedExtraLifeData num) (participantId : string)
    (participantData : ExtraLifeParticipantData num)
    (rawDonations : list (RawDonation num))
    (now nowSync nowUpdated : Z) :
  getExtraLifeData (Some goalState) = Some previousData ->
  config goalState = Some trackerConfig ->
  participantId <> EmptyString ->
  el_participantId previousData <> participantId ->
  exists processedData,
    pollExtraLife (Some goalState) (Some participantId)
      (HttpOk participantData) (HttpOk rawDonations) now nowSync nowUpdated
    = (Some processedData,
       snd (syncExternalData (Some goalState) ExtraLife (OfExtraLife processedData)
              nowSync nowUpdated))
    /\ (forall d, In d (el_donations processedData) <->
                  exists raw, In raw rawDonations
                              /\ d = normaliseDonation raw
                              /\ raw_eventID raw = participant_eventID participantData)
    /\ sumDonations processedData
       = numberOr (participant_sumDonations participantData) (num_lit 0)
    /\ fundraisingGoal processedData
       = numberOr (participant_fundraisingGoal participantData)
                  (donationGoal trackerConfig)
    /\ el_participantId processedData = participantId
    /\ el_eventID processedData = participant_eventID participantData
    /\ (getExtraLifeData
          (snd (syncExternalData (Some goalState) ExtraLife
                  (OfExtraLife processedData) nowSync nowUpdated))
        = Some processedData
        \/ isEqual (toJs (OfExtraLife previousData))
                   (toJs (OfExtraLife processedData)) = true).
Proof.
  intros P C N D.
  assert (Changed : String.eqb (el_participantId previousData) participantId = false)
    by (apply String.eqb_neq; exact D).
  assert (NonEmpty : String.eqb participantId EmptyString = false)
    by (apply String.eqb_neq; exact N).
  set (goal := numberOr (participant_fundraisingGoal participantData)
                        (donationGoal trackerConfig)).
  assert (G : match participant_fundraisingGoal participantData with
              | Some g => if truthy g then Some g else Some (donationGoal trackerConfig)
              | None => Some (donationGoal trackerConfig)
              end = Some goal).
  { unfold goal, numberOr, or_else.
    destruct (participant_fundraisingGoal participantData) as [ g | ];
      [ destruct (truthy g) | ]; reflexivity. }
  destruct goalState as [u o ca ua cfg loc se el]. simpl in C. subst cfg.
  unfold pollExtraLife. simpl noParticipant. rewrite NonEmpty.
  cbv zeta. rewrite P, Changed. simpl negb. cbv beta iota.
  unfold getGoalData. cbv beta iota. rewrite G.
  eexists. split; [ reflexivity | ].
  cbn [el_donations sumDonations fundraisingGoal el_participantId el_eventID].
  repeat split; try reflexivity.
  - intros I. apply stableSort_In in I. apply filter_In in I.
    destruct I as [I E]. apply in_map_iff in I. destruct I as [raw [R I]].
    exists raw. repeat split; [ exact I | symmetry; exact R | ].
    subst d. simpl in E. apply String.eqb_eq in E. exact E.
  - intros [raw [I [R E]]]. apply stableSort_In. apply filter_In. split.
    + subst d. apply in_map. exact I.
    + subst d. simpl. apply String.eqb_eq. exact E.
  - unfold getExtraLifeData in P. simpl in P.
    destruct el as [ [lu lr [ [ sed | eld ] | ]] | ]; try discriminate.
    inversion P; subst eld.
    unfold syncExternalData, getGoalData.
    cbn [sourceEntry extraLife sourceData lastGoalReset].
    match goal with
    | |- context [isEqual ?a ?b] => destruct (isEqual a b) eqn:Q
    end.
    + right. reflexivity.
    + left. reflexivity.
Qed.

End ExtraLifeFacts.

(** ** The Extra Life poll on sample inputs *)

Section ExtraLifeSamples.
Local Open Scope string_scope.
Local Open Scope float_scope.

(** C5 as worded fails when a request fails.  The stored data is that of
    participant ["P1"]; the poll is for ["P2"] and the participant request
    comes back with status 503: the poll returns the stored data, donation
    ["D1"] of the old participant included, and the store keeps it. *)
Lemma failed_request_keeps_old_participant :
  option_map (@el_participantId float) (getExtraLifeData Samples.storeWithExtraLife)
  = Some "P1"
  /\ pollExtraLife Samples.storeWithExtraLife (Some "P2") (HttpError 503) (HttpOk [])
       1793534400000 1793534400000 1793534400001
     = (Some Samples.storedExtraLife, Samples.storeWithExtraLife)
  /\ map (@donationID float) (el_donations Samples.storedExtraLife) = ["D1"].
Proof.
  split; [ vm_compute; reflexivity | ].
  split; vm_compute; reflexivity.
Qed.

(** Polling for ["P2"] with both requests answered: the result holds the two
    fetched donations of event ["E2"], newest first, none of ["P1"], and is
    what the store holds afterwards. *)
Lemma participant_switch_sample :
  exists processedData store,
    pollExtraLife Samples.storeWithExtraLife (Some "P2")
      (HttpOk Samples.newParticipant) (HttpOk Samples.fetchedDonations)
      1793534400000 1793534400000 1793534400001
    = (Some processedData, store)
    /\ map (fun d => (donationID d, displayName d, el_amount d))
           (el_donations processedData)
       = [("N2", "Anonymous", 25); ("N1", "Bob", 15)]
    /\ sumDonations processedData = 40
    /\ el_participantId processedData = "P2"
    /\ getExtraLifeData store = Some processedData.
Proof.
  destruct (@participant_switch_discards_history float _ _
              {| uuid := Some "goal-1"; overlayInstance := None;
                 createdAt := Some "2026-11-01T09:00:00.000Z";
                 updatedAt := Some "2026-11-01T12:00:00.000Z";
                 config := Some Samples.trackerConfig;
                 localDonations := None;
                 streamElements := None;
                 extraLife :=
                   Some {| lastUpdated := Some "2026-11-01T12:00:00.000Z";
                           lastGoalReset := Missing;
                           sourceData := Some (OfExtraLife Samples.storedExtraLife) |} |}
              Samples.trackerConfig Samples.storedExtraLife "P2"
              Samples.newParticipant Samples.fetchedDonations
              1793534400000 1793534400000 1793534400001)
    as (processedData & E & _ & S & _ & P & _ & _).
  - reflexivity.
  - reflexivity.
  - discriminate.
  - discriminate.
  - exists processedData. eexists. split; [ exact E | ].
    match type of E with
    | ?poll = _ => set (result := poll) in E
    end.
    vm_compute in result. subst result. injection E as E _. subst processedData.
    split; [ vm_compute; reflexivity | ].
    split; [ vm_compute; reflexivity | ].
    split; vm_compute; reflexivity.
Defined.

End ExtraLifeSamples.

(** ** The previous donors in [processStreamElementsData] *)

Section StreamElementsFacts.
Context {num : Type} `{JsNumber num} `{JsHost}.
Local Open Scope num_scope.

Lemma filter_map_swap {A B : Type} (f : A -> B) (q : B -> bool) (l : list A) :
  filter q (map f l) = map f (filter (fun x => q (f x)) l).
Proof.
  induction l as [ | x rest IH ]; simpl; [ reflexivity | ].
  destruct (q (f x)); simpl; rewrite IH; reflexivity.
Qed.

Lemma filter_nonempty {A : Type} (p : A -> bool) (l : list A) :
  negb (Nat.eqb (List.length (filter p l)) 0) = existsb p l.
Proof.
  induction l as [ | x rest IH ]; simpl; [ reflexivity | ].
  destruct (p x); simpl; [ reflexivity | exact IH ].
Qed.

Lemma initialResult_donations (inPeriod : string -> bool)
    (donors : list (DonationData num)) (locals : option (list (DonationData num))) :
  donations (initialResult inPeriod
               (Some {| previous_donations := Some donors;
                        previous_localDonors := locals |}))
  = map (donorOfPeriod inPeriod)
        (filter (fun donor => existsb (fun d => inPeriod (timestamp d))
                                      (individual_donations donor))
                donors).
Proof.
  unfold initialResult. cbn [donations].
  rewrite filter_map_swap, map_map.
  f_equal. apply filter_ext. intros donor. cbn [keepInPeriod individual_donations].
  apply filter_nonempty.
Qed.

Lemma initialResult_without_totals (inPeriod : string -> bool)
    (donors : list (DonationData num)) (locals : option (list (DonationData num))) :
  initialResult inPeriod
    (Some {| previous_donations := Some (map withoutTotals donors);
             previous_localDonors := locals |})
  = initialResult inPeriod
      (Some {| previous_donations := Some donors;
               previous_localDonors := locals |}).
Proof.
  unfold initialResult.
  assert (E : map recomputeDonor
                (filter (fun donor =>
                           negb (Nat.eqb (List.length (individual_donations donor)) 0))
                        (map (keepInPeriod inPeriod) (map withoutTotals donors)))
              = map recomputeDonor
                  (filter (fun donor =>
                             negb (Nat.eqb (List.length (individual_donations donor)) 0))
                          (map (keepInPeriod inPeriod) donors))).
  { induction donors as [ | donor rest IH ]; simpl; [ reflexivity | ].
    destruct (negb (Nat.eqb (List.length
                (filter (fun d => inPeriod (timestamp d))
                        (individual_donations donor))) 0));
      simpl; rewrite IH; reflexivity. }
  rewrite E. reflexivity.
Qed.

(** The normaliser on a call that hands it a list of previous donors, which
    [pollStreamElements] never does: the stored data it passes on has no
    [donations] property.  Whatever the donors and the period (monthly or
    weekly, as [config] says): before any event is processed, the result of
    [processStreamElementsData] holds the previous donors, in their order,
    each with exactly the donations stamped inside the current period; a
    donor with no such donation is gone; each donor's [total_amount] and
    [total_donations] are the rounded [safeAdd]-sum and the count of the
    donations kept, and the overall totals add up the donors kept; the
    totals stored before play no part.  On a session without events and
    goals that is the result returned, once sorted. *)
Lemma previous_donors_are_filtered_to_the_period `{!LawfulNumber num}
    (config : StreamElementsConfig num) (currentMonth currentYear now : Z)
    (donors : list (DonationData num)) (locals : option (list (DonationData num))) :
  let inPeriod := isInCurrentPeriod config currentMonth currentYear now in
  let previousData :=
    Some {| previous_donations := Some donors; previous_localDonors := locals |} in
  let kept :=
    map (donorOfPeriod inPeriod)
        (filter (fun donor => existsb (fun d => inPeriod (timestamp d))
                                      (individual_donations donor))
                donors) in
  initialResult inPeriod previousData
  = {| donations := kept;
       overall_total :=
         {| overall_amount :=
              fold_left (fun sum donor => safeAdd sum (total_amount donor)) kept
                        (num_lit 0);
            donation_count :=
              fold_left (fun count donor => count + total_donations donor)%Z kept 0%Z
         |} |}
  /\ Forall (fun donor => individual_donations donor <> []) kept
  /\ initialResult inPeriod
       (Some {| previous_donations := Some (map withoutTotals donors);
                previous_localDonors := locals |})
     = initialResult inPeriod previousData
  /\ processStreamElementsData quietSession previousData currentMonth currentYear
       config now
     = {| donations :=
            stableSort largestFirst
              (map (fun donor =>
                      {| name := name donor;
                         individual_donations :=
                           stableSort newestFirst (individual_donations donor);
                         total_amount := total_amount donor;
                         total_donations := total_donations donor |})
                   kept);
          overall_total := overall_total (initialResult inPeriod previousData) |}.
Proof.
  intros inPeriod previousData kept.
  assert (D : donations (initialResult inPeriod previousData) = kept)
    by apply initialResult_donations.
  split; [ | split; [ | split ] ].
  - assert (T : forall l (a : num) (c : Z),
               fold_left
                 (fun total donor =>
                    {| overall_amount := safeAdd (overall_amount total) (total_amount donor);
                       donation_count := (donation_count total + total_donations donor)%Z |})
                 l {| overall_amount := a; donation_count := c |}
               = {| overall_amount :=
                      fold_left (fun sum donor => safeAdd sum (total_amount donor)) l a;
                    donation_count :=
                      fold_left (fun count donor => count + total_donations donor)%Z l c |}).
    { induction l as [ | donor rest IH ]; intros a c; simpl;
        [ reflexivity | apply IH ]. }
    rewrite <- D. unfold initialResult at 1. cbn [donations]. rewrite T.
    reflexivity.
  - unfold kept. apply Forall_forall. intros donor I.
    apply in_map_iff in I. destruct I as [source [E I]].
    apply filter_In in I. destruct I as [_ I]. subst donor.
    cbn [donorOfPeriod individual_donations].
    apply existsb_exists in I. destruct I as [d [Id Pd]].
    intros Empty.
    assert (K : In d (filter (fun d0 => inPeriod (timestamp d0))
                             (individual_donations source)))
      by (apply filter_In; split; assumption).
    rewrite Empty in K. contradiction.
  - apply initialResult_without_totals.
  - unfold processStreamElementsData. fold inPeriod.
    cbn [quietSession subscriber_recent cheer_recent tip_recent cheer_goal
         subscriber_goal tip_goal orEmpty fold_left goalValue].
    rewrite !zero_not_gt_zero. rewrite D.
    destruct (overall_total (initialResult inPeriod previousData)). reflexivity.
Qed.

End StreamElementsFacts.

(** ** [safeAdd] *)

Section CurrencyClaims.
Import Reals Lra Rounding RoundingFacts CentsFacts.




Lemma fold_safeAdd_whole_cents (cents : list Z) :
  forall start : Z,
    (0 <= start)%Z -> Forall (fun k => (0 <= k)%Z) cents ->
    (start + sumOfCents cents <= maxCents)%Z ->
    fold_left safeAdd (map amountOfCents cents) (amountOfCents start)
    = amountOfCents (start + sumOfCents cents) :> float.
Proof.
  induction cents as [ | k rest IH ]; intros start S F B.
  - cbn [map fold_left sumOfCents fold_right]. f_equal. lia.
  - inversion F as [ | ? ? K F' ]; subst.
    pose proof (sumOfCents_nonnegative rest F') as R.
    cbn [sumOfCents fold_right] in B. fold (sumOfCents rest) in B.
    cbn [map fold_left]. rewrite safeAdd_whole_cents by lia.
    rewrite IH by (assumption || lia).
    cbn [sumOfCents fold_right]. fold (sumOfCents rest). f_equal. lia.
Qed.

(** C8, on binary64.  For every finite sequence of amounts of whole cents,
    none negative and [maxCents] cents at most in all: folding [safeAdd]
    from 0 yields the amount of the cents added up, which is the double
    nearest to the exact decimal sum and which rounding to two places
    leaves as it is; adding the amounts in another order yields the same
    number; and on such amounts [safeAdd] is commutative and associative. *)
Theorem safeAdd_sums_exactly (cents cents' : list Z) :
  Forall (fun k => (0 <= k)%Z) cents ->
  (sumOfCents cents <= maxCents)%Z ->
  Permutation cents cents' ->
  let total : float := fold_left safeAdd (map amountOfCents cents) (num_lit 0) in
  total = amountOfCents (sumOfCents cents)
  /\ roundToTwoDecimals total = total
  /\ fold_left safeAdd (map amountOfCents cents') (num_lit 0) = total
  /\ ((1 <= sumOfCents cents)%Z ->
      exists x : R,
        Represents total x
        /\ (Rabs (x - IZR (sumOfCents cents) / 100)
            <= pow2 (-53) * (IZR (sumOfCents cents) / 100))%R)
  /\ (forall a b c : Z,
         (0 <= a)%Z -> (0 <= b)%Z -> (0 <= c)%Z -> (a + b + c <= maxCents)%Z ->
         safeAdd (amountOfCents a) (amountOfCents b)
         = safeAdd (amountOfCents b) (amountOfCents a) :> float
         /\ safeAdd (safeAdd (amountOfCents a) (amountOfCents b)) (amountOfCents c)
            = safeAdd (amountOfCents a)
                      (safeAdd (amountOfCents b) (amountOfCents c)) :> float).
Proof.
  intros F B P. cbv zeta.
  pose proof (sumOfCents_nonnegative cents F) as S0.
  assert (Z0 : num_lit 0 = amountOfCents 0 :> float) by reflexivity.
  assert (T : fold_left safeAdd (map amountOfCents cents) (num_lit 0)
              = amountOfCents (sumOfCents cents) :> float).
  { rewrite Z0, fold_safeAdd_whole_cents by (assumption || lia). reflexivity. }
  rewrite T. split; [ reflexivity | ]. split; [ | split; [ | split ] ].
  - destruct (Z.eq_dec (sumOfCents cents) 0) as [ E | N ].
    + rewrite E. reflexivity.
    + destruct (amountOfCents_correct (sumOfCents cents) ltac:(lia))
        as (x & Rx & Ex).
      assert (B' := B). unfold maxCents in B'.
      assert (1 <= IZR (sumOfCents cents))%R by (apply IZR_le; lia).
      assert (IZR (sumOfCents cents) <= 10000000000000)%R
        by (apply IZR_le; exact B').
      refine (roundToTwoDecimals_near _ x (sumOfCents cents) Rx S0 _ _).
      * lra.
      * rewrite pow2_IZR by lia. change (2 ^ 46)%Z with 70368744177664%Z. lra.
  - assert (F' : Forall (fun k => (0 <= k)%Z) cents').
    { apply Forall_forall. intros k I. rewrite Forall_forall in F. apply F.
      apply (Permutation_in k (Permutation_sym P)). exact I. }
    rewrite Z0, fold_safeAdd_whole_cents;
      rewrite <- ?(sumOfCents_permutation cents cents' P);
      try assumption; try lia.
    reflexivity.
  - intros One.
    destruct (amountOfCents_correct (sumOfCents cents) ltac:(lia)) as (x & Rx & Ex).
    exists x. split; [ exact Rx | ].
    rewrite unit_roundoff. apply Rabs_le. lra.
  - intros a b c A Bb C Sum. split.
    + rewrite !safeAdd_whole_cents by lia. f_equal. lia.
    + rewrite !safeAdd_whole_cents by lia. f_equal. lia.
Qed.

(** 0.10, 0.20 and 19.99 make 20.29 in either order, where plain addition
    of 0.10, 0.20 and 0.30 drifts. *)
Lemma safeAdd_sums_exactly_sample :
  fold_left safeAdd [0.1; 0.2; 19.99]%float (num_lit 0) = 20.29%float
  /\ fold_left safeAdd [19.99; 0.1; 0.2]%float (num_lit 0) = 20.29%float
  /\ fold_left PrimFloat.add [0.1; 0.2; 0.3]%float 0%float
     = 0.6000000000000001%float.
Proof.
  assert (F : Forall (fun k => (0 <= k)%Z) [10; 20; 1999]%Z)
    by (repeat constructor; lia).
  assert (B : (sumOfCents [10; 20; 1999] <= maxCents)%Z)
    by (vm_compute; discriminate).
  assert (P : Permutation [10; 20; 1999]%Z [1999; 10; 20]%Z).
  { apply Permutation_sym. apply (Permutation_cons_append [10; 20]%Z). }
  destruct (safeAdd_sums_exactly [10; 20; 1999]%Z [1999; 10; 20]%Z F B P)
    as (T & _ & O & _).
  split; [ exact T | ].
  split; [ exact (eq_trans O T) | ].
  vm_compute. reflexivity.
Defined.

End CurrencyClaims.

(** ** The periodic goal reset *)

Section ResetFacts.
Context {num : Type} `{JsNumber num} `{JsHost}.




Lemma getLastGoalReset_push (db : Store num) (stamp : string) :
  getLastGoalReset (pushLastGoalReset db stamp) = Holds stamp.
Proof.
  unfold pushLastGoalReset, getLastGoalReset. simpl.
  destruct db as [ g | ]; simpl;
    [ destruct (streamElements g) | ]; reflexivity.
Qed.

(** Synchronising StreamElements data leaves the key there, holding what it
    read as before. *)
Lemma getLastGoalReset_sync (db : Store num) (p : Payload num) (now nowUpdated : Z) :
  db <> None ->
  getLastGoalReset (snd (syncExternalData db StreamElements p now nowUpdated))
  = getLastGoalReset db
  \/ getLastGoalReset (snd (syncExternalData db StreamElements p now nowUpdated))
     = written (getLastGoalReset db).
Proof.
  unfold syncExternalData, getGoalData.
  destruct db as [ g | ]; [ intros _ | intros N; contradiction N; reflexivity ].
  cbn [sourceEntry].
  match goal with
  | |- context [if ?b then _ else _] => destruct b
  end; [ left; reflexivity | right ].
  unfold getLastGoalReset, updateGoalData, getGoalData.
  cbn [snd withSourceEntry streamElements option_map orElse rewritten lastGoalReset].
  destruct (streamElements g) as [ e | ]; [ | reflexivity ].
  destruct (lastGoalReset e); reflexivity.
Qed.

(** A key that is there keeps what it holds when it is written back. *)
Lemma written_present (p : Property) : p <> Missing -> written p = p.
Proof.
  destruct p; intros N; [ contradiction N; reflexivity | reflexivity | reflexivity ].
Qed.

(** No reset is due only with a key to read. *)
Lemma shouldReset_false_present (db : Store num) (summary : SummaryType) (now : Z) :
  shouldReset db summary now = false -> getLastGoalReset db <> Missing.
Proof.
  unfold shouldReset. destruct (getLastGoalReset db); [ discriminate | | ];
    intros _; discriminate.
Qed.

(** What a poll does about the reset, and what it leaves recorded. *)
Lemma pollStreamElements_reset (goalState : GoalState num) (input : PollInput num) :
  let db := Some goalState in
  let due := shouldReset db (configuredSummary goalState) (poll_start input) in
  fst (fst (pollStreamElements db input)) = due
  /\ getLastGoalReset (snd (pollStreamElements db input))
     = match due, poll_resetResponse input with
       | true, HttpOk _ => Holds (toISOString (poll_resetRecorded input))
       | _, _ => getLastGoalReset db
       end.
Proof.
  cbv zeta. unfold pollStreamElements, resetGoalValuesIfNeeded, getGoalData.
  assert (Sync : forall (d : Store num) p a b,
            d <> None -> getLastGoalReset d <> Missing ->
            getLastGoalReset (snd (syncExternalData d StreamElements p a b))
            = getLastGoalReset d).
  { intros d p a b N P.
    destruct (getLastGoalReset_sync d p a b N) as [ E | E ]; [ exact E | ].
    rewrite E. apply written_present. exact P. }
  assert (Pushed : forall stamp p a b,
            getLastGoalReset
              (snd (syncExternalData (pushLastGoalReset (Some goalState) stamp)
                      StreamElements p a b))
            = Holds stamp).
  { intros stamp p a b. rewrite Sync.
    - apply getLastGoalReset_push.
    - discriminate.
    - rewrite getLastGoalReset_push. discriminate. }
  destruct (shouldReset (Some goalState) (configuredSummary goalState)
                        (poll_start input)) eqn:Due.
  - destruct (poll_resetResponse input) as [ | status | [] ];
      [ split; reflexivity | split; reflexivity | ].
    destruct (config goalState) as [ c | ];
      [ | split; [ reflexivity | apply getLastGoalReset_push ] ].
    destruct (poll_session input) as [ | status | currentData ];
      try (split; [ reflexivity | apply getLastGoalReset_push ]).
    match goal with
    | |- context [if ?b then _ else _] => destruct b
    end.
    + split; [ reflexivity | apply getLastGoalReset_push ].
    + split; [ reflexivity | ].
      cbn [snd]. apply Pushed.
  - destruct (config goalState) as [ c | ]; [ | split; reflexivity ].
    destruct (poll_session input) as [ | status | currentData ];
      try (split; reflexivity).
    match goal with
    | |- context [if ?b then _ else _] => destruct b
    end.
    + split; reflexivity.
    + split; [ reflexivity | ].
      cbn [snd]. apply Sync; [ discriminate | ].
      apply (shouldReset_false_present _ _ _ Due).
Qed.




(** After a reset recorded on a 1st, monthly accounting never sends the
    request again: on any other day the day is wrong, and on a 1st the
    recorded day of the month is the same. *)
Lemma monthly_reset_never_repeats (db : Store num) (stamp : string)
    (recorded now : Z) :
  getLastGoalReset db = Holds stamp -> getTime stamp = Some recorded ->
  Calendar.getDate zoneOffset recorded = 1%Z ->
  shouldReset db Monthly now = false.
Proof.
  intros L T First. unfold shouldReset, resetOnAnotherDate. rewrite L, T, First.
  destruct (Calendar.getDate zoneOffset now =? 1)%Z eqn:E; [ | reflexivity ].
  apply Z.eqb_eq in E. rewrite E. reflexivity.
Qed.

End ResetFacts.

(** ** Polls on sample inputs *)

Section PollSamples.
Local Open Scope string_scope.
Local Open Scope float_scope.


(** A reset request that fails on its Sunday is not made up for on Monday.
    Weekly accounting with the reset of Sunday 2026-11-01 on record: the
    poll at 23:59:30 on Sunday 2026-11-08 sends the request, which is
    answered with status 500; the poll one minute later, on Monday, sends
    none. *)
Example failed_sunday_reset_is_not_repeated :
  getLastGoalReset MoreSamples.weeklySession = Holds "2026-11-01T00:00:10.000Z"
  /\ fst (runPolls MoreSamples.weeklySession
            [Samples.pollAt MoreSamples.sundayNight (HttpError 500);
             Samples.pollAt (MoreSamples.sundayNight + 60000) (HttpOk tt)])
     = [true; false]
  /\ toISOString MoreSamples.sundayNight = "2026-11-08T23:59:30.000Z"
  /\ Calendar.getDay zoneOffset MoreSamples.sundayNight = 0%Z
  /\ Calendar.getDay zoneOffset (MoreSamples.sundayNight + 60000) = 1%Z.
Proof. repeat split; vm_compute; reflexivity. Qed.

(** After [resetStreamElementsData] the key of the reset is there and holds
    [undefined]: a poll on a Wednesday sends no request, where the same
    poll on the session before sends one. *)
Example cleared_session_waits_for_sunday :
  getLastGoalReset (Some Samples.freshSession) = Missing
  /\ getLastGoalReset ResetSamples.clearedSession = Undefined
  /\ fst (runPolls (Some Samples.freshSession)
            [Samples.pollAt Samples.wednesdayNoon (HttpOk tt)]) = [true]
  /\ fst (runPolls ResetSamples.clearedSession
            [Samples.pollAt Samples.wednesdayNoon (HttpOk tt)]) = [false].
Proof. repeat split; vm_compute; reflexivity. Qed.


(** In a month whose reset was recorded on the 1st, the poll on the 1st of
    the next month sends no request under monthly accounting. *)
Example december_first_has_no_reset :
  shouldReset
    (pushLastGoalReset (Some Samples.freshSession) "2026-11-01T00:00:10.000Z")
    Monthly 1796083210000
  = false
  /\ toISOString 1796083210000 = "2026-12-01T00:00:10.000Z".
Proof. split; vm_compute; reflexivity. Qed.

(** Called with a list of previous donors, under weekly accounting with
    "now" on Monday 2026-11-02, the normaliser keeps Ada with her donation
    of that day and drops Bob, who gave in October only. *)
Lemma period_filter_sample :
  map (fun d => (name d, map (@timestamp float) (individual_donations d),
                 total_amount d, total_donations d))
      (donations
         (initialResult
            (isInCurrentPeriod (config_streamElements Samples.trackerConfig)
                               10 2026 1793620800000)
            (Some {| previous_donations := Some Samples.earlierDonors;
                     previous_localDonors := None |})))
  = [("Ada", ["2026-11-02T09:00:00.000Z"], 7.5, 1%Z)]
  /\ overall_total
       (processStreamElementsData quietSession
          (Some {| previous_donations := Some Samples.earlierDonors;
                   previous_localDonors := None |})
          10 2026 (config_streamElements Samples.trackerConfig) 1793620800000)
     = {| overall_amount := 7.5; donation_count := 1 |}.
Proof.
  destruct (@previous_donors_are_filtered_to_the_period float _ _ _
              (config_streamElements Samples.trackerConfig)
              10 2026 1793620800000 Samples.earlierDonors None)
    as (Init & _ & _ & Quiet).
  split.
  - rewrite Init. vm_compute. reflexivity.
  - rewrite Quiet, Init. vm_compute. reflexivity.
Defined.

(** C6 fails in the running program.  Weekly accounting, a fresh session.
    The poll of Monday 2026-11-02 at 10:00 finds a tip of 7.50 by Ada, made
    at 09:00, and stores her.  At the poll of 15:00 the platform lists one
    recent tip only, of 3.00 by Bob, and counts 10.50 in tips: Ada's
    donation is still in the current week, yet the data returned and stored
    lists Bob alone, as the one donation counted.  Handed the stored
    donors, the normaliser keeps Ada. *)
Theorem stored_donors_are_not_carried_over :
  let cfg := config_streamElements Samples.trackerConfig in
  let now := (MoreSamples.mondayAfternoon + 700)%Z in
  let month := Calendar.getMonth zoneOffset now in
  let year := Calendar.getFullYear zoneOffset now in
  let stored := getStreamElementsData MoreSamples.afterMorning in
  let result :=
    pollStreamElements MoreSamples.afterMorning
      (MoreSamples.sessionPoll MoreSamples.mondayAfternoon
         MoreSamples.afternoonSession) in
  option_map (fun p => map MoreSamples.donorLine (donations (current p))) stored
  = Some [("Ada", ["2026-11-02T09:00:00.000Z"], 7.5, 1%Z)]
  /\ isInCurrentPeriod cfg month year now "2026-11-02T09:00:00.000Z" = true
  /\ option_map (fun p => map MoreSamples.donorLine (donations (current p)))
       (snd (fst result))
     = Some [("Bob", ["2026-11-02T14:00:00.000Z"], 3, 1%Z)]
  /\ getStreamElementsData (snd result) = snd (fst result)
  /\ option_map (fun p => overall_total (current p)) (snd (fst result))
     = Some {| overall_amount := 10.5; donation_count := 1 |}
  /\ map MoreSamples.donorLine
       (donations
          (processStreamElementsData MoreSamples.afternoonSession
             (Some {| previous_donations :=
                        option_map (fun p => donations (current p)) stored;
                      previous_localDonors := None |})
             month year cfg now))
     = [("Ada", ["2026-11-02T09:00:00.000Z"], 7.5, 1%Z);
        ("Bob", ["2026-11-02T14:00:00.000Z"], 3, 1%Z)].
Proof. cbv zeta. repeat split; vm_compute; reflexivity. Qed.

End PollSamples.

(** ** The ledger in exact arithmetic *)

Section LedgerShapes.
Context {num : Type} `{JsNumber num} `{JsHost}.
Local Open Scope num_scope.

Lemma getLocalDonations_push (db : Store num) (ledger : LocalDonationData num) :
  getLocalDonations (pushLocalDonations db ledger) = Some ledger.
Proof. destruct db; reflexivity. Qed.

(** The ledger a storing call of [updateLocalDonation] leaves: the first
    donor of that name is credited, or a new donor is appended. *)
Lemma updateLocalDonation_stored (db db1 : Store num) (donorName : string)
    (donationAmount : num) (nowInit nowDonation nowMeta : Z)
    (ledger1 : LocalDonationData num) :
  updateLocalDonation db donorName donationAmount nowInit nowDonation nowMeta
  = (Ok (Some ledger1), db1) ->
  let current := match getLocalDonations db with
                 | Some l => l
                 | None => emptyLocalData nowInit
                 end in
  let newDonation := {| amount := roundToTwoDecimals donationAmount;
                        timestamp := toISOString nowDonation;
                        donationType := Some Local;
                        subTier := None |} in
  db1 = pushLocalDonations db ledger1
  /\ overall_total (data ledger1)
     = {| overall_amount :=
            safeAdd (overall_amount (overall_total (data current)))
                    (amount newDonation);
          donation_count := donation_count (overall_total (data current)) + 1 |}
  /\ ((exists earlier donor later,
          donations (data current) = earlier ++ donor :: later
          /\ donations (data ledger1)
             = earlier ++ creditDonor donor newDonation :: later)
      \/ donations (data ledger1)
         = donations (data current)
           ++ [creditDonor {| name := donorName;
                              individual_donations := [];
                              total_amount := num_lit 0;
                              total_donations := 0 |} newDonation]).
Proof.
  unfold updateLocalDonation.
  destruct (num_le donationAmount (num_lit 0)); [ discriminate | ].
  cbv zeta.
  set (current := match getLocalDonations db with
                  | Some l => l
                  | None => emptyLocalData nowInit
                  end).
  set (newDonation := {| amount := roundToTwoDecimals donationAmount;
                         timestamp := toISOString nowDonation;
                         donationType := Some Local;
                         subTier := None |}).
  destruct (isDuplicate (donations (data current)) donorName newDonation);
    [ discriminate | ].
  intros E. injection E as E1 E2. subst ledger1 db1.
  split; [ reflexivity | ]. split; [ reflexivity | ].
  cbn [data donations].
  destruct (findIndex (fun d => sameName (name d) donorName)
                      (donations (data current))) as [ i | ] eqn:F.
  - destruct (findIndex_Some _ _ _ F) as (earlier & x & later & D & L & _).
    left. exists earlier, x, later. split; [ exact D | ].
    rewrite D, <- L, nth_error_middle, replaceAt_middle. reflexivity.
  - right. reflexivity.
Qed.

(** The ledger a successful [removeLocalDonation] leaves. *)
Lemma removeLocalDonation_stored (db db1 : Store num) (t : string) (now : Z)
    (ledger1 : LocalDonationData num) :
  removeLocalDonation db t now = (Ok ledger1, db1) ->
  exists ledger before donor after earlier removed later,
    getLocalDonations db = Some ledger
    /\ donations (data ledger) = before ++ donor :: after
    /\ individual_donations donor = earlier ++ removed :: later
    /\ ledger1 = ledgerWithout ledger before after donor (earlier ++ later) removed now
    /\ db1 = pushLocalDonations db ledger1.
Proof.
  intros E.
  destruct (getLocalDonations db) as [ ledger | ] eqn:L.
  2:{ unfold removeLocalDonation in E. rewrite L in E. discriminate. }
  destruct (existsb (holdsTimestamp t) (donations (data ledger))) eqn:X.
  - destruct (removeLocalDonation_found db ledger t now L X)
      as (before & donor & after & earlier & removed & later & D & I & _ & R).
    rewrite R in E. injection E as E1 E2. subst ledger1 db1.
    exists ledger, before, donor, after, earlier, removed, later.
    repeat split; assumption.
  - rewrite (removeLocalDonation_missing db ledger t now L X) in E. discriminate.
Qed.

(** The ledger a successful [resetUserDonations] leaves. *)
Lemma resetUserDonations_stored (db db1 : Store num) (userName : string) (now : Z)
    (ledger1 : LocalDonationData num) :
  resetUserDonations db userName now = (Ok ledger1, db1) ->
  exists ledger before donor after,
    getLocalDonations db = Some ledger
    /\ donations (data ledger) = before ++ donor :: after
    /\ ledger1
       = {| data :=
              {| donations := before ++ after;
                 overall_total :=
                   {| overall_amount :=
                        roundToTwoDecimals
                          (overall_amount (overall_total (data ledger))
                           - total_amount donor);
                      donation_count :=
                        donation_count (overall_total (data ledger))
                        - total_donations donor |} |};
            metadata_lastUpdated := toISOString now |}
    /\ db1 = pushLocalDonations db ledger1.
Proof.
  unfold resetUserDonations.
  destruct (getLocalDonations db) as [ ledger | ]; [ | discriminate ].
  destruct (findIndex (fun donor => sameName (name donor) userName)
                      (donations (data ledger))) as [ i | ] eqn:F;
    [ | discriminate ].
  destruct (findIndex_Some _ _ _ F) as (before & donor & after & D & L & _).
  rewrite D, <- L, nth_error_middle, removeAt_middle.
  intros E. injection E as E1 E2. subst ledger1 db1.
  exists ledger, before, donor, after. repeat split. exact D.
Qed.

End LedgerShapes.

Module ExactLedger.
Import Exact ExactFacts.

Lemma cents_minus (a b : Z) : Qcminus (cents a) (cents b) = cents (a - b).
Proof.
  apply Qc_is_canon.
  unfold cents, Qcminus, Qcplus, Qcopp, Q2Qc, this. rewrite !Qred_correct.
  cross_multiply.
Qed.

Lemma twoDecimals_plus (a b : Qc) :
  twoDecimals a -> twoDecimals b -> twoDecimals (Qcplus a b).
Proof. intros [i ->] [j ->]. exists (i + j)%Z. apply cents_plus. Qed.

Lemma twoDecimals_minus (a b : Qc) :
  twoDecimals a -> twoDecimals b -> twoDecimals (Qcminus a b).
Proof. intros [i ->] [j ->]. exists (i - j)%Z. apply cents_minus. Qed.

Lemma round_twoDecimals (x : Qc) : twoDecimals x -> roundToTwoDecimals x = x.
Proof. intros [k ->]. apply round_cents. Qed.

(** Whatever is rounded has two decimal places. *)
Lemma twoDecimals_round (x : Qc) : twoDecimals (roundToTwoDecimals x).
Proof.
  unfold roundToTwoDecimals. simpl. unfold parseFloat_toFixed2.
  set (n := toFixed2_digits x).
  assert (E : Q2Qc (inject_Z n / 100) = cents n).
  { apply Qc_is_canon. unfold cents, Q2Qc, this. rewrite !Qred_correct.
    cross_multiply. }
  rewrite E. destruct (Qle_bool 0 x).
  - exists n. reflexivity.
  - exists (- n)%Z. apply Qc_is_canon.
    unfold cents, Qcopp, Q2Qc, this. rewrite !Qred_correct. cross_multiply.
Qed.

Lemma safeAdd_twoDecimals (a b : Qc) :
  twoDecimals a -> twoDecimals b -> safeAdd a b = Qcplus a b.
Proof.
  intros A B. rewrite safeAdd_exact_sum. apply round_twoDecimals.
  apply twoDecimals_plus; assumption.
Qed.

Lemma zero_twoDecimals : twoDecimals (Q2Qc 0).
Proof. exists 0%Z. apply Qc_is_canon. vm_compute. reflexivity. Qed.

Lemma twoDecimals_exactSum (amounts : list Qc) :
  Forall twoDecimals amounts -> twoDecimals (exactSum amounts).
Proof.
  induction 1 as [ | x rest X _ IH ]; simpl.
  - apply zero_twoDecimals.
  - apply twoDecimals_plus; assumption.
Qed.

Lemma exactSum_app (l l' : list Qc) :
  exactSum (l ++ l') = Qcplus (exactSum l) (exactSum l').
Proof.
  induction l as [ | x rest IH ]; simpl.
  - ring.
  - rewrite IH. ring.
Qed.

Lemma sum_app (l l' : list Z) :
  fold_right Z.add 0%Z (l ++ l')
  = (fold_right Z.add 0%Z l + fold_right Z.add 0%Z l')%Z.
Proof. induction l as [ | x rest IH ]; simpl; lia. Qed.

(** Sums over appended lists, split into their parts. *)
Ltac split_sums :=
  rewrite ?map_app, ?exactSum_app, ?sum_app, ?length_app;
  try unfold exactSum; cbn [map fold_right List.length].

Ltac split_sums_in H :=
  rewrite ?map_app, ?exactSum_app, ?sum_app, ?length_app in H;
  try unfold exactSum in H; cbn [map fold_right List.length] in H.

Lemma donorSound_total (donor : DonationData Qc) :
  donorSound donor -> twoDecimals (total_amount donor).
Proof.
  intros (_ & A & T & _). rewrite T. apply twoDecimals_exactSum.
  apply Forall_map. exact A.
Qed.

Lemma ledgerSound_overall (ledger : LocalDonationData Qc) :
  ledgerSound ledger -> twoDecimals (overall_amount (overall_total (data ledger))).
Proof.
  intros (D & O & _). rewrite O. apply twoDecimals_exactSum.
  apply Forall_map. revert D. apply Forall_impl. apply donorSound_total.
Qed.

(** A sound donor credited with a rounded amount is sound. *)
Lemma creditDonor_sound (donor : DonationData Qc) (d : IndividualDonation Qc) :
  (individual_donations donor = [] -> total_amount donor = Q2Qc 0
                                      /\ total_donations donor = 0%Z) ->
  (individual_donations donor <> [] -> donorSound donor) ->
  twoDecimals (amount d) ->
  donorSound (creditDonor donor d)
  /\ total_amount (creditDonor donor d) = Qcplus (total_amount donor) (amount d)
  /\ total_donations (creditDonor donor d) = (total_donations donor + 1)%Z.
Proof.
  intros Empty Full A.
  assert (S : Forall (fun x => twoDecimals (amount x)) (individual_donations donor)
              /\ total_amount donor
                 = exactSum (map (@amount Qc) (individual_donations donor))
              /\ total_donations donor
                 = Z.of_nat (List.length (individual_donations donor))).
  { destruct (individual_donations donor) as [ | x rest ] eqn:I.
    - destruct (Empty eq_refl) as [T C]. repeat split; [ constructor | exact T | exact C ].
    - assert (N : x :: rest <> []) by discriminate.
      destruct (Full N) as (_ & F & T & C).
      rewrite I in F, T, C. repeat split; assumption. }
  destruct S as (F & T & C).
  assert (Sum : total_amount (creditDonor donor d)
                = Qcplus (total_amount donor) (amount d)).
  { cbn [creditDonor total_amount]. apply safeAdd_twoDecimals; [ | exact A ].
    rewrite T. apply twoDecimals_exactSum. apply Forall_map. exact F. }
  split; [ | split; [ exact Sum | reflexivity ] ].
  unfold donorSound. rewrite Sum. cbn [creditDonor individual_donations total_donations].
  repeat split.
  - intros E. apply app_eq_nil in E. destruct E as [_ E]. discriminate.
  - apply Forall_app. split; [ exact F | constructor; [ exact A | constructor ] ].
  - rewrite T. split_sums. ring.
  - rewrite C. split_sums. lia.
Qed.

(** In exact arithmetic every mutation of the ledger keeps it sound: a
    stored donation, a removed donation, a reset donor and a reset ledger
    all leave donors whose totals are the sums and counts of their
    donations, no donor without donations, and overall totals that are the
    sums over the donors. *)
Theorem mutations_keep_the_ledger_sound `{JsHost} (db : Store Qc) :
  storeSound db ->
  (forall donorName donationAmount nowInit nowDonation nowMeta ledger1 db1,
      updateLocalDonation db donorName donationAmount nowInit nowDonation nowMeta
      = (Ok (Some ledger1), db1) ->
      ledgerSound ledger1 /\ storeSound db1)
  /\ (forall t now ledger1 db1,
         removeLocalDonation db t now = (Ok ledger1, db1) ->
         ledgerSound ledger1 /\ storeSound db1)
  /\ (forall userName now ledger1 db1,
         resetUserDonations db userName now = (Ok ledger1, db1) ->
         ledgerSound ledger1 /\ storeSound db1)
  /\ (forall now, storeSound (snd (resetLocalData db now))).
Proof.
  intros Sound.
  assert (Stored : forall ledger1, ledgerSound ledger1 ->
                     storeSound (pushLocalDonations db ledger1)).
  { intros ledger1 S l E. rewrite getLocalDonations_push in E.
    injection E as <-. exact S. }
  split; [ | split; [ | split ] ].
  - intros donorName donationAmount nowInit nowDonation nowMeta ledger1 db1 E.
    destruct (updateLocalDonation_stored _ _ _ _ _ _ _ _ E) as (-> & O & Shape).
    cbv zeta in O, Shape.
    set (current := match getLocalDonations db with
                    | Some l => l
                    | None => emptyLocalData nowInit
                    end) in *.
    assert (C : ledgerSound current).
    { subst current. destruct (getLocalDonations db) as [ l | ] eqn:L.
      - apply Sound. exact L.
      - repeat split; constructor. }
    assert (A : twoDecimals (roundToTwoDecimals donationAmount))
      by apply twoDecimals_round.
    assert (S1 : ledgerSound ledger1); [ | split; [ exact S1 | apply Stored; exact S1 ] ].
    destruct C as (D & Total & Count).
    assert (Overall : overall_amount (overall_total (data ledger1))
                      = Qcplus (overall_amount (overall_total (data current)))
                               (roundToTwoDecimals donationAmount)).
    { rewrite O. cbn [overall_amount amount]. apply safeAdd_twoDecimals; [ | exact A ].
      apply ledgerSound_overall. repeat split; assumption. }
    unfold ledgerSound. rewrite Overall, O. cbn [donation_count].
    destruct Shape as [ (earlier & donor & later & Dc & D1) | D1 ]; rewrite D1.
    + rewrite Dc in D, Total, Count.
      apply Forall_app in D. destruct D as [De Dl].
      inversion Dl as [ | ? ? Dd Dl' ]; subst.
      destruct (creditDonor_sound donor
                  {| amount := roundToTwoDecimals donationAmount;
                     timestamp := toISOString nowDonation;
                     donationType := Some Local; subTier := None |})
        as (Cs & Ct & Cc).
      * intros Empty. destruct Dd as [N _]. contradiction.
      * intros _. exact Dd.
      * exact A.
      * repeat split.
        -- apply Forall_app. split; [ exact De | constructor; assumption ].
        -- rewrite Total. split_sums. rewrite Ct. cbn [amount]. ring.
        -- rewrite Count. split_sums. rewrite Cc. lia.
    + destruct (creditDonor_sound
                  {| name := donorName; individual_donations := [];
                     total_amount := num_lit 0; total_donations := 0 |}
                  {| amount := roundToTwoDecimals donationAmount;
                     timestamp := toISOString nowDonation;
                     donationType := Some Local; subTier := None |})
        as (Cs & Ct & Cc).
      * intros _. split; reflexivity.
      * intros N. contradiction N. reflexivity.
      * exact A.
      * repeat split.
        -- apply Forall_app. split; [ exact D | constructor; [ exact Cs | constructor ] ].
        -- rewrite Total. split_sums. rewrite Ct. cbn [amount total_amount].
           change (@num_lit Qc _ 0%Z) with (Q2Qc 0). ring.
        -- rewrite Count. split_sums. rewrite Cc. cbn [total_donations]. lia.
  - intros t now ledger1 db1 E.
    destruct (removeLocalDonation_stored _ _ _ _ _ E)
      as (ledger & before & donor & after & earlier & removed & later
          & L & D & I & -> & ->).
    match goal with
    | |- ledgerSound ?l /\ _ =>
        assert (S1 : ledgerSound l); [ | split; [ exact S1 | apply Stored; exact S1 ] ]
    end.
    destruct (Sound ledger L) as (Ds & Total & Count).
    rewrite D in Ds, Total, Count.
    apply Forall_app in Ds. destruct Ds as [Db Da].
    inversion Da as [ | ? ? Dd Da' ]; subst.
    destruct Dd as (_ & F & T & C). rewrite I in F, T, C.
    apply Forall_app in F. destruct F as [Fe Fl].
    inversion Fl as [ | ? ? Fr Fl' ]; subst.
    split_sums_in T. split_sums_in C. split_sums_in Total. split_sums_in Count.
    unfold ledgerWithout, ledgerSound. cbn [data donations overall_total overall_amount donation_count].
    change (@num_sub Qc _) with Qcminus.
    destruct (earlier ++ later) as [ | d rest ] eqn:R.
    + apply app_eq_nil in R. destruct R as [-> ->].
      cbn [map fold_right List.length] in T, C.
      repeat split.
      * apply Forall_app. split; assumption.
      * rewrite Total, T. split_sums. ring.
      * rewrite Count, C. split_sums. lia.
    + repeat split.
      * apply Forall_app. split; [ exact Db | constructor; [ | exact Da' ] ].
        unfold donorSound. cbn [individual_donations total_amount total_donations].
        rewrite <- R. repeat split.
        -- rewrite R. discriminate.
        -- apply Forall_app. split; assumption.
        -- rewrite T. split_sums. ring.
        -- rewrite C. split_sums. lia.
      * rewrite Total. split_sums. cbn [total_amount]. ring.
      * rewrite Count. split_sums. cbn [total_donations]. lia.
  - intros userName now ledger1 db1 E.
    destruct (resetUserDonations_stored _ _ _ _ _ E)
      as (ledger & before & donor & after & L & D & -> & ->).
    match goal with
    | |- ledgerSound ?l /\ _ =>
        assert (S1 : ledgerSound l); [ | split; [ exact S1 | apply Stored; exact S1 ] ]
    end.
    assert (O : twoDecimals (overall_amount (overall_total (data ledger))))
      by (apply ledgerSound_overall; apply Sound; exact L).
    destruct (Sound ledger L) as (Ds & Total & Count).
    rewrite D in Ds, Total, Count.
    apply Forall_app in Ds. destruct Ds as [Db Da].
    inversion Da as [ | ? ? Dd Da' ]; subst.
    split_sums_in Total. split_sums_in Count.
    unfold ledgerSound. cbn [data donations overall_total overall_amount donation_count].
    change (@num_sub Qc _) with Qcminus.
    rewrite round_twoDecimals
      by (apply twoDecimals_minus; [ exact O | apply donorSound_total; exact Dd ]).
    repeat split.
    + apply Forall_app. split; assumption.
    + rewrite Total. split_sums. ring.
    + rewrite Count. split_sums. lia.
  - intros now. unfold resetLocalData. cbn [snd]. apply Stored.
    repeat split; constructor.
Qed.

End ExactLedger.

(** ** More on the ledger operations *)

Section LedgerExtras.
Context {num : Type} `{JsNumber num} `{JsHost}.
Local Open Scope num_scope.

Lemma sameName_lower (a b : string) :
  sameName a b = true <-> toLowerCase a = toLowerCase b.
Proof. unfold sameName. apply String.eqb_eq. Qed.

Lemma sameName_other (a b c : string) :
  sameName b c = true -> sameName a b = sameName a c.
Proof.
  intros E. apply sameName_lower in E. unfold sameName. rewrite E. reflexivity.
Qed.

Lemma find_first {A : Type} (p : A -> bool) (earlier later : list A) (x : A) :
  forallb (fun y => negb (p y)) earlier = true -> p x = true ->
  find p (earlier ++ x :: later) = Some x.
Proof.
  induction earlier as [ | y rest IH ]; simpl; intros N P.
  - rewrite P. reflexivity.
  - apply andb_prop in N. destruct N as [Ny N].
    apply negb_true_iff in Ny. rewrite Ny. apply IH; assumption.
Qed.

Lemma find_none {A : Type} (p : A -> bool) (l : list A) :
  existsb p l = false -> find p l = None.
Proof.
  induction l as [ | y rest IH ]; simpl; intros E; [ reflexivity | ].
  apply orb_false_elim in E. destruct E as [-> E]. apply IH. exact E.
Qed.

Lemma forallb_negb_existsb {A : Type} (p : A -> bool) (l : list A) :
  forallb (fun y => negb (p y)) l = negb (existsb p l).
Proof.
  induction l as [ | y rest IH ]; simpl; [ reflexivity | ].
  rewrite IH, negb_orb. reflexivity.
Qed.

(** The ledger a storing call of [updateLocalDonation] leaves, with what the
    search by name found. *)
Lemma updateLocalDonation_shape (db db1 : Store num) (donorName : string)
    (donationAmount : num) (nowInit nowDonation nowMeta : Z)
    (ledger1 : LocalDonationData num) :
  updateLocalDonation db donorName donationAmount nowInit nowDonation nowMeta
  = (Ok (Some ledger1), db1) ->
  let current := match getLocalDonations db with
                 | Some l => l
                 | None => emptyLocalData nowInit
                 end in
  let newDonation := {| amount := roundToTwoDecimals donationAmount;
                        timestamp := toISOString nowDonation;
                        donationType := Some Local;
                        subTier := None |} in
  db1 = pushLocalDonations db ledger1
  /\ overall_total (data ledger1)
     = {| overall_amount :=
            safeAdd (overall_amount (overall_total (data current)))
                    (amount newDonation);
          donation_count := donation_count (overall_total (data current)) + 1 |}
  /\ ((exists earlier donor later,
          donations (data current) = earlier ++ donor :: later
          /\ existsb (fun d => sameName (name d) donorName) earlier = false
          /\ sameName (name donor) donorName = true
          /\ donations (data ledger1)
             = earlier ++ creditDonor donor newDonation :: later)
      \/ (existsb (fun d => sameName (name d) donorName) (donations (data current))
          = false
          /\ donations (data ledger1)
             = donations (data current)
               ++ [creditDonor {| name := donorName;
                                  individual_donations := [];
                                  total_amount := num_lit 0;
                                  total_donations := 0 |} newDonation])).
Proof.
  unfold updateLocalDonation.
  destruct (num_le donationAmount (num_lit 0)); [ discriminate | ].
  cbv zeta.
  set (current := match getLocalDonations db with
                  | Some l => l
                  | None => emptyLocalData nowInit
                  end).
  set (newDonation := {| amount := roundToTwoDecimals donationAmount;
                         timestamp := toISOString nowDonation;
                         donationType := Some Local;
                         subTier := None |}).
  destruct (isDuplicate (donations (data current)) donorName newDonation);
    [ discriminate | ].
  intros E. injection E as E1 E2. subst ledger1 db1.
  split; [ reflexivity | ]. split; [ reflexivity | ].
  cbn [data donations].
  destruct (findIndex (fun d => sameName (name d) donorName)
                      (donations (data current))) as [ i | ] eqn:F.
  - destruct (findIndex_Some _ _ _ F) as (earlier & x & later & D & L & P & N).
    left. exists earlier, x, later.
    rewrite forallb_negb_existsb in N. apply negb_true_iff in N.
    split; [ exact D | ]. split; [ exact N | ]. split; [ exact P | ].
    rewrite D, <- L, nth_error_middle, replaceAt_middle. reflexivity.
  - right. apply findIndex_None in F. split; [ exact F | reflexivity ].
Qed.

(** *** Failed calls write nothing *)

Lemma donationsStored_push (db : Store num) (ledger : LocalDonationData num) :
  donationsStored (pushLocalDonations db ledger)
  = List.length (flat_map (@individual_donations num) (donations (data ledger))).
Proof. unfold donationsStored. rewrite getLocalDonations_push. reflexivity. Qed.

(** Every ledger operation that fails, and the [updateLocalDonation] that
    skips a duplicate, leaves the store as it was.  Of those that succeed,
    [updateLocalDonation] stores exactly one donation more,
    [removeLocalDonation] exactly one less, and [resetUserDonations] takes
    out a donor of the given name together with all their donations. *)
Theorem ledger_operations_are_atomic (db : Store num) (donorName : string)
    (donationAmount : num) (nowInit nowDonation nowMeta : Z) (t : string) :
  match updateLocalDonation db donorName donationAmount nowInit nowDonation nowMeta with
  | (Err _, db1) | (Ok None, db1) => db1 = db
  | (Ok (Some _), db1) => donationsStored db1 = S (donationsStored db)
  end
  /\ match removeLocalDonation db t nowMeta with
     | (Err _, db1) => db1 = db
     | (Ok _, db1) => S (donationsStored db1) = donationsStored db
     end
  /\ match resetUserDonations db donorName nowMeta with
     | (Err _, db1) => db1 = db
     | (Ok ledger1, db1) =>
         exists before donor after ledger,
           getLocalDonations db = Some ledger
           /\ donations (data ledger) = before ++ donor :: after
           /\ sameName (name donor) donorName = true
           /\ donations (data ledger1) = before ++ after
           /\ (donationsStored db1 + List.length (individual_donations donor))%nat
              = donationsStored db
     end.
Proof.
  split; [ | split ].
  - destruct (updateLocalDonation db donorName donationAmount nowInit nowDonation nowMeta)
      as [ [ [ ledger1 | ] | failure ] db1 ] eqn:E.
    + apply (update_stores _ _ _ _ _ _ _ _ E).
    + unfold updateLocalDonation in E.
      destruct (num_le donationAmount (num_lit 0)); [ discriminate | ].
      cbv zeta in E.
      match type of E with
      | (if ?c then _ else _) = _ => destruct c
      end; [ | discriminate ].
      injection E as <-. reflexivity.
    + unfold updateLocalDonation in E.
      destruct (num_le donationAmount (num_lit 0)).
      * injection E as _ <-. reflexivity.
      * cbv zeta in E.
        match type of E with
        | (if ?c then _ else _) = _ => destruct c
        end; discriminate.
  - destruct (removeLocalDonation db t nowMeta) as [ [ ledger1 | failure ] db1 ] eqn:E.
    + destruct (removeLocalDonation_stored _ _ _ _ _ E)
        as (ledger & before & donor & after & earlier & removed & later
            & L & D & I & -> & ->).
      rewrite donationsStored_push. unfold donationsStored. rewrite L, D.
      unfold ledgerWithout. cbn [data donations].
      destruct (earlier ++ later) as [ | d rest ] eqn:R.
      * apply app_eq_nil in R. destruct R as [-> ->].
        rewrite !flat_map_app. cbn [flat_map]. rewrite I, !length_app.
        simpl. lia.
      * rewrite !flat_map_app. cbn [flat_map individual_donations].
        rewrite I, <- R.
        repeat (rewrite length_app || cbn [List.length]). lia.
    + destruct (getLocalDonations db) as [ ledger | ] eqn:L.
      * destruct (existsb (holdsTimestamp t) (donations (data ledger))) eqn:X.
        -- destruct (removeLocalDonation_found db ledger t nowMeta L X)
             as (? & ? & ? & ? & ? & ? & _ & _ & _ & R).
           rewrite R in E. discriminate.
        -- rewrite (removeLocalDonation_missing db ledger t nowMeta L X) in E.
           injection E as _ <-. reflexivity.
      * unfold removeLocalDonation in E. rewrite L in E.
        injection E as _ <-. reflexivity.
  - destruct (resetUserDonations db donorName nowMeta)
      as [ [ ledger1 | failure ] db1 ] eqn:E.
    + unfold resetUserDonations in E.
      destruct (getLocalDonations db) as [ ledger | ] eqn:L; [ | discriminate ].
      destruct (findIndex (fun donor => sameName (name donor) donorName)
                          (donations (data ledger))) as [ i | ] eqn:F;
        [ | discriminate ].
      destruct (findIndex_Some _ _ _ F) as (before & donor & after & D & Li & P & _).
      rewrite D, <- Li, nth_error_middle, removeAt_middle in E.
      injection E as <- <-.
      exists before, donor, after, ledger.
      split; [ reflexivity | ]. split; [ exact D | ]. split; [ exact P | ].
      split; [ reflexivity | ].
      rewrite donationsStored_push. unfold donationsStored. rewrite L, D.
      cbn [data donations]. rewrite !flat_map_app. cbn [flat_map].
      rewrite !length_app. lia.
    + unfold resetUserDonations in E.
      destruct (getLocalDonations db) as [ ledger | ] eqn:L.
      * destruct (findIndex (fun donor => sameName (name donor) donorName)
                            (donations (data ledger))) as [ i | ] eqn:F.
        -- destruct (findIndex_Some _ _ _ F) as (before & donor & after & D & Li & _).
           rewrite D, <- Li, nth_error_middle in E. discriminate.
        -- injection E as _ <-. reflexivity.
      * injection E as _ <-. reflexivity.
Qed.

End LedgerExtras.

(** ** Donor names *)

Section DonorNames.
Context {num : Type} `{JsNumber num} `{JsHost}.
Local Open Scope num_scope.

Lemma no_match_not_in (donors : list (DonationData num)) (donorName : string) :
  existsb (fun d => sameName (name d) donorName) donors = false ->
  ~ In (toLowerCase donorName) (map (fun d => toLowerCase (name d)) donors).
Proof.
  induction donors as [ | d rest IH ]; simpl; intros E; [ tauto | ].
  apply orb_false_elim in E. destruct E as [E1 E2].
  intros [ I | I ].
  - apply sameName_lower in I. rewrite I in E1. discriminate.
  - apply (IH E2 I).
Qed.

Lemma existsb_same {A : Type} (p q : A -> bool) (l : list A) :
  (forall x, p x = q x) -> existsb p l = existsb q l.
Proof.
  intros E. induction l as [ | y rest IH ]; simpl; [ reflexivity | ].
  rewrite E, IH. reflexivity.
Qed.

Lemma distinctNames_replace (before after : list (DonationData num))
    (donor donor' : DonationData num) :
  name donor' = name donor ->
  distinctNames (before ++ donor :: after) ->
  distinctNames (before ++ donor' :: after).
Proof.
  unfold distinctNames. intros N. rewrite !map_app. simpl. rewrite N. tauto.
Qed.

Lemma distinctNames_remove (before after : list (DonationData num))
    (donor : DonationData num) :
  distinctNames (before ++ donor :: after) -> distinctNames (before ++ after).
Proof.
  unfold distinctNames. rewrite !map_app. simpl. apply NoDup_remove_1.
Qed.

Lemma distinctNames_first (before after : list (DonationData num))
    (donor : DonationData num) (username : string) :
  distinctNames (before ++ donor :: after) ->
  sameName (name donor) username = true ->
  existsb (fun d => sameName (name d) username) (before ++ after) = false.
Proof.
  unfold distinctNames. rewrite !map_app. simpl. intros D S.
  apply NoDup_remove_2 in D. apply sameName_lower in S.
  destruct (existsb (fun d => sameName (name d) username) (before ++ after)) eqn:X;
    [ | reflexivity ].
  apply existsb_exists in X. destruct X as (d & I & Sd).
  apply sameName_lower in Sd. exfalso. apply D. rewrite S, <- Sd.
  rewrite <- map_app. apply (in_map (fun d => toLowerCase (name d))). exact I.
Qed.

(** Donors keep distinct names, case ignored: when no two donors of the
    stored ledger share a name, none do after a donation was stored, after
    a donation was removed, or after a donor was reset. *)
Theorem donor_names_stay_distinct (db : Store num) :
  (forall ledger, getLocalDonations db = Some ledger ->
                  distinctNames (donations (data ledger))) ->
  (forall donorName donationAmount nowInit nowDonation nowMeta ledger1 db1,
      updateLocalDonation db donorName donationAmount nowInit nowDonation nowMeta
      = (Ok (Some ledger1), db1) ->
      distinctNames (donations (data ledger1)))
  /\ (forall t now ledger1 db1,
         removeLocalDonation db t now = (Ok ledger1, db1) ->
         distinctNames (donations (data ledger1)))
  /\ (forall userName now ledger1 db1,
         resetUserDonations db userName now = (Ok ledger1, db1) ->
         distinctNames (donations (data ledger1))).
Proof.
  intros Distinct. split; [ | split ].
  - intros donorName donationAmount nowInit nowDonation nowMeta ledger1 db1 E.
    destruct (updateLocalDonation_shape _ _ _ _ _ _ _ _ E) as (_ & _ & Shape).
    cbv zeta in Shape.
    assert (C : distinctNames
                  (donations (data match getLocalDonations db with
                                   | Some l => l
                                   | None => emptyLocalData nowInit
                                   end))).
    { destruct (getLocalDonations db) as [ l | ] eqn:L.
      - apply Distinct. reflexivity.
      - constructor. }
    destruct Shape as [ (earlier & donor & later & D & _ & _ & ->) | (N & ->) ].
    + rewrite D in C. revert C. apply distinctNames_replace. reflexivity.
    + unfold distinctNames in *. rewrite map_app. simpl.
      apply NoDup_app_remove_l with (l := []). simpl.
      apply NoDup_rev in C. rewrite <- (rev_involutive (_ ++ _)).
      apply NoDup_rev. rewrite rev_app_distr. simpl. constructor.
      * intros I. apply in_rev in I. revert I. apply no_match_not_in. exact N.
      * exact C.
  - intros t now ledger1 db1 E.
    destruct (removeLocalDonation_stored _ _ _ _ _ E)
      as (ledger & before & donor & after & earlier & removed & later
          & L & D & _ & -> & _).
    specialize (Distinct ledger L). rewrite D in Distinct.
    unfold ledgerWithout. cbn [data donations].
    destruct (earlier ++ later).
    + revert Distinct. apply distinctNames_remove.
    + revert Distinct. apply distinctNames_replace. reflexivity.
  - intros userName now ledger1 db1 E.
    destruct (resetUserDonations_stored _ _ _ _ _ E)
      as (ledger & before & donor & after & L & D & -> & _).
    specialize (Distinct ledger L). rewrite D in Distinct.
    cbn [data donations]. revert Distinct. apply distinctNames_remove.
Qed.

(** A donation that [updateLocalDonation] stored is found by
    [goalDonation] under any spelling of the donor's name, when asked for
    the rounded amount (an amount that equals itself, as every number but
    not-a-number does). *)
Theorem stored_donation_is_found (db db1 : Store num) (donorName username : string)
    (donationAmount : num) (nowInit nowDonation nowMeta : Z)
    (ledger1 : LocalDonationData num) :
  updateLocalDonation db donorName donationAmount nowInit nowDonation nowMeta
  = (Ok (Some ledger1), db1) ->
  sameName donorName username = true ->
  (roundToTwoDecimals donationAmount === roundToTwoDecimals donationAmount) = true ->
  goalDonation db1 username (roundToTwoDecimals donationAmount) = true.
Proof.
  intros E S A.
  destruct (updateLocalDonation_shape _ _ _ _ _ _ _ _ E) as (-> & _ & Shape).
  cbv zeta in Shape. unfold goalDonation. rewrite getLocalDonations_push.
  assert (P : forall d : DonationData num,
             sameName (name d) username = sameName (name d) donorName).
  { intros d. symmetry. apply sameName_other. exact S. }
  assert (Found : forall donor,
             existsb (fun donation => amount donation === roundToTwoDecimals donationAmount)
               (individual_donations
                  (creditDonor donor
                     {| amount := roundToTwoDecimals donationAmount;
                        timestamp := toISOString nowDonation;
                        donationType := Some Local; subTier := None |})) = true).
  { intros donor. cbn [creditDonor individual_donations].
    rewrite existsb_app. cbn [existsb amount]. rewrite A.
    rewrite orb_true_r. reflexivity. }
  destruct Shape as [ (earlier & donor & later & _ & N & Pd & ->) | (N & ->) ].
  - rewrite find_first.
    + apply Found.
    + rewrite forallb_negb_existsb. apply negb_true_iff.
      rewrite <- N. apply existsb_same. exact P.
    + rewrite P. exact Pd.
  - rewrite find_first.
    + apply Found.
    + rewrite forallb_negb_existsb. apply negb_true_iff.
      rewrite <- N. apply existsb_same. exact P.
    + rewrite P. cbn [creditDonor name]. apply sameName_refl.
Qed.

(** After [resetUserDonations] took a donor out of a ledger of distinct
    names, [goalDonation] finds no donation under that name, whatever the
    spelling and the amount. *)
Theorem reset_donor_is_not_found (db db1 : Store num) (userName username : string)
    (now : Z) (ledger ledger1 : LocalDonationData num) (donationAmount : num) :
  getLocalDonations db = Some ledger ->
  distinctNames (donations (data ledger)) ->
  resetUserDonations db userName now = (Ok ledger1, db1) ->
  sameName userName username = true ->
  goalDonation db1 username donationAmount = false.
Proof.
  intros L Distinct E S.
  unfold resetUserDonations in E. rewrite L in E.
  destruct (findIndex (fun donor => sameName (name donor) userName)
                      (donations (data ledger))) as [ i | ] eqn:F;
    [ | discriminate ].
  destruct (findIndex_Some _ _ _ F) as (before & donor & after & D & Li & P & _).
  rewrite D, <- Li, nth_error_middle, removeAt_middle in E.
  injection E as <- <-.
  unfold goalDonation. rewrite getLocalDonations_push. cbn [data donations].
  rewrite find_none; [ reflexivity | ].
  rewrite D in Distinct.
  apply (distinctNames_first before after donor username Distinct).
  rewrite <- (sameName_other (name donor) userName username S). exact P.
Qed.

End DonorNames.

(** ** The ledger in whole cents, on binary64 *)

Section LedgerInCents.
Context `{JsHost}.
Import Rounding CentsFacts.
Local Open Scope Z_scope.

Lemma totalOf_app (book book' : list (list Z)) :
  totalOf (book ++ book') = totalOf book + totalOf book'.
Proof. unfold totalOf. rewrite map_app. apply sumOfCents_app. Qed.

Lemma entriesOf_app (book book' : list (list Z)) :
  entriesOf (book ++ book') = entriesOf book + entriesOf book'.
Proof. unfold entriesOf. rewrite map_app. apply sumOfCents_app. Qed.

Lemma totalOf_cons (cents : list Z) (book : list (list Z)) :
  totalOf (cents :: book) = sumOfCents cents + totalOf book.
Proof. reflexivity. Qed.

Lemma entriesOf_cons (cents : list Z) (book : list (list Z)) :
  entriesOf (cents :: book) = Z.of_nat (List.length cents) + entriesOf book.
Proof. reflexivity. Qed.

Lemma totalOf_nonnegative (donors : list (DonationData float)) (book : list (list Z)) :
  Forall2 donorInCents donors book -> 0 <= totalOf book.
Proof.
  unfold totalOf.
  induction 1 as [ | donor cents donors book (_ & F & _) _ IH ];
    cbn [map sumOfCents fold_right]; [ lia | ].
  fold (sumOfCents (map sumOfCents book)).
  pose proof (sumOfCents_nonnegative cents F). lia.
Qed.

(** A donor credited with an amount of whole cents. *)
Lemma creditDonor_in_cents (donor : DonationData float) (cents : list Z)
    (d : IndividualDonation float) (k : Z) :
  Forall (fun c => 0 <= c) cents ->
  map (@amount float) (individual_donations donor) = map amountOfCents cents ->
  total_amount donor = amountOfCents (sumOfCents cents) ->
  total_donations donor = Z.of_nat (List.length cents) ->
  amount d = amountOfCents k -> 0 <= k ->
  sumOfCents cents + k <= maxCents ->
  donorInCents (creditDonor donor d) (cents ++ [k]).
Proof.
  intros F A T C Ad K B.
  pose proof (sumOfCents_nonnegative cents F) as S.
  unfold donorInCents, creditDonor.
  cbn [individual_donations total_amount total_donations].
  split; [ | split; [ | split; [ | split ] ] ].
  - intros E. apply app_eq_nil in E. destruct E as [ _ E ]. discriminate.
  - apply Forall_app. split; [ exact F | repeat constructor; exact K ].
  - rewrite !map_app, A. cbn [map]. rewrite Ad. reflexivity.
  - rewrite T, Ad, safeAdd_whole_cents by assumption.
    rewrite sumOfCents_snoc. reflexivity.
  - rewrite C, length_app. cbn [List.length]. lia.
Qed.

(** On binary64 the ledger stays in whole cents when a donation is stored,
    when a donor is reset and when the ledger is reset.  Let the stored
    ledger list, donor by donor, amounts of whole cents, with every total
    the amount of the cents it stands for and every count their number,
    [maxCents] cents at most in all.  Then a stored donation of a positive
    amount below [2^46], whose cents still fit, leaves such a ledger, with
    the cents of the donation added; a reset donor leaves such a ledger;
    and so does a reset ledger, which is empty. *)
Theorem ledger_stays_in_whole_cents (db : Store float) (book : list (list Z)) :
  storeInCents db book ->
  (forall donorName donationAmount nowInit nowDonation nowMeta ledger1 db1,
      num_gt donationAmount (num_lit 0) = true ->
      (donationAmount <? 0x1p46)%float = true ->
      totalOf book + centsOfAmount donationAmount <= maxCents ->
      updateLocalDonation db donorName donationAmount nowInit nowDonation nowMeta
      = (Ok (Some ledger1), db1) ->
      exists book1,
        storeInCents db1 book1
        /\ totalOf book1 = totalOf book + centsOfAmount donationAmount
        /\ entriesOf book1 = entriesOf book + 1)
  /\ (forall userName now ledger1 db1,
         resetUserDonations db userName now = (Ok ledger1, db1) ->
         exists book1,
           storeInCents db1 book1
           /\ totalOf book1 <= totalOf book
           /\ List.length book1 = pred (List.length book))
  /\ (forall now, storeInCents (snd (resetLocalData db now)) []).
Proof.
  intros Sound.
  assert (Stored : forall ledger1 book1,
             ledgerInCents ledger1 book1 ->
             storeInCents (pushLocalDonations db ledger1) book1).
  { intros ledger1 book1 S. unfold storeInCents.
    rewrite getLocalDonations_push. exact S. }
  assert (Zero : num_lit 0 = amountOfCents 0 :> float) by reflexivity.
  split; [ | split ].
  - intros donorName x nowInit nowDonation nowMeta ledger1 db1 Pos Small Fit E.
    destruct (updateLocalDonation_stored _ _ _ _ _ _ _ _ E) as (-> & O & Shape).
    cbv zeta in O, Shape.
    set (current := match getLocalDonations db with
                    | Some l => l
                    | None => emptyLocalData nowInit
                    end) in *.
    assert (C : ledgerInCents current book).
    { subst current. unfold storeInCents in Sound.
      destruct (getLocalDonations db) as [ l | ]; [ exact Sound | ].
      subst book. repeat split; try constructor. vm_compute. discriminate. }
    destruct (rounded_amount_in_cents x Pos Small) as [ A K ].
    set (k := centsOfAmount x) in *. clearbody k.
    destruct C as (D & Total & Count & Bound).
    pose proof (totalOf_nonnegative _ _ D) as T0.
    assert (Overall : overall_amount (overall_total (data ledger1))
                      = amountOfCents (totalOf book + k)).
    { rewrite O. cbn [overall_amount amount].
      rewrite Total, A. apply safeAdd_whole_cents; assumption. }
    assert (Counted : donation_count (overall_total (data ledger1))
                      = entriesOf book + 1).
    { rewrite O. cbn [donation_count]. rewrite Count. reflexivity. }
    destruct Shape as [ (earlier & donor & later & Dc & D1) | D1 ].
    + rewrite Dc in D. apply Forall2_app_inv_l in D.
      destruct D as (be & br & De & Dr & ->).
      inversion Dr as [ | ? cents ? bl (N & F & Am & Tm & Cm) Dl ]; subst.
      rewrite totalOf_app, totalOf_cons in Fit, T0, Bound |- *.
      pose proof (totalOf_nonnegative _ _ De) as Te.
      pose proof (totalOf_nonnegative _ _ Dl) as Tl.
      pose proof (sumOfCents_nonnegative cents F) as Tc.
      exists (be ++ (cents ++ [k]) :: bl). split; [ | split ].
      * apply Stored. unfold ledgerInCents. rewrite D1, Overall, Counted.
        split; [ | split; [ | split ] ].
        -- apply Forall2_app; [ exact De | ]. constructor; [ | exact Dl ].
           apply creditDonor_in_cents; try assumption; try reflexivity. lia.
        -- f_equal. rewrite !totalOf_app, !totalOf_cons, ?sumOfCents_snoc. lia.
        -- rewrite !entriesOf_app, !entriesOf_cons, length_app.
           cbn [List.length]. lia.
        -- rewrite !totalOf_app, !totalOf_cons, ?sumOfCents_snoc. lia.
      * rewrite !totalOf_app, !totalOf_cons, ?sumOfCents_snoc. lia.
      * rewrite !entriesOf_app, !entriesOf_cons, length_app.
        cbn [List.length]. lia.
    + exists (book ++ [[k]]).
      assert (Tk : totalOf (book ++ [[k]]) = totalOf book + k).
      { rewrite totalOf_app, totalOf_cons. unfold totalOf, sumOfCents.
        cbn [map fold_right]. lia. }
      assert (Ek : entriesOf (book ++ [[k]]) = entriesOf book + 1).
      { rewrite entriesOf_app. reflexivity. }
      split; [ | split; assumption ].
      apply Stored. unfold ledgerInCents. rewrite D1, Overall, Counted, Tk, Ek.
      split; [ | split; [ reflexivity | split; [ reflexivity | lia ] ] ].
      apply Forall2_app; [ exact D | ]. constructor; [ | constructor ].
      apply (creditDonor_in_cents
               {| name := donorName; individual_donations := [];
                  total_amount := num_lit 0; total_donations := 0 |} [] _ k);
        try assumption; try reflexivity; try constructor.
      unfold sumOfCents. cbn [fold_right]. lia.
  - intros userName now ledger1 db1 E.
    destruct (resetUserDonations_stored _ _ _ _ _ E)
      as (ledger & before & donor & after & L & D & -> & ->).
    unfold storeInCents in Sound. rewrite L in Sound.
    destruct Sound as (Ds & Total & Count & Bound).
    rewrite D in Ds. apply Forall2_app_inv_l in Ds.
    destruct Ds as (bb & br & Db & Dr & ->).
    inversion Dr as [ | ? cents ? ba (N & F & Am & Tm & Cm) Da ]; subst.
    rewrite totalOf_app, totalOf_cons in Total, Bound.
    rewrite entriesOf_app, entriesOf_cons in Count.
    pose proof (totalOf_nonnegative _ _ Db) as Tb.
    pose proof (totalOf_nonnegative _ _ Da) as Ta.
    pose proof (sumOfCents_nonnegative cents F) as Tc.
    exists (bb ++ ba). split; [ | split ].
    + apply Stored. unfold ledgerInCents.
      cbn [data donations overall_total overall_amount donation_count].
      rewrite Total, Tm, Count, Cm.
      rewrite rounded_difference_of_cents by lia.
      rewrite totalOf_app, entriesOf_app.
      split; [ | split; [ | split ] ].
      * apply Forall2_app; assumption.
      * f_equal. lia.
      * lia.
      * lia.
    + rewrite !totalOf_app, totalOf_cons. lia.
    + rewrite !length_app. cbn [List.length]. lia.
  - intros now. unfold resetLocalData. cbn [snd]. apply Stored.
    repeat split; try constructor. vm_compute. discriminate.
Qed.

End LedgerInCents.

(** ** The ledger theorems on sample inputs *)

Section ExactLedgerSamples.
Local Open Scope string_scope.

Ltac exact_amount k :=
  exists k; apply Qc_is_canon; vm_compute; reflexivity.

Ltac equal_amounts := apply Qc_is_canon; vm_compute; reflexivity.

Lemma exact_sample_ledger :
  exists ledger,
    getLocalDonations ExactSamples.ledgerStore = Some ledger /\ ledgerSound ledger.
Proof.
  eexists. split; [ vm_compute; reflexivity | ].
  split; [ | split ].
  - constructor; [ | constructor; [ | constructor ] ].
    + split; [ discriminate | ].
      split; [ constructor; [ exact_amount 10%Z | constructor ] | ].
      split; [ equal_amounts | vm_compute; reflexivity ].
    + split; [ discriminate | ].
      split; [ constructor; [ exact_amount 1250%Z | constructor ] | ].
      split; [ equal_amounts | vm_compute; reflexivity ].
  - equal_amounts.
  - vm_compute. reflexivity.
Qed.

Lemma exact_sample_store : storeSound ExactSamples.ledgerStore.
Proof.
  destruct exact_sample_ledger as (ledger & L & S).
  intros l E. rewrite L in E. injection E as <-. exact S.
Qed.

Lemma sound_ledger_sample :
  (exists ledger1 db1,
      updateLocalDonation ExactSamples.ledgerStore "ada" (Exact.cents 5)
        0 1793527220000 1793527220001 = (Ok (Some ledger1), db1)
      /\ ledgerSound ledger1 /\ storeSound db1)
  /\ (exists ledger1 db1,
         removeLocalDonation ExactSamples.ledgerStore "2026-11-01T10:00:00.000Z"
           1793527230000 = (Ok ledger1, db1)
         /\ ledgerSound ledger1 /\ storeSound db1)
  /\ (exists ledger1 db1,
         resetUserDonations ExactSamples.ledgerStore "GRACE" 1793527230000
         = (Ok ledger1, db1)
         /\ ledgerSound ledger1 /\ storeSound db1).
Proof.
  destruct (ExactLedger.mutations_keep_the_ledger_sound
              ExactSamples.ledgerStore exact_sample_store) as (U & R & X & _).
  split; [ | split ].
  - eexists. eexists. split; [ vm_compute; reflexivity | ].
    apply (U "ada" (Exact.cents 5) 0%Z 1793527220000%Z 1793527220001%Z).
    vm_compute. reflexivity.
  - eexists. eexists. split; [ vm_compute; reflexivity | ].
    apply (R "2026-11-01T10:00:00.000Z" 1793527230000%Z).
    vm_compute. reflexivity.
  - eexists. eexists. split; [ vm_compute; reflexivity | ].
    apply (X "GRACE" 1793527230000%Z).
    vm_compute. reflexivity.
Defined.

End ExactLedgerSamples.

Section LedgerInCentsSamples.
Local Open Scope string_scope.
Local Open Scope float_scope.

(** The sample ledger in cents: Ada gave 10 and 20 cents, Grace 1250. *)
Lemma sample_ledger_in_cents :
  storeInCents Samples.ledgerStore [[10; 20]; [1250]]%Z.
Proof.
  unfold storeInCents.
  set (stored := getLocalDonations Samples.ledgerStore).
  vm_compute in stored. subst stored. cbv beta iota.
  unfold ledgerInCents.
  cbn [data donations overall_total overall_amount donation_count].
  split; [ | split; [ | split ] ].
  - constructor; [ | constructor; [ | constructor ] ].
    + split; [ discriminate | ].
      split; [ repeat constructor; lia | ].
      split; [ vm_compute; reflexivity | ].
      split; vm_compute; reflexivity.
    + split; [ discriminate | ].
      split; [ repeat constructor; lia | ].
      split; [ vm_compute; reflexivity | ].
      split; vm_compute; reflexivity.
  - vm_compute. reflexivity.
  - vm_compute. reflexivity.
  - vm_compute. discriminate.
Qed.

(** Five cents more for Ada: the ledger stays in whole cents and holds
    1285 cents in all. *)
Lemma ledger_in_cents_sample :
  storeInCents Samples.ledgerStore [[10; 20]; [1250]]%Z
  /\ exists ledger1 db1 book1,
       updateLocalDonation Samples.ledgerStore "ada" 0.05
         0 1793527230000 1793527230001 = (Ok (Some ledger1), db1)
       /\ storeInCents db1 book1
       /\ totalOf book1 = 1285%Z.
Proof.
  split; [ exact sample_ledger_in_cents | ].
  destruct (ledger_stays_in_whole_cents Samples.ledgerStore
              [[10; 20]; [1250]]%Z sample_ledger_in_cents) as (U & _ & _).
  destruct (updateLocalDonation Samples.ledgerStore "ada" 0.05
              0 1793527230000 1793527230001) as [ r db1 ] eqn:E.
  assert (Stored : exists ledger1, r = Ok (Some ledger1)).
  { apply (f_equal fst) in E. cbn [fst] in E. rewrite <- E.
    eexists. vm_compute. reflexivity. }
  destruct Stored as (ledger1 & ->).
  assert (P : num_gt 0.05 (num_lit 0) = true) by (vm_compute; reflexivity).
  assert (S : (0.05 <? 0x1p46) = true) by (vm_compute; reflexivity).
  assert (Fit : (totalOf [[10; 20]; [1250]] + centsOfAmount 0.05 <= maxCents)%Z)
    by (vm_compute; discriminate).
  destruct (U "ada" 0.05 0%Z 1793527230000%Z 1793527230001%Z ledger1 db1 P S Fit E)
    as (book1 & S1 & T1 & _).
  exists ledger1, db1, book1.
  split; [ reflexivity | ]. split; [ exact S1 | ].
  rewrite T1. vm_compute. reflexivity.
Defined.

End LedgerInCentsSamples.

Section LedgerLookupSamples.
Local Open Scope string_scope.
Local Open Scope float_scope.

Lemma sample_names_distinct :
  forall ledger, getLocalDonations Samples.ledgerStore = Some ledger ->
                 distinctNames (donations (data ledger)).
Proof.
  intros ledger E. vm_compute in E. injection E as <-.
  unfold distinctNames. vm_compute.
  constructor; [ | constructor; [ | constructor ] ].
  - intros [ I | [ ] ]. discriminate I.
  - intros [ ].
Qed.

Lemma donor_names_sample :
  (exists ledger1 db1,
      updateLocalDonation Samples.ledgerStore "GRACE" 1 0 1793527230000 1793527230001
      = (Ok (Some ledger1), db1)
      /\ distinctNames (donations (data ledger1)))
  /\ (exists ledger1 db1,
         removeLocalDonation Samples.ledgerStore "2026-11-01T10:00:00.000Z"
           1793527230000 = (Ok ledger1, db1)
         /\ distinctNames (donations (data ledger1)))
  /\ (exists ledger1 db1,
         resetUserDonations Samples.ledgerStore "ADA" 1793527230000 = (Ok ledger1, db1)
         /\ distinctNames (donations (data ledger1))).
Proof.
  destruct (donor_names_stay_distinct Samples.ledgerStore sample_names_distinct)
    as (U & R & X).
  split; [ | split ].
  - eexists. eexists. split; [ vm_compute; reflexivity | ].
    apply (U "GRACE"%string 1 0%Z 1793527230000%Z 1793527230001%Z _
             (snd (updateLocalDonation Samples.ledgerStore "GRACE" 1 0
                     1793527230000 1793527230001))).
    vm_compute. reflexivity.
  - eexists. eexists. split; [ vm_compute; reflexivity | ].
    apply (R "2026-11-01T10:00:00.000Z"%string 1793527230000%Z _
             (snd (removeLocalDonation Samples.ledgerStore "2026-11-01T10:00:00.000Z"
                     1793527230000))).
    vm_compute. reflexivity.
  - eexists. eexists. split; [ vm_compute; reflexivity | ].
    apply (X "ADA"%string 1793527230000%Z _
             (snd (resetUserDonations Samples.ledgerStore "ADA" 1793527230000))).
    vm_compute. reflexivity.
Defined.

Lemma stored_donation_sample :
  goalDonation Samples.ledgerStore "GRACE" (roundToTwoDecimals 12.5) = true.
Proof.
  eapply (stored_donation_is_found Samples.afterAda2 Samples.ledgerStore
            "Grace" "GRACE" 12.5 0 1793527220000 1793527220001).
  - vm_compute. reflexivity.
  - vm_compute. reflexivity.
  - vm_compute. reflexivity.
Defined.

Lemma reset_donor_sample :
  goalDonation (snd (resetUserDonations Samples.ledgerStore "ADA" 1793527230000))
               "ada" 0.1 = false.
Proof.
  eapply (reset_donor_is_not_found Samples.ledgerStore _ "ADA" "ada" 1793527230000).
  - vm_compute. reflexivity.
  - apply sample_names_distinct. vm_compute. reflexivity.
  - vm_compute. reflexivity.
  - vm_compute. reflexivity.
Defined.

End LedgerLookupSamples.

(** ** More on the state store *)

Section SyncExtras.
Context {num : Type} `{JsNumber num} `{JsHost}.

(** What [updateGoalData] keeps and what it replaces when a document is
    stored. *)
Lemma updateGoalData_stored (goalState newState : GoalState num)
    (nowCreated nowUpdated : Z) :
  exists goalState1,
    updateGoalData (Some goalState) newState nowCreated nowUpdated = Some goalState1
    /\ uuid goalState1 = uuid goalState
    /\ createdAt goalState1 = createdAt goalState
    /\ overlayInstance goalState1 = overlayInstance goalState
    /\ updatedAt goalState1 = Some (toISOString nowUpdated)
    /\ config goalState1 = orElse (config newState) (config goalState)
    /\ localDonations goalState1
       = orElse (localDonations newState) (localDonations goalState)
    /\ streamElements goalState1
       = orElse (option_map rewritten (streamElements newState))
                (streamElements goalState)
    /\ option_map (@sourceData num) (extraLife goalState1)
       = option_map (@sourceData num)
           (orElse (extraLife newState) (extraLife goalState)).
Proof.
  eexists. split; [ reflexivity | ]. cbn.
  repeat split. destruct (extraLife newState); reflexivity.
Qed.

(** Writing the stored StreamElements entry back keeps its data. *)
Lemma orElse_rewritten (entry : option (SourceEntry num)) :
  option_map (@sourceData num) (orElse (option_map rewritten entry) entry)
  = option_map (@sourceData num) entry.
Proof. destruct entry; reflexivity. Qed.

Lemma storedData_entry (goalState : GoalState num) (source : Source) (p : Payload num) :
  payloadOf source p = true ->
  option_map (@sourceData num) (sourceEntry goalState source) = Some (Some p) ->
  storedData (Some goalState) source = Some p.
Proof.
  unfold storedData, getStreamElementsData, getExtraLifeData, getGoalData.
  destruct source; cbn [sourceEntry]; intros K E.
  - destruct (streamElements goalState) as [ [ u r d ] | ]; [ | discriminate ].
    cbn in E. injection E as ->. destruct p; [ reflexivity | discriminate ].
  - destruct (extraLife goalState) as [ [ u r d ] | ]; [ | discriminate ].
    cbn in E. injection E as ->. destruct p; [ discriminate | reflexivity ].
Qed.

Lemma storedData_other (g g1 : GoalState num) (source : Source) :
  option_map (@sourceData num) (sourceEntry g1 source)
  = option_map (@sourceData num) (sourceEntry g source) ->
  storedData (Some g1) source = storedData (Some g) source.
Proof.
  unfold storedData, getStreamElementsData, getExtraLifeData, getGoalData.
  destruct source; cbn [sourceEntry]; intros E.
  - destruct (streamElements g1) as [ [ u1 r1 d1 ] | ],
             (streamElements g) as [ [ u r d ] | ]; cbn in E;
      try discriminate; try reflexivity;
      injection E as E; subst; reflexivity.
  - destruct (extraLife g1) as [ [ u1 r1 d1 ] | ],
             (extraLife g) as [ [ u r d ] | ]; cbn in E;
      try discriminate; try reflexivity;
      injection E as E; subst; reflexivity.
Qed.

(** What [syncExternalData] leaves in the store.  Without a document
    nothing is written.  With one, the data now stored for the source is
    the new data when the call reports a change, and otherwise the data
    already there, which [isEqual] found equal to the new; either way the
    ledger, the data of the other source and the recorded goal reset are
    what they were, except that a reset key that was missing may now be
    there and hold [undefined]; a reported change stamps the document. *)
Theorem sync_stores_the_data (db : Store num) (source : Source) (newData : Payload num)
    (now nowUpdated : Z) :
  let changed := fst (syncExternalData db source newData now nowUpdated) in
  let db1 := snd (syncExternalData db source newData now nowUpdated) in
  match getGoalData db with
  | None => changed = false /\ db1 = db
  | Some goalState =>
      getLocalDonations db1 = getLocalDonations db
      /\ storedData db1 (otherSource source) = storedData db (otherSource source)
      /\ (getLastGoalReset db1 = getLastGoalReset db
          \/ (getLastGoalReset db = Missing /\ getLastGoalReset db1 = Undefined))
      /\ option_map (@config num) db1 = Some (config goalState)
      /\ if changed then
           option_map (@updatedAt num) db1 = Some (Some (toISOString nowUpdated))
           /\ (payloadOf source newData = true -> storedData db1 source = Some newData)
         else
           db1 = db
           /\ exists currentData,
                option_map (@sourceData num) (sourceEntry goalState source)
                = Some (Some currentData)
                /\ isEqual (toJs currentData) (toJs newData) = true
  end.
Proof.
  cbv zeta. unfold syncExternalData.
  destruct (getGoalData db) as [ goalState | ] eqn:G;
    [ | split; reflexivity ].
  unfold getGoalData in G. subst db.
  set (entry := sourceEntry goalState source).
  destruct (match match entry with
                  | Some e => sourceData e
                  | None => None
                  end with
            | Some c => isEqual (toJs c) (toJs newData)
            | None => false
            end) eqn:Q.
  - cbn [fst snd].
    split; [ reflexivity | ]. split; [ reflexivity | ].
    split; [ left; reflexivity | ]. split; [ reflexivity | ].
    split; [ reflexivity | ].
    destruct entry as [ [ u r [ c | ] ] | ]; try discriminate.
    exists c. split; [ reflexivity | exact Q ].
  - cbn [fst snd].
    match goal with
    | |- context [updateGoalData _ ?s ?a ?b] =>
        destruct (updateGoalData_stored goalState s a b)
          as (g1 & -> & _ & _ & _ & U & C & L & S & X)
    end.
    assert (Eq : forall A (a : option A), orElse a a = a)
      by (intros A [ a | ]; reflexivity).
    split; [ | split; [ | split; [ | split; [ | split ] ] ] ].
    + cbn [getLocalDonations]. rewrite L. apply Eq.
    + apply storedData_other. destruct source; cbn [otherSource sourceEntry].
      * rewrite X. cbn [withSourceEntry extraLife]. rewrite Eq. reflexivity.
      * rewrite S. cbn [withSourceEntry streamElements]. apply orElse_rewritten.
    + unfold getLastGoalReset. rewrite S.
      destruct source;
        cbn [withSourceEntry streamElements option_map orElse rewritten
             lastGoalReset].
      * unfold entry. cbn [sourceEntry].
        destruct (streamElements goalState) as [ e | ];
          [ destruct (lastGoalReset e) | ]; cbn [written];
          ((left; reflexivity) || (right; split; reflexivity)).
      * destruct (streamElements goalState) as [ e | ];
          [ cbn [option_map orElse rewritten lastGoalReset];
            destruct (lastGoalReset e) | ]; cbn [written];
          ((left; reflexivity) || (right; split; reflexivity)).
    + cbn [option_map]. rewrite C. cbn [withSourceEntry config]. rewrite Eq.
      reflexivity.
    + cbn [option_map]. rewrite U. reflexivity.
    + intros K. apply storedData_entry; [ exact K | ].
      destruct source; cbn [sourceEntry].
      * rewrite S. reflexivity.
      * rewrite X. reflexivity.
Qed.

End SyncExtras.

(** ** Resetting a source *)

Section ResetExtras.
Context {num : Type} `{JsNumber num} `{JsHost}.

Lemma orElse_same {A : Type} (a : option A) : orElse a a = a.
Proof. destruct a; reflexivity. Qed.

(** [resetStreamElementsData] and [resetExtraLifeData] write nothing when no
    document is stored, and [resetExtraLifeData] throws without writing when
    the document has no configuration.  Otherwise the source starts afresh:
    no donations, totals of zero, and for Extra Life the configured goal and
    participant with an empty event; the ledger, the configuration and the
    data of the other source stay as they were. *)
Theorem source_reset_starts_afresh (db : Store num)
    (nowEntry nowMonth nowYear nowMeta nowUpdated : Z) :
  let se := resetStreamElementsData db nowEntry nowMonth nowYear nowMeta nowUpdated in
  let el := resetExtraLifeData db nowEntry nowMeta nowUpdated in
  match getGoalData db with
  | None => se = (Returned, db) /\ el = (Returned, db)
  | Some goalState =>
      (fst se = Returned
       /\ getStreamElementsData (snd se)
          = Some (emptyStreamElementsData nowMonth nowYear nowMeta)
       /\ getExtraLifeData (snd se) = getExtraLifeData db
       /\ getLocalDonations (snd se) = getLocalDonations db
       /\ option_map (@config num) (snd se) = Some (config goalState))
      /\ match config goalState with
         | None => el = (Thrown, db)
         | Some c =>
             fst el = Returned
             /\ getExtraLifeData (snd el) = Some (emptyExtraLifeData c nowMeta)
             /\ getStreamElementsData (snd el) = getStreamElementsData db
             /\ getLocalDonations (snd el) = getLocalDonations db
             /\ option_map (@config num) (snd el) = Some (Some c)
         end
  end.
Proof.
  cbv zeta. unfold resetStreamElementsData, resetExtraLifeData.
  destruct (getGoalData db) as [ goalState | ] eqn:G; [ | split; reflexivity ].
  unfold getGoalData in G. subst db. split.
  - cbn [fst snd].
    match goal with
    | |- context [updateGoalData _ ?s ?a ?b] =>
        destruct (updateGoalData_stored goalState s a b)
          as (g1 & -> & _ & _ & _ & _ & C & L & S & X)
    end.
    cbn [withSourceEntry config localDonations streamElements extraLife] in C, L, S, X.
    rewrite orElse_same in C. rewrite orElse_same in L. rewrite orElse_same in X.
    cbn [orElse option_map] in S.
    split; [ reflexivity | ]. split; [ | split; [ | split ] ].
    + unfold getStreamElementsData, getGoalData. rewrite S. reflexivity.
    + apply (storedData_other goalState g1 ExtraLife) in X.
      unfold storedData in X.
      destruct (getExtraLifeData (Some g1)), (getExtraLifeData (Some goalState));
        cbn in X; congruence.
    + cbn [getLocalDonations]. exact L.
    + cbn [option_map]. rewrite C. reflexivity.
  - destruct (config goalState) as [ c | ] eqn:Cf; [ | reflexivity ].
    cbn [fst snd].
    match goal with
    | |- context [updateGoalData _ ?s ?a ?b] =>
        destruct (updateGoalData_stored goalState s a b)
          as (g1 & -> & _ & _ & _ & _ & C & L & S & X)
    end.
    cbn [withSourceEntry config localDonations streamElements extraLife] in C, L, S, X.
    rewrite orElse_same in C. rewrite orElse_same in L.
    assert (D : option_map (@sourceData num) (sourceEntry g1 StreamElements)
                = option_map (@sourceData num) (sourceEntry goalState StreamElements)).
    { cbn [sourceEntry]. rewrite S. apply orElse_rewritten. }
    cbn [orElse option_map sourceData] in X.
    split; [ reflexivity | ]. split; [ | split; [ | split ] ].
    + unfold getExtraLifeData, getGoalData.
      destruct (extraLife g1) as [ [ u r d ] | ]; [ | discriminate ].
      cbn in X. injection X as ->. reflexivity.
    + apply (storedData_other goalState g1 StreamElements) in D.
      unfold storedData in D.
      destruct (getStreamElementsData (Some g1)),
               (getStreamElementsData (Some goalState));
        cbn in D; congruence.
    + cbn [getLocalDonations]. exact L.
    + cbn [option_map]. rewrite C, Cf. reflexivity.
Qed.

End ResetExtras.

(** ** More on the Extra Life poll *)

Section ExtraLifeExtras.
Context {num : Type} `{JsNumber num} `{JsHost}.
Local Open Scope num_scope.

(** The ways a poll ends: with [null] or the stored data and nothing
    written, or with data built from the two answers and synchronised. *)
Lemma pollExtraLife_cases (db : Store num) (participantId : option string)
    (participantResponse : Response (ExtraLifeParticipantData num))
    (donationsResponse : Response (list (RawDonation num)))
    (now nowSync nowUpdated : Z) :
  let result := pollExtraLife db participantId participantResponse donationsResponse
                              now nowSync nowUpdated in
  result = (None, db)
  \/ result = (getExtraLifeData db, db)
  \/ exists pid participantData rawDonations p,
       participantId = Some pid /\ pid <> EmptyString
       /\ participantResponse = HttpOk participantData
       /\ donationsResponse = HttpOk rawDonations
       /\ result
          = (Some p,
             snd (syncExternalData db ExtraLife (OfExtraLife p) nowSync nowUpdated))
       /\ el_donations p
          = stableSort newerFirst
              (combinedDonations db pid participantData rawDonations)
       /\ el_eventID p = participant_eventID participantData
       /\ el_participantId p = pid
       /\ el_lastUpdated p = toISOString now
       /\ sumDonations p
          = numberOr (participant_sumDonations participantData) (num_lit 0).
Proof.
  cbv zeta. unfold pollExtraLife.
  destruct participantId as [ pid | ]; [ | left; reflexivity ].
  cbn [noParticipant].
  destruct (String.eqb pid EmptyString) eqn:N; [ left; reflexivity | ].
  apply String.eqb_neq in N. cbv zeta.
  destruct participantResponse as [ | status | participantData ];
    [ left; reflexivity | right; left; reflexivity | ].
  match goal with
  | |- context [if ?c then (getExtraLifeData db, db) else _] => destruct c
  end; [ right; left; reflexivity | ].
  destruct donationsResponse as [ | status | rawDonations ];
    [ left; reflexivity | right; left; reflexivity | ].
  match goal with
  | |- context [match ?g with Some _ => _ | None => (None, db) end] =>
      destruct g as [ goal | ]
  end; [ | left; reflexivity ].
  right. right. exists pid, participantData, rawDonations. eexists.
  split; [ reflexivity | ]. split; [ exact N | ].
  split; [ reflexivity | ]. split; [ reflexivity | ].
  split; [ reflexivity | ].
  cbn [el_donations el_eventID el_participantId el_lastUpdated sumDonations].
  split; [ | repeat split ].
  unfold combinedDonations, carriedOver, fetchedOfEvent.
  destruct (getExtraLifeData db) as [ previousData | ]; [ | reflexivity ].
  rewrite negb_involutive.
  destruct (String.eqb (el_participantId previousData) pid); reflexivity.
Qed.

Lemma sync_then_get (db : Store num) (p : ProcessedExtraLifeData num)
    (now nowUpdated : Z) :
  let db1 := snd (syncExternalData db ExtraLife (OfExtraLife p) now nowUpdated) in
  db1 = db \/ getExtraLifeData db1 = Some p.
Proof.
  cbv zeta. unfold syncExternalData.
  destruct (getGoalData db) as [ goalState | ]; [ | left; reflexivity ].
  match goal with
  | |- context [if ?c then _ else _] => destruct c
  end; [ left; reflexivity | right; reflexivity ].
Qed.

(** [pollExtraLife] writes to the store only after both requests were
    answered: a poll without participant, with a failed request, with
    unchanged totals or without any fundraising goal returns [null] or the
    stored data and leaves the store as it was. *)
Theorem extralife_poll_writes_only_on_success (db : Store num)
    (participantId : option string)
    (participantResponse : Response (ExtraLifeParticipantData num))
    (donationsResponse : Response (list (RawDonation num)))
    (now nowSync nowUpdated : Z) :
  let result := pollExtraLife db participantId participantResponse donationsResponse
                              now nowSync nowUpdated in
  match participantId, participantResponse, donationsResponse with
  | Some _, HttpOk participantData, HttpOk _ =>
      (snd result = db /\ (fst result = None \/ fst result = getExtraLifeData db))
      \/ exists p,
           fst result = Some p
           /\ el_eventID p = participant_eventID participantData
           /\ participantId = Some (el_participantId p)
           /\ snd result
              = snd (syncExternalData db ExtraLife (OfExtraLife p) nowSync nowUpdated)
  | _, _, _ =>
      snd result = db /\ (fst result = None \/ fst result = getExtraLifeData db)
  end.
Proof.
  cbv zeta.
  destruct (pollExtraLife_cases db participantId participantResponse
              donationsResponse now nowSync nowUpdated)
    as [ E | [ E | (pid & pd & raws & p & -> & _ & -> & -> & E & _ & Ev & Pid & _) ] ].
  - rewrite E. cbn [fst snd].
    assert (K : (db = db /\ (@None (ProcessedExtraLifeData num) = None
                             \/ None = getExtraLifeData db)))
      by (split; [ reflexivity | left; reflexivity ]).
    destruct participantId, participantResponse, donationsResponse;
      try exact K; left; exact K.
  - rewrite E. cbn [fst snd].
    assert (K : (db = db /\ (getExtraLifeData db = None
                             \/ getExtraLifeData db = getExtraLifeData db)))
      by (split; [ reflexivity | right; reflexivity ]).
    destruct participantId, participantResponse, donationsResponse;
      try exact K; left; exact K.
  - rewrite E. cbn [fst snd]. right. exists p.
    rewrite Pid. repeat split. exact Ev.
Qed.

End ExtraLifeExtras.

(** ** What stored Extra Life data always look like *)

Section SortedFacts.
Context {A : Type} (key : A -> Z).

Lemma insertSorted_descending (x : A) (l : list A) :
  descending (map key l) -> descending (map key (insertSorted (byKey key) x l)).
Proof.
  induction l as [ | y rest IH ]; cbn [insertSorted map descending].
  - intros _. split; constructor.
  - intros [ Below Sorted ]. unfold byKey at 1.
    destruct (key y <=? key x)%Z eqn:C; cbn [map descending].
    + apply Z.leb_le in C. split; [ | split; assumption ].
      constructor; [ exact C | ].
      revert Below. apply Forall_impl. intros t. lia.
    + apply Z.leb_gt in C. split; [ | apply IH; exact Sorted ].
      assert (P : Permutation (x :: rest) (insertSorted (byKey key) x rest))
        by apply insertSorted_perm.
      apply (Permutation_map key) in P.
      apply (Permutation_Forall P). constructor; [ lia | exact Below ].
Qed.

Lemma stableSort_descending (l : list A) :
  descending (map key (stableSort (byKey key) l)).
Proof.
  induction l as [ | x rest IH ]; cbn [stableSort]; [ exact I | ].
  apply insertSorted_descending. exact IH.
Qed.

Lemma insertSorted_same (keeps keeps' : A -> A -> bool) (x : A) (l : list A) :
  (forall y, In y l -> keeps x y = keeps' x y) ->
  insertSorted keeps x l = insertSorted keeps' x l.
Proof.
  induction l as [ | y rest IH ]; cbn [insertSorted]; intros E; [ reflexivity | ].
  rewrite (E y (or_introl eq_refl)), IH; [ reflexivity | ].
  intros z I. apply E. right. exact I.
Qed.

Lemma stableSort_same (keeps keeps' : A -> A -> bool) (l : list A) :
  (forall x y, In x l -> In y l -> keeps x y = keeps' x y) ->
  stableSort keeps l = stableSort keeps' l.
Proof.
  induction l as [ | x rest IH ]; cbn [stableSort]; intros E; [ reflexivity | ].
  rewrite IH by (intros a b Ia Ib; apply E; right; assumption).
  apply insertSorted_same. intros y I. apply E; [ left; reflexivity | right ].
  apply (stableSort_In keeps' rest y). exact I.
Qed.

End SortedFacts.

Section ListFacts.
Context {A B : Type}.

Lemma NoDup_map_filter (key : A -> B) (keep : A -> bool) (items : list A) :
  NoDup (map key items) -> NoDup (map key (filter keep items)).
Proof.
  induction items as [ | x rest IH ]; cbn [map filter]; intros D; [ constructor | ].
  inversion D as [ | ? ? N D' ]; subst.
  destruct (keep x); cbn [map]; [ | apply IH; exact D' ].
  constructor; [ | apply IH; exact D' ].
  intros I. apply N. apply in_map_iff in I. destruct I as (y & E & I).
  apply filter_In in I. rewrite <- E. apply in_map. apply I.
Qed.

Lemma NoDup_append (l l' : list B) :
  NoDup l -> NoDup l' -> (forall b, In b l -> ~ In b l') -> NoDup (l ++ l').
Proof.
  induction l as [ | x rest IH ]; cbn [app]; intros D D' Apart; [ exact D' | ].
  inversion D as [ | ? ? N Dr ]; subst. constructor.
  - intros I. apply in_app_or in I. destruct I as [ I | I ]; [ exact (N I) | ].
    apply (Apart x (or_introl eq_refl) I).
  - apply IH; [ exact Dr | exact D' | ].
    intros b I. apply Apart. right. exact I.
Qed.

End ListFacts.

Section ExtraLifeInvariants.
Context {num : Type} `{JsNumber num} `{JsHost}.
Local Open Scope num_scope.

Lemma fetchedOfEvent_event (participantData : ExtraLifeParticipantData num)
    (rawDonations : list (RawDonation num)) :
  Forall (fun d => eventID d = participant_eventID participantData)
         (fetchedOfEvent participantData rawDonations).
Proof.
  apply Forall_forall. intros d I. apply filter_In in I.
  apply String.eqb_eq. apply I.
Qed.

Lemma combinedDonations_event (db : Store num) (pid : string)
    (participantData : ExtraLifeParticipantData num)
    (rawDonations : list (RawDonation num)) :
  Forall (fun d => eventID d = participant_eventID participantData)
         (combinedDonations db pid participantData rawDonations).
Proof.
  unfold combinedDonations, carriedOver.
  destruct (getExtraLifeData db) as [ previousData | ];
    [ | apply fetchedOfEvent_event ].
  destruct (String.eqb (el_participantId previousData) pid);
    [ | apply fetchedOfEvent_event ].
  apply Forall_app. split.
  - apply Forall_forall. intros d I. apply filter_In in I.
    apply String.eqb_eq. apply I.
  - apply Forall_forall. intros d I. apply filter_In in I. destruct I as [ I _ ].
    revert d I. apply Forall_forall. apply fetchedOfEvent_event.
Qed.

Lemma fetchedOfEvent_ids (participantData : ExtraLifeParticipantData num)
    (rawDonations : list (RawDonation num)) :
  NoDup (map (@raw_donationID num) rawDonations) ->
  NoDup (map (@donationID num) (fetchedOfEvent participantData rawDonations)).
Proof.
  intros D. unfold fetchedOfEvent. apply NoDup_map_filter.
  rewrite map_map. exact D.
Qed.

Lemma combinedDonations_ids (db : Store num) (pid : string)
    (participantData : ExtraLifeParticipantData num)
    (rawDonations : list (RawDonation num)) :
  (forall previousData, getExtraLifeData db = Some previousData ->
                        distinctIds previousData) ->
  NoDup (map (@raw_donationID num) rawDonations) ->
  NoDup (map (@donationID num)
             (combinedDonations db pid participantData rawDonations)).
Proof.
  intros Stored Fetched. unfold combinedDonations, carriedOver.
  destruct (getExtraLifeData db) as [ previousData | ];
    [ | apply fetchedOfEvent_ids; exact Fetched ].
  destruct (String.eqb (el_participantId previousData) pid);
    [ | apply fetchedOfEvent_ids; exact Fetched ].
  rewrite map_app. apply NoDup_append.
  - apply NoDup_map_filter. apply (Stored previousData eq_refl).
  - apply NoDup_map_filter. apply fetchedOfEvent_ids. exact Fetched.
  - intros id Kept New.
    apply in_map_iff in Kept. destruct Kept as (k & Ek & Kept).
    apply in_map_iff in New. destruct New as (d & Ed & New).
    apply filter_In in New. destruct New as [ _ New ].
    apply negb_true_iff in New.
    assert (X : existsb (fun p => String.eqb (donationID p) (donationID d))
                  (filter (fun d0 => String.eqb (eventID d0)
                                        (participant_eventID participantData))
                          (el_donations previousData)) = true).
    { apply existsb_exists. exists k. split; [ exact Kept | ].
      rewrite Ek, Ed. apply String.eqb_refl. }
    rewrite X in New. discriminate.
Qed.

(** Stored Extra Life data stay clean.  When the stored record, if any,
    holds donations of its own event only and no donation ID twice, and the
    donations request lists no donation ID twice, the same is true of the
    record a poll returns and of the record left in the store. *)
Theorem extralife_records_stay_clean (db : Store num)
    (participantId : option string)
    (participantResponse : Response (ExtraLifeParticipantData num))
    (donationsResponse : Response (list (RawDonation num)))
    (now nowSync nowUpdated : Z) :
  (forall previousData, getExtraLifeData db = Some previousData ->
                        oneEvent previousData /\ distinctIds previousData) ->
  (forall rawDonations, donationsResponse = HttpOk rawDonations ->
                        NoDup (map (@raw_donationID num) rawDonations)) ->
  let result := pollExtraLife db participantId participantResponse donationsResponse
                              now nowSync nowUpdated in
  (forall p, fst result = Some p -> oneEvent p /\ distinctIds p)
  /\ (forall q, getExtraLifeData (snd result) = Some q -> oneEvent q /\ distinctIds q).
Proof.
  intros Stored Fetched. cbv zeta.
  destruct (pollExtraLife_cases db participantId participantResponse
              donationsResponse now nowSync nowUpdated)
    as [ E | [ E | (pid & pd & raws & p & -> & _ & -> & -> & E & D & Ev & _) ] ];
    rewrite E; cbn [fst snd].
  - split; [ discriminate | exact Stored ].
  - split; exact Stored.
  - assert (Clean : oneEvent p /\ distinctIds p).
    { unfold oneEvent, distinctIds. rewrite D, Ev. split.
      - apply (Permutation_Forall (stableSort_perm newerFirst _)).
        apply combinedDonations_event.
      - apply (Permutation_NoDup
                 (Permutation_map _ (stableSort_perm newerFirst _))).
        apply combinedDonations_ids.
        + intros previousData G. apply (Stored previousData G).
        + apply Fetched. reflexivity. }
    split.
    + intros p' E'. injection E' as <-. exact Clean.
    + intros q G.
      destruct (sync_then_get db p nowSync nowUpdated) as [ Same | Got ].
      * rewrite Same in G. apply (Stored q G).
      * rewrite Got in G. injection G as <-. exact Clean.
Qed.

Lemma newerFirst_byKey (l : list (ExtraLifeDonation num)) :
  datesRead l ->
  stableSort newerFirst l
  = stableSort (byKey (fun d => match getTime (createdDateUTC d) with
                                | Some t => t
                                | None => 0%Z
                                end)) l.
Proof.
  intros R. apply stableSort_same. intros x y Ix Iy.
  unfold datesRead in R. rewrite Forall_forall in R.
  unfold newerFirst, byKey.
  destruct (getTime (createdDateUTC y)) as [ ty | ] eqn:Ty;
    [ | contradiction (R y Iy Ty) ].
  destruct (getTime (createdDateUTC x)) as [ tx | ] eqn:Tx;
    [ | contradiction (R x Ix Tx) ].
  destruct (Z.leb_spec (ty - tx) 0), (Z.leb_spec ty tx); try reflexivity; lia.
Qed.

(** Stored Extra Life donations are listed newest first.  When the stored
    record, if any, is in that order, and the creation dates of the
    donations a poll puts together all read as dates, the record the poll
    returns lists its donations with instants that never increase. *)
Theorem extralife_donations_are_newest_first (db : Store num) (pid : string)
    (participantData : ExtraLifeParticipantData num)
    (rawDonations : list (RawDonation num)) (now nowSync nowUpdated : Z) :
  (forall previousData, getExtraLifeData db = Some previousData ->
                        descending (createdInstants (el_donations previousData))) ->
  datesRead (combinedDonations db pid participantData rawDonations) ->
  forall p,
    fst (pollExtraLife db (Some pid) (HttpOk participantData) (HttpOk rawDonations)
                       now nowSync nowUpdated) = Some p ->
    descending (createdInstants (el_donations p)).
Proof.
  intros Stored Read p.
  destruct (pollExtraLife_cases db (Some pid) (HttpOk participantData)
              (HttpOk rawDonations) now nowSync nowUpdated)
    as [ E | [ E | (pid' & pd & raws & p' & Ep & _ & Er & Ed & E & D & _) ] ];
    rewrite E; cbn [fst].
  - discriminate.
  - apply Stored.
  - injection Ep as <-. injection Er as <-. injection Ed as <-.
    intros E'. injection E' as <-. rewrite D.
    rewrite (newerFirst_byKey _ Read). unfold createdInstants.
    apply stableSort_descending.
Qed.

End ExtraLifeInvariants.

(** ** Polling after a reset *)

Section ExtraLifeAfterReset.
Context {num : Type} `{JsNumber num} `{JsHost}.
Local Open Scope num_scope.

Lemma resetExtraLifeData_stored (goalState : GoalState num)
    (c : GoalTrackerConfig num) (nowEntry nowMeta nowUpdated : Z) :
  config goalState = Some c ->
  exists g1,
    snd (resetExtraLifeData (Some goalState) nowEntry nowMeta nowUpdated) = Some g1
    /\ getExtraLifeData (Some g1) = Some (emptyExtraLifeData c nowMeta)
    /\ config g1 = Some c.
Proof.
  intros Cf. unfold resetExtraLifeData, getGoalData. rewrite Cf. cbn [snd].
  match goal with
  | |- context [updateGoalData _ ?s ?a ?b] =>
      destruct (updateGoalData_stored goalState s a b)
        as (g1 & -> & _ & _ & _ & _ & C & _ & _ & X)
  end.
  cbn [withSourceEntry config extraLife orElse option_map sourceData] in C, X.
  rewrite orElse_same in C.
  exists g1. split; [ reflexivity | ]. split.
  - unfold getExtraLifeData, getGoalData.
    destruct (extraLife g1) as [ [ u r d ] | ]; [ | discriminate ].
    cbn in X. injection X as ->. reflexivity.
  - rewrite C. exact Cf.
Qed.

Lemma filter_all {A : Type} (p : A -> bool) (l : list A) :
  (forall x, p x = true) -> filter p l = l.
Proof.
  intros P. induction l as [ | x rest IH ]; cbn [filter]; [ reflexivity | ].
  rewrite P, IH. reflexivity.
Qed.

(** [isEqual] on two objects: as many keys, and under each key of the
    first a value equal to what the second reads there. *)
Lemma isEqual_objects (fields1 fields2 : list (string * jsval num)) :
  isEqual (JObj fields1) (JObj fields2)
  = Nat.eqb (List.length fields1) (List.length fields2)
    && forallb (fun field => isEqual (snd field) (lookup (fst field) fields2)) fields1.
Proof.
  simpl. destruct (Nat.eqb (List.length fields1) (List.length fields2));
    [ | reflexivity ].
  cbn [andb].
  induction fields1 as [ | [ k v ] rest IH ]; [ reflexivity | ].
  cbn [forallb fst snd]. rewrite <- IH. reflexivity.
Qed.

Lemma isEqual_empty_string (s : string) :
  s <> EmptyString -> isEqual (JStr EmptyString : jsval num) (JStr s) = false.
Proof.
  intros N. simpl. destruct s; [ contradiction N; reflexivity | reflexivity ].
Qed.

(** A record without event is not [isEqual] to one with an event. *)
Lemma isEqual_other_event (a b : ProcessedExtraLifeData num) :
  el_eventID a = EmptyString -> el_eventID b <> EmptyString ->
  isEqual (extraLifeToJs a) (extraLifeToJs b) = false.
Proof.
  intros Ea Eb. unfold extraLifeToJs. rewrite isEqual_objects.
  destruct (Nat.eqb _ _); [ | reflexivity ].
  cbn [andb app forallb fst snd lookup String.eqb Ascii.eqb Bool.eqb].
  rewrite (isEqual_objects [_; _; _]).
  cbn [List.length Nat.eqb andb forallb fst snd lookup String.eqb Ascii.eqb Bool.eqb].
  rewrite Ea, (isEqual_empty_string _ Eb).
  rewrite !andb_false_r. reflexivity.
Qed.

(** After [resetExtraLifeData], the next poll of the configured participant
    that both requests answer, for an event with a name, takes all fetched
    donations of that event: when their creation dates all read as dates
    (so that the comparator of the sort orders them), they are the
    donations of the returned record, newest first, and that record is the
    one now stored. *)
Theorem poll_after_reset_refetches (goalState : GoalState num)
    (c : GoalTrackerConfig num)
    (participantData : ExtraLifeParticipantData num)
    (rawDonations : list (RawDonation num))
    (nowEntry nowMeta nowStored now nowSync nowUpdated : Z) :
  config goalState = Some c ->
  config_participantId c <> EmptyString ->
  participant_eventID participantData <> EmptyString ->
  datesRead (fetchedOfEvent participantData rawDonations) ->
  let db1 := snd (resetExtraLifeData (Some goalState) nowEntry nowMeta nowStored) in
  let result := pollExtraLife db1 (Some (config_participantId c))
                  (HttpOk participantData) (HttpOk rawDonations)
                  now nowSync nowUpdated in
  exists p,
    fst result = Some p
    /\ el_donations p
       = stableSort newerFirst (fetchedOfEvent participantData rawDonations)
    /\ el_eventID p = participant_eventID participantData
    /\ getExtraLifeData (snd result) = Some p.
Proof.
  intros Cf Pid Ev _. cbv zeta.
  destruct (resetExtraLifeData_stored goalState c nowEntry nowMeta nowStored Cf)
    as (g1 & -> & G & C1).
  destruct g1 as [ u o ca ua cfg loc se el ]. cbn [config] in C1. subst cfg.
  set (g1 := {| uuid := u; overlayInstance := o; createdAt := ca; updatedAt := ua;
                config := Some c; localDonations := loc; streamElements := se;
                extraLife := el |}) in *.
  assert (Combined : combinedDonations (Some g1) (config_participantId c)
                       participantData rawDonations
                     = fetchedOfEvent participantData rawDonations).
  { unfold combinedDonations, carriedOver. rewrite G.
    cbn [emptyExtraLifeData el_participantId el_donations].
    rewrite String.eqb_refl. cbn [filter app].
    apply filter_all. intros d. reflexivity. }
  destruct (pollExtraLife_cases (Some g1) (Some (config_participantId c))
              (HttpOk participantData) (HttpOk rawDonations) now nowSync nowUpdated)
    as [ E | [ E | (pid' & pd & raws & p & Ep & _ & Er & Ed & E & D & Evp & _) ] ].
  - exfalso. revert E. unfold pollExtraLife. cbn [noParticipant].
    apply String.eqb_neq in Pid. rewrite Pid. cbv zeta. rewrite G.
    cbn [emptyExtraLifeData el_participantId el_eventID].
    apply String.eqb_neq in Ev. rewrite (String.eqb_sym EmptyString), Ev.
    rewrite andb_false_r. unfold getGoalData, g1.
    destruct (participant_fundraisingGoal participantData) as [ g | ];
      [ destruct (truthy g) | ]; discriminate.
  - exfalso. revert E. unfold pollExtraLife. cbn [noParticipant].
    apply String.eqb_neq in Pid. rewrite Pid. cbv zeta. rewrite G.
    cbn [emptyExtraLifeData el_participantId el_eventID].
    apply String.eqb_neq in Ev. rewrite (String.eqb_sym EmptyString), Ev.
    rewrite andb_false_r. unfold getGoalData, g1.
    assert (Other : forall p : ProcessedExtraLifeData num,
               el_eventID p = participant_eventID participantData ->
               Some p <> Some (emptyExtraLifeData c nowMeta)).
    { intros p Evp Same. injection Same as ->.
      cbn [emptyExtraLifeData el_eventID] in Evp.
      apply String.eqb_neq in Ev. apply Ev. symmetry. exact Evp. }
    destruct (participant_fundraisingGoal participantData) as [ g | ];
      [ destruct (truthy g) | ]; intros Same;
      apply (f_equal fst) in Same; cbn [fst] in Same;
      revert Same; apply Other; reflexivity.
  - injection Ep as <-. injection Er as <-. injection Ed as <-.
    rewrite E. cbn [fst snd]. exists p.
    split; [ reflexivity | ]. split; [ rewrite D, Combined; reflexivity | ].
    split; [ exact Evp | ].
    unfold syncExternalData, getGoalData. cbn [sourceEntry].
    unfold getExtraLifeData, getGoalData in G.
    destruct (extraLife g1) as [ [ lu lr [ [ d | d ] | ] ] | ]; try discriminate.
    injection G as ->. cbn [sourceData toJs].
    rewrite isEqual_other_event; [ reflexivity | reflexivity | ].
    rewrite Evp. exact Ev.
Qed.

End ExtraLifeAfterReset.

(** ** More on [processStreamElementsData] *)

Section FoldFacts.
Context {A S : Type}.

Lemma fold_left_filter (p : A -> bool) (f : S -> A -> S) (l : list A) (s : S) :
  fold_left (fun acc x => if p x then f acc x else acc) (filter p l) s
  = fold_left (fun acc x => if p x then f acc x else acc) l s.
Proof.
  revert s. induction l as [ | x rest IH ]; cbn [filter fold_left]; intros s;
    [ reflexivity | ].
  destruct (p x) eqn:P; cbn [fold_left]; [ rewrite P | ]; apply IH.
Qed.

Lemma fold_left_invariant (P : S -> Prop) (f : S -> A -> S) (l : list A) (s : S) :
  (forall acc x, P acc -> P (f acc x)) -> P s -> P (fold_left f l s).
Proof.
  intros Step. revert s. induction l as [ | x rest IH ]; cbn [fold_left]; intros s Ps;
    [ exact Ps | ].
  apply IH. apply Step. exact Ps.
Qed.

End FoldFacts.

Section SessionExtras.
Context {num : Type} `{JsNumber num} `{JsHost}.
Local Open Scope num_scope.

Lemma orEmpty_filter {A : Type} (p : A -> bool) (l : option (list A)) :
  orEmpty (option_map (filter p) l) = filter p (orEmpty l).
Proof. destruct l; reflexivity. Qed.

(** Events outside the current period change nothing: the session gives
    the result it gives once its subscriber, cheer and tip events stamped
    outside the period are taken out. *)
Theorem events_outside_the_period_are_ignored (seData : SessionData num)
    (previousData : option (PreviousData num)) (currentMonth currentYear : Z)
    (config : StreamElementsConfig num) (now : Z) :
  processStreamElementsData
    (inPeriodOnly (isInCurrentPeriod config currentMonth currentYear now) seData)
    previousData currentMonth currentYear config now
  = processStreamElementsData seData previousData currentMonth currentYear config now.
Proof.
  unfold processStreamElementsData.
  set (inPeriod := isInCurrentPeriod config currentMonth currentYear now).
  cbn [inPeriodOnly subscriber_recent subscriber_gifted_latest cheer_recent
       tip_recent cheer_goal subscriber_goal tip_goal].
  rewrite !orEmpty_filter.
  set (subStep := fun '(seResult, total) (sub : SubscriberEvent) =>
         if inPeriod (sub_createdAt sub)
         then
           (addDonation previousData seResult
              match subscriber_gifted_latest seData with
              | Some gifted =>
                  if String.eqb (gifted_name gifted) (sub_name sub)
                     && String.eqb (gifted_tier gifted) (sub_tier sub)
                  then gifted_sender gifted else sub_name sub
              | None => sub_name sub
              end
              (subscriptionValue config (sub_tier sub))
              (sub_createdAt sub) Subscription (Some (sub_tier sub)),
            total + subscriptionValue config (sub_tier sub))
         else (seResult, total)).
  set (cheerStep := fun '(seResult, total) (cheer : AmountEvent num) =>
         if inPeriod (event_createdAt cheer)
         then
           (addDonation previousData seResult (event_name cheer)
              (event_amount cheer * bitsValue config)
              (event_createdAt cheer) Bits None,
            total + event_amount cheer * bitsValue config)
         else (seResult, total)).
  set (tipStep := fun '(seResult, total) (tip : AmountEvent num) =>
         if inPeriod (event_createdAt tip)
         then
           (addDonation previousData seResult (event_name tip) (event_amount tip)
              (event_createdAt tip) Tip None,
            total + event_amount tip)
         else (seResult, total)).
  assert (Subs : forall l s,
             fold_left subStep (filter (fun sub => inPeriod (sub_createdAt sub)) l) s
             = fold_left subStep l s).
  { induction l as [ | x rest IH ]; cbn [filter fold_left]; intros s;
      [ reflexivity | ].
    destruct (inPeriod (sub_createdAt x)) eqn:P; cbn [fold_left]; [ apply IH | ].
    rewrite IH. f_equal. destruct s as [ r t ]. unfold subStep. rewrite P.
    reflexivity. }
  assert (Cheers : forall l s,
             fold_left cheerStep
               (filter (fun cheer => inPeriod (event_createdAt cheer)) l) s
             = fold_left cheerStep l s).
  { induction l as [ | x rest IH ]; cbn [filter fold_left]; intros s;
      [ reflexivity | ].
    destruct (inPeriod (event_createdAt x)) eqn:P; cbn [fold_left]; [ apply IH | ].
    rewrite IH. f_equal. destruct s as [ r t ]. unfold cheerStep. rewrite P.
    reflexivity. }
  assert (Tips : forall l s,
             fold_left tipStep
               (filter (fun tip => inPeriod (event_createdAt tip)) l) s
             = fold_left tipStep l s).
  { induction l as [ | x rest IH ]; cbn [filter fold_left]; intros s;
      [ reflexivity | ].
    destruct (inPeriod (event_createdAt x)) eqn:P; cbn [fold_left]; [ apply IH | ].
    rewrite IH. f_equal. destruct s as [ r t ]. unfold tipStep. rewrite P.
    reflexivity. }
  rewrite Subs.
  destruct (fold_left subStep (orEmpty (subscriber_recent seData))
                      (initialResult inPeriod previousData, num_lit 0))
    as [ afterSubs subscriberTotal ].
  rewrite Cheers.
  destruct (fold_left cheerStep (orEmpty (cheer_recent seData))
                      (afterSubs, num_lit 0))
    as [ afterCheers cheerTotal ].
  rewrite Tips. reflexivity.
Qed.

End SessionExtras.

(** ** Donors and counts in the processed session *)

Section SessionCounts.
Context {num : Type} `{JsNumber num} `{JsHost}.
Local Open Scope num_scope.

(** What [addDonation] does to the donors when no local donor can be
    brought in: nothing for a duplicate, one donation more for the first
    donor of the name, or a new donor at the end. *)
Lemma addDonation_cases (previousData : option (PreviousData num))
    (seResult : ProcessedData num) (donorName : string) (donationAmount : num)
    (donationTimestamp : string) (kind : DonationType) (tier : option string) :
  noLocalDonors previousData ->
  let result := addDonation previousData seResult donorName donationAmount
                            donationTimestamp kind tier in
  (donations result = donations seResult
   /\ overall_total result = overall_total seResult)
  \/ (donation_count (overall_total result)
      = (donation_count (overall_total seResult) + 1)%Z
      /\ exists d,
           amount d = roundToTwoDecimals donationAmount
           /\ ((exists earlier donor later,
               donations seResult = earlier ++ donor :: later
               /\ donations result
                  = earlier
                    ++ {| name := name donor;
                          individual_donations := individual_donations donor ++ [d];
                          total_amount := safeAdd (total_amount donor) (amount d);
                          total_donations := (total_donations donor + 1)%Z |} :: later)
           \/ (existsb (fun x => sameName (name x) donorName) (donations seResult)
               = false
               /\ donations result
                  = donations seResult
                    ++ [{| name := donorName;
                           individual_donations := [d];
                           total_amount :=
                             safeAdd (roundToTwoDecimals (num_lit 0)) (amount d);
                           total_donations := 1%Z |}]))).
Proof.
  intros NoLocal. cbv zeta. unfold addDonation.
  assert (L : match previousData with
              | Some {| previous_localDonors := Some locals |} =>
                  find (fun d => sameName (name d) donorName) locals
              | _ => None
              end = None).
  { destruct previousData as [ [ pd pl ] | ]; [ | reflexivity ].
    cbn [noLocalDonors previous_localDonors] in NoLocal. subst pl. reflexivity. }
  rewrite L. clear L.
  set (added := {| amount := roundToTwoDecimals donationAmount;
                   timestamp := donationTimestamp;
                   donationType := Some kind;
                   subTier := match tier with
                              | Some t => if String.eqb t "" then None else Some t
                              | None => None
                              end |}).
  destruct (findIndex (fun d => sameName (name d) donorName) (donations seResult))
    as [ i | ] eqn:F.
  - rewrite F.
    destruct (findIndex_Some _ _ _ F) as (earlier & donor & later & D & Li & _).
    rewrite D, <- Li, nth_error_middle.
    destruct (existsb _ (individual_donations donor)).
    + left. cbn [donations overall_total]. split; reflexivity.
    + right. cbn [donations overall_total donation_count].
      split; [ reflexivity | ]. exists added. split; [ reflexivity | ].
      left. exists earlier, donor, later.
      split; [ reflexivity | ]. rewrite replaceAt_middle. reflexivity.
  - apply findIndex_None in F.
    rewrite (findIndex_first (fun d => sameName (name d) donorName)
               (donations seResult) [] _).
    + rewrite nth_error_middle. cbn [individual_donations existsb app].
      right. cbn [donations overall_total donation_count name total_amount
                  total_donations].
      split; [ reflexivity | ]. exists added. split; [ reflexivity | ].
      right. split; [ exact F | ].
      rewrite replaceAt_middle. reflexivity.
    + rewrite forallb_negb_existsb, F. reflexivity.
    + cbn [name]. apply sameName_refl.
Qed.

Lemma sum_counts_app (l l' : list (DonationData num)) :
  fold_right Z.add 0%Z (map (@total_donations num) (l ++ l'))
  = (fold_right Z.add 0%Z (map (@total_donations num) l)
     + fold_right Z.add 0%Z (map (@total_donations num) l'))%Z.
Proof. induction l as [ | x rest IH ]; simpl; lia. Qed.

Lemma addDonation_counts (previousData : option (PreviousData num))
    (seResult : ProcessedData num) (donorName : string) (donationAmount : num)
    (donationTimestamp : string) (kind : DonationType) (tier : option string) :
  noLocalDonors previousData ->
  countsConsistent seResult ->
  countsConsistent (addDonation previousData seResult donorName donationAmount
                                donationTimestamp kind tier).
Proof.
  intros NoLocal [ Donors Count ].
  destruct (addDonation_cases previousData seResult donorName donationAmount
              donationTimestamp kind tier NoLocal)
    as [ [ D O ] | [ C (d & _ & [ (earlier & donor & later & D & D1) | (_ & D1) ]) ] ];
    unfold countsConsistent.
  - rewrite D, O. split; assumption.
  - rewrite C, D1. rewrite D in Donors, Count. split.
    + apply Forall_app in Donors. destruct Donors as [ De Dl ].
      inversion Dl as [ | ? ? [ _ Cd ] Dl' ]; subst.
      apply Forall_app. split; [ exact De | ]. constructor; [ | exact Dl' ].
      split; cbn [individual_donations total_donations].
      * intros E. apply app_eq_nil in E. destruct E as [ _ E ]. discriminate.
      * rewrite Cd, length_app. cbn [List.length]. lia.
    + rewrite Count, !sum_counts_app. cbn [map fold_right total_donations]. lia.
  - rewrite C, D1. split.
    + apply Forall_app. split; [ exact Donors | ]. constructor; [ | constructor ].
      split; cbn [individual_donations total_donations];
        [ discriminate | reflexivity ].
    + rewrite Count, sum_counts_app. cbn [map fold_right total_donations]. lia.
Qed.

Lemma initialResult_counts (inPeriod : string -> bool)
    (previousData : option (PreviousData num)) :
  countsConsistent (initialResult inPeriod previousData).
Proof.
  unfold initialResult.
  set (kept := match previousData with
               | Some {| previous_donations := Some donors |} =>
                   filter (fun donor =>
                             negb (Nat.eqb (List.length (individual_donations donor)) 0))
                          (map (keepInPeriod inPeriod) donors)
               | _ => []
               end).
  assert (K : Forall (fun donor => individual_donations donor <> []) kept).
  { unfold kept. destruct previousData as [ [ [ donors | ] locals ] | ];
      try constructor.
    apply Forall_forall. intros donor I. apply filter_In in I.
    destruct I as [ _ N ]. intros E. rewrite E in N. discriminate. }
  clearbody kept. unfold countsConsistent. cbn [donations overall_total]. split.
  - apply Forall_forall. intros donor I. apply in_map_iff in I.
    destruct I as (x & <- & I). rewrite Forall_forall in K.
    split; [ exact (K x I) | reflexivity ].
  - assert (G : forall l (start : BaseTotal num),
               donation_count
                 (fold_left
                    (fun total donor =>
                       {| overall_amount :=
                            safeAdd (overall_amount total) (total_amount donor);
                          donation_count :=
                            donation_count total + total_donations donor |})
                    l start)
               = (donation_count start
                  + fold_right Z.add 0%Z (map (@total_donations num) l))%Z).
    { induction l as [ | x rest IH ]; cbn [fold_left map fold_right]; intros start;
        [ lia | ].
      rewrite IH. cbn [donation_count]. lia. }
    rewrite G. reflexivity.
Qed.

Lemma sum_counts_perm (l l' : list (DonationData num)) :
  Permutation l l' ->
  fold_right Z.add 0%Z (map (@total_donations num) l)
  = fold_right Z.add 0%Z (map (@total_donations num) l').
Proof.
  induction 1 as [ | x l l' _ IH | x y l | l l' l'' _ IH1 _ IH2 ]; simpl; lia.
Qed.

(** The result of [processStreamElementsData] counts rightly.  Whenever the
    previous data bring no local donors along (as in every poll), each
    donor of the result has at least one donation, a donation count that
    is the number of their donations, and the overall donation count is the
    sum of the donors' counts. *)
Theorem processed_session_counts_rightly (seData : SessionData num)
    (previousData : option (PreviousData num)) (currentMonth currentYear : Z)
    (config : StreamElementsConfig num) (now : Z) :
  noLocalDonors previousData ->
  countsConsistent
    (processStreamElementsData seData previousData currentMonth currentYear config now).
Proof.
  intros NoLocal. unfold processStreamElementsData.
  set (inPeriod := isInCurrentPeriod config currentMonth currentYear now).
  match goal with
  | |- context [fold_left ?f (orEmpty (subscriber_recent seData)) ?s] =>
      assert (Subs : countsConsistent
                       (fst (fold_left f (orEmpty (subscriber_recent seData)) s)));
      [ apply (fold_left_invariant (fun acc => countsConsistent (fst acc)))
      | destruct (fold_left f (orEmpty (subscriber_recent seData)) s)
          as [ afterSubs subscriberTotal ] ]
  end.
  { intros [ r t ] sub Inv. cbn [fst] in *.
    destruct (inPeriod (sub_createdAt sub)); cbn [fst]; [ | exact Inv ].
    apply addDonation_counts; assumption. }
  { apply initialResult_counts. }
  cbn [fst] in Subs.
  match goal with
  | |- context [fold_left ?f (orEmpty (cheer_recent seData)) ?s] =>
      assert (Cheers : countsConsistent
                         (fst (fold_left f (orEmpty (cheer_recent seData)) s)));
      [ apply (fold_left_invariant (fun acc => countsConsistent (fst acc)))
      | destruct (fold_left f (orEmpty (cheer_recent seData)) s)
          as [ afterCheers cheerTotal ] ]
  end.
  { intros [ r t ] cheer Inv. cbn [fst] in *.
    destruct (inPeriod (event_createdAt cheer)); cbn [fst]; [ | exact Inv ].
    apply addDonation_counts; assumption. }
  { exact Subs. }
  cbn [fst] in Cheers.
  match goal with
  | |- context [fold_left ?f (orEmpty (tip_recent seData)) ?s] =>
      assert (Tips : countsConsistent
                       (fst (fold_left f (orEmpty (tip_recent seData)) s)));
      [ apply (fold_left_invariant (fun acc => countsConsistent (fst acc)))
      | destruct (fold_left f (orEmpty (tip_recent seData)) s)
          as [ afterTips tipTotal ] ]
  end.
  { intros [ r t ] tip Inv. cbn [fst] in *.
    destruct (inPeriod (event_createdAt tip)); cbn [fst]; [ | exact Inv ].
    apply addDonation_counts; assumption. }
  { exact Cheers. }
  cbn [fst] in Tips. destruct Tips as [ Donors Count ].
  unfold countsConsistent. cbn [donations overall_total donation_count]. split.
  - apply (Permutation_Forall (stableSort_perm largestFirst _)).
    apply Forall_forall. intros donor I. apply in_map_iff in I.
    destruct I as (x & <- & I). rewrite Forall_forall in Donors.
    destruct (Donors x I) as [ N C ].
    assert (P : Permutation (individual_donations x)
                            (stableSort newestFirst (individual_donations x)))
      by apply stableSort_perm.
    split; cbn [individual_donations total_donations].
    + intros E. rewrite E in P. apply Permutation_sym in P.
      apply Permutation_nil in P. exact (N P).
    + rewrite C, (Permutation_length P). reflexivity.
  - rewrite Count.
    rewrite <- (sum_counts_perm _ _ (stableSort_perm largestFirst _)).
    rewrite !map_map. reflexivity.
Qed.

End SessionCounts.

(** ** Donor names in the processed session *)

Section SessionNames.
Context {num : Type} `{JsNumber num} `{JsHost}.
Local Open Scope num_scope.

Lemma distinctNames_append (donors : list (DonationData num))
    (donor : DonationData num) :
  existsb (fun d => sameName (name d) (name donor)) donors = false ->
  distinctNames donors -> distinctNames (donors ++ [donor]).
Proof.
  unfold distinctNames. intros N D. rewrite map_app. cbn [map].
  apply NoDup_append; [ exact D | constructor; [ intros [] | constructor ] | ].
  intros b I [ E | [] ]. subst b. revert I. apply no_match_not_in. exact N.
Qed.

Lemma distinctNames_sublist (p : DonationData num -> bool)
    (donors : list (DonationData num)) :
  distinctNames donors -> distinctNames (filter p donors).
Proof. apply NoDup_map_filter. Qed.

Lemma addDonation_names (previousData : option (PreviousData num))
    (seResult : ProcessedData num) (donorName : string) (donationAmount : num)
    (donationTimestamp : string) (kind : DonationType) (tier : option string) :
  noLocalDonors previousData ->
  distinctNames (donations seResult) ->
  distinctNames (donations (addDonation previousData seResult donorName
                                        donationAmount donationTimestamp kind tier)).
Proof.
  intros NoLocal Distinct.
  destruct (addDonation_cases previousData seResult donorName donationAmount
              donationTimestamp kind tier NoLocal)
    as [ [ D _ ] | [ _ (d & _ & [ (earlier & donor & later & D & D1) | (N & D1) ]) ] ].
  - rewrite D. exact Distinct.
  - rewrite D1. rewrite D in Distinct. revert Distinct.
    apply distinctNames_replace. reflexivity.
  - rewrite D1. apply distinctNames_append; [ exact N | exact Distinct ].
Qed.

(** No donor appears twice in the result of [processStreamElementsData].
    Whenever the previous data bring no local donors along and no two
    previous donors share a name, no two donors of the result share a
    name, case ignored: every donation of a name goes to the one donor. *)
Theorem processed_session_names_are_distinct (seData : SessionData num)
    (previousData : option (PreviousData num)) (currentMonth currentYear : Z)
    (config : StreamElementsConfig num) (now : Z) :
  noLocalDonors previousData ->
  previousDistinct previousData ->
  distinctNames
    (donations (processStreamElementsData seData previousData currentMonth
                                          currentYear config now)).
Proof.
  intros NoLocal Previous. unfold processStreamElementsData.
  set (inPeriod := isInCurrentPeriod config currentMonth currentYear now).
  assert (Start : distinctNames (donations (initialResult inPeriod previousData))).
  { unfold initialResult. cbn [donations].
    destruct previousData as [ [ [ donors | ] locals ] | ]; try constructor.
    cbn [previousDistinct previous_donations] in Previous.
    unfold distinctNames. rewrite map_map. cbn [recomputeDonor name].
    apply (NoDup_map_filter (fun d : DonationData num => toLowerCase (name d))).
    rewrite map_map. cbn [keepInPeriod name]. exact Previous. }
  match goal with
  | |- context [fold_left ?f (orEmpty (subscriber_recent seData)) ?s] =>
      assert (Subs : distinctNames
                       (donations (fst (fold_left f (orEmpty (subscriber_recent seData)) s))));
      [ apply (fold_left_invariant (fun acc => distinctNames (donations (fst acc))))
      | destruct (fold_left f (orEmpty (subscriber_recent seData)) s)
          as [ afterSubs subscriberTotal ] ]
  end.
  { intros [ r t ] sub Inv. cbn [fst] in *.
    destruct (inPeriod (sub_createdAt sub)); cbn [fst]; [ | exact Inv ].
    apply addDonation_names; assumption. }
  { exact Start. }
  cbn [fst] in Subs.
  match goal with
  | |- context [fold_left ?f (orEmpty (cheer_recent seData)) ?s] =>
      assert (Cheers : distinctNames
                         (donations (fst (fold_left f (orEmpty (cheer_recent seData)) s))));
      [ apply (fold_left_invariant (fun acc => distinctNames (donations (fst acc))))
      | destruct (fold_left f (orEmpty (cheer_recent seData)) s)
          as [ afterCheers cheerTotal ] ]
  end.
  { intros [ r t ] cheer Inv. cbn [fst] in *.
    destruct (inPeriod (event_createdAt cheer)); cbn [fst]; [ | exact Inv ].
    apply addDonation_names; assumption. }
  { exact Subs. }
  cbn [fst] in Cheers.
  match goal with
  | |- context [fold_left ?f (orEmpty (tip_recent seData)) ?s] =>
      assert (Tips : distinctNames
                       (donations (fst (fold_left f (orEmpty (tip_recent seData)) s))));
      [ apply (fold_left_invariant (fun acc => distinctNames (donations (fst acc))))
      | destruct (fold_left f (orEmpty (tip_recent seData)) s)
          as [ afterTips tipTotal ] ]
  end.
  { intros [ r t ] tip Inv. cbn [fst] in *.
    destruct (inPeriod (event_createdAt tip)); cbn [fst]; [ | exact Inv ].
    apply addDonation_names; assumption. }
  { exact Cheers. }
  cbn [fst] in Tips. cbn [donations]. unfold distinctNames in *.
  apply (Permutation_NoDup (Permutation_map _ (stableSort_perm largestFirst _))).
  rewrite map_map. cbn [name]. exact Tips.
Qed.

End SessionNames.

(** ** The monthly goal reset over a run of polls *)

Section MonthlyReset.
Context {num : Type} `{JsNumber num} `{JsHost}.

Lemma syncExternalData_config (db : Store num) (source : Source) (p : Payload num)
    (now nowUpdated : Z) :
  option_map (@config num) (snd (syncExternalData db source p now nowUpdated))
  = option_map (@config num) db.
Proof.
  unfold syncExternalData, getGoalData.
  destruct db as [ g | ]; [ | reflexivity ].
  match goal with
  | |- context [if ?b then _ else _] => destruct b
  end; [ reflexivity | ].
  cbn [snd updateGoalData getGoalData option_map config withSourceEntry].
  destruct source; cbn [config]; rewrite orElse_same; reflexivity.
Qed.

Lemma pushLastGoalReset_config (goalState : GoalState num) (stamp : string) :
  option_map (@config num) (pushLastGoalReset (Some goalState) stamp)
  = Some (config goalState).
Proof. reflexivity. Qed.

(** A poll leaves the configuration of the stored document alone. *)
Lemma pollStreamElements_config (goalState : GoalState num) (input : PollInput num) :
  option_map (@config num) (snd (pollStreamElements (Some goalState) input))
  = Some (config goalState).
Proof.
  unfold pollStreamElements, resetGoalValuesIfNeeded, getGoalData.
  destruct (shouldReset (Some goalState) (configuredSummary goalState)
                        (poll_start input)).
  - destruct (poll_resetResponse input) as [ | status | [] ];
      [ reflexivity | reflexivity | ].
    destruct (config goalState) as [ c | ] eqn:C;
      [ | cbn [snd]; rewrite pushLastGoalReset_config; exact (f_equal Some C) ].
    destruct (poll_session input) as [ | status | currentData ];
      try (cbn [snd]; rewrite pushLastGoalReset_config; exact (f_equal Some C)).
    match goal with
    | |- context [if ?b then _ else _] => destruct b
    end; cbn [snd].
    + rewrite pushLastGoalReset_config. exact (f_equal Some C).
    + rewrite syncExternalData_config, pushLastGoalReset_config.
      exact (f_equal Some C).
  - destruct (config goalState) as [ c | ] eqn:C;
      [ | cbn [snd option_map]; rewrite C; reflexivity ].
    destruct (poll_session input) as [ | status | currentData ];
      try (cbn [snd option_map]; rewrite C; reflexivity).
    match goal with
    | |- context [if ?b then _ else _] => destruct b
    end; cbn [snd].
    + cbn [option_map]. rewrite C. reflexivity.
    + rewrite syncExternalData_config. cbn [option_map]. rewrite C. reflexivity.
Qed.

(** Under monthly accounting, once a reset is recorded on a 1st of a month
    no poll sends the reset request again, on whatever days the polls
    fall: on another day of the month none is due, and on a later 1st the
    recorded day of the month is the same as the day of the poll. *)
Theorem monthly_reset_is_never_repeated (inputs : list (PollInput num)) :
  forall (goalState : GoalState num) (stamp : string) (recorded : Z),
    configuredSummary goalState = Monthly ->
    getLastGoalReset (Some goalState) = Holds stamp ->
    getTime stamp = Some recorded ->
    Calendar.getDate zoneOffset recorded = 1%Z ->
    fst (runPolls (Some goalState) inputs) = map (fun _ => false) inputs.
Proof.
  induction inputs as [ | input rest IH ]; intros goalState stamp recorded M L T First;
    [ reflexivity | ].
  destruct (pollStreamElements_reset goalState input) as [ Sent Kept ].
  rewrite M in Sent, Kept.
  rewrite (monthly_reset_never_repeats (Some goalState) stamp recorded
             (poll_start input) L T First) in Sent, Kept.
  assert (C : option_map (@config num) (snd (pollStreamElements (Some goalState) input))
              = Some (config goalState))
    by apply pollStreamElements_config.
  cbn [runPolls].
  destruct (pollStreamElements (Some goalState) input) as [ [ sent result ] db1 ].
  cbn [fst snd] in Sent, Kept, C. subst sent.
  destruct db1 as [ g1 | ]; [ | discriminate ].
  cbn [option_map] in C. injection C as C.
  assert (M1 : configuredSummary g1 = Monthly).
  { unfold configuredSummary in *. rewrite C. exact M. }
  rewrite L in Kept.
  specialize (IH g1 stamp recorded M1 Kept T First).
  destruct (runPolls (Some g1) rest) as [ flags db2 ]. cbn [fst] in IH.
  subst flags. reflexivity.
Qed.

End MonthlyReset.

(** ** The polls and the session on sample inputs *)

Section PollSamples.
Local Open Scope string_scope.
Local Open Scope float_scope.

Lemma stored_record_is_clean :
  forall previousData,
    getExtraLifeData Samples.storeWithExtraLife = Some previousData ->
    oneEvent previousData /\ distinctIds previousData.
Proof.
  intros previousData E. vm_compute in E. injection E as <-. split.
  - constructor; [ reflexivity | constructor ].
  - constructor; [ intros [] | constructor ].
Qed.

Lemma fetched_ids_are_distinct :
  forall rawDonations : list (RawDonation float),
    HttpOk Samples.fetchedDonations = HttpOk rawDonations ->
    NoDup (map (@raw_donationID float) rawDonations).
Proof.
  intros rawDonations E. injection E as <-.
  repeat constructor; cbn; intuition discriminate.
Qed.

(** Participant P1 moved on to event E2: the poll returns the two fetched
    donations of E2, and that record is clean. *)
Lemma extralife_records_sample :
  (exists p,
      fst (pollExtraLife Samples.storeWithExtraLife (Some "P1")
             (HttpOk Samples.newParticipant) (HttpOk Samples.fetchedDonations)
             1793527200000 1793527200001 1793527200002) = Some p
      /\ map (@donationID float) (el_donations p) = ["N2"; "N1"]
      /\ oneEvent p /\ distinctIds p)
  /\ (exists q,
         getExtraLifeData
           (snd (pollExtraLife Samples.storeWithExtraLife (Some "P1")
                   (HttpOk Samples.newParticipant) (HttpOk Samples.fetchedDonations)
                   1793527200000 1793527200001 1793527200002)) = Some q
         /\ oneEvent q /\ distinctIds q).
Proof.
  destruct (extralife_records_stay_clean Samples.storeWithExtraLife (Some "P1")
              (HttpOk Samples.newParticipant) (HttpOk Samples.fetchedDonations)
              1793527200000 1793527200001 1793527200002
              stored_record_is_clean fetched_ids_are_distinct) as [ Returned Stored ].
  split.
  - eexists. split; [ vm_compute; reflexivity | ].
    split; [ vm_compute; reflexivity | ].
    apply Returned. vm_compute. reflexivity.
  - eexists. split; [ vm_compute; reflexivity | ].
    apply Stored. vm_compute. reflexivity.
Defined.

(** The same poll lists the donation of 09:00 before that of 08:00. *)
Lemma extralife_order_sample :
  exists p,
    fst (pollExtraLife Samples.storeWithExtraLife (Some "P1")
           (HttpOk Samples.newParticipant) (HttpOk Samples.fetchedDonations)
           1793527200000 1793527200001 1793527200002) = Some p
    /\ map (@createdDateUTC float) (el_donations p)
       = ["2026-11-01T09:00:00.000Z"; "2026-11-01T08:00:00.000Z"]
    /\ descending (createdInstants (el_donations p)).
Proof.
  eexists. split; [ vm_compute; reflexivity | ].
  split; [ vm_compute; reflexivity | ].
  apply (extralife_donations_are_newest_first Samples.storeWithExtraLife "P1"
           Samples.newParticipant Samples.fetchedDonations
           1793527200000 1793527200001 1793527200002).
  - intros previousData E. vm_compute in E. injection E as <-.
    split; constructor.
  - repeat constructor; vm_compute; discriminate.
  - vm_compute. reflexivity.
Defined.

(** After a reset of the fresh session's Extra Life data, the poll for the
    configured participant P1 stores the two fetched donations of E2. *)
Lemma poll_after_reset_sample :
  datesRead (fetchedOfEvent Samples.newParticipant Samples.fetchedDonations)
  /\ exists p,
    fst (pollExtraLife
           (snd (resetExtraLifeData (Some Samples.freshSession)
                   1793527100000 1793527100001 1793527100002))
           (Some "P1") (HttpOk Samples.newParticipant)
           (HttpOk Samples.fetchedDonations)
           1793527200000 1793527200001 1793527200002) = Some p
    /\ el_donations p
       = stableSort newerFirst
           (fetchedOfEvent Samples.newParticipant Samples.fetchedDonations)
    /\ el_eventID p = "E2"
    /\ getExtraLifeData
         (snd (pollExtraLife
                 (snd (resetExtraLifeData (Some Samples.freshSession)
                         1793527100000 1793527100001 1793527100002))
                 (Some "P1") (HttpOk Samples.newParticipant)
                 (HttpOk Samples.fetchedDonations)
                 1793527200000 1793527200001 1793527200002)) = Some p.
Proof.
  assert (Read : datesRead (fetchedOfEvent Samples.newParticipant
                                            Samples.fetchedDonations)).
  { unfold datesRead. apply Forall_forall. intros d I.
    assert (K : forallb (fun d => match getTime (createdDateUTC d) with
                                  | Some _ => true
                                  | None => false
                                  end)
                        (fetchedOfEvent Samples.newParticipant
                                        Samples.fetchedDonations) = true).
    { vm_compute. reflexivity. }
    rewrite forallb_forall in K. specialize (K d I).
    destruct (getTime (createdDateUTC d)); [ discriminate | discriminate K ]. }
  split; [ exact Read | ].
  apply (poll_after_reset_refetches Samples.freshSession Samples.trackerConfig
           Samples.newParticipant Samples.fetchedDonations
           1793527100000 1793527100001 1793527100002
           1793527200000 1793527200001 1793527200002).
  - reflexivity.
  - discriminate.
  - discriminate.
  - exact Read.
Defined.

(** The week's session: Ada's subscription and two tips make three
    donations of one donor, the gifted subscription is Cy's, and Eve's tip
    of October is left out. *)
Lemma session_counts_sample :
  map (fun d => (name d, total_donations d))
      (donations (processStreamElementsData MoreSamples.weekSession None 10 2026
                    (config_streamElements Samples.trackerConfig)
                    MoreSamples.mondayAfternoon))
  = [("Ada", 3%Z); ("Cy", 1%Z); ("Dee", 1%Z)]
  /\ countsConsistent
       (processStreamElementsData MoreSamples.weekSession None 10 2026
          (config_streamElements Samples.trackerConfig) MoreSamples.mondayAfternoon).
Proof.
  split; [ vm_compute; reflexivity | ].
  apply processed_session_counts_rightly. exact I.
Defined.

Lemma session_names_sample :
  distinctNames
    (donations (processStreamElementsData MoreSamples.weekSession None 10 2026
                  (config_streamElements Samples.trackerConfig)
                  MoreSamples.mondayAfternoon)).
Proof.
  apply processed_session_names_are_distinct; exact I.
Defined.

(** With the reset of 2026-11-01 on record, the polls of 2026-11-15,
    2026-12-01 and 2027-01-01 send no reset request. *)
Lemma monthly_reset_sample :
  fst (runPolls (Some MoreSamples.monthlySession) MoreSamples.laterPolls)
  = [false; false; false].
Proof.
  apply (monthly_reset_is_never_repeated MoreSamples.laterPolls
           MoreSamples.monthlySession "2026-11-01T00:00:10.000Z" 1793491210000).
  - reflexivity.
  - reflexivity.
  - vm_compute. reflexivity.
  - vm_compute. reflexivity.
Defined.

End PollSamples.

(** ** The processed session in whole cents, on binary64 *)

Section SessionInCentsFacts.
Context `{JsHost}.
Import Rounding CentsFacts.
Local Open Scope Z_scope.

Lemma centsOfAmount_nonnegative (x : float) : 0 <= centsOfAmount x.
Proof.
  unfold centsOfAmount.
  destruct (Prim2SF x) as [ s | s | | s m e ]; try lia.
  destruct s; [ lia | ].
  unfold Binary64.toFixed2_digits.
  destruct (0 <=? e) eqn:E.
  - apply Z.leb_le in E.
    assert (0 < 2 ^ e) by (apply Z.pow_pos_nonneg; lia). nia.
  - apply Z.leb_gt in E. apply Z.div_pos.
    + assert (0 < 2 ^ (- e)) by (apply Z.pow_pos_nonneg; lia). lia.
    + apply Z.pow_pos_nonneg; lia.
Qed.

(** A fold that spends a budget: every step may use what its item weighs. *)
Lemma fold_left_within {S A : Type} (P : S -> Z -> Prop) (Q : A -> Prop)
    (w : A -> Z) (f : S -> A -> S) (limit : Z) :
  (forall x, 0 <= w x) ->
  (forall acc x used,
      Q x -> P acc used -> used + w x <= limit -> P (f acc x) (used + w x)) ->
  forall (l : list A) (s : S) (used : Z),
    Forall Q l -> P s used -> used + sumOfCents (map w l) <= limit ->
    P (fold_left f l s) (used + sumOfCents (map w l)).
Proof.
  intros W Step. induction l as [ | x rest IH ]; intros s used F Ps B.
  - cbn [map fold_left]. unfold sumOfCents. cbn [fold_right].
    rewrite Z.add_0_r. exact Ps.
  - inversion F as [ | ? ? Qx F' ]; subst.
    cbn [map fold_left] in B |- *. rewrite sumOfCents_cons in B |- *.
    assert (R : 0 <= sumOfCents (map w rest)).
    { apply sumOfCents_nonnegative. apply Forall_map.
      apply Forall_forall. intros y _. apply W. }
    rewrite Z.add_assoc. apply IH; [ exact F' | | lia ].
    apply Step; [ exact Qx | exact Ps | lia ].
Qed.

(** [addDonation] on donors in whole cents. *)
Lemma addDonation_in_cents (previousData : option (PreviousData float))
    (seResult : ProcessedData float) (donorName : string) (x : float)
    (stamp : string) (kind : DonationType) (tier : option string)
    (book : list (list Z)) :
  noLocalDonors previousData -> payable x ->
  Forall2 donorInCents (donations seResult) book ->
  totalOf book + centsOfAmount x <= maxCents ->
  exists book1,
    Forall2 donorInCents
      (donations (addDonation previousData seResult donorName x stamp kind tier))
      book1
    /\ totalOf book1 <= totalOf book + centsOfAmount x.
Proof.
  intros NoLocal [ Pos Small ] D Fit.
  destruct (rounded_amount_in_cents x Pos Small) as [ A K ].
  set (k := centsOfAmount x) in *. clearbody k.
  pose proof (totalOf_nonnegative _ _ D) as T0.
  destruct (addDonation_cases previousData seResult donorName x stamp kind tier
              NoLocal)
    as [ [ Same _ ] | [ _ (d & Ad & [ (earlier & donor & later & Dc & D1) | (_ & D1) ]) ] ].
  - exists book. rewrite Same. split; [ exact D | lia ].
  - rewrite Dc in D. apply Forall2_app_inv_l in D.
    destruct D as (be & br & De & Dr & ->).
    inversion Dr as [ | ? cents ? bl (N & F & Am & Tm & Cm) Dl ]; subst.
    rewrite totalOf_app, totalOf_cons in Fit, T0 |- *.
    pose proof (totalOf_nonnegative _ _ De) as Te.
    pose proof (totalOf_nonnegative _ _ Dl) as Tl.
    pose proof (sumOfCents_nonnegative cents F) as Tc.
    exists (be ++ (cents ++ [k]) :: bl). rewrite D1. split.
    + apply Forall2_app; [ exact De | ]. constructor; [ | exact Dl ].
      apply (creditDonor_in_cents donor cents d k); try assumption.
      * rewrite Ad. exact A.
      * lia.
    + rewrite !totalOf_app, !totalOf_cons, sumOfCents_snoc. lia.
  - exists (book ++ [[k]]). rewrite D1. split.
    + apply Forall2_app; [ exact D | ]. constructor; [ | constructor ].
      assert (Z0 : roundToTwoDecimals (num_lit 0) = num_lit 0 :> float)
        by reflexivity.
      rewrite Z0.
      apply (creditDonor_in_cents
               {| name := donorName; individual_donations := [];
                  total_amount := num_lit 0; total_donations := 0 |} [] d k);
        try reflexivity; try constructor; try assumption.
      * rewrite Ad. exact A.
      * unfold sumOfCents. cbn [fold_right]. lia.
    + rewrite totalOf_app, totalOf_cons. unfold totalOf, sumOfCents.
      cbn [map fold_right]. lia.
Qed.

(** The donor with the donations in another order. *)
Lemma donorInCents_sorted (keeps : IndividualDonation float -> IndividualDonation float -> bool)
    (donor : DonationData float) (cents : list Z) :
  donorInCents donor cents ->
  exists cents',
    donorInCents {| name := name donor;
                    individual_donations :=
                      stableSort keeps (individual_donations donor);
                    total_amount := total_amount donor;
                    total_donations := total_donations donor |} cents'.
Proof.
  intros (N & F & Am & Tm & Cm).
  pose proof (stableSort_perm keeps (individual_donations donor)) as P.
  apply (Permutation_map (@amount float)) in P. rewrite Am in P.
  apply Permutation_sym in P.
  destruct (Permutation_map_inv _ _ P) as (cents' & E & Pc).
  exists cents'. unfold donorInCents.
  cbn [individual_donations total_amount total_donations].
  split; [ | split; [ | split; [ | split ] ] ].
  - intros Nil. subst cents'. apply Permutation_sym, Permutation_nil in Pc.
    contradiction.
  - exact (Permutation_Forall Pc F).
  - exact E.
  - rewrite Tm. f_equal. apply sumOfCents_permutation. exact Pc.
  - rewrite Cm. rewrite (Permutation_length Pc). reflexivity.
Qed.

(** On binary64 the donors of a processed session are in whole cents.  When
    the previous data bring no donors along (as in every poll), every event
    of the period is worth a positive amount below [2^46], and the events
    of the period are worth [maxCents] cents at most in all, every donor of
    the result of [processStreamElementsData] has at least one donation,
    donations that are amounts of whole cents, a [total_amount] that is the
    amount of their cents added up and a [total_donations] that is their
    number. *)
Theorem processed_session_is_in_whole_cents (seData : SessionData float)
    (previousData : option (PreviousData float)) (currentMonth currentYear : Z)
    (config : StreamElementsConfig float) (now : Z) :
  noPreviousDonors previousData ->
  sessionInCents (isInCurrentPeriod config currentMonth currentYear now)
                 config seData ->
  Forall (fun donor => exists cents, donorInCents donor cents)
    (donations
       (processStreamElementsData seData previousData currentMonth currentYear
                                  config now)).
Proof.
  intros NoPrevious [ Pay Budget ].
  assert (NoLocal : noLocalDonors previousData).
  { destruct previousData as [ p | ]; [ | exact I ]. apply NoPrevious. }
  unfold processStreamElementsData.
  set (inPeriod := isInCurrentPeriod config currentMonth currentYear now) in *.
  unfold sessionEvents in Pay, Budget.
  rewrite !map_app, !sumOfCents_app, !map_map in Budget.
  apply Forall_app in Pay. destruct Pay as [ PaySubs Pay ].
  apply Forall_app in Pay. destruct Pay as [ PayCheers PayTips ].
  rewrite Forall_map in PaySubs, PayCheers, PayTips.
  cbn [fst snd] in PaySubs, PayCheers, PayTips.
  set (P := fun (acc : ProcessedData float * float) (used : Z) =>
              exists book,
                Forall2 donorInCents (donations (fst acc)) book
                /\ totalOf book <= used).
  assert (Start : P (initialResult inPeriod previousData, num_lit 0) 0).
  { exists []. split; [ | unfold totalOf, sumOfCents; cbn [map fold_right]; lia ].
    cbn [fst]. unfold initialResult.
    destruct previousData as [ [ pd pl ] | ]; cbn [donations map];
      [ | constructor ].
    destruct NoPrevious as [ Nd _ ]. cbn [previous_donations] in Nd. subst pd.
    constructor. }
  set (ws := sumOfCents
               (map (fun sub => worth inPeriod
                                  (sub_createdAt sub,
                                   subscriptionValue config (sub_tier sub)))
                    (orEmpty (subscriber_recent seData)))) in *.
  set (wc := sumOfCents
               (map (fun cheer => worth inPeriod
                                    (event_createdAt cheer,
                                     (event_amount cheer * bitsValue config)%num))
                    (orEmpty (cheer_recent seData)))) in *.
  set (wt := sumOfCents
               (map (fun tip => worth inPeriod
                                  (event_createdAt tip, event_amount tip))
                    (orEmpty (tip_recent seData)))) in *.
  assert (Ws : 0 <= ws).
  { apply sumOfCents_nonnegative, Forall_map, Forall_forall. intros x _.
    unfold worth. destruct (inPeriod _); [ apply centsOfAmount_nonnegative | lia ]. }
  assert (Wc : 0 <= wc).
  { apply sumOfCents_nonnegative, Forall_map, Forall_forall. intros x _.
    unfold worth. destruct (inPeriod _); [ apply centsOfAmount_nonnegative | lia ]. }
  assert (Wt : 0 <= wt).
  { apply sumOfCents_nonnegative, Forall_map, Forall_forall. intros x _.
    unfold worth. destruct (inPeriod _); [ apply centsOfAmount_nonnegative | lia ]. }
  match goal with
  | |- context [fold_left ?f (orEmpty (subscriber_recent seData)) ?s] =>
      assert (Subs : P (fold_left f (orEmpty (subscriber_recent seData)) s) (0 + ws));
      [ apply (fold_left_within P
                 (fun sub => inPeriod (sub_createdAt sub) = true ->
                             payable (subscriptionValue config (sub_tier sub)))
                 (fun sub => worth inPeriod
                               (sub_createdAt sub,
                                subscriptionValue config (sub_tier sub)))
                 f maxCents)
      | destruct (fold_left f (orEmpty (subscriber_recent seData)) s)
          as [ afterSubs subscriberTotal ] ]
  end.
  { intros x. unfold worth.
    destruct (inPeriod _); [ apply centsOfAmount_nonnegative | lia ]. }
  { intros [ r t ] sub used Q (book & D & U) Fit. unfold worth in *.
    cbn [fst snd] in *. destruct (inPeriod (sub_createdAt sub)).
    - destruct (addDonation_in_cents previousData r
                  match subscriber_gifted_latest seData with
                  | Some gifted =>
                      if String.eqb (gifted_name gifted) (sub_name sub)
                         && String.eqb (gifted_tier gifted) (sub_tier sub)
                      then gifted_sender gifted else sub_name sub
                  | None => sub_name sub
                  end
                  (subscriptionValue config (sub_tier sub))
                  (sub_createdAt sub) Subscription (Some (sub_tier sub)) book
                  NoLocal (Q eq_refl) D ltac:(lia))
        as (book1 & D1 & U1).
      exists book1. cbn [fst]. split; [ exact D1 | lia ].
    - exists book. cbn [fst]. split; [ exact D | lia ]. }
  { exact PaySubs. }
  { exact Start. }
  { fold ws. lia. }
  cbn [fst] in Subs.
  match goal with
  | |- context [fold_left ?f (orEmpty (cheer_recent seData)) ?s] =>
      assert (Cheers : P (fold_left f (orEmpty (cheer_recent seData)) s)
                         (0 + ws + wc));
      [ apply (fold_left_within P
                 (fun cheer => inPeriod (event_createdAt cheer) = true ->
                               payable (event_amount cheer * bitsValue config)%num)
                 (fun cheer => worth inPeriod
                                 (event_createdAt cheer,
                                  (event_amount cheer * bitsValue config)%num))
                 f maxCents)
      | destruct (fold_left f (orEmpty (cheer_recent seData)) s)
          as [ afterCheers cheerTotal ] ]
  end.
  { intros x. unfold worth.
    destruct (inPeriod _); [ apply centsOfAmount_nonnegative | lia ]. }
  { intros [ r t ] cheer used Q (book & D & U) Fit. unfold worth in *.
    cbn [fst snd] in *. destruct (inPeriod (event_createdAt cheer)).
    - destruct (addDonation_in_cents previousData r (event_name cheer)
                  (event_amount cheer * bitsValue config)%num
                  (event_createdAt cheer) Bits None book
                  NoLocal (Q eq_refl) D ltac:(lia))
        as (book1 & D1 & U1).
      exists book1. cbn [fst]. split; [ exact D1 | lia ].
    - exists book. cbn [fst]. split; [ exact D | lia ]. }
  { exact PayCheers. }
  { destruct Subs as (book & D & U). exists book. split; [ exact D | exact U ]. }
  { fold wc. lia. }
  cbn [fst] in Cheers.
  match goal with
  | |- context [fold_left ?f (orEmpty (tip_recent seData)) ?s] =>
      assert (Tips : P (fold_left f (orEmpty (tip_recent seData)) s)
                       (0 + ws + wc + wt));
      [ apply (fold_left_within P
                 (fun tip => inPeriod (event_createdAt tip) = true ->
                             payable (event_amount tip))
                 (fun tip => worth inPeriod (event_createdAt tip, event_amount tip))
                 f maxCents)
      | destruct (fold_left f (orEmpty (tip_recent seData)) s)
          as [ afterTips tipTotal ] ]
  end.
  { intros x. unfold worth.
    destruct (inPeriod _); [ apply centsOfAmount_nonnegative | lia ]. }
  { intros [ r t ] tip used Q (book & D & U) Fit. unfold worth in *.
    cbn [fst snd] in *. destruct (inPeriod (event_createdAt tip)).
    - destruct (addDonation_in_cents previousData r (event_name tip)
                  (event_amount tip) (event_createdAt tip) Tip None book
                  NoLocal (Q eq_refl) D ltac:(lia))
        as (book1 & D1 & U1).
      exists book1. cbn [fst]. split; [ exact D1 | lia ].
    - exists book. cbn [fst]. split; [ exact D | lia ]. }
  { exact PayTips. }
  { destruct Cheers as (book & D & U). exists book. split; [ exact D | exact U ]. }
  { fold wt. lia. }
  destruct Tips as (book & D & _). cbn [fst] in D. cbn [donations].
  apply (Permutation_Forall (stableSort_perm _ _)).
  apply Forall_forall. intros donor I. apply in_map_iff in I.
  destruct I as (x & <- & I).
  assert (X : exists cents, donorInCents x cents).
  { clear - D I. induction D as [ | y cents donors book Yc _ IH ];
      [ contradiction | ].
    destruct I as [ -> | I ]; [ exists cents; exact Yc | exact (IH I) ]. }
  destruct X as (cents & Xc). exact (donorInCents_sorted _ x cents Xc).
Qed.

End SessionInCentsFacts.

(** ** The Advanced Goal Manager effect *)

Section EffectFacts.
Context {num : Type} `{JsMath num} `{JsHost}.
Local Open Scope num_scope.

Lemma updateLocalDonation_failed (db db1 : Store num) (donorName : string)
    (donationAmount : num) (nowInit nowDonation nowMeta : Z) (failure : Failure) :
  updateLocalDonation db donorName donationAmount nowInit nowDonation nowMeta
  = (Err failure, db1) -> db1 = db.
Proof.
  unfold updateLocalDonation.
  destruct (num_le donationAmount (num_lit 0)).
  - intros E. injection E as _ <-. reflexivity.
  - cbv zeta.
    match goal with
    | |- (if ?c then _ else _) = _ -> _ => destruct c
    end; discriminate.
Qed.

Lemma removeLocalDonation_failed (db db1 : Store num) (t : string) (now : Z)
    (failure : Failure) :
  removeLocalDonation db t now = (Err failure, db1) -> db1 = db.
Proof.
  intros E.
  destruct (getLocalDonations db) as [ ledger | ] eqn:L.
  - destruct (existsb (holdsTimestamp t) (donations (data ledger))) eqn:X.
    + destruct (removeLocalDonation_found db ledger t now L X)
        as (? & ? & ? & ? & ? & ? & _ & _ & _ & R).
      rewrite R in E. discriminate.
    + rewrite (removeLocalDonation_missing db ledger t now L X) in E.
      injection E as _ <-. reflexivity.
  - unfold removeLocalDonation in E. rewrite L in E.
    injection E as _ <-. reflexivity.
Qed.

Lemma resetUserDonations_failed (db db1 : Store num) (userName : string) (now : Z)
    (failure : Failure) :
  resetUserDonations db userName now = (Err failure, db1) -> db1 = db.
Proof.
  unfold resetUserDonations.
  destruct (getLocalDonations db) as [ ledger | ] eqn:L.
  - destruct (findIndex (fun donor => sameName (name donor) userName)
                        (donations (data ledger))) as [ i | ] eqn:F.
    + destruct (findIndex_Some _ _ _ F) as (before & donor & after & D & Li & _).
      rewrite D, <- Li, nth_error_middle. discriminate.
    + intros E. injection E as _ <-. reflexivity.
  - intros E. injection E as _ <-. reflexivity.
Qed.

(** An effect that reports failure has changed nothing: whatever the
    operation, the donor name and the amount, either the effect returns
    [success: true] or the store is exactly what it was. *)
Theorem failed_effect_changes_nothing (db : Store num) (operation : Operation)
    (donorName : string) (donationAmount : option num) (clock : EffectClock) :
  fst (goalManagerEffect db operation donorName donationAmount clock) = true
  \/ snd (goalManagerEffect db operation donorName donationAmount clock) = db.
Proof.
  unfold goalManagerEffect.
  destruct operation.
  - destruct donationAmount as [ a | ]; [ destruct (truthy a) | ];
      try (right; reflexivity).
    destruct (updateLocalDonation db donorName a _ _ _) as [ [ r | f ] db1 ] eqn:E;
      [ left; reflexivity | right ].
    apply (updateLocalDonation_failed _ _ _ _ _ _ _ _ E).
  - destruct donationAmount as [ a | ]; [ destruct (truthy a) | ];
      try (right; reflexivity).
    destruct (getLocalDonations db) as [ l | ]; [ | right; reflexivity ].
    destruct (find _ (donations (data l))) as [ donor | ]; [ | right; reflexivity ].
    destruct (find _ (individual_donations donor)) as [ d | ];
      [ | right; reflexivity ].
    destruct (removeLocalDonation db (timestamp d) _) as [ [ r | f ] db1 ] eqn:E;
      [ left; reflexivity | right ].
    apply (removeLocalDonation_failed _ _ _ _ _ E).
  - destruct (resetUserDonations db donorName _) as [ [ r | f ] db1 ] eqn:E;
      [ left; reflexivity | right ].
    apply (resetUserDonations_failed _ _ _ _ _ E).
  - unfold resetStreamElementsData.
    destruct (getGoalData db); left; reflexivity.
  - unfold resetExtraLifeData.
    destruct (getGoalData db) as [ g | ]; [ | left; reflexivity ].
    destruct (config g); [ left | right ]; reflexivity.
  - left. reflexivity.
  - right. reflexivity.
Qed.

Lemma find_split {A : Type} (p : A -> bool) (l : list A) (x : A) :
  find p l = Some x ->
  exists earlier later,
    l = earlier ++ x :: later /\ existsb p earlier = false /\ p x = true.
Proof.
  induction l as [ | y rest IH ]; cbn [find]; intros E; [ discriminate | ].
  destruct (p y) eqn:P.
  - injection E as <-. exists [], rest. repeat split. exact P.
  - destruct (IH E) as (earlier & later & -> & N & Px).
    exists (y :: earlier), later. cbn [existsb app]. rewrite P, N.
    repeat split. exact Px.
Qed.

(** [removeLocalDonation] of the timestamp of a donation that no earlier
    donation of its donor and no later donor shares. *)
Lemma removeLocalDonation_at (db : Store num) (ledger : LocalDonationData num)
    (before after : list (DonationData num)) (donor : DonationData num)
    (earlier later : list (IndividualDonation num)) (removed : IndividualDonation num)
    (now : Z) :
  getLocalDonations db = Some ledger ->
  donations (data ledger) = before ++ donor :: after ->
  individual_donations donor = earlier ++ removed :: later ->
  existsb (fun d => String.eqb (timestamp d) (timestamp removed)) earlier = false ->
  existsb (holdsTimestamp (timestamp removed)) after = false ->
  removeLocalDonation db (timestamp removed) now
  = (Ok (ledgerWithout ledger before after donor (earlier ++ later) removed now),
     pushLocalDonations db
       (ledgerWithout ledger before after donor (earlier ++ later) removed now)).
Proof.
  intros L D I Ne Na.
  assert (F : findIndex (fun d => String.eqb (timestamp d) (timestamp removed))
                        (individual_donations donor)
              = Some (List.length earlier)).
  { rewrite I. apply findIndex_first.
    - rewrite forallb_negb_existsb, Ne. reflexivity.
    - apply String.eqb_refl. }
  unfold removeLocalDonation. rewrite L. cbv beta iota zeta. rewrite D.
  rewrite (locateDonation_last (timestamp removed) before after donor
             (List.length earlier) 0 None F Na).
  cbn [Nat.add]. rewrite nth_error_middle, I, nth_error_middle, removeAt_middle.
  unfold ledgerWithout.
  destruct (earlier ++ later) eqn:R.
  - rewrite removeAt_middle. reflexivity.
  - rewrite replaceAt_middle. reflexivity.
Qed.

Lemma unique_in_the_middle {A : Type} (front back : list A) (x : A) :
  NoDup (front ++ x :: back) -> ~ In x front /\ ~ In x back.
Proof.
  intros D. apply NoDup_remove_2 in D. split; intros I; apply D;
    apply in_or_app; [ left | right ]; exact I.
Qed.

(** Removing by name and amount.  On a ledger whose donations bear distinct
    timestamps, a [remove] that succeeds has taken out of the first donor of
    the given name (case ignored) that donor's first donation within a cent
    of the given amount, as [removeLocalDonation] takes a donation out: the
    amount leaves the donor's total and the overall total, the counts drop
    by one, and a donor left without donations is gone. *)
Theorem remove_effect_takes_the_named_donation (db db1 : Store num)
    (ledger : LocalDonationData num) (donorName : string) (donationAmount : num)
    (clock : EffectClock) :
  getLocalDonations db = Some ledger ->
  uniqueTimestamps ledger ->
  goalManagerEffect db Remove donorName (Some donationAmount) clock = (true, db1) ->
  exists before donor after earlier removed later,
    donations (data ledger) = before ++ donor :: after
    /\ existsb (fun d => sameName (name d) donorName) before = false
    /\ sameName (name donor) donorName = true
    /\ individual_donations donor = earlier ++ removed :: later
    /\ existsb (withinACent donationAmount) earlier = false
    /\ withinACent donationAmount removed = true
    /\ db1 = pushLocalDonations db
               (ledgerWithout ledger before after donor (earlier ++ later) removed
                              (at_meta clock)).
Proof.
  intros L Unique. unfold goalManagerEffect.
  destruct (truthy donationAmount); [ | discriminate ].
  rewrite L.
  destruct (find (fun d => sameName (name d) donorName) (donations (data ledger)))
    as [ donor | ] eqn:Fd; [ | discriminate ].
  destruct (find (withinACent donationAmount) (individual_donations donor))
    as [ removed | ] eqn:Fr; [ | discriminate ].
  destruct (find_split _ _ _ Fd) as (before & after & D & Nb & Pd).
  destruct (find_split _ _ _ Fr) as (earlier & later & I & Ne & Pr).
  unfold uniqueTimestamps in Unique. rewrite D in Unique.
  rewrite flat_map_app in Unique. cbn [flat_map] in Unique.
  rewrite I in Unique. rewrite !map_app in Unique. cbn [map] in Unique.
  rewrite <- !app_assoc in Unique. rewrite app_assoc in Unique.
  cbn [app] in Unique.
  destruct (unique_in_the_middle _ _ _ Unique) as [ Front Back ].
  assert (Te : existsb (fun d => String.eqb (timestamp d) (timestamp removed)) earlier
               = false).
  { destruct (existsb (fun d => String.eqb (timestamp d) (timestamp removed))
                      earlier) eqn:X; [ | reflexivity ].
    apply existsb_exists in X. destruct X as (d & Id & Ed).
    apply String.eqb_eq in Ed. exfalso. apply Front. apply in_or_app. right.
    rewrite <- Ed. apply in_map. exact Id. }
  assert (Ta : existsb (holdsTimestamp (timestamp removed)) after = false).
  { destruct (existsb (holdsTimestamp (timestamp removed)) after) eqn:X;
      [ | reflexivity ].
    apply existsb_exists in X. destruct X as (other & Io & Ho).
    unfold holdsTimestamp in Ho. apply existsb_exists in Ho.
    destruct Ho as (d & Id & Ed). apply String.eqb_eq in Ed.
    exfalso. apply Back. apply in_or_app. right. rewrite <- Ed.
    apply in_map. apply in_flat_map. exists other. split; assumption. }
  rewrite (removeLocalDonation_at db ledger before after donor earlier later removed
             (at_meta clock) L D I Te Ta).
  intros E. injection E as <-.
  exists before, donor, after, earlier, removed, later. repeat split; assumption.
Qed.

End EffectFacts.

(** ** The polling of the overlay effect *)

(** The source the trigger chose is polled, and no other platform: with
    the configuration the trigger stored, [pollFunction] gets past its
    guards in the mode the trigger chose, and in another mode only when no
    platform is switched on. *)
Theorem the_chosen_source_is_polled (effect : SourceSwitches) (mode : PollMode) :
  pollProceeds (Some (storedSwitches effect)) (dataSourceMode effect) = true
  /\ (pollProceeds (Some (storedSwitches effect)) mode = true ->
      mode = dataSourceMode effect \/ dataSourceMode effect = LocalMode).
Proof.
  destruct effect as [ [ | ] [ | ] ]; split;
    try reflexivity; destruct mode; cbn; intros E;
    try discriminate; try (left; reflexivity); right; reflexivity.
Qed.

Section LocalPayloadFacts.
Context {num : Type} `{JsNumber num} `{JsHost}.
Local Open Scope num_scope.

Lemma filteredTotal_count (donors : list (DonationData num)) :
  donation_count (filteredTotal donors)
  = Z.of_nat (List.length (allDonations donors)).
Proof.
  unfold filteredTotal, allDonations.
  assert (G : forall l (start : BaseTotal num),
             donation_count
               (fold_left
                  (fun acc donor =>
                     {| overall_amount :=
                          overall_amount acc + plainSum (individual_donations donor);
                        donation_count :=
                          donation_count acc
                          + Z.of_nat (List.length (individual_donations donor)) |})
                  l start)
             = (donation_count start
                + Z.of_nat (List.length (flat_map (@individual_donations num) l)))%Z).
  { induction l as [ | x rest IH ]; cbn [fold_left flat_map]; intros start;
      [ cbn [List.length]; lia | ].
    rewrite IH, length_app. cbn [donation_count]. lia. }
  rewrite G. cbn [donation_count]. lia.
Qed.

Lemma allDonations_filtered (inPeriod : string -> bool)
    (donors : list (DonationData num)) :
  allDonations (filteredDonations inPeriod donors)
  = filter (fun d => inPeriod (timestamp d)) (allDonations donors).
Proof.
  unfold allDonations, filteredDonations.
  induction donors as [ | donor rest IH ]; cbn [map filter flat_map];
    [ reflexivity | ].
  rewrite filter_app, <- IH.
  set (k := keepInPeriod inPeriod donor).
  change (filter (fun d => inPeriod (timestamp d)) (individual_donations donor))
    with (individual_donations k).
  destruct (individual_donations k) as [ | d kept ] eqn:K;
    cbn [List.length Nat.eqb negb]; [ reflexivity | ].
  cbn [flat_map]. rewrite K. reflexivity.
Qed.

(** What the overlay is sent about the local ledger.  In the local mode and
    in the StreamElements mode with local donations alike, the local donors
    sent are the stored donors, in order, that have a donation inside the
    period, each under its stored name with exactly its donations of the
    period; the donations sent are therefore exactly the stored donations
    of the period, and the donation count sent is their number (added to
    the polled count in the StreamElements mode). *)
Theorem overlay_gets_the_donations_of_the_period (ledger : LocalDonationData num)
    (period : option LocalPeriod) (polled : ProcessedStreamElementsData num)
    (summary : option SummaryType) (now nowMeta : Z) :
  let chosen := match period with
                | Some p => p
                | None => MonthlyPeriod
                end in
  let sent := localPayload ledger period now nowMeta in
  let merged := withLocalDonors polled ledger summary now in
  (allDonations (donations (data sent))
   = filter (fun d => isInPeriod now chosen (timestamp d))
            (allDonations (donations (data ledger)))
   /\ donation_count (overall_total (data sent))
      = Z.of_nat (List.length (allDonations (donations (data sent))))
   /\ Forall (fun donor => individual_donations donor <> [])
             (donations (data sent))
   /\ map (@name num) (donations (data sent))
      = map (@name num)
            (filter (fun donor =>
                       existsb (fun d => isInPeriod now chosen (timestamp d))
                               (individual_donations donor))
                    (donations (data ledger))))
  /\ (allDonations (donations (current merged))
      = allDonations (donations (current polled))
        ++ filter (fun d => isInSummaryPeriod now summary (timestamp d))
                  (allDonations (donations (data ledger)))
      /\ donation_count (overall_total (current merged))
         = (donation_count (overall_total (current polled))
            + Z.of_nat
                (List.length
                   (filter (fun d => isInSummaryPeriod now summary (timestamp d))
                           (allDonations (donations (data ledger))))))%Z).
Proof.
  cbv zeta. unfold localPayload, withLocalDonors.
  cbn [data donations overall_total donation_count current]. split.
  - split; [ apply allDonations_filtered | ].
    split; [ apply filteredTotal_count | ]. split.
    + unfold filteredDonations. apply Forall_forall. intros donor I.
      apply filter_In in I. destruct I as [ _ N ]. intros E. rewrite E in N.
      discriminate.
    + unfold filteredDonations. rewrite filter_map_swap, map_map.
      cbn [keepInPeriod name]. f_equal. apply filter_ext. intros donor.
      cbn [individual_donations]. apply filter_nonempty.
  - split.
    + unfold allDonations at 1. rewrite flat_map_app.
      fold (allDonations (donations (current polled))).
      fold (allDonations (filteredDonations (isInSummaryPeriod now summary)
                                            (donations (data ledger)))).
      rewrite allDonations_filtered. reflexivity.
    + rewrite filteredTotal_count, allDonations_filtered. reflexivity.
Qed.

End LocalPayloadFacts.

(** ** What a poll of StreamElements returns and leaves stored *)

Section StreamElementsPoll.
Context {num : Type} `{JsNumber num} `{JsHost}.
Local Open Scope num_scope.

(** Previous data without donors and without local donors are as good as
    none. *)
Lemma processStreamElementsData_blank (seData : SessionData num)
    (currentMonth currentYear : Z) (config : StreamElementsConfig num) (now : Z) :
  processStreamElementsData seData
    (Some {| previous_donations := None; previous_localDonors := None |})
    currentMonth currentYear config now
  = processStreamElementsData seData None currentMonth currentYear config now.
Proof. reflexivity. Qed.

Lemma syncExternalData_frame (db : Store num) (p : Payload num) (now nowUpdated : Z) :
  let db1 := snd (syncExternalData db StreamElements p now nowUpdated) in
  getLocalDonations db1 = getLocalDonations db
  /\ getExtraLifeData db1 = getExtraLifeData db.
Proof.
  cbv zeta. unfold syncExternalData, getGoalData.
  destruct db as [ g | ]; [ | split; reflexivity ].
  match goal with
  | |- context [if ?b then _ else _] => destruct b
  end; [ split; reflexivity | ].
  cbn [snd].
  match goal with
  | |- context [updateGoalData _ ?s ?a ?b] =>
      destruct (updateGoalData_stored g s a b)
        as (g1 & -> & _ & _ & _ & _ & _ & L & _ & X)
  end.
  cbn [withSourceEntry localDonations extraLife] in L, X.
  rewrite orElse_same in L. rewrite orElse_same in X. split.
  - cbn [getLocalDonations]. exact L.
  - apply (storedData_other g g1 ExtraLife) in X. unfold storedData in X.
    destruct (getExtraLifeData (Some g1)), (getExtraLifeData (Some g));
      cbn in X; congruence.
Qed.

Lemma pushLastGoalReset_frame (goalState : GoalState num) (stamp : string) :
  let db1 := pushLastGoalReset (Some goalState) stamp in
  getLocalDonations db1 = getLocalDonations (Some goalState)
  /\ getExtraLifeData db1 = getExtraLifeData (Some goalState)
  /\ getStreamElementsData db1 = getStreamElementsData (Some goalState).
Proof.
  cbv zeta. unfold pushLastGoalReset. repeat split.
  unfold getStreamElementsData, getGoalData.
  cbn [withSourceEntry streamElements].
  destruct (streamElements goalState) as [ [ u r d ] | ]; reflexivity.
Qed.

(** A poll of StreamElements touches the entry of its source only, and it
    builds its data from the session alone.  Whatever the poll meets, the
    ledger, the Extra Life data and the configuration of the stored
    document are afterwards what they were.  What the poll returns is
    [null], or the data stored before, or new data whose donors and totals
    are those [processStreamElementsData] computes from the session of this
    poll with no previous data at all: donors stored by an earlier poll are
    not carried over. *)
Theorem streamelements_poll_rebuilds_from_the_session
    (goalState : GoalState num) (input : PollInput num) :
  let db := Some goalState in
  let returned := snd (fst (pollStreamElements db input)) in
  let db1 := snd (pollStreamElements db input) in
  getLocalDonations db1 = getLocalDonations db
  /\ getExtraLifeData db1 = getExtraLifeData db
  /\ option_map (@config num) db1 = Some (config goalState)
  /\ (returned = None
      \/ returned = getStreamElementsData db
      \/ exists c session,
           config goalState = Some c
           /\ poll_session input = HttpOk session
           /\ returned
              = Some {| current :=
                          processStreamElementsData session None
                            (Calendar.getMonth zoneOffset (poll_now input))
                            (Calendar.getFullYear zoneOffset (poll_now input))
                            (config_streamElements c) (poll_now input);
                        se_month := Calendar.getMonth zoneOffset (poll_now input);
                        se_year := Calendar.getFullYear zoneOffset (poll_now input);
                        se_lastUpdated := toISOString (poll_now input) |}).
Proof.
  cbv zeta.
  split; [ | split; [ | split; [ apply pollStreamElements_config | ] ] ].
  - unfold pollStreamElements, resetGoalValuesIfNeeded, getGoalData.
    destruct (shouldReset _ _ _).
    + destruct (poll_resetResponse input) as [ | status | [] ]; try reflexivity.
      destruct (config goalState) as [ c | ]; [ | reflexivity ].
      destruct (poll_session input) as [ | status | session ]; try reflexivity.
      match goal with
      | |- context [if ?b then _ else _] => destruct b
      end; [ reflexivity | ].
      cbn [snd]. destruct (syncExternalData_frame
                             (pushLastGoalReset (Some goalState)
                                (toISOString (poll_resetRecorded input)))
                             (OfStreamElements
                                {| current := processStreamElementsData session
                                     match getStreamElementsData
                                             (pushLastGoalReset (Some goalState)
                                                (toISOString (poll_resetRecorded input)))
                                     with
                                     | Some _ => Some {| previous_donations := None;
                                                         previous_localDonors := None |}
                                     | None => None
                                     end
                                     (Calendar.getMonth zoneOffset (poll_now input))
                                     (Calendar.getFullYear zoneOffset (poll_now input))
                                     (config_streamElements c) (poll_now input);
                                   se_month := Calendar.getMonth zoneOffset (poll_now input);
                                   se_year := Calendar.getFullYear zoneOffset (poll_now input);
                                   se_lastUpdated := toISOString (poll_now input) |})
                             (poll_sync input) (poll_updated input)) as [ L _ ].
      exact L.
    + destruct (config goalState) as [ c | ]; [ | reflexivity ].
      destruct (poll_session input) as [ | status | session ]; try reflexivity.
      match goal with
      | |- context [if ?b then _ else _] => destruct b
      end; [ reflexivity | ].
      cbn [snd].
      match goal with
      | |- context [syncExternalData ?d StreamElements ?p ?a ?b] =>
          destruct (syncExternalData_frame d p a b) as [ L _ ]
      end.
      exact L.
  - unfold pollStreamElements, resetGoalValuesIfNeeded, getGoalData.
    destruct (shouldReset _ _ _).
    + destruct (poll_resetResponse input) as [ | status | [] ]; try reflexivity.
      destruct (config goalState) as [ c | ]; [ | reflexivity ].
      destruct (poll_session input) as [ | status | session ]; try reflexivity.
      match goal with
      | |- context [if ?b then _ else _] => destruct b
      end; [ reflexivity | ].
      cbn [snd].
      match goal with
      | |- context [syncExternalData ?d StreamElements ?p ?a ?b] =>
          destruct (syncExternalData_frame d p a b) as [ _ X ]
      end.
      rewrite X. reflexivity.
    + destruct (config goalState) as [ c | ]; [ | reflexivity ].
      destruct (poll_session input) as [ | status | session ]; try reflexivity.
      match goal with
      | |- context [if ?b then _ else _] => destruct b
      end; [ reflexivity | ].
      cbn [snd].
      match goal with
      | |- context [syncExternalData ?d StreamElements ?p ?a ?b] =>
          destruct (syncExternalData_frame d p a b) as [ _ X ]
      end.
      exact X.
  - assert (Blank : forall (stored : option (ProcessedStreamElementsData num)) session m y c n,
               processStreamElementsData session
                 match stored with
                 | Some _ => Some {| previous_donations := None;
                                     previous_localDonors := None |}
                 | None => None
                 end m y c n
               = processStreamElementsData session None m y c n).
    { intros [ s | ] session m y c n; reflexivity. }
    unfold pollStreamElements, resetGoalValuesIfNeeded, getGoalData.
    destruct (shouldReset _ _ _).
    + destruct (poll_resetResponse input) as [ | status | [] ];
        try (left; reflexivity).
      destruct (pushLastGoalReset_frame goalState
                  (toISOString (poll_resetRecorded input))) as (_ & _ & S).
      destruct (config goalState) as [ c | ]; [ | left; reflexivity ].
      destruct (poll_session input) as [ | status | session ];
        [ left; reflexivity | right; left; cbn [fst snd]; exact S | ].
      rewrite Blank.
      match goal with
      | |- context [if ?b then _ else _] => destruct b
      end; cbn [fst snd].
      * right. left. exact S.
      * right. right. exists c, session. repeat split.
    + destruct (config goalState) as [ c | ]; [ | left; reflexivity ].
      destruct (poll_session input) as [ | status | session ];
        [ left; reflexivity | right; left; reflexivity | ].
      rewrite Blank.
      match goal with
      | |- context [if ?b then _ else _] => destruct b
      end; cbn [fst snd].
      * right. left. reflexivity.
      * right. right. exists c, session. repeat split.
Qed.

End StreamElementsPoll.

(** ** The effect and the payload on sample inputs *)

Section EffectRuns.
Local Open Scope string_scope.

Lemma remove_effect_sample :
  exists ledger db1,
    getLocalDonations Samples.ledgerStore = Some ledger
    /\ uniqueTimestamps ledger
    /\ goalManagerEffect Samples.ledgerStore Remove "ADA" (Some 0.205%float)
         EffectSamples.effectClock = (true, db1)
    /\ exists before donor after earlier removed later,
         donations (data ledger) = (before ++ donor :: after)%list
         /\ existsb (fun d => sameName (name d) "ADA") before = false
         /\ sameName (name donor) "ADA" = true
         /\ individual_donations donor = (earlier ++ removed :: later)%list
         /\ existsb (withinACent 0.205%float) earlier = false
         /\ withinACent 0.205%float removed = true
         /\ db1 = pushLocalDonations Samples.ledgerStore
                    (ledgerWithout ledger before after donor (earlier ++ later)%list
                       removed (at_meta EffectSamples.effectClock)).
Proof.
  destruct (getLocalDonations Samples.ledgerStore) as [ ledger | ] eqn:L;
    [ | vm_compute in L; discriminate ].
  destruct (goalManagerEffect Samples.ledgerStore Remove "ADA" (Some 0.205%float)
              EffectSamples.effectClock) as [ ok db1 ] eqn:E.
  assert (Done : ok = true).
  { apply (f_equal fst) in E. cbn [fst] in E. rewrite <- E.
    vm_compute. reflexivity. }
  subst ok.
  assert (Unique : uniqueTimestamps ledger).
  { assert (K : option_map
                  (fun l => map (@timestamp float)
                              (flat_map (@individual_donations float)
                                        (donations (data l))))
                  (getLocalDonations Samples.ledgerStore)
                = Some ["2026-11-01T10:00:00.000Z"; "2026-11-01T10:00:10.000Z";
                        "2026-11-01T10:00:20.000Z"]).
    { vm_compute. reflexivity. }
    rewrite L in K. cbn [option_map] in K. injection K as K.
    unfold uniqueTimestamps. rewrite K.
    repeat constructor; cbn [In]; intuition discriminate. }
  exists ledger, db1.
  split; [ reflexivity | ]. split; [ exact Unique | ]. split; [ reflexivity | ].
  exact (remove_effect_takes_the_named_donation Samples.ledgerStore db1 ledger
           "ADA" 0.205%float EffectSamples.effectClock L Unique E).
Defined.

End EffectRuns.

(** ** The session in whole cents on a sample *)

Section SessionInCentsSample.
Local Open Scope string_scope.

(** The session of the week of Monday 2026-11-02: five events of the week,
    worth 17.50 in all, and a tip of October. *)
Lemma session_in_cents_sample :
  sessionInCents
    (isInCurrentPeriod (config_streamElements Samples.trackerConfig)
                       10 2026 MoreSamples.mondayAfternoon)
    (config_streamElements Samples.trackerConfig) MoreSamples.weekSession
  /\ sumOfCents
       (map (worth (isInCurrentPeriod (config_streamElements Samples.trackerConfig)
                                      10 2026 MoreSamples.mondayAfternoon))
            (sessionEvents (config_streamElements Samples.trackerConfig)
                           MoreSamples.weekSession))
     = 1750%Z
  /\ Forall (fun donor => exists cents, donorInCents donor cents)
       (donations
          (processStreamElementsData MoreSamples.weekSession None 10 2026
             (config_streamElements Samples.trackerConfig)
             MoreSamples.mondayAfternoon)).
Proof.
  assert (Cents : sessionInCents
                    (isInCurrentPeriod (config_streamElements Samples.trackerConfig)
                                       10 2026 MoreSamples.mondayAfternoon)
                    (config_streamElements Samples.trackerConfig)
                    MoreSamples.weekSession).
  { split.
    - repeat constructor; intros _; vm_compute; reflexivity.
    - vm_compute. discriminate. }
  split; [ exact Cents | ].
  split; [ vm_compute; reflexivity | ].
  exact (processed_session_is_in_whole_cents MoreSamples.weekSession None 10 2026
           (config_streamElements Samples.trackerConfig)
           MoreSamples.mondayAfternoon I Cents).
Defined.

End SessionInCentsSample.

(** ** What [isEqual] finds unchanged *)

Section ChangeDetection.
Context {num : Type} `{JsNumber num} `{JsHost}.
Local Open Scope num_scope.

Lemma isEqual_numbers (x y : num) :
  isEqual (JNum x) (JNum y) = (x === y).
Proof.
  simpl. destruct (x === y); [ reflexivity | ].
  destruct (negb (truthy x) || negb (truthy y)); reflexivity.
Qed.

Lemma isEqual_texts (a b : string) :
  isEqual (JStr a : jsval num) (JStr b) = true <-> alikeText a b.
Proof.
  simpl. split.
  - destruct (String.eqb_spec a b) as [ -> | N ]; [ left; reflexivity | ].
    destruct (negb (negb (String.eqb a EmptyString))
              || negb (negb (String.eqb b EmptyString))); [ discriminate | ].
    destruct (getTime a) as [ ta | ] eqn:Ta; [ | discriminate ].
    destruct (getTime b) as [ tb | ] eqn:Tb; [ | discriminate ].
    intros E. apply Z.eqb_eq in E. subst tb. right. exists ta. split; assumption.
  - intros [ -> | (t & Ta & Tb) ]; [ rewrite String.eqb_refl; reflexivity | ].
    destruct (String.eqb a b); [ reflexivity | ].
    rewrite (date_string_truthy _ _ Ta), (date_string_truthy _ _ Tb).
    cbn [negb orb]. rewrite Ta, Tb. apply Z.eqb_refl.
Qed.

Lemma isEqual_missing (v : jsval num) :
  isEqual v JUndefined = true -> v = JUndefined.
Proof.
  destruct v; simpl; try discriminate; try reflexivity;
    rewrite ?orb_true_r; discriminate.
Qed.

Lemma skipn_next {A : Type} (l : list A) (index : nat) (d : A) :
  (index < List.length l)%nat ->
  skipn index l = nth index l d :: skipn (S index) l.
Proof.
  revert index. induction l as [ | x rest IH ]; intros [ | index ] L;
    cbn [List.length] in L; try lia; [ reflexivity | ].
  cbn [skipn nth]. rewrite (IH index) by lia. reflexivity.
Qed.

Lemma every_item (items2 items : list (jsval num)) (index : nat) :
  (List.length items + index = List.length items2)%nat ->
  (fix every (items : list (jsval num)) (index : nat) {struct items} : bool :=
     match items with
     | [] => true
     | item :: rest =>
         isEqual item (nth index items2 JUndefined) && every rest (S index)
     end) items index = true
  <-> Forall2 (fun a b => isEqual a b = true) items (skipn index items2).
Proof.
  revert index. induction items as [ | item rest IH ]; intros index L.
  - cbn [List.length] in L. rewrite skipn_all2 by lia. split; [ constructor | reflexivity ].
  - cbn [List.length] in L.
    rewrite (skipn_next items2 index JUndefined) by lia.
    rewrite andb_true_iff, (IH (S index)) by lia. split.
    + intros [ E R ]. constructor; assumption.
    + intros F. inversion F; subst. split; assumption.
Qed.

(** [isEqual] on two arrays: as many items, pairwise equal in order. *)
Lemma isEqual_arrays (items1 items2 : list (jsval num)) :
  isEqual (JArr items1) (JArr items2) = true
  <-> Forall2 (fun a b => isEqual a b = true) items1 items2.
Proof.
  simpl. destruct (Nat.eqb_spec (List.length items1) (List.length items2)) as [ L | N ].
  - rewrite (every_item items2 items1 0) by lia. reflexivity.
  - split; [ discriminate | ]. intros F. apply Forall2_length in F. contradiction.
Qed.

Lemma isEqual_lists {A : Type} (encode : A -> jsval num) (same : A -> A -> Prop)
    (l1 l2 : list A) :
  (forall a b, isEqual (encode a) (encode b) = true <-> same a b) ->
  isEqual (JArr (map encode l1)) (JArr (map encode l2)) = true
  <-> Forall2 same l1 l2.
Proof.
  intros Same. rewrite isEqual_arrays. revert l2.
  induction l1 as [ | a rest IH ]; intros [ | b rest2 ]; cbn [map]; split;
    intros F; try constructor; try (inversion F; fail).
  - inversion F; subst. apply Same. assumption.
  - inversion F; subst. apply IH. assumption.
  - inversion F; subst. apply Same. assumption.
  - inversion F; subst. apply IH. assumption.
Qed.

Ltac read_fields :=
  rewrite isEqual_objects;
  cbn [List.length Nat.eqb andb forallb fst snd lookup app optionalField
       String.eqb Ascii.eqb Bool.eqb].

Lemma isEqual_missing_text (s : string) :
  isEqual (JStr s : jsval num) JUndefined = false.
Proof.
  destruct (isEqual (JStr s : jsval num) JUndefined) eqn:E; [ | reflexivity ].
  apply isEqual_missing in E. discriminate.
Qed.

Lemma isEqual_donations (a b : IndividualDonation num) :
  isEqual (donationToJs a) (donationToJs b) = true <-> alikeDonation a b.
Proof.
  destruct a as [ xa ta [ ka | ] [ sa | ] ], b as [ xb tb [ kb | ] [ sb | ] ];
    unfold donationToJs, alikeDonation;
    cbn [amount timestamp donationType subTier alikeOptional];
    read_fields;
    rewrite ?isEqual_missing_text, ?andb_false_r, ?andb_true_r, ?andb_true_iff,
      ?isEqual_numbers, ?isEqual_texts;
    unfold alikeNumber; try tauto;
    split; try discriminate; tauto.
Qed.

Lemma isEqual_donors (a b : DonationData num) :
  isEqual (donorToJs a) (donorToJs b) = true <-> alikeDonor a b.
Proof.
  unfold donorToJs, alikeDonor. read_fields.
  rewrite ?andb_true_r, ?andb_true_iff, ?isEqual_numbers, isEqual_texts,
    (isEqual_lists donationToJs alikeDonation _ _ isEqual_donations).
  unfold alikeNumber. tauto.
Qed.

Lemma isEqual_processed (a b : ProcessedData num) :
  isEqual (processedToJs a) (processedToJs b) = true <-> alikeProcessed a b.
Proof.
  unfold processedToJs, totalToJs, alikeProcessed. read_fields.
  rewrite (isEqual_objects [_; _]).
  cbn [List.length Nat.eqb andb forallb fst snd lookup String.eqb Ascii.eqb Bool.eqb].
  rewrite ?andb_true_r, ?andb_true_iff, ?isEqual_numbers,
    (isEqual_lists donorToJs alikeDonor _ _ isEqual_donors).
  unfold alikeNumber. tauto.
Qed.

Lemma isEqual_streamElements (a b : ProcessedStreamElementsData num) :
  isEqual (streamElementsToJs a) (streamElementsToJs b) = true
  <-> alikeStreamElements a b.
Proof.
  unfold streamElementsToJs, alikeStreamElements. read_fields.
  rewrite (isEqual_objects [_; _; _]).
  cbn [List.length Nat.eqb andb forallb fst snd lookup String.eqb Ascii.eqb Bool.eqb].
  rewrite ?andb_true_r, ?andb_true_iff, ?isEqual_numbers, isEqual_texts,
    isEqual_processed.
  unfold alikeNumber. tauto.
Qed.

Lemma isEqual_extraLifeDonations (a b : ExtraLifeDonation num) :
  isEqual (extraLifeDonationToJs a) (extraLifeDonationToJs b) = true
  <-> alikeExtraLifeDonation a b.
Proof.
  unfold extraLifeDonationToJs, alikeExtraLifeDonation. read_fields.
  rewrite ?andb_true_r, ?andb_true_iff, ?isEqual_numbers, !isEqual_texts.
  unfold alikeNumber. tauto.
Qed.

Lemma isEqual_missing_array (items : list (jsval num)) :
  isEqual (JArr items) JUndefined = false.
Proof.
  destruct (isEqual (JArr items) JUndefined) eqn:E; [ | reflexivity ].
  apply isEqual_missing in E. discriminate.
Qed.

Lemma isEqual_extraLife (a b : ProcessedExtraLifeData num) :
  isEqual (extraLifeToJs a) (extraLifeToJs b) = true <-> alikeExtraLife a b.
Proof.
  destruct a as [ sa ga da [ na | ] ua pa ea ], b as [ sb gb db [ nb | ] ub pb eb ];
    unfold extraLifeToJs, alikeExtraLife;
    cbn [sumDonations fundraisingGoal el_donations newDonations el_lastUpdated
         el_participantId el_eventID alikeOptional];
    read_fields; try (split; [ discriminate | tauto ]);
    rewrite (isEqual_objects [_; _; _]);
    cbn [List.length Nat.eqb andb forallb fst snd lookup String.eqb Ascii.eqb
         Bool.eqb];
    rewrite ?andb_true_r, ?andb_true_iff, ?isEqual_numbers, !isEqual_texts,
      ?(isEqual_lists extraLifeDonationToJs alikeExtraLifeDonation _ _
          isEqual_extraLifeDonations);
    unfold alikeNumber; tauto.
Qed.

Lemma isEqual_payloads (a b : Payload num) :
  isEqual (toJs a) (toJs b) = true <-> alikePayload a b.
Proof.
  destruct a as [ x | x ], b as [ y | y ]; cbn [toJs alikePayload].
  - apply isEqual_streamElements.
  - unfold streamElementsToJs, extraLifeToJs. rewrite isEqual_objects.
    destruct (newDonations y); cbn [optionalField app List.length Nat.eqb andb];
      split; try discriminate; tauto.
  - unfold streamElementsToJs, extraLifeToJs. rewrite isEqual_objects.
    destruct (newDonations x); cbn [optionalField app List.length Nat.eqb andb];
      split; try discriminate; tauto.
  - apply isEqual_extraLife.
Qed.

(** What the change detection of [syncExternalData] finds unchanged.  With
    data stored for the source, [syncExternalData] skips the write exactly
    when the stored and the new data agree field by field: as many donors
    and donations in the same order, every number strictly equal to its
    counterpart ([===], so never with a not-a-number anywhere), every
    string either the same or a date of the same instant as its
    counterpart, and the same optional properties present. *)
Theorem sync_skips_exactly_the_same_data (db : Store num)
    (source : Source) (stored fresh : Payload num) (now nowUpdated : Z) :
  storedData db source = Some stored ->
  fst (syncExternalData db source fresh now nowUpdated) = false
  <-> alikePayload stored fresh.
Proof.
  intros Stored.
  assert (Entry : exists goalState,
             db = Some goalState
             /\ option_map (@sourceData num) (sourceEntry goalState source)
                = Some (Some stored)).
  { destruct db as [ goalState | ]; [ | destruct source; discriminate ].
    exists goalState. split; [ reflexivity | ].
    unfold storedData, getStreamElementsData, getExtraLifeData, getGoalData in Stored.
    destruct source; cbn [sourceEntry].
    - destruct (streamElements goalState) as [ [ u r [ [ d | d ] | ] ] | ];
        try discriminate.
      injection Stored as <-. reflexivity.
    - destruct (extraLife goalState) as [ [ u r [ [ d | d ] | ] ] | ];
        try discriminate.
      injection Stored as <-. reflexivity. }
  destruct Entry as (goalState & -> & Entry).
  unfold syncExternalData, getGoalData.
  destruct (sourceEntry goalState source) as [ [ u r d ] | ]; [ | discriminate ].
  cbn [option_map sourceData] in Entry. injection Entry as ->.
  cbn [sourceData]. rewrite <- isEqual_payloads.
  destruct (isEqual (toJs stored) (toJs fresh)); cbn [fst];
    split; intros E; try reflexivity; discriminate.
Qed.

(** What a poll hands back describes the session it fetched.  Whenever the
    session request is answered and the poll returns data, these are the
    donors and totals [processStreamElementsData] computes from that session
    (with no previous data), or stored data that agree with them field by
    field: the stored copy is returned only when nothing but the spelling
    of a date differs. *)
Theorem streamelements_poll_describes_the_session (goalState : GoalState num)
    (c : GoalTrackerConfig num) (session : SessionData num) (input : PollInput num)
    (returned : ProcessedStreamElementsData num) :
  config goalState = Some c ->
  poll_session input = HttpOk session ->
  snd (fst (pollStreamElements (Some goalState) input)) = Some returned ->
  let processed :=
    processStreamElementsData session None
      (Calendar.getMonth zoneOffset (poll_now input))
      (Calendar.getFullYear zoneOffset (poll_now input))
      (config_streamElements c) (poll_now input) in
  current returned = processed \/ alikeProcessed (current returned) processed.
Proof.
  intros Cf Session. cbv zeta.
  assert (Blank : forall (stored : option (ProcessedStreamElementsData num)) m y n,
             processStreamElementsData session
               match stored with
               | Some _ => Some {| previous_donations := None;
                                   previous_localDonors := None |}
               | None => None
               end m y (config_streamElements c) n
             = processStreamElementsData session None m y (config_streamElements c) n).
  { intros [ s | ] m y n; reflexivity. }
  unfold pollStreamElements, getGoalData.
  destruct (resetGoalValuesIfNeeded (Some goalState) (configuredSummary goalState)
              (poll_start input) (poll_resetResponse input)
              (poll_resetRecorded input)) as [ [ sent [ [] | failure ] ] db1 ];
    [ | discriminate ].
  rewrite Cf, Session, Blank.
  destruct (getStreamElementsData db1) as [ p | ].
  - destruct (isEqual (processedToJs (current p)) (processedToJs _)) eqn:E;
      cbn [fst snd]; intros R; injection R as <-.
    + right. apply isEqual_processed. exact E.
    + left. reflexivity.
  - cbn [fst snd]. intros R. injection R as <-. left. reflexivity.
Qed.

End ChangeDetection.

(** ** The change detection on sample inputs *)

Section ChangeDetectionSamples.

Lemma sync_skip_sample :
  storedData Samples.storeWithExtraLife ExtraLife
  = Some (OfExtraLife Samples.storedExtraLife)
  /\ (fst (syncExternalData Samples.storeWithExtraLife ExtraLife
             (OfExtraLife Samples.sameExtraLife) 1793534400000 1793534400001)
      = false
      <-> alikePayload (OfExtraLife Samples.storedExtraLife)
                       (OfExtraLife Samples.sameExtraLife)).
Proof.
  split; [ reflexivity | ].
  exact (sync_skips_exactly_the_same_data Samples.storeWithExtraLife ExtraLife
           (OfExtraLife Samples.storedExtraLife) (OfExtraLife Samples.sameExtraLife)
           1793534400000 1793534400001 eq_refl).
Defined.

Lemma poll_describes_sample :
  exists returned,
    config Samples.freshSession = Some Samples.trackerConfig
    /\ poll_session EffectSamples.weekPoll = HttpOk MoreSamples.weekSession
    /\ snd (fst (pollStreamElements (Some Samples.freshSession)
                   EffectSamples.weekPoll)) = Some returned
    /\ (current returned
        = processStreamElementsData MoreSamples.weekSession None
            (Calendar.getMonth zoneOffset (poll_now EffectSamples.weekPoll))
            (Calendar.getFullYear zoneOffset (poll_now EffectSamples.weekPoll))
            (config_streamElements Samples.trackerConfig)
            (poll_now EffectSamples.weekPoll)
        \/ alikeProcessed (current returned)
             (processStreamElementsData MoreSamples.weekSession None
                (Calendar.getMonth zoneOffset (poll_now EffectSamples.weekPoll))
                (Calendar.getFullYear zoneOffset (poll_now EffectSamples.weekPoll))
                (config_streamElements Samples.trackerConfig)
                (poll_now EffectSamples.weekPoll))).
Proof.
  destruct (snd (fst (pollStreamElements (Some Samples.freshSession)
                        EffectSamples.weekPoll))) as [ returned | ] eqn:R;
    [ | vm_compute in R; discriminate ].
  exists returned. split; [ reflexivity | ]. split; [ reflexivity | ].
  split; [ reflexivity | ].
  exact (streamelements_poll_describes_the_session Samples.freshSession
           Samples.trackerConfig MoreSamples.weekSession EffectSamples.weekPoll
           returned eq_refl eq_refl R).
Defined.

End ChangeDetectionSamples.

(** ** The replace variables *)

Section OptionSets.
Local Open Scope string_scope.

Lemma has_In (x : string) (set : list string) : has x set = true <-> In x set.
Proof.
  unfold has. rewrite existsb_exists. split.
  - intros (y & I & E). apply String.eqb_eq in E. subst y. exact I.
  - intros I. exists x. split; [ exact I | apply String.eqb_refl ].
Qed.

Lemma has_none (x : string) (set : list string) :
  ~ In x set -> has x set = false.
Proof.
  intros N. destruct (has x set) eqn:E; [ | reflexivity ].
  apply has_In in E. contradiction.
Qed.

Lemma setAdd_In (x y : string) (set : list string) :
  In x (setAdd y set) <-> x = y \/ In x set.
Proof.
  unfold setAdd. destruct (has y set) eqn:E.
  - apply has_In in E. split; [ intros I; right; exact I | ].
    intros [ -> | I ]; assumption.
  - rewrite in_app_iff. cbn [In]. split.
    + intros [ I | [ <- | [] ] ]; [ right; exact I | left; reflexivity ].
    + intros [ -> | I ]; [ right; left; reflexivity | left; exact I ].
Qed.

Lemma has_setAdd (x y : string) (set : list string) :
  has x (setAdd y set) = String.eqb x y || has x set.
Proof.
  destruct (has x (setAdd y set)) eqn:E.
  - apply has_In, setAdd_In in E. symmetry. apply orb_true_iff.
    destruct E as [ -> | I ]; [ left; apply String.eqb_refl | right ].
    apply has_In. exact I.
  - assert (N : ~ In x (setAdd y set)).
    { intros I. apply has_In in I. rewrite I in E. discriminate. }
    symmetry. apply orb_false_iff. split.
    + destruct (String.eqb_spec x y) as [ -> | _ ]; [ | reflexivity ].
      exfalso. apply N, setAdd_In. left. reflexivity.
    + destruct (has x set) eqn:S; [ | reflexivity ].
      exfalso. apply N, setAdd_In. right. apply has_In. exact S.
Qed.

Lemma setOf_In (x : string) (items : list string) :
  In x (setOf items) <-> In x items.
Proof.
  unfold setOf.
  assert (G : forall set, In x (fold_left (fun set y => setAdd y set) items set)
                          <-> In x items \/ In x set).
  { induction items as [ | y rest IH ]; intros set; cbn [fold_left In].
    - tauto.
    - rewrite IH, setAdd_In. split; intros; intuition (subst; auto). }
  rewrite G. cbn [In]. tauto.
Qed.

End OptionSets.

Section InfoOptions.
Context {num : Type} `{JsDisplay num} `{JsHost}.
Local Open Scope string_scope.

(** The options of [goalInfo] are lowered parameters that are not empty. *)
Lemma displayOpts_In (opt : string) (params : list string) :
  In opt (setOf (filter (fun opt => negb (String.eqb opt ""))
                        (map toLowerCase params)))
  <-> opt <> "" /\ exists p, In p params /\ toLowerCase p = opt.
Proof.
  rewrite setOf_In, filter_In, in_map_iff. split.
  - intros [ (p & E & I) N ]. split.
    + intros Z. subst opt. rewrite Z in N. discriminate.
    + exists p. split; assumption.
  - intros [ N (p & I & E) ]. split.
    + exists p. split; assumption.
    + destruct (String.eqb_spec opt ""); [ contradiction | reflexivity ].
Qed.

(** No option of [goalInfo] is a word with a capital letter. *)
Lemma capital_word_is_no_option (word : string) (params : list string) :
  lowersCapitals -> noCapitals word = false ->
  has word (setOf (filter (fun opt => negb (String.eqb opt ""))
                          (map toLowerCase params))) = false.
Proof.
  intros Law Capital. apply has_none. intros I.
  apply displayOpts_In in I. destruct I as [ _ (p & _ & E) ].
  rewrite <- E, Law in Capital. discriminate.
Qed.

(** The zero-padding flags of the time display cannot be given.  On a host
    whose [toLowerCase] leaves no capital letter, whenever one parameter
    reads [time] and another is anything but empty, [time] or one of the
    unit names [months], [days], [hours], [minutes], [seconds] (whatever
    the case of the letters), [goalInfo] answers with the message about
    invalid flags: so it does for [zeroHours] and the other zero-padding
    flags, which the options, lowered before they are compared, never
    match. *)
Theorem zero_padding_flags_are_rejected (db : Store num) (goalState : GoalState num)
    (display : VariableConfig num) (params : list string) (now : Z)
    (timeParam otherParam : string) :
  lowersCapitals ->
  getGoalData db = Some goalState ->
  In timeParam params -> toLowerCase timeParam = "time" ->
  In otherParam params ->
  ~ In (toLowerCase otherParam)
       [""; "time"; "months"; "days"; "hours"; "minutes"; "seconds"] ->
  goalInfo db display params now
  = Text "Time display can only be combined with unit conversion or zero-padding options".
Proof.
  intros Law G It Et Io No. unfold goalInfo. rewrite G.
  set (displayOpts := setOf (filter (fun opt => negb (String.eqb opt ""))
                                    (map toLowerCase params))).
  assert (Code : has "timeCode" displayOpts = false).
  { apply capital_word_is_no_option; [ exact Law | reflexivity ]. }
  assert (Time : has "time" displayOpts = true).
  { apply has_In, displayOpts_In. split; [ discriminate | ].
    exists timeParam. split; assumption. }
  rewrite Code, Time. cbn [andb].
  set (invalid := fun opt => negb (String.eqb opt "time")
                             && negb (existsb (String.eqb opt) validTimeFlags)).
  assert (Invalid : In (toLowerCase otherParam) (filter invalid displayOpts)).
  { apply filter_In. split.
    - apply displayOpts_In. split.
      + intros E. apply No. rewrite E. left. reflexivity.
      + exists otherParam. split; [ exact Io | reflexivity ].
    - unfold invalid. apply andb_true_iff. split.
      + destruct (String.eqb_spec (toLowerCase otherParam) "time") as [ E | _ ];
          [ | reflexivity ].
        exfalso. apply No. rewrite E. right. left. reflexivity.
      + apply negb_true_iff.
        destruct (existsb (String.eqb (toLowerCase otherParam)) validTimeFlags)
          eqn:V; [ | reflexivity ].
        exfalso. apply existsb_exists in V. destruct V as (flag & If & Ef).
        apply String.eqb_eq in Ef.
        unfold validTimeFlags, timeUnitFlags, zeroPadFlags in If.
        cbn [app In] in If.
        destruct If as [ <- | [ <- | [ <- | [ <- | [ <- | If ] ] ] ] ];
          try (apply No; rewrite Ef; cbn [In]; tauto).
        assert (Capital : noCapitals flag = false).
        { destruct If as [ <- | [ <- | [ <- | [ <- | [ <- | [ <- | [] ] ] ] ] ] ];
            reflexivity. }
        rewrite <- Ef, Law in Capital. discriminate. }
  destruct (filter invalid displayOpts) as [ | flag rest ]; [ contradiction | ].
  reflexivity.
Qed.

(** Options that [goalInfo] does not know show nothing.  On a host whose
    [toLowerCase] leaves no capital letter, with a configuration stored,
    when no parameter reads [time], [amount], [goal] or [percent] (whatever
    the case of the letters) and some parameter is not empty, [goalInfo] is
    the empty text: so it is for [timeCode] and [timeFormatted], whose
    displays the lowered options never reach. *)
Theorem unknown_options_show_nothing (db : Store num) (goalState : GoalState num)
    (c : GoalTrackerConfig num) (display : VariableConfig num)
    (params : list string) (now : Z) (given : string) :
  lowersCapitals ->
  getGoalData db = Some goalState ->
  config goalState = Some c ->
  (forall p, In p params ->
             ~ In (toLowerCase p) ["time"; "amount"; "goal"; "percent"]) ->
  In given params -> toLowerCase given <> "" ->
  goalInfo db display params now = Text "".
Proof.
  intros Law G Cf Unknown Ig Ng. unfold goalInfo. rewrite G, Cf.
  set (displayOpts := setOf (filter (fun opt => negb (String.eqb opt ""))
                                    (map toLowerCase params))).
  assert (Code : has "timeCode" displayOpts = false).
  { apply capital_word_is_no_option; [ exact Law | reflexivity ]. }
  assert (Formatted : has "timeFormatted" displayOpts = false).
  { apply capital_word_is_no_option; [ exact Law | reflexivity ]. }
  assert (Known : forall word,
             In word ["time"; "amount"; "goal"; "percent"] ->
             has word displayOpts = false).
  { intros word Iw. apply has_none. intros I. apply displayOpts_In in I.
    destruct I as [ _ (p & Ip & E) ]. apply (Unknown p Ip). rewrite E. exact Iw. }
  rewrite Code, Formatted, (Known "time") by (cbn [In]; tauto).
  cbn [andb negb].
  assert (Some_option : In (toLowerCase given) displayOpts).
  { apply displayOpts_In. split; [ exact Ng | ].
    exists given. split; [ exact Ig | reflexivity ]. }
  destruct displayOpts as [ | first rest ] eqn:D; [ contradiction | ].
  cbn [List.length Nat.eqb andb].
  rewrite (Known "amount"), (Known "goal"), (Known "percent") by (cbn [In]; tauto).
  rewrite !andb_false_r. reflexivity.
Qed.

End InfoOptions.

(** ** The milestones variable *)

Section MilestoneOptions.
Local Open Scope string_scope.

(** Showing everything adds none of [all], [next] and [previous]. *)
Lemma has_milestoneOptions (word : string) (given : list string) :
  In word ["all"; "next"; "previous"] ->
  has word (milestoneOptions given) = has word given.
Proof.
  intros W. unfold milestoneOptions.
  destruct ((List.length given =? 0)%nat || _); [ | reflexivity ].
  rewrite !has_setAdd.
  destruct W as [ <- | [ <- | [ <- | [] ] ] ]; reflexivity.
Qed.

End MilestoneOptions.

Section WrittenRanges.
Local Open Scope string_scope.

(** The digits of a decimal numeral are read as digits, up to what follows
    them. *)
Lemma leadingDigits_numeral (d : Decimal.uint) (rest : string) :
  leadingDigits rest = ([], rest) ->
  leadingDigits (NilEmpty.string_of_uint d ++ rest)
  = (list_ascii_of_string (NilEmpty.string_of_uint d), rest).
Proof.
  intros Stop.
  induction d as [ | d IH | d IH | d IH | d IH | d IH | d IH | d IH | d IH | d IH
                 | d IH ];
    cbn [NilEmpty.string_of_uint append list_ascii_of_string];
    [ exact Stop | .. ];
    cbn [leadingDigits]; rewrite IH; reflexivity.
Qed.

Ltac read_digit :=
  match goal with
  | |- context [Z.of_nat (nat_of_ascii ?c)] =>
      let n := eval vm_compute in (Z.of_nat (nat_of_ascii c)) in
      change (Z.of_nat (nat_of_ascii c)) with n
  end.

Lemma parseInt_positive (d : Decimal.uint) (acc : positive) :
  fold_left (fun value c => 10 * value + (Z.of_nat (nat_of_ascii c) - 48))%Z
            (list_ascii_of_string (NilEmpty.string_of_uint d)) (Zpos acc)
  = Zpos (Pos.of_uint_acc d acc).
Proof.
  revert acc.
  induction d as [ | d IH | d IH | d IH | d IH | d IH | d IH | d IH | d IH | d IH
                 | d IH ];
    intros acc;
    cbn [NilEmpty.string_of_uint list_ascii_of_string fold_left Pos.of_uint_acc];
    [ reflexivity | .. ];
    match goal with
    | |- fold_left _ _ ?start = Zpos (Pos.of_uint_acc _ ?next) =>
        replace start with (Zpos next) by (read_digit; lia)
    end;
    apply IH.
Qed.

Lemma parseInt_numeral (d : Decimal.uint) :
  parseInt (list_ascii_of_string (NilEmpty.string_of_uint d))
  = Z.of_N (Pos.of_uint d).
Proof.
  unfold parseInt.
  induction d as [ | d IH | d IH | d IH | d IH | d IH | d IH | d IH | d IH | d IH
                 | d IH ];
    cbn [NilEmpty.string_of_uint list_ascii_of_string fold_left Pos.of_uint];
    [ reflexivity | exact IH | .. ];
    match goal with
    | |- fold_left _ _ ?start = Z.of_N (N.pos (Pos.of_uint_acc _ ?next)) =>
        replace start with (Zpos next) by (read_digit; lia)
    end;
    apply parseInt_positive.
Qed.

(** A whole number that is not negative is written with digits only, and
    read back as itself. *)
Lemma showInteger_numeral (value : Z) :
  (0 <= value)%Z ->
  exists d,
    showInteger value = NilEmpty.string_of_uint d
    /\ Z.of_N (Pos.of_uint d) = value
    /\ d <> Decimal.Nil.
Proof.
  intros Pos. unfold showInteger. destruct value as [ | p | p ]; [ | | lia ].
  - exists (Decimal.D0 Decimal.Nil). repeat split. discriminate.
  - exists (Pos.to_uint p). cbn [Z.to_int NilEmpty.string_of_int].
    split; [ reflexivity | ]. split.
    + rewrite DecimalPos.Unsigned.of_to. reflexivity.
    + apply DecimalPos.Unsigned.to_uint_nonnil.
Qed.

Lemma append_empty (s : string) : s ++ "" = s.
Proof. induction s as [ | c rest IH ]; cbn [append]; congruence. Qed.

(** A range written as two numbers with a hyphen between them is read as
    those numbers. *)
Lemma matchRange_written (first last : Z) :
  (0 <= first)%Z -> (0 <= last)%Z ->
  matchRange (showInteger first ++ "-" ++ showInteger last) = Some (first, last).
Proof.
  intros Pf Pl.
  destruct (showInteger_numeral first Pf) as (df & -> & Vf & Nf).
  destruct (showInteger_numeral last Pl) as (dl & -> & Vl & Nl).
  unfold matchRange.
  rewrite leadingDigits_numeral by reflexivity.
  destruct (list_ascii_of_string (NilEmpty.string_of_uint df)) as [ | c firstDigits ]
    eqn:Df.
  { destruct df; try discriminate. contradiction Nf; reflexivity. }
  assert (Last : leadingDigits (NilEmpty.string_of_uint dl)
                 = (list_ascii_of_string (NilEmpty.string_of_uint dl), "")).
  { rewrite <- (leadingDigits_numeral dl "" eq_refl).
    rewrite append_empty. reflexivity. }
  cbn [append]. rewrite Last.
  destruct (list_ascii_of_string (NilEmpty.string_of_uint dl)) as [ | d lastDigits ]
    eqn:Dl.
  { destruct dl; try discriminate. contradiction Nl; reflexivity. }
  rewrite <- Df, <- Dl, !parseInt_numeral, Vf, Vl. reflexivity.
Qed.

End WrittenRanges.

Section MilestoneNavigation.
Context {num : Type} `{JsDisplay num} `{JsHost}.
Local Open Scope string_scope.

(** Beyond the last milestone.  When the amount collected is above every
    milestone and the parameters give no range and not [all], the plain
    variable shows the last milestone (or says that none is active when
    there is no milestone at all), [next] says that there are no more
    milestones, and [previous] that there are no previous milestones, though
    every milestone has been passed; [next] and [previous] together are
    refused. *)
Theorem beyond_the_last_milestone (db : Store num) (goalState : GoalState num)
    (c : GoalTrackerConfig num) (display : VariableConfig num)
    (allMilestones : list (Milestone num)) (params given : list string) :
  getGoalData db = Some goalState ->
  config goalState = Some c ->
  milestones display = Some allMilestones ->
  readParameters params = (given, None) ->
  has "all" given = false ->
  (forall m, In m allMilestones ->
             num_le (currentAmountOf db display) (milestone_amount m) = false) ->
  goalMilestones db display params
  = if has "next" given then
      if has "previous" given then "Cannot combine all, next, or previous options"
      else "No more milestones"
    else if has "previous" given then "No previous milestones"
    else
      match last (map Some allMilestones) None with
      | Some lastMilestone =>
          formatMilestoneDisplay (orDollar (milestone_currencySymbol display))
            (milestoneOptions given) lastMilestone (currentAmountOf db display)
      | None => "No active milestone"
      end.
Proof.
  intros G Cf M R All Passed. unfold goalMilestones. rewrite G, Cf, M, R.
  assert (Index : findIndex (fun m => num_le (currentAmountOf db display)
                                             (milestone_amount m))
                            allMilestones = None).
  { apply findIndex_None.
    destruct (existsb _ allMilestones) eqn:E; [ | reflexivity ].
    apply existsb_exists in E. destruct E as (m & I & L).
    rewrite (Passed m I) in L. discriminate. }
  rewrite Index. cbn [filter].
  rewrite !has_milestoneOptions by (cbn [In]; tauto).
  rewrite All.
  destruct (has "next" given), (has "previous" given); reflexivity.
Qed.

Lemma readParameters_from (params : list string) (start : list string)
    (range : option (Z * Z)) :
  let step := fun '(displayOpts, range) param =>
                match matchRange param with
                | Some (a, b) => (displayOpts, Some (a - 1, b - 1)%Z)
                | None => (setAdd (toLowerCase param) displayOpts, range)
                end in
  fold_left step params (start, range)
  = (fst (fold_left step params (start, None)),
     match snd (fold_left step params (start, None)) with
     | Some later => Some later
     | None => range
     end).
Proof.
  cbv zeta. revert start range.
  induction params as [ | param rest IH ]; intros start range; cbn [fold_left];
    [ reflexivity | ].
  destruct (matchRange param) as [ [ a b ] | ].
  - rewrite (IH start (Some (a - 1, b - 1)%Z)).
    destruct (snd (fold_left _ rest (start, None))); reflexivity.
  - apply IH.
Qed.

(** A written range lists its milestones.  When the first parameter is a
    range written as two whole numbers with a hyphen between them, and no
    later parameter is a range, [goalMilestones] lists the milestones from
    the first of these numbers to the second, counted from 1, joined by
    [" | "], with the display options the other parameters give; it answers
    that the range is invalid exactly when the first number is 0, or above
    the second, or the second above the number of milestones.  Whether
    [all], [next] or [previous] are among the other parameters makes no
    difference. *)
Theorem written_range_lists_the_milestones (db : Store num)
    (goalState : GoalState num) (c : GoalTrackerConfig num)
    (display : VariableConfig num) (allMilestones : list (Milestone num))
    (first last : Z) (options : list string) :
  getGoalData db = Some goalState ->
  config goalState = Some c ->
  milestones display = Some allMilestones ->
  (0 <= first)%Z -> (0 <= last)%Z ->
  snd (readParameters options) = None ->
  goalMilestones db display
    ((showInteger first ++ "-" ++ showInteger last) :: options)
  = if ((1 <=? first) && (first <=? last)
        && (last <=? Z.of_nat (List.length allMilestones)))%Z
    then
      join " | "
        (map (fun m =>
                formatMilestoneDisplay (orDollar (milestone_currencySymbol display))
                  (milestoneOptions (fst (readParameters options))) m
                  (currentAmountOf db display))
             (firstn (Z.to_nat (last - first + 1))
                     (skipn (Z.to_nat (first - 1)) allMilestones)))
    else "Invalid milestone range".
Proof.
  intros G Cf M Pf Pl Later. unfold goalMilestones. rewrite G, Cf, M.
  assert (Read : readParameters
                   ((showInteger first ++ "-" ++ showInteger last) :: options)
                 = (fst (readParameters options), Some (first - 1, last - 1)%Z)).
  { unfold readParameters at 1. cbn [fold_left].
    rewrite (matchRange_written first last Pf Pl).
    rewrite readParameters_from. fold (readParameters options).
    rewrite Later. reflexivity. }
  rewrite Read. unfold slice.
  replace (Z.to_nat (last - 1 + 1 - (first - 1))) with (Z.to_nat (last - first + 1))
    by (f_equal; lia).
  destruct (first - 1 <? 0)%Z eqn:A, (1 <=? first)%Z eqn:A'; try lia;
    cbn [orb andb]; [ reflexivity | ].
  destruct (Z.of_nat (List.length allMilestones) <=? last - 1)%Z eqn:B,
           (last <=? Z.of_nat (List.length allMilestones))%Z eqn:B'; try lia;
    destruct (last - 1 <? first - 1)%Z eqn:D, (first <=? last)%Z eqn:D'; try lia;
    reflexivity.
Qed.

End MilestoneNavigation.

(** ** The variables on the sample document *)

Section VariableDisplays.
Local Open Scope string_scope.

Lemma lowerAscii_is_no_capital (c : ascii) :
  isCapital (IsoHost.lowerAscii c) = false.
Proof.
  destruct c as [ [ | ] [ | ] [ | ] [ | ] [ | ] [ | ] [ | ] [ | ] ];
    vm_compute; reflexivity.
Qed.

Lemma sample_host_lowers_capitals : lowersCapitals.
Proof.
  intros s. cbn [toLowerCase IsoHost.host].
  induction s as [ | c rest IH ]; cbn [IsoHost.toLowerCase noCapitals];
    [ reflexivity | ].
  rewrite lowerAscii_is_no_capital, IH. reflexivity.
Qed.

Lemma zero_padding_sample :
  lowersCapitals
  /\ getGoalData (Some VariableSamples.document) = Some VariableSamples.document
  /\ In "Time" ["Time"; "zeroHours"] /\ toLowerCase "Time" = "time"
  /\ In "zeroHours" ["Time"; "zeroHours"]
  /\ ~ In (toLowerCase "zeroHours")
          [""; "time"; "months"; "days"; "hours"; "minutes"; "seconds"]
  /\ goalInfo (Some VariableSamples.document) VariableSamples.settings
       ["Time"; "zeroHours"] 1793631600000
     = Text "Time display can only be combined with unit conversion or zero-padding options".
Proof.
  assert (Other : ~ In (toLowerCase "zeroHours")
                       [""; "time"; "months"; "days"; "hours"; "minutes"; "seconds"]).
  { vm_compute. intuition discriminate. }
  split; [ exact sample_host_lowers_capitals | ].
  split; [ reflexivity | ].
  split; [ left; reflexivity | ]. split; [ reflexivity | ].
  split; [ right; left; reflexivity | ]. split; [ exact Other | ].
  exact (zero_padding_flags_are_rejected (Some VariableSamples.document)
           VariableSamples.document VariableSamples.settings ["Time"; "zeroHours"] 1793631600000
           "Time" "zeroHours" sample_host_lowers_capitals eq_refl
           (or_introl eq_refl) eq_refl (or_intror (or_introl eq_refl)) Other).
Defined.

Lemma unknown_options_sample :
  lowersCapitals
  /\ getGoalData (Some VariableSamples.document) = Some VariableSamples.document
  /\ (forall p, In p ["timeCode"] ->
                ~ In (toLowerCase p) ["time"; "amount"; "goal"; "percent"])
  /\ In "timeCode" ["timeCode"] /\ toLowerCase "timeCode" <> ""
  /\ goalInfo (Some VariableSamples.document) VariableSamples.settings
       ["timeCode"] 1793631600000
     = Text "".
Proof.
  assert (Unknown : forall p, In p ["timeCode"] ->
                              ~ In (toLowerCase p) ["time"; "amount"; "goal"; "percent"]).
  { intros p [ <- | [] ]. vm_compute. intuition discriminate. }
  assert (Given : toLowerCase "timeCode" <> "").
  { vm_compute. discriminate. }
  split; [ exact sample_host_lowers_capitals | ].
  split; [ reflexivity | ]. split; [ exact Unknown | ].
  split; [ left; reflexivity | ]. split; [ exact Given | ].
  exact (unknown_options_show_nothing (Some VariableSamples.document)
           VariableSamples.document
           {| donationGoal := Q2Qc 100;
              config_streamElements := ExactSessionSamples.config;
              config_participantId := "" |}
           VariableSamples.settings ["timeCode"] 1793631600000 "timeCode"
           sample_host_lowers_capitals eq_refl eq_refl Unknown
           (or_introl eq_refl) Given).
Defined.

Lemma beyond_the_last_sample :
  exists allMilestones,
    milestones VariableSamples.settings = Some allMilestones
    /\ readParameters ["previous"] = (["previous"], None)
    /\ has "all" ["previous"] = false
    /\ (forall m, In m allMilestones ->
                  num_le (currentAmountOf (Some VariableSamples.document)
                                          VariableSamples.settings)
                         (milestone_amount m) = false)
    /\ goalMilestones (Some VariableSamples.document) VariableSamples.settings
         ["previous"]
       = "No previous milestones".
Proof.
  eexists. split; [ reflexivity | ].
  assert (Passed : forall m,
             In m [{| title := "Warm-up"; milestone_amount := Exact.cents 500 |};
                   {| title := "Halfway"; milestone_amount := Exact.cents 1000 |};
                   {| title := "Finale"; milestone_amount := Exact.cents 1200 |}] ->
             num_le (currentAmountOf (Some VariableSamples.document)
                                     VariableSamples.settings)
                    (milestone_amount m) = false).
  { intros m [ <- | [ <- | [ <- | [] ] ] ]; vm_compute; reflexivity. }
  split; [ reflexivity | ]. split; [ reflexivity | ]. split; [ exact Passed | ].
  exact (beyond_the_last_milestone (Some VariableSamples.document)
           VariableSamples.document
           {| donationGoal := Q2Qc 100;
              config_streamElements := ExactSessionSamples.config;
              config_participantId := "" |}
           VariableSamples.settings _ ["previous"] ["previous"]
           eq_refl eq_refl eq_refl eq_refl eq_refl Passed).
Defined.

Lemma written_range_sample :
  (0 <= 1)%Z /\ (0 <= 2)%Z
  /\ snd (readParameters ["name"; "all"]) = None
  /\ goalMilestones (Some VariableSamples.document) VariableSamples.settings
       ["1-2"; "name"; "all"]
     = "Warm-up | Halfway".
Proof.
  assert (First : (0 <= 1)%Z) by lia.
  assert (Last : (0 <= 2)%Z) by lia.
  split; [ exact First | ]. split; [ exact Last | ]. split; [ reflexivity | ].
  exact (written_range_lists_the_milestones (Some VariableSamples.document)
           VariableSamples.document
           {| donationGoal := Q2Qc 100;
              config_streamElements := ExactSessionSamples.config;
              config_participantId := "" |}
           VariableSamples.settings _ 1 2 ["name"; "all"]
           eq_refl eq_refl eq_refl First Last eq_refl).
Defined.

End VariableDisplays.

